(** * Referendum pipeline of [pandas_questions.py]

    A shallow embedding of the four pipeline stages
    ([merge_regions_and_departments], [merge_referendum_and_areas],
    [compute_referendum_result_by_regions], [plot_referendum_map]) over a
    small model of the pandas objects they manipulate.

    - A [Series] is a typed column, as pandas stores it: [int64],
      [float64] or [object].  A [str] is held as its UTF-8 encoding.
    - A [DataFrame] is an index plus an ordered list of named columns.
    - DataFrames are mutable Python objects: they live in a [store] and the
      stages receive and return references.  An exception leaves the store
      as it was when it was raised.
    - Library behaviour follows pandas 1.5 (the release line this code was
      written against: [on_bad_lines] needs 1.3 or later, and
      [aggregate(np.sum)] silently drops non-numeric columns) under
      Python 3.11 (Unicode 14.0; [int()] refuses more than 4300 digits).
    - Reading files ([load_data], [gpd.read_file]), printing and drawing are
      outside the model: the stages start from the tables that were read. *)

From Stdlib Require Import ZArith NArith String Ascii SpecFloat.
From Stdlib Require Import Decimal DecimalString DecimalZ DecimalFacts.
From stdpp Require Import base option list strings sorting.

Open Scope string_scope.
Open Scope Z_scope.

(** ** Python scalars *)

Module Py.

(** [int64] arithmetic wraps around. *)
Definition int64_min : Z := - 2 ^ 63.
Definition int64_max : Z := 2 ^ 63 - 1.
Definition in_int64 (z : Z) : bool := (int64_min <=? z) && (z <=? int64_max).
Definition wrap64 (z : Z) : Z := (z - int64_min) mod 2 ^ 64 + int64_min.

(** [float64] is IEEE 754 binary64, round to nearest even. *)
Definition float64 : Type := spec_float.
Definition prec : Z := 53.
Definition emax : Z := 1024.
Definition nan : float64 := S754_nan.
Definition float_of_int (z : Z) : float64 := binary_normalize prec emax z 0 false.
Definition fadd (x y : float64) : float64 := SFadd prec emax x y.
Definition fsub (x y : float64) : float64 := SFsub prec emax x y.
Definition fdiv (x y : float64) : float64 := SFdiv prec emax x y.
Definition is_nan (f : float64) : bool :=
  match f with S754_nan => true | _ => false end.

(** The exceptions the pipeline can raise. *)
Inductive exn : Type :=
| ValueError | KeyError | AttributeError | TypeError | OverflowError
| ZeroDivisionError.

Inductive result (A : Type) : Type :=
| Ok (a : A)
| Raise (e : exn).
Arguments Ok {A} a.
Arguments Raise {A} e.

#[export] Instance result_ret : MRet result := @Ok.
#[export] Instance result_bind : MBind result := fun A B f r =>
  match r with Ok a => f a | Raise e => Raise e end.
#[export] Instance result_fmap : FMap result := fun A B f r =>
  match r with Ok a => Ok (f a) | Raise e => Raise e end.

(** [mapM] for [result]: the first exception wins. *)
Fixpoint traverse {A B : Type} (f : A -> result B) (l : list A) : result (list B) :=
  match l with
  | [] => Ok []
  | x :: l' =>
      match f x with
      | Ok y => match traverse f l' with
                | Ok ys => Ok (y :: ys)
                | Raise e => Raise e
                end
      | Raise e => Raise e
      end
  end.

(** An element of an [object] column: [NaN] (the float that pandas puts
    where a value is missing), a [str], a boxed number, or [None]. *)
Inductive object : Type :=
| NaN
| Str (s : string)
| Int (z : Z)
| Float (f : float64)
| PyNone.

(** *** Text *)

(** The code points of a string: [utf8 pending acc lo s] reads [s] with
    [pending] continuation bytes still to come for the character whose
    leading bits are [acc] and which must not be below [lo].  The result
    is [None] when the bytes are no UTF-8 (then they are no [str]). *)
Fixpoint utf8 (pending : nat) (acc lo : N) (s : string) : option (list N) :=
  match s with
  | EmptyString => match pending with O => Some [] | S _ => None end
  | String b r =>
      let n := N_of_ascii b in
      match pending with
      | O =>
          if (n <? 128)%N then cons n <$> utf8 0 0 0 r
          else if (n <? 194)%N then None
          else if (n <? 224)%N then utf8 1 (n - 192) 128 r
          else if (n <? 240)%N then utf8 2 (n - 224) 2048 r
          else if (n <? 245)%N then utf8 3 (n - 240) 65536 r
          else None
      | S p =>
          if (128 <=? n)%N && (n <? 192)%N then
            let acc' := (acc * 64 + (n - 128))%N in
            match p with
            | O =>
                if (lo <=? acc')%N && (acc' <? 1114112)%N
                   && negb ((55296 <=? acc')%N && (acc' <? 57344)%N)
                then cons acc' <$> utf8 0 0 0 r
                else None
            | S _ => utf8 p acc' lo r
            end
          else None
      end
  end.

Definition code_points (s : string) : option (list N) := utf8 0 0 0 s.

Definition in_ranges (c : N) (rs : list (N * N)) : bool :=
  existsb (fun r : N * N => (r.1 <=? c)%N && (c <=? r.2)%N) rs.

(** The characters that have a numeric value (Unicode [Numeric_Type]
    Decimal, Digit or Numeric), as ranges of code points. *)
Definition numeric_ranges : list (N * N) :=
  [
   (48, 57); (178, 179); (185, 185); (188, 190); (1632, 1641); (1776, 1785);
   (1984, 1993); (2406, 2415); (2534, 2543); (2548, 2553); (2662, 2671);
   (2790, 2799); (2918, 2927); (2930, 2935); (3046, 3058); (3174, 3183);
   (3192, 3198); (3302, 3311); (3416, 3422); (3430, 3448); (3558, 3567);
   (3664, 3673); (3792, 3801); (3872, 3891); (4160, 4169); (4240, 4249);
   (4969, 4988); (5870, 5872); (6112, 6121); (6128, 6137); (6160, 6169);
   (6470, 6479); (6608, 6618); (6784, 6793); (6800, 6809); (6992, 7001);
   (7088, 7097); (7232, 7241); (7248, 7257); (8304, 8304); (8308, 8313);
   (8320, 8329); (8528, 8578); (8581, 8585); (9312, 9371); (9450, 9471);
   (10102, 10131); (11517, 11517); (12295, 12295); (12321, 12329);
   (12344, 12346); (12690, 12693); (12832, 12841); (12872, 12879);
   (12881, 12895); (12928, 12937); (12977, 12991); (13317, 13317);
   (13443, 13443); (14378, 14378); (15181, 15181); (19968, 19968);
   (19971, 19971); (19975, 19975); (19977, 19977); (20061, 20061);
   (20108, 20108); (20116, 20116); (20118, 20118); (20159, 20160);
   (20191, 20191); (20200, 20200); (20237, 20237); (20336, 20336);
   (20740, 20740); (20806, 20806); (20841, 20841); (20843, 20843);
   (20845, 20845); (21313, 21313); (21315, 21317); (21324, 21324);
   (21441, 21444); (22235, 22235); (22769, 22769); (22777, 22777);
   (24186, 24186); (24318, 24319); (24332, 24334); (24336, 24336);
   (25342, 25342); (25420, 25420); (26578, 26578); (28422, 28422);
   (29590, 29590); (30334, 30334); (32902, 32902); (33836, 33836);
   (36014, 36014); (36019, 36019); (36144, 36144); (38433, 38433);
   (38470, 38470); (38476, 38476); (38520, 38520); (38646, 38646);
   (42528, 42537); (42726, 42735); (43056, 43061); (43216, 43225);
   (43264, 43273); (43472, 43481); (43504, 43513); (43600, 43609);
   (44016, 44025); (63851, 63851); (63859, 63859); (63864, 63864);
   (63922, 63922); (63953, 63953); (63955, 63955); (63997, 63997);
   (65296, 65305); (65799, 65843); (65856, 65912); (65930, 65931);
   (66273, 66299); (66336, 66339); (66369, 66369); (66378, 66378);
   (66513, 66517); (66720, 66729); (67672, 67679); (67705, 67711);
   (67751, 67759); (67835, 67839); (67862, 67867); (68028, 68029);
   (68032, 68047); (68050, 68095); (68160, 68168); (68221, 68222);
   (68253, 68255); (68331, 68335); (68440, 68447); (68472, 68479);
   (68521, 68527); (68858, 68863); (68912, 68921); (69216, 69246);
   (69405, 69414); (69457, 69460); (69573, 69579); (69714, 69743);
   (69872, 69881); (69942, 69951); (70096, 70105); (70113, 70132);
   (70384, 70393); (70736, 70745); (70864, 70873); (71248, 71257);
   (71360, 71369); (71472, 71483); (71904, 71922); (72016, 72025);
   (72784, 72812); (73040, 73049); (73120, 73129); (73664, 73684);
   (74752, 74862); (92768, 92777); (92864, 92873); (93008, 93017);
   (93019, 93025); (93824, 93846); (119520, 119539); (119648, 119672);
   (120782, 120831); (123200, 123209); (123632, 123641); (125127, 125135);
   (125264, 125273); (126065, 126123); (126125, 126127); (126129, 126132);
   (126209, 126253); (126255, 126269); (127232, 127244); (130032, 130041);
   (131073, 131073); (131172, 131172); (131298, 131298); (131361, 131361);
   (133418, 133418); (133507, 133507); (133516, 133516); (133532, 133532);
   (133866, 133866); (133885, 133885); (133913, 133913); (140176, 140176);
   (141720, 141720); (146203, 146203); (156269, 156269); (194704, 194704)]%N.

(** The digit zero of every run of ten decimal digits (category [Nd]). *)
Definition decimal_zeros : list N :=
  [
   48; 1632; 1776; 1984; 2406; 2534; 2662; 2790; 2918; 3046; 3174; 3302; 3430;
   3558; 3664; 3792; 3872; 4160; 4240; 6112; 6160; 6470; 6608; 6784; 6800;
   6992; 7088; 7232; 7248; 42528; 43216; 43264; 43472; 43504; 43600; 44016;
   65296; 66720; 68912; 69734; 69872; 69942; 70096; 70384; 70736; 70864;
   71248; 71360; 71472; 71904; 72016; 72784; 73040; 73120; 92768; 92864;
   93008; 120782; 120792; 120802; 120812; 120822; 123200; 123632; 125264;
   130032]%N.

(** White space ([str.isspace]). *)
Definition space_ranges : list (N * N) :=
  [
   (9, 13); (28, 32); (133, 133); (160, 160); (5760, 5760); (8192, 8202);
   (8232, 8233); (8239, 8239); (8287, 8287); (12288, 12288)]%N.

Definition unicode_isnumeric (c : N) : bool := in_ranges c numeric_ranges.
Definition unicode_isspace (c : N) : bool := in_ranges c space_ranges.

Fixpoint decimal_in (c : N) (zeros : list N) : option N :=
  match zeros with
  | [] => None
  | z :: zeros' =>
      if (z <=? c)%N && (c <? z + 10)%N then Some (c - z)%N else decimal_in c zeros'
  end.

(** The value of a decimal digit. *)
Definition unicode_decimal (c : N) : option N := decimal_in c decimal_zeros.

(** [str.isnumeric()]: non-empty and every character numeric. *)
Definition isnumeric (s : string) : bool :=
  match code_points s with
  | Some (c :: cs) => forallb unicode_isnumeric (c :: cs)
  | _ => false
  end.

(** What [int()] parses is ASCII: a character below 127 stands for itself,
    any other white space for a space and any other decimal digit for its
    ASCII digit; at a character that is none of these the text is cut off
    after a "?" (which no literal holds). *)
Fixpoint to_ascii (cs : list N) : string :=
  match cs with
  | [] => EmptyString
  | c :: r =>
      if (c <? 127)%N then String (ascii_of_N c) (to_ascii r)
      else if unicode_isspace c then String " " (to_ascii r)
      else match unicode_decimal c with
           | Some d => String (ascii_of_N (48 + d)) (to_ascii r)
           | None => "?"
           end
  end.

Definition is_digit (c : ascii) : bool :=
  let n := nat_of_ascii c in (48 <=? n)%nat && (n <=? 57)%nat.

(** White space that the parser of [int()] skips at both ends: TAB, LF, VT,
    FF, CR and SPACE. *)
Definition is_space (c : ascii) : bool :=
  let n := nat_of_ascii c in
  ((9 <=? n)%nat && (n <=? 13)%nat) || (n =? 32)%nat.

Fixpoint lstrip (s : string) : string :=
  match s with
  | String c r => if is_space c then lstrip r else s
  | EmptyString => EmptyString
  end.
(** [rstrip s] drops trailing white space. *)
Fixpoint rstrip (s : string) : string :=
  match s with
  | EmptyString => EmptyString
  | String c r =>
      match rstrip r with
      | EmptyString => if is_space c then EmptyString else String c EmptyString
      | r' => String c r'
      end
  end.
Definition strip (s : string) : string := rstrip (lstrip s).

(** The digit part of an integer literal, [digit (["_"] digit)*], with
    its underscores removed. *)
Fixpoint digitpart (after_digit : bool) (s : string) : option string :=
  match s with
  | EmptyString => if after_digit then Some EmptyString else None
  | String c r =>
      if is_digit c then String c <$> digitpart true r
      else if Ascii.eqb c "_" && after_digit then
             match r with
             | EmptyString => None
             | _ => digitpart false r
             end
      else None
  end.

(** A literal of more than 4300 digits is refused. *)
Definition max_str_digits : Z := 4300.

Definition value_of_digits (s : string) : option Z :=
  if max_str_digits <? Z.of_nat (String.length s) then None
  else Z.of_uint <$> NilEmpty.uint_of_string s.

Definition parse_int (a : string) : option Z :=
  match strip a with
  | String "-" r => Z.opp <$> (digitpart false r ≫= value_of_digits)
  | String "+" r => digitpart false r ≫= value_of_digits
  | r => digitpart false r ≫= value_of_digits
  end.

(** [int(s)] in base 10: [None] stands for [ValueError]. *)
Definition int_of_str (s : string) : option Z :=
  code_points s ≫= fun cs => parse_int (to_ascii cs).

(** [str(n)] for an integer. *)
Definition str_of_int (z : Z) : string := NilZero.string_of_int (Z.to_int z).

(** *** Numbers *)

(** [int(f)]: truncation toward zero. *)
Definition trunc_float (f : float64) : result Z :=
  match f with
  | S754_zero _ => Ok 0
  | S754_finite s m e =>
      let a := if (0 <=? e) then Z.pos m * 2 ^ e else Z.pos m / 2 ^ (- e) in
      Ok (if s then - a else a)
  | S754_infinity _ => Raise OverflowError
  | S754_nan => Raise ValueError
  end.

(** [int(x)] for an element of an object column. *)
Definition int_of_object (o : object) : result Z :=
  match o with
  | NaN => Raise ValueError
  | Str s => match int_of_str s with Some z => Ok z | None => Raise ValueError end
  | Int z => Ok z
  | Float f => trunc_float f
  | PyNone => Raise TypeError
  end.

End Py.
Export Py.

(** ** Series: typed columns *)

Inductive Series : Type :=
| SInt64 (xs : list Z)
| SFloat64 (xs : list float64)
| SObject (xs : list object).

Definition series_len (s : Series) : nat :=
  match s with
  | SInt64 xs => length xs
  | SFloat64 xs => length xs
  | SObject xs => length xs
  end.

(** The element at position [i], boxed. *)
Definition iloc (s : Series) (i : nat) : option object :=
  match s with
  | SInt64 xs => Int <$> xs !! i
  | SFloat64 xs => Float <$> xs !! i
  | SObject xs => xs !! i
  end.

(** [isna] of one element. *)
Definition is_null (o : object) : bool :=
  match o with
  | NaN | PyNone => true
  | Float f => is_nan f
  | _ => false
  end.

(** Gather by position.  A [None] position (an unmatched row of a join) is
    filled with a missing value; an [int64] column that receives one is
    upcast to [float64]. *)
Definition take_fill (ix : list (option nat)) (s : Series) : Series :=
  match s with
  | SInt64 xs =>
      match mapM (fun i : option nat => i ≫= (xs !!.)) ix with
      | Some ys => SInt64 ys
      | None => SFloat64 ((fun i : option nat =>
                             from_option float_of_int nan (i ≫= (xs !!.))) <$> ix)
      end
  | SFloat64 xs => SFloat64 ((fun i : option nat => default nan (i ≫= (xs !!.))) <$> ix)
  | SObject xs => SObject ((fun i : option nat => default NaN (i ≫= (xs !!.))) <$> ix)
  end.

Definition take (ix : list nat) (s : Series) : Series := take_fill (Some <$> ix) s.

(** Positions selected by a boolean mask, in order. *)
Fixpoint mask_positions (from : nat) (mask : list bool) : list nat :=
  match mask with
  | [] => []
  | b :: m => if b then from :: mask_positions (S from) m else mask_positions (S from) m
  end.

(** [Series.isin(values)] for a list of strings. *)
Definition isin (s : Series) (values : list string) : list bool :=
  match s with
  | SInt64 xs => (fun _ => false) <$> xs
  | SFloat64 xs => (fun _ => false) <$> xs
  | SObject xs =>
      (fun o => match o with Str t => bool_decide (t ∈ values) | _ => false end) <$> xs
  end.

(** [Series.str.isnumeric()].  The [.str] accessor is refused unless the
    column is an object column that holds a string or nothing but missing
    values; elements that are not strings give a missing value. *)
Definition has_str (xs : list object) : bool :=
  existsb (fun o => match o with Str _ => true | _ => false end) xs.

Definition str_isnumeric (s : Series) : result (list (option bool)) :=
  match s with
  | SObject xs =>
      if has_str xs || forallb is_null xs
      then Ok ((fun o => match o with Str t => Some (isnumeric t) | _ => None end) <$> xs)
      else Raise AttributeError
  | _ => Raise AttributeError
  end.

(** [a | b] where [a] may hold missing values: they count as [False]. *)
Definition mask_or (a : list (option bool)) (b : list bool) : list bool :=
  zip_with (fun x y => match x with Some true => true | Some false => y | None => false end) a b.

Definition mask_not (a : list bool) : list bool := negb <$> a.

(** [Series.astype('int')]: the [int64] values, or the exception raised by
    the first element that cannot be converted. *)
Definition float_to_int64 (f : float64) : result Z :=
  match f with
  | S754_nan | S754_infinity _ => Raise ValueError
  | _ => (fun z => if in_int64 z then z else int64_min) <$> trunc_float f
  end.

Definition object_to_int64 (o : object) : result Z :=
  z ← int_of_object o;
  if in_int64 z then Ok z else Raise OverflowError.

Definition astype_int (s : Series) : result (list Z) :=
  match s with
  | SInt64 xs => Ok xs
  | SFloat64 xs => traverse float_to_int64 xs
  | SObject xs => traverse object_to_int64 xs
  end.

(** [Series < n] on an [int64] column. *)
Definition lt_const (xs : list Z) (n : Z) : list bool := (fun z => z <? n) <$> xs.

(** [Series.astype('str')] on an [int64] column. *)
Definition astype_str (xs : list Z) : Series :=
  SObject ((fun z => Str (str_of_int z)) <$> xs).

(** [Series.astype('float')] on an [int64] column. *)
Definition astype_float (xs : list Z) : list float64 := float_of_int <$> xs.

(** What [pd.concat] does to one column (pandas 1.5: a part without rows
    does not take part in the choice of the result dtype). *)
Definition box (s : Series) : list object :=
  match s with
  | SInt64 xs => Int <$> xs
  | SFloat64 xs => Float <$> xs
  | SObject xs => xs
  end.

Definition concat_series (a b : Series) : Series :=
  match a, b with
  | SInt64 xs, SInt64 ys => SInt64 (xs ++ ys)
  | SFloat64 xs, SFloat64 ys => SFloat64 (xs ++ ys)
  | SObject xs, SObject ys => SObject (xs ++ ys)
  | _, _ =>
      if bool_decide (series_len a = 0%nat) && negb (bool_decide (series_len b = 0%nat)) then b
      else if bool_decide (series_len b = 0%nat) && negb (bool_decide (series_len a = 0%nat)) then a
      else match a, b with
           | SInt64 xs, SFloat64 ys => SFloat64 (astype_float xs ++ ys)
           | SFloat64 xs, SInt64 ys => SFloat64 (xs ++ astype_float ys)
           | _, _ => SObject (box a ++ box b)
           end
  end.

(** ** Join and group keys *)

(** Keys are compared as Python compares them: text by content, numbers by
    value whatever their type, missing values equal to each other.  A
    finite number is kept as [m * 2 ^ e] with [m] odd (or [0 * 2 ^ 0]), so
    that equal numbers are equal keys. *)
Inductive key : Type :=
| KNull
| KNum (m e : Z)
| KInf (negative : bool)
| KStr (s : string).

#[export] Instance key_eq_dec : EqDecision key.
Proof. solve_decision. Defined.

Fixpoint odd_part (p : positive) : positive * Z :=
  match p with
  | xO q => let '(m, e) := odd_part q in (m, e + 1)
  | _ => (p, 0)
  end.

Definition key_of_int (z : Z) : key :=
  match z with
  | Z0 => KNum 0 0
  | Zpos p => let '(m, e) := odd_part p in KNum (Zpos m) e
  | Zneg p => let '(m, e) := odd_part p in KNum (Zneg m) e
  end.

Definition key_of_float (f : float64) : key :=
  match f with
  | S754_zero _ => KNum 0 0
  | S754_infinity s => KInf s
  | S754_nan => KNull
  | S754_finite s m e =>
      let '(m', e') := odd_part m in KNum (if s then Zneg m' else Zpos m') (e + e')
  end.

Definition key_of_object (o : object) : key :=
  match o with
  | NaN | PyNone => KNull
  | Str s => KStr s
  | Int z => key_of_int z
  | Float f => key_of_float f
  end.

Definition keys (s : Series) : list key :=
  match s with
  | SInt64 xs => key_of_int <$> xs
  | SFloat64 xs => key_of_float <$> xs
  | SObject xs => key_of_object <$> xs
  end.

(** The order in which sorted group labels come out: numbers by value, then
    text by code point. *)
Definition num_leb (m1 e1 m2 e2 : Z) : bool :=
  let e := Z.min e1 e2 in m1 * 2 ^ (e1 - e) <=? m2 * 2 ^ (e2 - e).

Definition key_leb (a b : key) : bool :=
  match a, b with
  | KNull, _ => true
  | _, KNull => false
  | KStr s, KStr t => String.leb s t
  | KStr _, _ => false
  | _, KStr _ => true
  | KInf true, _ => true
  | _, KInf true => false
  | _, KInf false => true
  | KInf false, _ => false
  | KNum m1 e1, KNum m2 e2 => num_leb m1 e1 m2 e2
  end.

(** ** DataFrames *)

(** The row labels: one named level per entry (a plain index has one). *)
Definition Index : Type := list (option string * Series).

Record DataFrame : Type := mkDataFrame {
  index : Index;
  cols : list (string * Series)
}.

Definition columns (df : DataFrame) : list string := (cols df).*1.

Definition RangeIndex (n : nat) : Index := [(None, SInt64 (Z.of_nat <$> seq 0 n))].

Definition index_len (ix : Index) : nat :=
  match ix with
  | (_, s) :: _ => series_len s
  | [] => 0%nat
  end.

Definition nrows (df : DataFrame) : nat := index_len (index df).

Fixpoint lookup_col (name : string) (cs : list (string * Series)) : option Series :=
  match cs with
  | [] => None
  | (n, s) :: cs' => if String.eqb n name then Some s else lookup_col name cs'
  end.

(** [df[name]] *)
Definition getitem (df : DataFrame) (name : string) : result Series :=
  match lookup_col name (cols df) with
  | Some s => Ok s
  | None => Raise KeyError
  end.

(** [df[[n1, n2, ...]]]: a new frame with the listed columns. *)
Definition getitem_list (df : DataFrame) (names : list string) : result DataFrame :=
  cs ← traverse (fun n => pair n <$> getitem df n) names;
  Ok (mkDataFrame (index df) cs).

(** The rows of [df] at the positions [ix], with their labels. *)
Definition select_rows (df : DataFrame) (ix : list nat) : DataFrame :=
  mkDataFrame (prod_map id (take ix) <$> index df) (prod_map id (take ix) <$> cols df).

(** [df[mask]]: a new frame with the rows where the mask holds. *)
Definition getitem_mask (df : DataFrame) (mask : list bool) : result DataFrame :=
  if bool_decide (length mask = nrows df) then Ok (select_rows df (mask_positions 0 mask))
  else Raise ValueError.

(** What [df[name] = values] makes of [df]: the column is replaced where it
    stands, or added last. *)
Fixpoint replace_col (name : string) (s : Series) (cs : list (string * Series))
  : list (string * Series) :=
  match cs with
  | [] => []
  | (n, t) :: cs' =>
      if String.eqb n name then (n, s) :: cs' else (n, t) :: replace_col name s cs'
  end.

Definition with_column (df : DataFrame) (name : string) (s : Series) : result DataFrame :=
  if bool_decide (series_len s = nrows df) then
    Ok (mkDataFrame (index df)
          (if bool_decide (name ∈ columns df) then replace_col name s (cols df)
           else cols df ++ [(name, s)]))
  else Raise ValueError.

(** What [df.columns = names] makes of [df]. *)
Definition with_columns (df : DataFrame) (names : list string) : result DataFrame :=
  if bool_decide (length names = length (cols df)) then
    Ok (mkDataFrame (index df) (zip names (cols df).*2))
  else Raise ValueError.

(** [pd.concat([a, b], axis=0)]: the rows of [a], then those of [b]; a
    column that one frame lacks is missing there. *)
Definition missing_like (s : Series) (n : nat) : Series :=
  match s with
  | SObject _ => SObject (replicate n NaN)
  | _ => SFloat64 (replicate n nan)
  end.

Definition pd_concat (a b : DataFrame) : DataFrame :=
  mkDataFrame
    (zip_with (fun la lb => (la.1, concat_series la.2 lb.2)) (index a) (index b))
    (((fun '(n, s) =>
         (n, concat_series s (default (missing_like s (nrows b)) (lookup_col n (cols b)))))
        <$> cols a)
     ++ ((fun '(n, s) => (n, concat_series (missing_like s (nrows a)) s))
           <$> filter (fun c => c.1 ∉ columns a) (cols b))).

(** *** [pd.merge(left, right, on=key, how=...)] *)

Inductive how : Type := Left | Inner.

Fixpoint positions_of (k : key) (from : nat) (ks : list key) : list nat :=
  match ks with
  | [] => []
  | k' :: ks' =>
      if decide (k' = k) then from :: positions_of k (S from) ks'
      else positions_of k (S from) ks'
  end.

(** The pairs (left position, right position) of rows with one key: the
    left rows in order, each with its matching right rows in order.  A
    left join keeps a left row without a match, with nothing on its right. *)
Fixpoint join_rows (h : how) (from : nat) (lk rk : list key) : list (nat * option nat) :=
  match lk with
  | [] => []
  | k :: lk' =>
      match positions_of k 0 rk, h with
      | [], Left => [(from, None)]
      | js, _ => (fun j => (from, Some j)) <$> js
      end ++ join_rows h (S from) lk' rk
  end.

(** The keys in the order in which they are first met; the missing key is
    one of them. *)
Fixpoint uniques (seen : list key) (ks : list key) : list key :=
  match ks with
  | [] => []
  | k :: ks' =>
      if decide (k ∈ seen) then uniques seen ks'
      else k :: uniques (k :: seen) ks'
  end.

(** The rows of the result.  A left join has them in the order of the left
    table.  An inner join (pandas 1.5) has them key by key: the keys in the
    order in which the left table first has them, the missing key being one
    key among the others (the labels of the keys are factorized a second
    time, by first appearance). *)
Definition merge_rows (h : how) (lk rk : list key) : list (nat * option nat) :=
  match h with
  | Left => join_rows Left 0 lk rk
  | Inner =>
      k ← uniques [] lk;
      filter (fun p : nat * option nat => lk !! p.1 = Some k) (join_rows Inner 0 lk rk)
  end.

(** Key columns of differing dtypes: a column of text cannot be joined with
    a column of numbers ([ValueError]), unless one of the two tables has no
    row. *)
Definition has_int (xs : list object) : bool :=
  existsb (fun o => match o with Int _ => true | _ => false end) xs.

Definition has_none (xs : list object) : bool :=
  existsb (fun o => match o with PyNone => true | _ => false end) xs.

(** An object column that pandas infers to be "string" or "mixed". *)
Definition string_like (xs : list object) : bool :=
  negb (has_int xs) && (has_str xs || has_none xs).

Definition keys_compatible (l r : Series) : bool :=
  if bool_decide (series_len l = 0%nat) && negb (bool_decide (series_len r = 0%nat)) then true
  else if bool_decide (series_len r = 0%nat) && negb (bool_decide (series_len l = 0%nat)) then true
  else match l, r with
       | SObject xs, SInt64 _ | SInt64 _, SObject xs => negb (string_like xs)
       | SObject xs, SFloat64 _ | SFloat64 _, SObject xs =>
           negb (string_like xs || bool_decide (xs = []))
       | _, _ => true
       end.

(** The keys are compared by value, exactly, whatever the two dtypes. *)
Definition merge_keys (l r : Series) : list key * list key := (keys l, keys r).

(** A numeric key column that is joined with an object column is cast to
    object, unless exactly one of the two has no row. *)
Definition is_object (s : Series) : bool :=
  match s with SObject _ => true | _ => false end.

Definition one_empty (l r : Series) : bool :=
  negb (bool_decide (series_len l = 0%nat) && bool_decide (series_len r = 0%nat))
  && (bool_decide (series_len l = 0%nat) || bool_decide (series_len r = 0%nat)).

Definition coerce_key (k other : Series) : Series :=
  if negb (is_object k) && is_object other && negb (one_empty k other)
  then SObject (box k) else k.

(** The row labels of a merge: the rows are numbered from 0; a result
    without rows has an empty object index. *)
Definition join_index (n : nat) : Index :=
  if bool_decide (n = 0%nat) then [(None, SObject [])] else RangeIndex n.

Definition suffixed (overlap : list string) (suffix : string) (c : string * Series)
  : string * Series :=
  (if bool_decide (c.1 ∈ overlap) then c.1 ++ suffix else c.1, c.2).

(** The key column stands once in the result: where the left table has
    it, with the left table's values; but when the left table has no row,
    where the right table has it.  The other columns of the left table
    come first, then those of the right table; a label that both tables
    have gets the suffixes [_x] and [_y]. *)
Definition pd_merge (left right : DataFrame) (on : string) (h : how) : result DataFrame :=
  lkey ← getitem left on;
  rkey ← getitem right on;
  if keys_compatible lkey rkey then
    let '(lk, rk) := merge_keys lkey rkey in
    let rows := merge_rows h lk rk in
    let overlap := filter (fun n => n ∈ columns right ∧ n ≠ on) (columns left) in
    let lcols :=
      if bool_decide (nrows left = 0%nat) then filter (fun c => c.1 ≠ on) (cols left)
      else replace_col on (coerce_key lkey rkey) (cols left) in
    let rcols :=
      if bool_decide (nrows left = 0%nat) then replace_col on (coerce_key rkey lkey) (cols right)
      else filter (fun c => c.1 ≠ on) (cols right) in
    Ok (mkDataFrame (join_index (length rows))
          ((suffixed overlap "_x" <$> (prod_map id (take rows.*1) <$> lcols))
           ++ (suffixed overlap "_y" <$> (prod_map id (take_fill rows.*2) <$> rcols))))
  else Raise ValueError.

(** The warnings of a merge that returns: a [UserWarning] when [int64]
    keys are joined with [float64] keys that are not all whole numbers of
    that range, a [FutureWarning] when a suffix makes a label that the
    table already has.  Rows without a match give no warning. *)
Inductive warning : Type := UserWarning | FutureWarning.

(** [float64] to [int64] as numpy casts it, and back. *)
Definition float_is_int64 (f : float64) : bool :=
  match float_to_int64 f with
  | Ok z => match SFcompare f (float_of_int z) with Some Eq => true | _ => false end
  | Raise _ => is_nan f
  end.

Definition int_float_warning (l r : Series) : list warning :=
  match l, r with
  | SInt64 _, SFloat64 fs | SFloat64 fs, SInt64 _ =>
      if one_empty l r || forallb float_is_int64 fs then [] else [UserWarning]
  | _, _ => []
  end.

(** The positions at which a relabelling repeats a label where the
    original labels did not. *)
Fixpoint new_duplicates (seen seen' : list string) (ls ls' : list string) : bool :=
  match ls, ls' with
  | l :: r, l' :: r' =>
      (bool_decide (l' ∈ seen') && negb (bool_decide (l ∈ seen)))
      || new_duplicates (l :: seen) (l' :: seen') r r'
  | _, _ => false
  end.

Definition merge_warnings (left right : DataFrame) (on : string) : list warning :=
  match getitem left on, getitem right on with
  | Ok lkey, Ok rkey =>
      if keys_compatible lkey rkey then
        let overlap := filter (fun n => n ∈ columns right ∧ n ≠ on) (columns left) in
        let ls := if bool_decide (nrows left = 0%nat)
                  then filter (fun n => n ≠ on) (columns left) else columns left in
        let rs := if bool_decide (nrows left = 0%nat)
                  then columns right else filter (fun n => n ≠ on) (columns right) in
        let rename (sfx n : string) := if bool_decide (n ∈ overlap) then n ++ sfx else n in
        (int_float_warning lkey rkey
         ++ (if new_duplicates [] [] ls (rename "_x" <$> ls)
                || new_duplicates [] [] rs (rename "_y" <$> rs)
             then [FutureWarning] else []))%list
      else []
  | _, _ => []
  end.

(** *** Arithmetic on columns *)

(** [float(n)] for a Python integer. *)
Definition py_float (z : Z) : result float64 :=
  match float_of_int z with
  | S754_infinity _ => Raise OverflowError
  | f => Ok f
  end.

Definition float_is_zero (f : float64) : bool :=
  match f with S754_zero _ => true | _ => false end.

(** [x + y] and [x / y] on the elements of object columns: a missing
    operand gives a missing result, otherwise Python's operator applies. *)
Definition py_add (x y : object) : result object :=
  if is_null x || is_null y then Ok NaN
  else match x, y with
       | Int a, Int b => Ok (Int (a + b))
       | Str a, Str b => Ok (Str (a ++ b))
       | Int a, Float g => f ← py_float a; Ok (Float (fadd f g))
       | Float f, Int b => g ← py_float b; Ok (Float (fadd f g))
       | Float f, Float g => Ok (Float (fadd f g))
       | _, _ => Raise TypeError
       end.

Definition float_truediv (f g : float64) : result object :=
  if float_is_zero g then Raise ZeroDivisionError else Ok (Float (fdiv f g)).

Definition raw_float (z : Z) : float64 :=
  match z with
  | Z0 => S754_zero false
  | Zpos p => S754_finite false p 0
  | Zneg p => S754_finite true p 0
  end.

Definition py_truediv (x y : object) : result object :=
  if is_null x || is_null y then Ok NaN
  else match x, y with
       | Int a, Int b =>
           if b =? 0 then Raise ZeroDivisionError
           else match fdiv (raw_float a) (raw_float b) with
                | S754_infinity _ => Raise OverflowError
                | q => Ok (Float q)
                end
       | Int a, Float g => f ← py_float a; float_truediv f g
       | Float f, Int b => g ← py_float b; float_truediv f g
       | Float f, Float g => float_truediv f g
       | _, _ => Raise TypeError
       end.

(** [a + b] on two columns of one frame. *)
Definition series_add (a b : Series) : result Series :=
  match a, b with
  | SInt64 xs, SInt64 ys => Ok (SInt64 (zip_with (fun x y => wrap64 (x + y)) xs ys))
  | SInt64 xs, SFloat64 ys => Ok (SFloat64 (zip_with fadd (astype_float xs) ys))
  | SFloat64 xs, SInt64 ys => Ok (SFloat64 (zip_with fadd xs (astype_float ys)))
  | SFloat64 xs, SFloat64 ys => Ok (SFloat64 (zip_with fadd xs ys))
  | _, _ => SObject <$> traverse (fun p => py_add p.1 p.2) (zip (box a) (box b))
  end.

(** [a / b]: true division; on numeric columns it never raises (a zero
    divisor gives an infinity or, under a zero dividend, [NaN]). *)
Definition series_truediv (a b : Series) : result Series :=
  match a, b with
  | SInt64 xs, SInt64 ys =>
      Ok (SFloat64 (zip_with fdiv (astype_float xs) (astype_float ys)))
  | SInt64 xs, SFloat64 ys => Ok (SFloat64 (zip_with fdiv (astype_float xs) ys))
  | SFloat64 xs, SInt64 ys => Ok (SFloat64 (zip_with fdiv xs (astype_float ys)))
  | SFloat64 xs, SFloat64 ys => Ok (SFloat64 (zip_with fdiv xs ys))
  | _, _ => SObject <$> traverse (fun p => py_truediv p.1 p.2) (zip (box a) (box b))
  end.

(** *** [df.groupby([by1, by2]).aggregate(np.sum)] *)

(** The group of a row; a row with a missing key belongs to none. *)
Definition group : Type := key * key.

Definition group_of (k1 k2 : key) : option group :=
  if decide (k1 = KNull ∨ k2 = KNull) then None else Some (k1, k2).

Definition row_groups (s1 s2 : Series) : list (option group) :=
  zip_with group_of (keys s1) (keys s2).

Definition group_leb (a b : group) : bool :=
  if decide (a.1 = b.1) then key_leb a.2 b.2 else key_leb a.1 b.1.

(** The groups that occur, each once, in sorted order. *)
Definition group_labels (rg : list (option group)) : list group :=
  merge_sort (fun a b => group_leb a b) (remove_dups (omap id rg)).

(** The values of a column on the rows of group [g], in row order. *)
Definition group_values {A : Type} (g : group) (rg : list (option group)) (xs : list A)
  : list A :=
  (filter (fun p => p.1 = Some g) (zip rg xs)).*2.

Fixpoint first_row (g : group) (from : nat) (rg : list (option group)) : option nat :=
  match rg with
  | [] => None
  | o :: rg' => if decide (o = Some g) then Some from else first_row g (S from) rg'
  end.

(** [int64] sums wrap around. *)
Definition sum_int64 (xs : list Z) : Z := foldl (fun acc x => wrap64 (acc + x)) 0 xs.

(** [float64] sums skip missing values and use compensated summation. *)
Definition kahan_step (st : float64 * float64) (val : float64) : float64 * float64 :=
  if is_nan val then st
  else let y := fsub val st.2 in
       let t := fadd st.1 y in
       (t, fsub (fsub t st.1) y).

Definition sum_float64 (xs : list float64) : float64 :=
  (foldl kahan_step (S754_zero false, S754_zero false) xs).1.

(** The sum of one column per group; a column that is not numeric is left
    out of the result. *)
Definition group_sum (rg : list (option group)) (labels : list group) (s : Series)
  : option Series :=
  match s with
  | SInt64 xs => Some (SInt64 ((fun g => sum_int64 (group_values g rg xs)) <$> labels))
  | SFloat64 xs => Some (SFloat64 ((fun g => sum_float64 (group_values g rg xs)) <$> labels))
  | SObject _ => None
  end.

(** The result is indexed by the two group keys. *)
Definition groupby_sum (df : DataFrame) (by1 by2 : string) : result DataFrame :=
  s1 ← getitem df by1;
  s2 ← getitem df by2;
  let rg := row_groups s1 s2 in
  let labels := group_labels rg in
  let firsts := (fun g => first_row g 0 rg) <$> labels in
  Ok (mkDataFrame
        [(Some by1, take_fill firsts s1); (Some by2, take_fill firsts s2)]
        (omap (fun c => pair c.1 <$> group_sum rg labels c.2)
              (filter (fun c => c.1 ≠ by1 ∧ c.1 ≠ by2) (cols df)))).

(** [df.reset_index()]: the index levels become the first columns and the
    rows are numbered afresh. *)
Definition level_name (n : nat) (i : nat) (name : option string) : string :=
  match name with
  | Some s => s
  | None => if bool_decide (n = 1%nat) then "index" else "level_" ++ str_of_int (Z.of_nat i)
  end.

Definition reset_index (df : DataFrame) : result DataFrame :=
  let levels := imap (fun i l => (level_name (length (index df)) i l.1, l.2)) (index df) in
  if bool_decide (Exists (fun n => n ∈ columns df) levels.*1) then Raise ValueError
  else Ok (mkDataFrame (RangeIndex (nrows df)) (levels ++ cols df)).

(** ** The store of DataFrame objects *)

(** A reference names a DataFrame object; two names for one reference are
    aliases.  Objects are never freed. *)
Abbreviation ref := nat (only parsing).
Abbreviation store := (list DataFrame) (only parsing).

(** A computation reads and updates the store and returns a value or raises;
    what it did to the store before raising stays done. *)
Definition M (A : Type) : Type := store -> result A * store.

#[export] Instance M_ret : MRet M := fun A a σ => (Ok a, σ).
#[export] Instance M_bind : MBind M := fun A B f m σ =>
  match m σ with
  | (Ok a, σ') => f a σ'
  | (Raise e, σ') => (Raise e, σ')
  end.

Definition lift {A : Type} (r : result A) : M A := fun σ => (r, σ).

(** Reading through a reference (a reference to nothing stands for an
    argument that is no DataFrame). *)
Definition load (r : ref) : M DataFrame := fun σ =>
  match σ !! r with
  | Some df => (Ok df, σ)
  | None => (Raise TypeError, σ)
  end.

Definition update (r : ref) (df : DataFrame) : M unit := fun σ => (Ok (), <[r := df]> σ).

(** A new object. *)
Definition new (df : DataFrame) : M ref := fun σ => (Ok (length σ), (σ ++ [df])%list).

(** [r.columns = names] *)
Definition set_columns (r : ref) (names : list string) : M unit :=
  df ← load r;
  df' ← lift (with_columns df names);
  update r df'.

(** [r[name] = s] *)
Definition setitem (r : ref) (name : string) (s : Series) : M unit :=
  df ← load r;
  df' ← lift (with_column df name s);
  update r df'.

(** ** The pipeline *)

(** The region and department tables, merged on the region code. *)
Definition merge_regions_and_departments (regions departments : ref) : M ref :=
  set_columns regions ["id"; "code_reg"; "name_reg"; "slug"];;
  set_columns departments ["id"; "code_reg"; "code_dep"; "name_dep"; "slug"];;
  r ← load regions;
  left ← lift (getitem_list r ["code_reg"; "name_reg"]);
  d ← load departments;
  right ← lift (getitem_list d ["code_reg"; "code_dep"; "name_dep"]);
  merged_reg_dep ← lift (pd_merge left right "code_reg" Left);
  new merged_reg_dep.

Definition corsica_codes : list string := ["2A"; "2B"].

(** Lines 59-60: the referendum rows whose [code_dep] is numeric or a
    Corsica code. *)
Definition keep_numeric (referendum : DataFrame) : result DataFrame :=
  c ← getitem referendum "code_dep";
  numeric ← str_isnumeric c;
  c' ← getitem referendum "code_dep";
  getitem_mask referendum (mask_or numeric (isin c' corsica_codes)).

(** Lines 63-65. *)
Definition corsica (regions_and_departments : DataFrame) : result DataFrame :=
  c ← getitem regions_and_departments "code_dep";
  getitem_mask regions_and_departments (isin c corsica_codes).

(** Lines 66-74: the other rows, without the codes from 100 on, their codes
    rewritten through [int] and back to [str].  Line 74 reads back the
    [int64] column that line 73 stored. *)
Definition not_corsica (regions_and_departments : DataFrame) : result DataFrame :=
  c ← getitem regions_and_departments "code_dep";
  nc ← getitem_mask regions_and_departments (mask_not (isin c corsica_codes));
  c ← getitem nc "code_dep";
  ints ← astype_int c;
  nc ← getitem_mask nc (lt_const ints 100);
  c ← getitem nc "code_dep";
  ints ← astype_int c;
  nc ← with_column nc "code_dep" (SInt64 ints);
  with_column nc "code_dep" (astype_str ints).

(** Lines 63-77: the area table the referendum is joined with. *)
Definition reconcatenate (regions_and_departments : DataFrame) : result DataFrame :=
  c ← corsica regions_and_departments;
  nc ← not_corsica regions_and_departments;
  Ok (pd_concat nc c).

(** Lines 62-83: the filtered referendum rows, joined with the area table. *)
Definition join_areas (referendum' : DataFrame) (regions_and_departments : ref) : M ref :=
  rd ← load regions_and_departments;
  regions_and_departments' ← lift (reconcatenate rd);
  merged_ref_reg_dep ← lift (pd_merge referendum' regions_and_departments' "code_dep" Left);
  new merged_ref_reg_dep.

Definition merge_referendum_and_areas (referendum regions_and_departments : ref) : M ref :=
  df ← load referendum;
  c ← lift (getitem df "Department code");
  setitem referendum "code_dep" c;;
  df ← load referendum;
  referendum' ← lift (keep_numeric df);
  join_areas referendum' regions_and_departments.

Definition result_columns : list string :=
  ["name_reg"; "Registered"; "Abstentions"; "Null"; "Choice A"; "Choice B"].

Definition compute_referendum_result_by_regions (referendum_and_areas : ref) : M ref :=
  df ← load referendum_and_areas;
  grouped ← lift (groupby_sum df "code_reg" "name_reg");
  abs_count ← lift (reset_index grouped);
  out ← lift (getitem_list abs_count result_columns);
  new out.

(** [to_plot.plot("ratio")] draws; it needs the column it is asked to show
    and the geometries. *)
Definition plot (df : DataFrame) (column : string) : result unit :=
  getitem df column;;
  match lookup_col "geometry" (cols df) with
  | Some _ => Ok ()
  | None => Raise AttributeError
  end.

(** [reg_json] is what [gpd.read_file("data/regions.geojson")] returns: one
    row per region, with the region's name [nom] and its [geometry] (held
    as text). *)
(** Lines 116-120: the share of choice A among the expressed ballots. *)
Definition ratio_of (df : DataFrame) : result Series :=
  a ← getitem df "Choice A";
  a' ← getitem df "Choice A";
  b ← getitem df "Choice B";
  total ← series_add a' b;
  series_truediv a total.

Definition plot_referendum_map (reg_json : DataFrame) (referendum_result_by_regions : ref)
  : M ref :=
  df ← load referendum_result_by_regions;
  name_reg ← lift (getitem df "name_reg");
  setitem referendum_result_by_regions "nom" name_reg;;
  df ← load referendum_result_by_regions;
  ratio ← lift (ratio_of df);
  setitem referendum_result_by_regions "ratio" ratio;;
  df ← load referendum_result_by_regions;
  to_plot ← lift (pd_merge df reg_json "nom" Inner);
  lift (plot to_plot "ratio");;
  new to_plot.

(** The script ([__main__]), on the tables that [load_data] and
    [gpd.read_file] have read; printing and showing the figure are left
    out. *)
Definition main (reg_json : DataFrame) (referendum df_reg df_dep : ref) : M ref :=
  regions_and_departments ← merge_regions_and_departments df_reg df_dep;
  referendum_and_areas ← merge_referendum_and_areas referendum regions_and_departments;
  referendum_results ← compute_referendum_result_by_regions referendum_and_areas;
  plot_referendum_map reg_json referendum_results.

(** ** Vocabulary of the properties *)

(** A frame is well formed when its columns and index levels all have one
    length, the number of rows. *)
Definition wf (df : DataFrame) : Prop :=
  Forall (fun c => series_len c.2 = nrows df) (cols df)
  ∧ Forall (fun l => series_len l.2 = nrows df) (index df).

(** A column of text, as [read_csv] makes it and as the [.str] accessor
    takes it: an object column that holds at least one string, or nothing
    but missing values. *)
Definition text (xs : list object) : Prop := has_str xs || forallb is_null xs.

(** A string of ASCII digits, as [str] writes a natural number. *)
Fixpoint all_digits (s : string) : bool :=
  match s with
  | EmptyString => true
  | String c r => is_digit c && all_digits r
  end.

(** The referendum filter as the specification words it: the department
    code is "purely numeric or equals one of two reserved Corsica codes".
    It is compared below with the mask that [keep_numeric] computes. *)
Definition purely_numeric_or_corsica (o : object) : bool :=
  match o with
  | Str s => isnumeric s || bool_decide (s = "2A") || bool_decide (s = "2B")
  | _ => false
  end.

(** The codes that the area table's Corsica partition is made of. *)
Definition is_corsica (o : object) : bool :=
  match o with
  | Str s => bool_decide (s = "2A") || bool_decide (s = "2B")
  | _ => false
  end.

(** [reformatted c s]: the area table that the referendum is joined with
    has a row for the area row whose department code is [c], under the code
    [s] (lines 63-77): a Corsica code as it is, another code that converts
    to an integer below 100 as that integer written out. *)
Definition reformatted (c : object) (s : string) : Prop :=
  (is_corsica c = true ∧ c = Str s)
  ∨ (is_corsica c = false ∧ ∃ z : Z, object_to_int64 c = Ok z ∧ z < 100 ∧ s = str_of_int z).

(** Frame conditions on computations.  [mutates_only rs m]: [m] creates no
    object and leaves every object outside [rs] as it was.
    [stage_frame rs m]: so does [m], except that when it returns, its
    result is the one new object. *)
Definition mutates_only {A : Type} (rs : list nat) (m : M A) : Prop :=
  ∀ σ : list DataFrame,
    length (m σ).2 = length σ ∧ ∀ r : nat, r ∉ rs → (m σ).2 !! r = σ !! r.

Definition stage_frame (rs : list nat) (m : M nat) : Prop :=
  ∀ σ : list DataFrame,
    (∀ r : nat, r ∉ rs → (r < length σ)%nat → (m σ).2 !! r = σ !! r)
    ∧ match (m σ).1 with
      | Ok o => o = length σ ∧ length (m σ).2 = S (length σ)
      | Raise _ => length (m σ).2 = length σ
      end.

(** [keeps_data df df' changed]: [df'] has the rows of [df] and, under
    every label outside [changed], the column [df] has there. *)
Definition keeps_data (df df' : DataFrame) (changed : list string) : Prop :=
  index df' = index df
  ∧ ∀ n : string, n ∉ changed → lookup_col n (cols df') = lookup_col n (cols df).

(** [relabelled df df']: [df'] is [df] under other column labels. *)
Definition relabelled (df df' : DataFrame) : Prop :=
  index df' = index df ∧ (cols df').*2 = (cols df).*2.

(** [evolves R m]: whatever [m] does, each object of the store ends in a
    state that [R] relates to the one it was in. *)
Definition evolves {A : Type} (R : DataFrame → DataFrame → Prop) (m : M A) : Prop :=
  ∀ (σ : list DataFrame) (r : nat) (df : DataFrame),
    σ !! r = Some df → ∃ df' : DataFrame, (m σ).2 !! r = Some df' ∧ R df df'.

(** How many rows of a key column carry the key [k]. *)
Definition count_key (k : key) (ks : list key) : nat :=
  length (filter (fun k' => k' = k) ks).

(** ** Example tables *)

Definition strs (l : list string) : Series := SObject (Str <$> l).

(** Two regions, four departments (one overseas, in a region that the region
    table lacks), five referendum rows, two region outlines. *)
Definition ex_regions : DataFrame :=
  mkDataFrame (RangeIndex 2)
    [("id", SInt64 [1; 2]); ("code", strs ["84"; "94"]);
     ("name", strs ["Auvergne-Rhone-Alpes"; "Corse"]); ("slug", strs ["ara"; "corse"])].

Definition ex_departments : DataFrame :=
  mkDataFrame (RangeIndex 4)
    [("id", SInt64 [1; 2; 3; 4]); ("region_code", strs ["84"; "84"; "94"; "01"]);
     ("code", strs ["01"; "03"; "2A"; "971"]);
     ("name", strs ["Ain"; "Allier"; "Corse-du-Sud"; "Guadeloupe"]);
     ("slug", strs ["ain"; "allier"; "corse-du-sud"; "guadeloupe"])].

Definition ex_referendum : DataFrame :=
  mkDataFrame (RangeIndex 5)
    [("Department code", strs ["1"; "01"; "2A"; "ZA"; "971"]);
     ("Registered", SInt64 [100; 10; 20; 30; 40]);
     ("Abstentions", SInt64 [10; 1; 2; 3; 4]);
     ("Null", SInt64 [2; 0; 0; 0; 0]);
     ("Choice A", SInt64 [50; 5; 0; 7; 8]);
     ("Choice B", SInt64 [38; 4; 0; 9; 10])].

Definition ex_geo : DataFrame :=
  mkDataFrame (RangeIndex 2)
    [("code", strs ["84"; "93"]);
     ("nom", strs ["Auvergne-Rhone-Alpes"; "Provence-Alpes-Cote d'Azur"]);
     ("geometry", strs ["POLYGON ((4 45, 5 45, 5 46, 4 45))"; "POLYGON ((6 43, 7 43, 7 44, 6 43))"])].

Definition ex_store : list DataFrame := [ex_regions; ex_departments; ex_referendum].

(** The area table that [merge_regions_and_departments] makes of
    [ex_regions] and [ex_departments], with one overseas row added. *)
Definition ex_areas : DataFrame :=
  mkDataFrame (RangeIndex 4)
    [("code_reg", strs ["84"; "84"; "94"; "01"]);
     ("name_reg", strs ["Auvergne-Rhone-Alpes"; "Auvergne-Rhone-Alpes"; "Corse"; "Guadeloupe"]);
     ("code_dep", strs ["01"; "03"; "2A"; "971"]);
     ("name_dep", strs ["Ain"; "Allier"; "Corse-du-Sud"; "Guadeloupe"])].

(** The three mainland and Corsica departments of [ex_departments]. *)
Definition ex_departments_listed : DataFrame :=
  mkDataFrame (RangeIndex 3)
    [("id", SInt64 [1; 2; 3]); ("region_code", strs ["84"; "84"; "94"]);
     ("code", strs ["01"; "03"; "2A"]);
     ("name", strs ["Ain"; "Allier"; "Corse-du-Sud"]);
     ("slug", strs ["ain"; "allier"; "corse-du-sud"])].

(** A merged table in which one region code goes with two region names. *)
Definition ex_merged_two_names : DataFrame :=
  mkDataFrame (RangeIndex 2)
    [("Department code", strs ["1"; "3"]);
     ("Registered", SInt64 [100; 10]); ("Abstentions", SInt64 [10; 1]);
     ("Null", SInt64 [2; 0]); ("Choice A", SInt64 [50; 5]); ("Choice B", SInt64 [38; 4]);
     ("code_dep", strs ["1"; "3"]);
     ("code_reg", strs ["84"; "84"]);
     ("name_reg", strs ["Auvergne-Rhone-Alpes"; "Rhone-Alpes"]);
     ("name_dep", strs ["Ain"; "Allier"])].

(** A merged table of one row. *)
Definition ex_merged_one_row : DataFrame :=
  mkDataFrame (RangeIndex 1)
    [("Department code", strs ["1"]);
     ("Registered", SInt64 [100]); ("Abstentions", SInt64 [10]);
     ("Null", SInt64 [2]); ("Choice A", SInt64 [50]); ("Choice B", SInt64 [38]);
     ("code_dep", strs ["1"]);
     ("code_reg", strs ["84"]);
     ("name_reg", strs ["Auvergne-Rhone-Alpes"]);
     ("name_dep", strs ["Ain"])].

(** The example store with the area table as a fourth object. *)
Definition ex_store_areas : list DataFrame :=
  [ex_regions; ex_departments; ex_referendum; ex_areas].

(** Aggregated results in which one region has no expressed ballot, one has
    as many ballots taken back as cast, and one is not on the map. *)
Definition ex_results : DataFrame :=
  mkDataFrame (RangeIndex 3)
    [("name_reg", strs ["Auvergne-Rhone-Alpes"; "Provence-Alpes-Cote d'Azur"; "Corse"]);
     ("Registered", SInt64 [100; 20; 30]); ("Abstentions", SInt64 [10; 20; 3]);
     ("Null", SInt64 [2; 0; 0]); ("Choice A", SInt64 [1; 0; 7]);
     ("Choice B", SInt64 [-1; 0; 9])].

(** A referendum table whose department codes were read as numbers. *)
Definition ex_referendum_numeric : DataFrame :=
  mkDataFrame (RangeIndex 2)
    [("Department code", SInt64 [1; 75]);
     ("Registered", SInt64 [100; 10]); ("Abstentions", SInt64 [10; 1]);
     ("Null", SInt64 [2; 0]); ("Choice A", SInt64 [50; 5]); ("Choice B", SInt64 [38; 4])].

(** A region table with a third region, which has no department in
    [ex_departments_listed]. *)
Definition ex_regions_overseas : DataFrame :=
  mkDataFrame (RangeIndex 3)
    [("id", SInt64 [1; 2; 3]); ("code", strs ["84"; "94"; "COM"]);
     ("name", strs ["Auvergne-Rhone-Alpes"; "Corse"; "Collectivites d'Outre-Mer"]);
     ("slug", strs ["ara"; "corse"; "com"])].

(** An area table in which a region has no department (its department
    fields are missing), as a left join on the regions leaves it. *)
Definition ex_areas_empty_region : DataFrame :=
  mkDataFrame (RangeIndex 3)
    [("code_reg", strs ["84"; "94"; "COM"]);
     ("name_reg", strs ["Auvergne-Rhone-Alpes"; "Corse"; "Collectivites d'Outre-Mer"]);
     ("code_dep", SObject [Str "01"; Str "2A"; NaN]);
     ("name_dep", SObject [Str "Ain"; Str "Corse-du-Sud"; NaN])].

(** A merged table none of whose rows has found an area. *)
Definition ex_referendum_unplaced : DataFrame :=
  mkDataFrame (RangeIndex 2)
    [("Department code", strs ["01"; "971"]);
     ("Registered", SInt64 [10; 40]); ("Abstentions", SInt64 [1; 4]);
     ("Null", SInt64 [0; 0]); ("Choice A", SInt64 [5; 8]); ("Choice B", SInt64 [4; 10]);
     ("code_dep", strs ["01"; "971"]);
     ("code_reg", SObject [NaN; NaN]); ("name_reg", SObject [NaN; NaN]);
     ("name_dep", SObject [NaN; NaN])].

(** A department table whose region codes were read as numbers. *)
Definition ex_departments_numeric : DataFrame :=
  mkDataFrame (RangeIndex 2)
    [("id", SInt64 [1; 2]); ("region_code", SInt64 [84; 84]);
     ("code", strs ["01"; "03"]); ("name", strs ["Ain"; "Allier"]);
     ("slug", strs ["ain"; "allier"])].

(** * Properties *)

Open Scope list_scope.

(** ** Sanity checks of the model *)

Example int_of_str_leading_zero : int_of_str "01" = Some 1.
Proof. reflexivity. Qed.

Example int_of_str_spaces_sign_underscore : int_of_str " -1_0 " = Some (-10).
Proof. reflexivity. Qed.

Example int_of_str_rejects :
  int_of_str "2A" = None ∧ int_of_str "" = None ∧ int_of_str "1__0" = None
  ∧ int_of_str "_1" = None ∧ int_of_str "1_" = None ∧ int_of_str "- 1" = None.
Proof. repeat split; reflexivity. Qed.

(** [int()] reads the decimal digits of any script and skips the white
    space of Unicode only in a text that is not plain ASCII; [isnumeric]
    also holds of characters that are no decimal digits. *)
Example int_of_str_unicode :
  int_of_str "٣" = Some 3 ∧ int_of_str "٣ " = Some 3
  ∧ int_of_str (String (ascii_of_nat 28) "7") = None
  ∧ int_of_str "²" = None ∧ isnumeric "²" = true ∧ isnumeric "٣" = true.
Proof. repeat split; reflexivity. Qed.

(** [int(None)] is a [TypeError], [int] of a missing float a [ValueError]. *)
Example int_of_object_missing :
  int_of_object PyNone = Raise TypeError ∧ int_of_object NaN = Raise ValueError
  ∧ int_of_object (Float nan) = Raise ValueError.
Proof. repeat split; reflexivity. Qed.

(** Join keys are compared exactly: the integer [2 ^ 53 + 1] is not the
    float [2.0 ^ 53], while [2 ^ 53] is. *)
Example keys_exact :
  key_of_int (2 ^ 53 + 1) ≠ key_of_float (float_of_int (2 ^ 53))
  ∧ key_of_int (2 ^ 53) = key_of_float (float_of_int (2 ^ 53))
  ∧ merge_rows Left (keys (SInt64 [2 ^ 53 + 1])) (keys (SFloat64 [float_of_int (2 ^ 53)]))
    = [(0%nat, None)].
Proof. split; [|split]; [by vm_compute|by vm_compute|by vm_compute]. Qed.

(** A merge whose left table has no row: the key column stands where the
    right table has it, and the result has an empty index. *)
Example merge_no_left_row :
  pd_merge (mkDataFrame (RangeIndex 0) [("code_reg", strs []); ("name_reg", strs [])])
    (mkDataFrame (RangeIndex 1)
       [("code_reg", strs ["84"]); ("code_dep", strs ["01"]); ("name_dep", strs ["Ain"])])
    "code_reg" Left
  = Ok (mkDataFrame [(None, SObject [])]
          [("name_reg", strs []); ("code_reg", strs []); ("code_dep", strs []);
           ("name_dep", strs [])]).
Proof. reflexivity. Qed.

(** An inner join has its rows key by key, in the order in which the left
    table first has the keys. *)
Example inner_join_order :
  merge_rows Inner (keys (strs ["a"; "b"; "a"])) (keys (strs ["b"; "a"]))
  = [(0%nat, Some 1%nat); (2%nat, Some 1%nat); (1%nat, Some 0%nat)]
  ∧ merge_rows Inner (keys (SObject [NaN; Str "a"; PyNone])) (keys (SObject [Str "a"; NaN]))
    = [(0%nat, Some 1%nat); (2%nat, Some 1%nat); (1%nat, Some 0%nat)].
Proof. split; reflexivity. Qed.

(** The [.str] accessor takes a column of missing values and refuses a
    column of numbers. *)
Example str_isnumeric_values :
  str_isnumeric (SObject [NaN; PyNone]) = Ok [None; None]
  ∧ str_isnumeric (SObject [Int 1]) = Raise AttributeError
  ∧ str_isnumeric (SObject [Str "²"; Int 1; Str "2A"]) = Ok [Some true; None; Some false].
Proof. repeat split; reflexivity. Qed.

Example str_of_int_values :
  str_of_int 971 = "971" ∧ str_of_int 0 = "0" ∧ str_of_int (-5) = "-5".
Proof. repeat split; reflexivity. Qed.

Example isnumeric_values :
  isnumeric "01" = true ∧ isnumeric "2A" = false ∧ isnumeric "" = false
  ∧ isnumeric "-1" = false.
Proof. repeat split; reflexivity. Qed.

Example wrap64_values : wrap64 (2 ^ 63) = - 2 ^ 63 ∧ wrap64 (-1) = -1.
Proof. split; reflexivity. Qed.

Example fdiv_values :
  fdiv (float_of_int 0) (float_of_int 0) = nan
  ∧ fdiv (float_of_int 1) (float_of_int 0) = S754_infinity false
  ∧ fdiv (float_of_int (-1)) (float_of_int 0) = S754_infinity true
  ∧ fdiv (float_of_int 1) (float_of_int 2) = S754_finite false 4503599627370496 (-53).
Proof. repeat split; reflexivity. Qed.

(** The whole pipeline on the example tables: department "1" is found in
    region 84, Corsica in region 94; "01" and "971" find no area and "ZA" is
    filtered out; Corsica is not on the example map. *)
Example main_example :
  (main ex_geo 2 0 1 ex_store).1 = Ok 6%nat
  ∧ (main ex_geo 2 0 1 ex_store).2 !! 5%nat
    = Some (mkDataFrame (RangeIndex 2)
              [("name_reg", strs ["Auvergne-Rhone-Alpes"; "Corse"]);
               ("Registered", SInt64 [100; 20]); ("Abstentions", SInt64 [10; 2]);
               ("Null", SInt64 [2; 0]); ("Choice A", SInt64 [50; 0]);
               ("Choice B", SInt64 [38; 0]);
               ("nom", strs ["Auvergne-Rhone-Alpes"; "Corse"]);
               ("ratio", SFloat64 [S754_finite false 5117726849284655 (-53); S754_nan])])
  ∧ (main ex_geo 2 0 1 ex_store).2 !! 6%nat
    = Some (mkDataFrame (RangeIndex 1)
              [("name_reg", strs ["Auvergne-Rhone-Alpes"]);
               ("Registered", SInt64 [100]); ("Abstentions", SInt64 [10]);
               ("Null", SInt64 [2]); ("Choice A", SInt64 [50]); ("Choice B", SInt64 [38]);
               ("nom", strs ["Auvergne-Rhone-Alpes"]);
               ("ratio", SFloat64 [S754_finite false 5117726849284655 (-53)]);
               ("code", strs ["84"]);
               ("geometry", strs ["POLYGON ((4 45, 5 45, 5 46, 4 45))"])]).
Proof. split_and!; vm_compute; reflexivity. Qed.

(** ** The store: what each stage changes *)

Ltac unfold_M :=
  unfold set_columns, setitem, load, update, new, lift, mbind, M_bind, mret, M_ret in *.

Lemma with_columns_names df names df' :
  with_columns df names = Ok df' →
  columns df' = names ∧ index df' = index df ∧ (cols df').*2 = (cols df).*2.
Proof.
  unfold with_columns. case_bool_decide as Hlen; [|done].
  intros [= <-]. unfold columns. simpl.
  assert (length names = length (cols df).*2) as Hl by (by rewrite length_fmap).
  split_and!; [by apply fst_zip; lia | done | by apply snd_zip; lia].
Qed.

Lemma with_columns_ok df names :
  length names = length (cols df) → ∃ df', with_columns df names = Ok df'.
Proof. intros H. unfold with_columns. rewrite bool_decide_true by done. eauto. Qed.

Lemma mrd_store σ regions departments dfr dfd :
  σ !! regions = Some dfr → σ !! departments = Some dfd →
  length (cols dfr) = 4%nat → length (cols dfd) = 5%nat →
  ∃ dfr' dfd',
    with_columns dfr ["id"; "code_reg"; "name_reg"; "slug"] = Ok dfr'
    ∧ with_columns dfd ["id"; "code_reg"; "code_dep"; "name_dep"; "slug"] = Ok dfd'
    ∧ (merge_regions_and_departments regions departments σ).2 !! regions = Some dfr'
    ∧ (merge_regions_and_departments regions departments σ).2 !! departments = Some dfd'.
Proof.
  intros Hr Hd H4 H5.
  assert (regions ≠ departments) as Hne by (intros ->; congruence).
  destruct (with_columns_ok dfr ["id"; "code_reg"; "name_reg"; "slug"]) as [dfr' Hr']; [done|].
  destruct (with_columns_ok dfd ["id"; "code_reg"; "code_dep"; "name_dep"; "slug"]) as [dfd' Hd']; [done|].
  exists dfr', dfd'. split; [done|]. split; [done|].
  unfold merge_regions_and_departments. unfold_M.
  rewrite Hr, Hr'. 
  rewrite list_lookup_insert_ne by done. rewrite Hd, Hd'.
  assert (<[departments:=dfd']> (<[regions:=dfr']> σ) !! regions = Some dfr') as E1.
  { rewrite list_lookup_insert_ne by done. apply list_lookup_insert_eq. by eapply lookup_lt_Some. }
  assert (<[departments:=dfd']> (<[regions:=dfr']> σ) !! departments = Some dfd') as E2.
  { apply list_lookup_insert_eq. rewrite length_insert. by eapply lookup_lt_Some. }
  rewrite E1, E2.
  repeat case_match; simpl; simplify_eq; rewrite ?lookup_app_l; eauto using lookup_lt_Some.
Qed.

(** Frame rules *)
Section frame.
Context {A B : Type}.
Implicit Types (rs : list nat).

Lemma mutates_only_lift rs (r : result A) : mutates_only rs (lift r).
Proof. by intros σ. Qed.

Lemma mutates_only_bind rs (m : M A) (k : A → M B) :
  mutates_only rs m → (∀ a, mutates_only rs (k a)) → mutates_only rs (m ≫= k).
Proof.
  intros Hm Hk σ. unfold mbind, M_bind.
  destruct (Hm σ) as [Hl Hf]. destruct (m σ) as [[a|e] σ1]; simpl in *; [|done].
  destruct (Hk a σ1) as [Hl' Hf']. split; [congruence|].
  intros r Hr. rewrite Hf', Hf; done.
Qed.

Lemma stage_frame_bind rs (m : M A) (k : A → M nat) :
  mutates_only rs m → (∀ a, stage_frame rs (k a)) → stage_frame rs (m ≫= k).
Proof.
  intros Hm Hk σ. unfold mbind, M_bind.
  destruct (Hm σ) as [Hl Hf]. destruct (m σ) as [[a|e] σ1]; simpl in *.
  - destruct (Hk a σ1) as [Hf' Hres]. rewrite Hl in *. split.
    + intros r Hr Hlt. rewrite Hf', Hf; done.
    + done.
  - split; [auto|done].
Qed.
End frame.

Lemma mutates_only_load rs r : mutates_only rs (load r).
Proof. intros σ. unfold load. by destruct (σ !! r). Qed.

Lemma mutates_only_update rs r df : r ∈ rs → mutates_only rs (update r df).
Proof.
  intros Hr σ. unfold update. simpl. split; [apply length_insert|].
  intros r' Hr'. apply list_lookup_insert_ne. by intros ->.
Qed.

Lemma stage_frame_new rs df : stage_frame rs (new df).
Proof.
  intros σ. unfold new. simpl. split.
  - intros r _ Hlt. by apply lookup_app_l.
  - rewrite length_app. simpl. lia.
Qed.

Lemma mutates_only_set_columns rs r names : r ∈ rs → mutates_only rs (set_columns r names).
Proof.
  intros. unfold set_columns.
  repeat (apply mutates_only_bind; [|intros]);
    auto using mutates_only_load, mutates_only_lift, mutates_only_update.
Qed.

Lemma mutates_only_setitem rs r name s : r ∈ rs → mutates_only rs (setitem r name s).
Proof.
  intros. unfold setitem.
  repeat (apply mutates_only_bind; [|intros]);
    auto using mutates_only_load, mutates_only_lift, mutates_only_update.
Qed.

Create HintDb frame.
#[export] Hint Resolve mutates_only_load mutates_only_lift mutates_only_update
  mutates_only_set_columns mutates_only_setitem stage_frame_new : frame.

#[export] Hint Extern 1 (_ ∈ _) => repeat constructor : frame.

Ltac frame_steps :=
  repeat first
    [ solve [auto with frame]
    | apply stage_frame_bind; [|intros]
    | apply mutates_only_bind; [|intros] ].

Lemma stage_frame_mrd regions departments :
  stage_frame [regions; departments] (merge_regions_and_departments regions departments).
Proof. unfold merge_regions_and_departments. frame_steps. Qed.

Lemma stage_frame_join_areas rs df r : stage_frame rs (join_areas df r).
Proof. unfold join_areas. frame_steps. Qed.

#[export] Hint Resolve stage_frame_join_areas : frame.

Lemma stage_frame_mra referendum regions_and_departments :
  stage_frame [referendum] (merge_referendum_and_areas referendum regions_and_departments).
Proof. unfold merge_referendum_and_areas. frame_steps. Qed.

Lemma stage_frame_compute r : stage_frame [] (compute_referendum_result_by_regions r).
Proof. unfold compute_referendum_result_by_regions. frame_steps. Qed.

Lemma stage_frame_plot geo r : stage_frame [r] (plot_referendum_map geo r).
Proof. unfold plot_referendum_map. frame_steps. Qed.

(** Columns by label *)
Lemma lookup_col_cons n s cs name :
  lookup_col name ((n, s) :: cs) = if decide (n = name) then Some s else lookup_col name cs.
Proof.
  simpl. destruct (String.eqb_spec n name); by case_decide.
Qed.

Lemma lookup_col_app name cs1 cs2 :
  lookup_col name (cs1 ++ cs2)
  = match lookup_col name cs1 with Some s => Some s | None => lookup_col name cs2 end.
Proof.
  induction cs1 as [|[n s] cs1 IH]; [done|].
  rewrite <- app_comm_cons.
  rewrite !lookup_col_cons. by case_decide.
Qed.

Lemma lookup_col_None name cs : lookup_col name cs = None ↔ name ∉ cs.*1.
Proof.
  induction cs as [|[n s] cs IH].
  - split; [intros _; apply not_elem_of_nil|done].
  - rewrite lookup_col_cons, fmap_cons, not_elem_of_cons. simpl.
    case_decide as Hn.
    + split; [done|]. intros [Hne _]. by destruct Hne.
    + rewrite IH. split; [by intros ?; split; [intros ->|]|by intros [_ ?]].
Qed.

Lemma lookup_col_Some_elem name cs s : lookup_col name cs = Some s → name ∈ cs.*1.
Proof.
  intros H. destruct (decide (name ∈ cs.*1)) as [|Hn]; [done|].
  apply lookup_col_None in Hn. congruence.
Qed.

Lemma lookup_col_replace name s cs m :
  name ∈ cs.*1 →
  lookup_col m (replace_col name s cs)
  = if decide (m = name) then Some s else lookup_col m cs.
Proof.
  induction cs as [|[n t] cs IH]; [by intros ?%elem_of_nil|].
  intros Hin. simpl replace_col.
  destruct (String.eqb_spec n name) as [->|Hne].
  - rewrite !lookup_col_cons. repeat case_decide; congruence.
  - rewrite !lookup_col_cons.
    rewrite fmap_cons, elem_of_cons in Hin. destruct Hin as [?|Hin]; [simpl in *; congruence|].
    rewrite IH by done. repeat case_decide; congruence.
Qed.

Lemma with_column_spec df name s df' :
  with_column df name s = Ok df' →
  index df' = index df
  ∧ lookup_col name (cols df') = Some s
  ∧ (∀ m, m ≠ name → lookup_col m (cols df') = lookup_col m (cols df))
  ∧ (name ∉ columns df → cols df' = (cols df ++ [(name, s)])%list).
Proof.
  unfold with_column. case_bool_decide; [|done]. intros [= <-]. simpl.
  split; [done|]. case_bool_decide as Hin.
  - split_and!.
    + rewrite lookup_col_replace by done. by case_decide.
    + intros m Hm. rewrite lookup_col_replace by done. by case_decide.
    + done.
  - split_and!.
    + rewrite lookup_col_app. apply lookup_col_None in Hin. rewrite Hin.
      rewrite lookup_col_cons. by case_decide.
    + intros m Hm. rewrite lookup_col_app. destruct (lookup_col m (cols df)); [done|].
      rewrite lookup_col_cons. case_decide; [congruence|done].
    + done.
Qed.

Lemma with_column_ok df name s :
  series_len s = nrows df → ∃ df', with_column df name s = Ok df'.
Proof. intros H. unfold with_column. rewrite bool_decide_true by done. eauto. Qed.

Lemma with_column_keeps df name s df' :
  with_column df name s = Ok df' → keeps_data df df' [name].
Proof.
  intros (Hi & _ & Ho & _)%with_column_spec. split; [done|].
  intros n Hn. apply Ho. intros ->. apply Hn. constructor.
Qed.

Lemma keeps_data_refl df l : keeps_data df df l.
Proof. done. Qed.

Lemma keeps_data_trans df1 df2 df3 l1 l2 :
  keeps_data df1 df2 l1 → keeps_data df2 df3 l2 → keeps_data df1 df3 (l1 ++ l2).
Proof.
  intros [Hi1 Hc1] [Hi2 Hc2]. split; [congruence|].
  intros n Hn. rewrite not_elem_of_app in Hn. destruct Hn. rewrite Hc2, Hc1; done.
Qed.

Lemma stage_frame_lookup m σ r df :
  stage_frame [] m → σ !! r = Some df → (m σ).2 !! r = Some df.
Proof.
  intros Hm Hr. destruct (Hm σ) as [Hf _]. rewrite Hf; [done|apply not_elem_of_nil|].
  by eapply lookup_lt_Some.
Qed.

(** What [merge_referendum_and_areas] does to the referendum object. *)
Lemma mra_store σ referendum rd df c :
  σ !! referendum = Some df →
  lookup_col "Department code" (cols df) = Some c →
  series_len c = nrows df →
  ∃ df', with_column df "code_dep" c = Ok df'
    ∧ (merge_referendum_and_areas referendum rd σ).2 !! referendum = Some df'
    ∧ merge_referendum_and_areas referendum rd σ
      = (referendum' ← lift (keep_numeric df'); join_areas referendum' rd)
          (<[referendum := df']> σ).
Proof.
  intros Hr Hc Hlen.
  destruct (with_column_ok df "code_dep" c Hlen) as [df' Hdf'].
  exists df'. split; [done|].
  assert (merge_referendum_and_areas referendum rd σ
      = (referendum' ← lift (keep_numeric df'); join_areas referendum' rd)
          (<[referendum := df']> σ)) as ->.
  { unfold merge_referendum_and_areas. unfold_M. rewrite Hr. unfold getitem. rewrite Hc.
    rewrite Hr. rewrite Hdf'.
    rewrite list_lookup_insert_eq by (by eapply lookup_lt_Some). done. }
  split; [|done].
  apply stage_frame_lookup.
  - frame_steps.
  - apply list_lookup_insert_eq. by eapply lookup_lt_Some.
Qed.

(** C9: [merge_regions_and_departments] overwrites the column labels of both
    DataFrames it is given, in place, and [merge_referendum_and_areas] adds
    the column [code_dep] (a copy of [Department code]) to the referendum
    DataFrame it is given: after the call, whatever its outcome, the
    caller's objects carry these changes. *)
Theorem inputs_modified_in_place
    (σ : list DataFrame) (regions departments referendum areas : nat)
    (dfr dfd df : DataFrame) (c : Series) :
  (σ !! regions = Some dfr → σ !! departments = Some dfd →
   length (cols dfr) = 4%nat → length (cols dfd) = 5%nat →
   ∃ dfr' dfd',
     (merge_regions_and_departments regions departments σ).2 !! regions = Some dfr'
     ∧ (merge_regions_and_departments regions departments σ).2 !! departments = Some dfd'
     ∧ columns dfr' = ["id"; "code_reg"; "name_reg"; "slug"]
     ∧ columns dfd' = ["id"; "code_reg"; "code_dep"; "name_dep"; "slug"]
     ∧ index dfr' = index dfr ∧ (cols dfr').*2 = (cols dfr).*2
     ∧ index dfd' = index dfd ∧ (cols dfd').*2 = (cols dfd).*2)
  ∧ (σ !! referendum = Some df →
     lookup_col "Department code" (cols df) = Some c →
     series_len c = nrows df →
     ∃ df',
       (merge_referendum_and_areas referendum areas σ).2 !! referendum = Some df'
       ∧ lookup_col "code_dep" (cols df') = Some c
       ∧ keeps_data df df' ["code_dep"]
       ∧ ("code_dep" ∉ columns df → cols df' = (cols df ++ [("code_dep", c)])%list)).
Proof.
  split.
  - intros Hr Hd H4 H5.
    destruct (mrd_store σ regions departments dfr dfd Hr Hd H4 H5)
      as (dfr' & dfd' & Er & Ed & Sr & Sd).
    apply with_columns_names in Er as (? & ? & ?).
    apply with_columns_names in Ed as (? & ? & ?).
    exists dfr', dfd'. by split_and!.
  - intros Hr Hc Hlen.
    destruct (mra_store σ referendum areas df c Hr Hc Hlen) as (df' & Hw & Hs & _).
    exists df'. split; [done|].
    pose proof (with_column_keeps _ _ _ _ Hw) as Hk.
    apply with_column_spec in Hw as (_ & ? & _ & ?). by split_and!.
Qed.

Lemma inputs_modified_in_place_witness :
  (∃ dfr' dfd',
     (merge_regions_and_departments 0 1 ex_store).2 !! 0%nat = Some dfr'
     ∧ (merge_regions_and_departments 0 1 ex_store).2 !! 1%nat = Some dfd'
     ∧ columns dfr' = ["id"; "code_reg"; "name_reg"; "slug"]
     ∧ columns dfd' = ["id"; "code_reg"; "code_dep"; "name_dep"; "slug"]
     ∧ index dfr' = index ex_regions ∧ (cols dfr').*2 = (cols ex_regions).*2
     ∧ index dfd' = index ex_departments ∧ (cols dfd').*2 = (cols ex_departments).*2)
  ∧ (∃ df',
       (merge_referendum_and_areas 2 1 ex_store).2 !! 2%nat = Some df'
       ∧ lookup_col "code_dep" (cols df') = Some (strs ["1"; "01"; "2A"; "ZA"; "971"])
       ∧ keeps_data ex_referendum df' ["code_dep"]
       ∧ ("code_dep" ∉ columns ex_referendum →
          cols df' = (cols ex_referendum
                        ++ [("code_dep", strs ["1"; "01"; "2A"; "ZA"; "971"])])%list)).
Proof.
  destruct (inputs_modified_in_place ex_store 0 1 2 1 ex_regions ex_departments
              ex_referendum (strs ["1"; "01"; "2A"; "ZA"; "971"])) as [H1 H2].
  split.
  - apply H1; reflexivity.
  - apply H2; reflexivity.
Defined.

(** How objects evolve *)
Section evolves.
Context (R : DataFrame → DataFrame → Prop) `{!PreOrder R}.
Context {A B : Type}.

Lemma evolves_lift (r : result A) : evolves R (lift r).
Proof. intros σ r' df H. exists df. done. Qed.

Lemma evolves_load r : evolves R (load r).
Proof. intros σ r' df H. exists df. unfold load. by destruct (σ !! r). Qed.

Lemma evolves_new df0 : evolves R (new df0).
Proof.
  intros σ r' df H. exists df. unfold new. simpl. split; [|done].
  rewrite lookup_app_l; [done|by eapply lookup_lt_Some].
Qed.

Lemma evolves_bind (m : M A) (k : A → M B) :
  evolves R m → (∀ a, evolves R (k a)) → evolves R (m ≫= k).
Proof.
  intros Hm Hk σ r df Hr. unfold mbind, M_bind.
  destruct (Hm σ r df Hr) as (df1 & H1 & HR1).
  destruct (m σ) as [[a|e] σ1]; simpl in *; [|by exists df1].
  destruct (Hk a σ1 r df1 H1) as (df2 & H2 & HR2).
  exists df2. split; [done|]. by etrans.
Qed.

Lemma evolves_store (f : DataFrame → result DataFrame) r :
  (∀ df df', f df = Ok df' → R df df') →
  evolves R (df ← load r; df' ← lift (f df); update r df').
Proof.
  intros Hf σ r' df Hr'. unfold_M.
  destruct (σ !! r) as [d|] eqn:Hr; [|by exists df].
  destruct (f d) as [d'|e] eqn:Hd; simpl; [|by exists df].
  destruct (decide (r = r')) as [->|Hne].
  - exists d'. rewrite list_lookup_insert_eq by (by eapply lookup_lt_Some).
    split; [done|]. apply Hf. congruence.
  - exists df. by rewrite list_lookup_insert_ne.
Qed.
End evolves.

#[export] Instance relabelled_preorder : PreOrder relabelled.
Proof.
  split; [done|]. intros x y z [? ?] [? ?]. split; congruence.
Qed.

#[export] Instance keeps_data_preorder l : PreOrder (fun df df' => keeps_data df df' l).
Proof.
  split; [done|]. intros x y z [Hi1 Hc1] [Hi2 Hc2]. split; [congruence|].
  intros n Hn. rewrite Hc2, Hc1; done.
Qed.

Lemma keeps_data_weaken df df' l l' : l ⊆ l' → keeps_data df df' l → keeps_data df df' l'.
Proof. intros Hl [Hi Hc]. split; [done|]. intros n Hn. apply Hc. intros ?. apply Hn. auto. Qed.

Lemma evolves_set_columns r names : evolves relabelled (set_columns r names).
Proof.
  apply (evolves_store relabelled (fun df => with_columns df names)).
  intros df df' (? & ? & ?)%with_columns_names. by split.
Qed.

Lemma evolves_setitem l r name s : name ∈ l → evolves (fun df df' => keeps_data df df' l) (setitem r name s).
Proof.
  intros Hin. apply (evolves_store _ (fun df => with_column df name s)).
  intros df df' H%with_column_keeps. eapply keeps_data_weaken; [|done].
  intros x ->%list_elem_of_singleton. done.
Qed.

Ltac evolves_steps :=
  repeat first
    [ apply evolves_set_columns
    | apply evolves_setitem; repeat constructor
    | solve [apply evolves_lift; try apply _]
    | solve [apply evolves_load; try apply _]
    | solve [apply evolves_new; try apply _]
    | apply evolves_bind; [apply _ | | intros] ].

Lemma evolves_mrd regions departments :
  evolves relabelled (merge_regions_and_departments regions departments).
Proof. unfold merge_regions_and_departments. evolves_steps. Qed.

Lemma evolves_mra referendum areas :
  evolves (fun df df' => keeps_data df df' ["code_dep"])
    (merge_referendum_and_areas referendum areas).
Proof. unfold merge_referendum_and_areas, join_areas. evolves_steps. Qed.

Lemma evolves_plot geo r :
  evolves (fun df df' => keeps_data df df' ["nom"; "ratio"]) (plot_referendum_map geo r).
Proof. unfold plot_referendum_map. evolves_steps. Qed.

(** C8, as the code has it: every stage returns a new table and leaves every
    table other than its own arguments unchanged;
    [compute_referendum_result_by_regions] changes no table at all, and
    [merge_referendum_and_areas] leaves the area table unchanged.  The
    arguments that are updated in place keep their rows and the data of
    their columns: [merge_regions_and_departments] only relabels columns,
    [merge_referendum_and_areas] only sets [code_dep], and
    [plot_referendum_map] only sets [nom] and [ratio]. *)
Theorem stages_leave_other_tables_unchanged
    (regions departments referendum areas merged results : nat) (reg_json : DataFrame) :
  (stage_frame [regions; departments] (merge_regions_and_departments regions departments)
   ∧ evolves relabelled (merge_regions_and_departments regions departments))
  ∧ (stage_frame [referendum] (merge_referendum_and_areas referendum areas)
     ∧ evolves (fun df df' => keeps_data df df' ["code_dep"])
         (merge_referendum_and_areas referendum areas))
  ∧ stage_frame [] (compute_referendum_result_by_regions merged)
  ∧ (stage_frame [results] (plot_referendum_map reg_json results)
     ∧ evolves (fun df df' => keeps_data df df' ["nom"; "ratio"])
         (plot_referendum_map reg_json results)).
Proof.
  split_and!;
    auto using stage_frame_mrd, stage_frame_mra, stage_frame_compute, stage_frame_plot,
      evolves_mrd, evolves_mra, evolves_plot.
Qed.

(** C8 fails as stated: [merge_regions_and_departments] changes the region
    table it is given (its column labels), and [plot_referendum_map] adds
    two columns to the table of results that it is given. *)
Lemma stage_changes_its_input :
  (merge_regions_and_departments 0 1 ex_store).1 = Ok 3%nat
  ∧ columns <$> ex_store !! 0%nat = Some ["id"; "code"; "name"; "slug"]
  ∧ columns <$> (merge_regions_and_departments 0 1 ex_store).2 !! 0%nat
    = Some ["id"; "code_reg"; "name_reg"; "slug"]
  ∧ (merge_regions_and_departments 0 1 ex_store).2 !! 0%nat ≠ ex_store !! 0%nat
  ∧ (plot_referendum_map ex_geo 0 [ex_results]).1 = Ok 1%nat
  ∧ columns <$> (plot_referendum_map ex_geo 0 [ex_results]).2 !! 0%nat
    = Some (columns ex_results ++ ["nom"; "ratio"])
  ∧ (plot_referendum_map ex_geo 0 [ex_results]).2 !! 0%nat ≠ [ex_results] !! 0%nat.
Proof.
  split_and!; [reflexivity|reflexivity|reflexivity|discriminate
              |vm_compute; reflexivity|vm_compute; reflexivity|].
  intros H. apply (f_equal (fmap columns)) in H. vm_compute in H. discriminate H.
Qed.

(** Masks *)
Lemma mask_positions_spec mask from j :
  j ∈ mask_positions from mask ↔ ∃ i, j = (from + i)%nat ∧ mask !! i = Some true.
Proof.
  revert from. induction mask as [|b mask IH]; intros from; simpl.
  - split; [by intros ?%elem_of_nil|by intros (i & _ & ?)].
  - assert ((∃ i, j = (from + i)%nat ∧ (b :: mask) !! i = Some true)
            ↔ (j = from ∧ b = true) ∨ ∃ i, j = (S from + i)%nat ∧ mask !! i = Some true) as ->.
    { split.
      - intros ([|i] & -> & Hi); simpl in Hi.
        + left. split; [lia|congruence].
        + right. exists i. split; [lia|done].
      - intros [[-> ->]|(i & -> & Hi)].
        + exists 0%nat. split; [lia|done].
        + exists (S i). split; [lia|done]. }
    destruct b.
    + rewrite elem_of_cons, IH. tauto.
    + rewrite IH. split; [by right|]. by intros [[_ ?]|?].
Qed.

Lemma isin_corsica s :
  bool_decide (s ∈ corsica_codes) = bool_decide (s = "2A") || bool_decide (s = "2B").
Proof.
  unfold corsica_codes.
  destruct (decide (s = "2A")) as [->|H1]; [done|].
  destruct (decide (s = "2B")) as [->|H2]; [done|].
  rewrite !bool_decide_false; [done..|].
  intros [?|[?|?%elem_of_nil]%elem_of_cons]%elem_of_cons; done.
Qed.

Lemma mask_keep_numeric xs :
  mask_or ((fun o => match o with Str t => Some (isnumeric t) | _ => None end) <$> xs)
          (isin (SObject xs) corsica_codes)
  = purely_numeric_or_corsica <$> xs.
Proof.
  simpl. induction xs as [|o xs IH]; [done|].
  rewrite !fmap_cons. unfold mask_or in *. simpl. rewrite IH. f_equal.
  destruct o as [|s| | |]; try done. simpl.
  rewrite isin_corsica. by destruct (isnumeric s), (bool_decide (s = "2A")).
Qed.

Lemma nrows_with_column df name s df' :
  with_column df name s = Ok df' → nrows df' = nrows df.
Proof. intros (Hi & _)%with_column_spec. unfold nrows. by rewrite Hi. Qed.

Lemma keep_numeric_spec df xs :
  lookup_col "code_dep" (cols df) = Some (SObject xs) → text xs → length xs = nrows df →
  keep_numeric df
  = Ok (select_rows df (mask_positions 0 (purely_numeric_or_corsica <$> xs))).
Proof.
  intros Hc Ht Hlen. unfold keep_numeric, getitem. rewrite Hc. simpl.
  unfold text in Ht. destruct (has_str xs || forallb is_null xs); [|done]. simpl.
  rewrite mask_keep_numeric. unfold getitem_mask.
  rewrite bool_decide_true; [done|]. by rewrite length_fmap.
Qed.

Lemma kept_rows_join σ referendum areas df xs :
  σ !! referendum = Some df →
  lookup_col "Department code" (cols df) = Some (SObject xs) →
  text xs →
  length xs = nrows df →
  ∃ df1,
    with_column df "code_dep" (SObject xs) = Ok df1
    ∧ keep_numeric df1
      = Ok (select_rows df1 (mask_positions 0 (purely_numeric_or_corsica <$> xs)))
    ∧ merge_referendum_and_areas referendum areas σ
      = join_areas (select_rows df1 (mask_positions 0 (purely_numeric_or_corsica <$> xs)))
          areas (<[referendum := df1]> σ).
Proof.
  intros Hr Hc Ht Hlen.
  destruct (mra_store σ referendum areas df (SObject xs) Hr Hc Hlen) as (df1 & Hw & _ & Hrun).
  exists df1.
  assert (keep_numeric df1
          = Ok (select_rows df1 (mask_positions 0 (purely_numeric_or_corsica <$> xs)))) as Hk.
  { apply keep_numeric_spec; [|done|].
    - by apply with_column_spec in Hw as (_ & ? & _).
    - by rewrite (nrows_with_column _ _ _ _ Hw). }
  split_and!; [done|done|].
  rewrite Hrun. unfold mbind at 1, M_bind at 1, lift at 1. by rewrite Hk.
Qed.

Example example_kept_positions :
  mask_positions 0 (purely_numeric_or_corsica <$> (Str <$> ["1"; "01"; "2A"; "ZA"; "971"]))
  = [0; 1; 2; 4]%nat.
Proof. reflexivity. Qed.

(** Gathering rows *)
Lemma series_len_take_fill ix s : series_len (take_fill ix s) = length ix.
Proof.
  destruct s as [xs|xs|xs]; simpl; [|by rewrite length_fmap..].
  destruct (mapM _ ix) as [ys|] eqn:E; simpl; [|by rewrite length_fmap].
  symmetry. by eapply length_mapM.
Qed.

Lemma series_len_take ix s : series_len (take ix s) = length ix.
Proof. unfold take. by rewrite series_len_take_fill, length_fmap. Qed.

Lemma take_object ix xs :
  take ix (SObject xs) = SObject ((fun i => default NaN (xs !! i)) <$> ix).
Proof. unfold take. simpl. by rewrite <- list_fmap_compose. Qed.

Lemma gather_mask {A} (f : A → bool) (d : A) (pre xs : list A) :
  (fun i => default d ((pre ++ xs) !! i)) <$> mask_positions (length pre) (f <$> xs)
  = filter (fun x => f x = true) xs.
Proof.
  revert pre. induction xs as [|x xs IH]; intros pre; [done|].
  rewrite fmap_cons. simpl.
  pose proof (IH (pre ++ [x])%list) as IH'.
  rewrite length_app, <- (assoc_L app) in IH'. simpl in IH'.
  replace (length pre + 1)%nat with (S (length pre)) in IH' by lia.
  destruct (f x) eqn:Hf.
  - rewrite filter_cons_True by done. rewrite fmap_cons, IH'. f_equal.
    rewrite lookup_app_r by lia. by rewrite Nat.sub_diag.
  - rewrite filter_cons_False by (by rewrite Hf). done.
Qed.

Lemma gather_mask0 {A} (f : A → bool) (d : A) (xs : list A) :
  (fun i => default d (xs !! i)) <$> mask_positions 0 (f <$> xs)
  = filter (fun x => f x = true) xs.
Proof. apply (gather_mask f d [] xs). Qed.

(** Gathering by a mask computed on another list of the same length. *)
Lemma gather_mask_zip {A B} (f : B → bool) (d : A) (pre : list A) (xs : list A) (ys : list B) :
  length xs = length ys →
  (fun i => default d ((pre ++ xs) !! i)) <$> mask_positions (length pre) (f <$> ys)
  = (filter (fun p => f p.2 = true) (zip xs ys)).*1.
Proof.
  revert pre ys. induction xs as [|x xs IH]; intros pre [|y ys] Hlen; simplify_eq/=; [done|].
  pose proof (IH (pre ++ [x])%list ys) as IH'.
  rewrite length_app, <- (assoc_L app) in IH'. simpl in IH'.
  replace (length pre + 1)%nat with (S (length pre)) in IH' by lia.
  destruct (f y) eqn:Hf.
  - rewrite filter_cons_True by done. rewrite !fmap_cons, IH' by done. f_equal.
    rewrite lookup_app_r by lia. by rewrite Nat.sub_diag.
  - rewrite filter_cons_False by (simpl; by rewrite Hf). by rewrite IH'.
Qed.

Lemma gather_mask_zip0 {A B} (f : B → bool) (d : A) (xs : list A) (ys : list B) :
  length xs = length ys →
  (fun i => default d (xs !! i)) <$> mask_positions 0 (f <$> ys)
  = (filter (fun p => f p.2 = true) (zip xs ys)).*1.
Proof. apply (gather_mask_zip f d [] xs ys). Qed.

Lemma lookup_col_prod_map (f : Series → Series) cs n :
  lookup_col n (prod_map id f <$> cs) = f <$> lookup_col n cs.
Proof.
  induction cs as [|[m s] cs IH]; [done|].
  rewrite fmap_cons. unfold prod_map at 1. simpl fst. simpl snd. unfold id at 1.
  rewrite !lookup_col_cons. by case_decide.
Qed.

Lemma lookup_col_select_rows df ix n :
  lookup_col n (cols (select_rows df ix)) = take ix <$> lookup_col n (cols df).
Proof. apply lookup_col_prod_map. Qed.

Lemma index_len_fmap_take ix (idx : Index) :
  idx ≠ [] → index_len (prod_map id (take ix) <$> idx) = length ix.
Proof. destruct idx as [|[n s] idx]; [done|]. intros _. simpl. apply series_len_take. Qed.

Lemma mask_positions_nil from mask : length mask = 0%nat → mask_positions from mask = [].
Proof. by destruct mask. Qed.

Lemma nrows_select_mask df mask :
  length mask = nrows df →
  nrows (select_rows df (mask_positions 0 mask)) = length (mask_positions 0 mask).
Proof.
  intros Hlen. unfold nrows in *. simpl.
  destruct (index df) as [|l idx] eqn:E.
  - simpl in *. by rewrite mask_positions_nil.
  - by apply index_len_fmap_take.
Qed.

Lemma traverse_spec {A B} (f : A → result B) xs ys :
  traverse f xs = Ok ys ↔ Forall2 (fun x y => f x = Ok y) xs ys.
Proof.
  revert ys. induction xs as [|x xs IH]; intros ys; simpl.
  - split; [by intros [= <-]|by intros ->%Forall2_nil_inv_l].
  - split.
    + destruct (f x) as [y|] eqn:Hx; [|done].
      destruct (traverse f xs) as [ys'|] eqn:Hxs; [|done]. intros [= <-].
      constructor; [done|]. by apply IH.
    + intros (y & ys' & Hy & Hys & ->)%Forall2_cons_inv_l.
      rewrite Hy. apply IH in Hys. by rewrite Hys.
Qed.

Lemma traverse_filter_zip {A B} (f : A → result B) (p : B → bool) xs ys :
  traverse f xs = Ok ys →
  traverse f (filter (fun q => p q.2 = true) (zip xs ys)).*1
  = Ok (filter (fun y => p y = true) ys).
Proof.
  rewrite !traverse_spec. induction 1 as [|x y xs ys Hxy H IH]; [constructor|].
  simpl. destruct (p y) eqn:Hp.
  - rewrite filter_cons_True by done. rewrite filter_cons_True by done.
    rewrite fmap_cons. by constructor.
  - rewrite filter_cons_False by (simpl; by rewrite Hp).
    rewrite filter_cons_False by (by rewrite Hp). done.
Qed.

(** The two partitions of the area table *)
Lemma isin_object_corsica xs : isin (SObject xs) corsica_codes = is_corsica <$> xs.
Proof.
  simpl. apply list_fmap_ext. intros _ [|s| | |] _; try done. simpl. apply isin_corsica.
Qed.

Lemma corsica_spec rd xs :
  lookup_col "code_dep" (cols rd) = Some (SObject xs) → length xs = nrows rd →
  ∃ c, corsica rd = Ok c
    ∧ lookup_col "code_dep" (cols c) = Some (SObject (filter (fun o => is_corsica o = true) xs))
    ∧ columns c = columns rd.
Proof.
  intros Hc Hlen. unfold corsica, getitem. rewrite Hc. simpl.
  fold (isin (SObject xs) corsica_codes). rewrite isin_object_corsica.
  unfold getitem_mask. rewrite bool_decide_true by (by rewrite length_fmap).
  eexists. split; [done|]. split.
  - rewrite lookup_col_select_rows, Hc. unfold fmap at 1, option_fmap, option_map.
    by rewrite take_object, gather_mask0.
  - unfold columns. simpl. rewrite <- list_fmap_compose. by apply list_fmap_ext.
Qed.

Lemma getitem_mask_ok df mask :
  length mask = nrows df → getitem_mask df mask = Ok (select_rows df (mask_positions 0 mask)).
Proof. intros H. unfold getitem_mask. by rewrite bool_decide_true. Qed.

Lemma mask_not_corsica xs :
  mask_not (isin (SObject xs) corsica_codes) = (fun o => negb (is_corsica o)) <$> xs.
Proof. rewrite isin_object_corsica. unfold mask_not. by rewrite <- list_fmap_compose. Qed.

Lemma length_mask_positions_fmap {A} (f : A → bool) (xs : list A) :
  length (mask_positions 0 (f <$> xs)) = length (filter (fun x => f x = true) xs).
Proof.
  destruct xs as [|d xs']; [done|].
  rewrite <- (gather_mask0 f d). by rewrite length_fmap.
Qed.

Lemma not_corsica_spec rd xs zs :
  lookup_col "code_dep" (cols rd) = Some (SObject xs) → length xs = nrows rd →
  traverse object_to_int64 (filter (fun o => negb (is_corsica o) = true) xs) = Ok zs →
  ∃ nc, not_corsica rd = Ok nc
    ∧ lookup_col "code_dep" (cols nc)
      = Some (astype_str (filter (fun z => (z <? 100) = true) zs)).
Proof.
  intros Hc Hlen Hzs. unfold not_corsica.
  set (ys := filter (fun o => negb (is_corsica o) = true) xs) in *.
  set (ix1 := mask_positions 0 ((fun o => negb (is_corsica o)) <$> xs)).
  set (ix2 := mask_positions 0 ((fun z => z <? 100) <$> zs)).
  set (zs' := filter (fun z => (z <? 100) = true) zs).
  assert (length zs = length ys) as Hlzs.
  { apply traverse_spec in Hzs. symmetry. by eapply Forall2_length. }
  (* lines 66-68 *)
  assert (getitem rd "code_dep" = Ok (SObject xs)) as -> by (unfold getitem; by rewrite Hc).
  cbn [mbind result_bind]. rewrite mask_not_corsica.
  rewrite (getitem_mask_ok rd) by (by rewrite length_fmap).
  fold ix1. cbn [mbind result_bind].
  assert (getitem (select_rows rd ix1) "code_dep" = Ok (SObject ys)) as E1.
  { unfold getitem. rewrite lookup_col_select_rows, Hc. unfold fmap at 1, option_fmap, option_map.
    unfold ix1. by rewrite take_object, gather_mask0. }
  assert (nrows (select_rows rd ix1) = length ys) as N1.
  { unfold ix1. rewrite nrows_select_mask by (by rewrite length_fmap).
    apply length_mask_positions_fmap. }
  (* line 72 *)
  rewrite E1. cbn [mbind result_bind astype_int]. rewrite Hzs. cbn [mbind result_bind].
  unfold lt_const.
  rewrite (getitem_mask_ok (select_rows rd ix1)) by (rewrite length_fmap; congruence).
  fold ix2. cbn [mbind result_bind].
  set (nc2 := select_rows (select_rows rd ix1) ix2).
  assert (getitem nc2 "code_dep" = Ok (SObject (filter (fun p => (p.2 <? 100) = true) (zip ys zs)).*1)) as E2.
  { unfold getitem, nc2. rewrite lookup_col_select_rows.
    unfold getitem in E1. destruct (lookup_col "code_dep" (cols (select_rows rd ix1))); [|done].
    injection E1 as ->. unfold fmap at 1, option_fmap, option_map.
    rewrite take_object. unfold ix2.
    by rewrite (gather_mask_zip0 (fun z => z <? 100) NaN ys zs). }
  assert (nrows nc2 = length zs') as N2.
  { unfold nc2, ix2. rewrite nrows_select_mask by (rewrite length_fmap; congruence).
    apply length_mask_positions_fmap. }
  (* lines 73-74 *)
  rewrite E2. cbn [mbind result_bind astype_int].
  rewrite (traverse_filter_zip object_to_int64 (fun z => z <? 100) ys zs Hzs).
  fold zs'. cbn [mbind result_bind].
  destruct (with_column_ok nc2 "code_dep" (SInt64 zs')) as [nc3 H3]; [done|].
  rewrite H3. cbn [mbind result_bind].
  destruct (with_column_ok nc3 "code_dep" (astype_str zs')) as [nc4 H4].
  { rewrite (nrows_with_column _ _ _ _ H3), N2. unfold astype_str. simpl. by rewrite length_fmap. }
  exists nc4. split; [done|].
  by apply with_column_spec in H4 as (_ & ? & _).
Qed.

Lemma lookup_col_fmap_named (g : string → Series → Series) cs n :
  lookup_col n ((fun '(m, s) => (m, g m s)) <$> cs) = g n <$> lookup_col n cs.
Proof.
  induction cs as [|[m s] cs IH]; [done|].
  rewrite fmap_cons. rewrite !lookup_col_cons. case_decide; [by subst|done].
Qed.

Lemma lookup_col_pd_concat a b n s :
  lookup_col n (cols a) = Some s →
  lookup_col n (cols (pd_concat a b))
  = Some (concat_series s (default (missing_like s (nrows b)) (lookup_col n (cols b)))).
Proof.
  intros Hs. unfold pd_concat. simpl. rewrite lookup_col_app.
  rewrite (lookup_col_fmap_named
             (fun n s => concat_series s (default (missing_like s (nrows b))
                                            (lookup_col n (cols b))))).
  by rewrite Hs.
Qed.

Lemma reconcatenate_spec rd xs zs :
  lookup_col "code_dep" (cols rd) = Some (SObject xs) → length xs = nrows rd →
  traverse object_to_int64 (filter (fun o => negb (is_corsica o) = true) xs) = Ok zs →
  ∃ rd', reconcatenate rd = Ok rd'
    ∧ lookup_col "code_dep" (cols rd')
      = Some (SObject (((fun z => Str (str_of_int z)) <$> filter (fun z => (z <? 100) = true) zs)
                       ++ filter (fun o => is_corsica o = true) xs)).
Proof.
  intros Hc Hlen Hzs.
  destruct (corsica_spec rd xs Hc Hlen) as (c & Ec & Hcc & _).
  destruct (not_corsica_spec rd xs zs Hc Hlen Hzs) as (nc & Enc & Hnc).
  unfold reconcatenate. rewrite Ec, Enc. cbn [mbind result_bind].
  eexists. split; [done|].
  rewrite (lookup_col_pd_concat _ _ _ _ Hnc), Hcc. done.
Qed.

Lemma corsica_elements (xs : list object) o :
  o ∈ filter (fun o => is_corsica o = true) xs → o = Str "2A" ∨ o = Str "2B".
Proof.
  intros [Ho _]%list_elem_of_filter. destruct o as [|s| | |]; try done. simpl in Ho.
  apply orb_true_iff in Ho as [Ho|Ho]; apply bool_decide_eq_true in Ho; subst; auto.
Qed.

Example example_reformatted_codes :
  (reconcatenate ex_areas ≫= fun rd' => getitem rd' "code_dep")
  = Ok (strs ["1"; "3"; "2A"]).
Proof. reflexivity. Qed.

(** Text and integers *)
Lemma digit_not_space c : is_digit c = true → is_space c = false.
Proof.
  unfold is_digit, is_space. intros [H1%Nat.leb_le H2%Nat.leb_le]%andb_true_iff.
  apply orb_false_iff. split.
  - apply andb_false_iff. right. apply Nat.leb_gt. lia.
  - apply Nat.eqb_neq. lia.
Qed.

Lemma all_digits_string_of_uint u : all_digits (NilEmpty.string_of_uint u) = true.
Proof. induction u; simpl; auto. Qed.

Lemma rstrip_digits s : all_digits s = true → rstrip s = s.
Proof.
  induction s as [|c r IH]; [done|]. simpl.
  intros [Hc Hr]%andb_true_iff. rewrite (IH Hr).
  destruct r; [|done]. by rewrite (digit_not_space c Hc).
Qed.

Lemma strip_digits s : all_digits s = true → strip s = s.
Proof.
  intros H. unfold strip.
  assert (lstrip s = s) as ->.
  { destruct s as [|c r]; [done|]. simpl in *.
    apply andb_true_iff in H as [Hc _]. by rewrite (digit_not_space c Hc). }
  by apply rstrip_digits.
Qed.

Lemma digitpart_digits b s :
  all_digits s = true → s ≠ EmptyString ∨ b = true → digitpart b s = Some s.
Proof.
  revert b. induction s as [|c r IH]; intros b Hd Hb.
  - destruct Hb as [?| ->]; done.
  - simpl in *. apply andb_true_iff in Hd as [Hc Hr]. rewrite Hc.
    rewrite (IH true) by auto. done.
Qed.

Lemma parse_int_digits s :
  all_digits s = true → s ≠ EmptyString → parse_int s = value_of_digits s.
Proof.
  intros Hd Hne. unfold parse_int. rewrite (strip_digits s Hd).
  assert (digitpart false s = Some s) as Hp by (apply digitpart_digits; auto).
  destruct s as [|c r]; [done|].
  assert (is_digit c = true) as Hc by (simpl in Hd; by apply andb_true_iff in Hd as [? _]).
  destruct c as [[] [] [] [] [] [] [] []]; try discriminate Hc; by rewrite Hp.
Qed.

(** A text of characters below 127 is parsed as it stands. *)
Lemma code_points_ascii s :
  Forall (fun c => (N_of_ascii c < 127)%N) (list_ascii_of_string s) →
  ∃ cs, code_points s = Some cs ∧ to_ascii cs = s.
Proof.
  unfold code_points. induction s as [|b r IH]; simpl; [by exists []|].
  intros [Hb Hr]%Forall_cons. destruct (IH Hr) as (cs & -> & Hcs).
  assert ((N_of_ascii b <? 128)%N = true) as -> by (apply N.ltb_lt; lia).
  exists (N_of_ascii b :: cs). split; [done|]. simpl.
  assert ((N_of_ascii b <? 127)%N = true) as -> by (by apply N.ltb_lt).
  by rewrite ascii_N_embedding, Hcs.
Qed.

Lemma int_of_str_ascii s :
  Forall (fun c => (N_of_ascii c < 127)%N) (list_ascii_of_string s) →
  int_of_str s = parse_int s.
Proof.
  intros H. destruct (code_points_ascii s H) as (cs & Hcs & Hs).
  unfold int_of_str. rewrite Hcs. simpl. by rewrite Hs.
Qed.

Lemma digit_below_127 c : is_digit c = true → (N_of_ascii c < 127)%N.
Proof.
  unfold is_digit, nat_of_ascii. intros [_ H%Nat.leb_le]%andb_true_iff. lia.
Qed.

Lemma digits_below_127 s :
  all_digits s = true → Forall (fun c => (N_of_ascii c < 127)%N) (list_ascii_of_string s).
Proof.
  induction s as [|c r IH]; simpl; [constructor|].
  intros [Hc Hr]%andb_true_iff. constructor; auto using digit_below_127.
Qed.

Lemma length_string_of_uint u : String.length (NilEmpty.string_of_uint u) = nb_digits u.
Proof. induction u; simpl; congruence. Qed.

Lemma value_of_digits_string_of_uint u :
  Z.of_nat (nb_digits u) ≤ max_str_digits →
  value_of_digits (NilEmpty.string_of_uint u) = Some (Z.of_uint u).
Proof.
  intros Hu. unfold value_of_digits. rewrite length_string_of_uint.
  destruct (Z.ltb_spec max_str_digits (Z.of_nat (nb_digits u))); [lia|].
  by rewrite NilEmpty.usu.
Qed.

Lemma string_of_uint_nonempty u : u ≠ Nil → NilEmpty.string_of_uint u ≠ EmptyString.
Proof. by destruct u. Qed.

Lemma string_of_uint_digits u :
  all_digits (NilZero.string_of_uint u) = true ∧ NilZero.string_of_uint u ≠ EmptyString.
Proof.
  destruct u eqn:Eu; [done|..]; rewrite <- Eu;
    (assert (u ≠ Nil) as Hne by (by subst u));
    (assert (NilZero.string_of_uint u = NilEmpty.string_of_uint u) as -> by (by destruct u));
    split; auto using all_digits_string_of_uint, string_of_uint_nonempty.
Qed.

Lemma int_of_str_string_of_uint u :
  Z.of_nat (nb_digits u) ≤ max_str_digits →
  int_of_str (NilZero.string_of_uint u) = Some (Z.of_uint u).
Proof.
  intros Hu. destruct (string_of_uint_digits u) as [Hd Hne].
  rewrite int_of_str_ascii by (by apply digits_below_127).
  rewrite parse_int_digits by done.
  destruct u as [|u'|u'|u'|u'|u'|u'|u'|u'|u'|u'] eqn:Eu; [done|..];
    (assert (u ≠ Nil) as Hnil by (by subst u)); rewrite <- Eu in *; clear Eu;
    (assert (NilZero.string_of_uint u = NilEmpty.string_of_uint u) as -> by (by destruct u));
    by apply value_of_digits_string_of_uint.
Qed.

(** The decimal digits of a number are no more than its binary digits. *)
Lemma nb_digits_double d :
  (nb_digits (Little.double d) ≤ S (nb_digits d))%nat
  ∧ (nb_digits (Little.succ_double d) ≤ S (nb_digits d))%nat.
Proof. induction d as [|d [IH1 IH2]|d [IH1 IH2]|d [IH1 IH2]|d [IH1 IH2]|d [IH1 IH2]|d [IH1 IH2]|d [IH1 IH2]|d [IH1 IH2]|d [IH1 IH2]|d [IH1 IH2]]; simpl; lia. Qed.

Lemma nb_digits_to_uint p : (nb_digits (Pos.to_uint p) ≤ Pos.size_nat p)%nat.
Proof.
  unfold Pos.to_uint. rewrite nb_digits_rev.
  induction p as [p IH|p IH|]; simpl; [| |lia].
  - pose proof (nb_digits_double (Pos.to_little_uint p)). lia.
  - pose proof (nb_digits_double (Pos.to_little_uint p)). lia.
Qed.

Lemma size_nat_bound p n : Zpos p < 2 ^ Z.of_nat n → (Pos.size_nat p ≤ n)%nat.
Proof.
  revert n. induction p as [p IH|p IH|]; intros [|n] Hp; cbn [Pos.size_nat];
    rewrite ?Nat2Z.inj_succ, ?Z.pow_succ_r in Hp by lia;
    try (change (2 ^ Z.of_nat 0) with 1 in Hp); try lia.
  - specialize (IH n). lia.
  - specialize (IH n). lia.
Qed.

Lemma nb_digits_int64 p : Zpos p ≤ 2 ^ 63 → Z.of_nat (nb_digits (Pos.to_uint p)) ≤ max_str_digits.
Proof.
  intros Hp. pose proof (nb_digits_to_uint p).
  pose proof (size_nat_bound p 64 ltac:(simpl; lia)). unfold max_str_digits. lia.
Qed.

(** [int(str(z)) = z] *)
Lemma int_of_str_of_int z : in_int64 z = true → int_of_str (str_of_int z) = Some z.
Proof.
  unfold in_int64, int64_min, int64_max.
  intros [H1%Z.leb_le H2%Z.leb_le]%andb_true_iff.
  unfold str_of_int. rewrite <- (DecimalZ.of_to z) at 2.
  destruct z as [|p|p]; [reflexivity| |].
  - simpl Z.to_int. simpl NilZero.string_of_int. simpl Z.of_int.
    apply int_of_str_string_of_uint, nb_digits_int64. lia.
  - simpl Z.to_int. simpl NilZero.string_of_int. simpl Z.of_int.
    set (u := Pos.to_uint p). set (t := NilZero.string_of_uint u).
    destruct (string_of_uint_digits u) as [Hd Hne]. fold t in Hd, Hne.
    assert (Z.of_nat (nb_digits u) ≤ max_str_digits) as Hu by (apply nb_digits_int64; lia).
    pose proof (int_of_str_string_of_uint u Hu) as H. fold t in H.
    rewrite int_of_str_ascii in H by (by apply digits_below_127).
    rewrite parse_int_digits in H by done.
    rewrite int_of_str_ascii.
    2:{ simpl. constructor; [done|by apply digits_below_127]. }
    unfold parse_int.
    assert (strip (String "-" t) = String "-" t) as ->.
    { unfold strip. change (lstrip (String "-" t)) with (String "-" t).
      simpl. rewrite (rstrip_digits t Hd). by destruct t. }
    rewrite digitpart_digits by auto. simpl. by rewrite H.
Qed.

(** [str(z)] is a string of digits, after a minus sign when [z] is negative. *)
Lemma str_of_int_shape z :
  all_digits (str_of_int z) = true
  ∨ ∃ t, str_of_int z = String "-" t ∧ all_digits t = true.
Proof.
  unfold str_of_int. destruct (Z.to_int z) as [u|u]; simpl.
  - left. apply string_of_uint_digits.
  - right. eexists. split; [done|]. apply string_of_uint_digits.
Qed.

Lemma str_of_int_not_corsica z : is_corsica (Str (str_of_int z)) = false.
Proof.
  simpl. apply orb_false_iff.
  split; apply bool_decide_eq_false; intros Hs;
    destruct (str_of_int_shape z) as [Hd|(t & Ht & _)]; rewrite Hs in *; done.
Qed.

(** [str(z)] has no leading zero, unless it is "0". *)
Lemma str_of_int_no_leading_zero z c r : str_of_int z ≠ String "0" (String c r).
Proof.
  unfold str_of_int. intros Hs.
  pose proof (DecimalZ.to_of (Z.to_int z)) as Hn. rewrite DecimalZ.of_to in Hn.
  destruct (Z.to_int z) as [u|u]; simpl in Hs; [|done].
  destruct u as [|u| | | | | | | | |]; try done.
  simpl in Hn. injection Hn as Hn. rewrite unorm_D0 in Hn.
  assert (u ≠ Nil) as Hu by (intros ->; done).
  pose proof (nb_digits_unorm u Hu) as Hle. rewrite <- Hn in Hle. simpl in Hle. lia.
Qed.

Lemma leading_zero_digit n :
  1 ≤ n ≤ 9 → object_to_int64 (Str (String "0" (str_of_int n))) = Ok n.
Proof.
  intros Hn.
  assert (n = 1 ∨ n = 2 ∨ n = 3 ∨ n = 4 ∨ n = 5 ∨ n = 6 ∨ n = 7 ∨ n = 8 ∨ n = 9) as H by lia.
  repeat destruct H as [->|H]; try subst n; reflexivity.
Qed.

(** Joins *)

(** Joins *)
Lemma length_positions_of k from ks : length (positions_of k from ks) = count_key k ks.
Proof.
  unfold count_key. revert from. induction ks as [|k' ks IH]; intros from; [done|].
  simpl. case_decide.
  - rewrite filter_cons_True by done. simpl. by rewrite IH.
  - rewrite filter_cons_False by done. apply IH.
Qed.

Lemma length_join_rows_left from lk rk :
  length (join_rows Left from lk rk)
  = sum_list ((fun k => Nat.max 1 (count_key k rk)) <$> lk).
Proof.
  revert from. induction lk as [|k lk IH]; intros from; [done|].
  simpl. rewrite length_app, IH. f_equal.
  rewrite <- (length_positions_of k 0 rk).
  destruct (positions_of k 0 rk) as [|j js]; [done|].
  cbn [length]. rewrite (length_fmap _ js). lia.
Qed.

Lemma count_key_cons k k' ks :
  count_key k (k' :: ks) = ((if decide (k' = k) then 1 else 0) + count_key k ks)%nat.
Proof.
  unfold count_key. case_decide.
  - by rewrite filter_cons_True.
  - by rewrite filter_cons_False.
Qed.

Lemma count_key_pos k ks : k ∈ ks → (1 ≤ count_key k ks)%nat.
Proof.
  induction 1 as [k ks|k k' ks Hin IH]; rewrite count_key_cons.
  - rewrite decide_True by done. lia.
  - lia.
Qed.

Lemma count_key_not_in k ks : k ∉ ks → count_key k ks = 0%nat.
Proof.
  induction ks as [|k' ks IH]; [done|]. intros [Hne Hnin]%not_elem_of_cons.
  rewrite count_key_cons, decide_False by done. by rewrite IH.
Qed.

Lemma count_key_NoDup k ks : NoDup ks → k ∈ ks → count_key k ks = 1%nat.
Proof.
  induction 1 as [|k' ks Hnin Hnd IH]; [by intros ?%elem_of_nil|].
  rewrite count_key_cons. intros [->|Hin]%elem_of_cons.
  - rewrite decide_True by done.
    by rewrite count_key_not_in.
  - rewrite decide_False by (intros ->; done). by rewrite IH.
Qed.

Lemma sum_count_cons r lk rk :
  sum_list ((fun k => count_key k (r :: rk)) <$> lk)
  = (count_key r lk + sum_list ((fun k => count_key k rk) <$> lk))%nat.
Proof.
  induction lk as [|k lk IH]; [done|].
  rewrite !fmap_cons. cbn [sum_list sum_list_with]. rewrite IH.
  rewrite (count_key_cons k r rk), (count_key_cons r k lk).
  destruct (decide (r = k)) as [->|Hne].
  - rewrite decide_True by done. unfold id. lia.
  - rewrite decide_False by (intros ->; done). unfold id. lia.
Qed.

Lemma sum_count_cover lk rk :
  NoDup lk → (∀ k, k ∈ rk → k ∈ lk) →
  sum_list ((fun k => count_key k rk) <$> lk) = length rk.
Proof.
  intros Hnd. induction rk as [|r rk IH]; intros Hsub.
  - simpl. clear. induction lk as [|k lk IHl]; [done|]. simpl. apply IHl.
  - rewrite sum_count_cons, IH by (intros k Hk; apply Hsub; by right).
    rewrite count_key_NoDup; [done|done|]. apply Hsub. by left.
Qed.

Lemma sum_max_count lk rk :
  NoDup lk → (∀ k, k ∈ rk → k ∈ lk) → (∀ k, k ∈ lk → k ∈ rk) →
  sum_list ((fun k => Nat.max 1 (count_key k rk)) <$> lk) = length rk.
Proof.
  intros Hnd Hsub Hsup. rewrite <- (sum_count_cover lk rk Hnd Hsub).
  f_equal. apply list_fmap_ext. intros _ k Hk%list_elem_of_lookup_2.
  pose proof (count_key_pos k rk (Hsup k Hk)). lia.
Qed.

Lemma index_len_RangeIndex n : index_len (RangeIndex n) = n.
Proof. simpl. by rewrite length_fmap, length_seq. Qed.

Lemma length_keys s : length (keys s) = series_len s.
Proof. destruct s; simpl; by rewrite length_fmap. Qed.

Lemma length_merge_keys l r :
  length (merge_keys l r).1 = series_len l ∧ length (merge_keys l r).2 = series_len r.
Proof. split; apply length_keys. Qed.

(** Running a computation step by step *)

(** Running a computation step by step *)
Lemma run_bind_ok {A B} (m : M A) (k : A → M B) σ a σ' :
  m σ = (Ok a, σ') → (m ≫= k) σ = k a σ'.
Proof. intros H. unfold mbind, M_bind. by rewrite H. Qed.

Lemma run_bind_raise {A B} (m : M A) (k : A → M B) σ e σ' :
  m σ = (Raise e, σ') → (m ≫= k) σ = (Raise e, σ').
Proof. intros H. unfold mbind, M_bind. by rewrite H. Qed.

Lemma run_load σ r df : σ !! r = Some df → load r σ = (Ok df, σ).
Proof. intros H. unfold load. by rewrite H. Qed.

Lemma run_lift {A} (x : result A) a σ : x = Ok a → lift x σ = (Ok a, σ).
Proof. by intros ->. Qed.

Lemma run_set_columns σ r names df df' :
  σ !! r = Some df → with_columns df names = Ok df' →
  set_columns r names σ = (Ok (), <[r := df']> σ).
Proof. intros H1 H2. unfold set_columns. unfold_M. by rewrite H1, H2. Qed.

Lemma run_setitem σ r name s df df' :
  σ !! r = Some df → with_column df name s = Ok df' →
  setitem r name s σ = (Ok (), <[r := df']> σ).
Proof. intros H1 H2. unfold setitem. unfold_M. by rewrite H1, H2. Qed.

(** What a computation that returned has done. *)
Lemma bind_ok_inv {A B} (m : M A) (k : A → M B) σ b σ2 :
  (m ≫= k) σ = (Ok b, σ2) → ∃ a σ1, m σ = (Ok a, σ1) ∧ k a σ1 = (Ok b, σ2).
Proof.
  unfold mbind, M_bind. destruct (m σ) as [[a|e] σ1]; [|done]. intros H. by exists a, σ1.
Qed.

Lemma load_ok_inv r σ df σ1 : load r σ = (Ok df, σ1) → σ !! r = Some df ∧ σ1 = σ.
Proof. unfold load. destruct (σ !! r); [|done]. by intros [= -> ->]. Qed.

Lemma lift_ok_inv {A} (x : result A) σ a σ1 : lift x σ = (Ok a, σ1) → x = Ok a ∧ σ1 = σ.
Proof. unfold lift. by intros [= -> ->]. Qed.

Lemma setitem_ok_inv r name s σ u σ1 :
  setitem r name s σ = (Ok u, σ1) →
  ∃ df df', σ !! r = Some df ∧ with_column df name s = Ok df' ∧ σ1 = <[r := df']> σ.
Proof.
  unfold setitem.
  intros (df & σa & (Hr & ->)%load_ok_inv & (df' & σb & (Hw & ->)%lift_ok_inv & H)%bind_ok_inv)%bind_ok_inv.
  unfold update in H. injection H as _ <-. by exists df, df'.
Qed.

Lemma new_ok_inv df σ r σ1 : new df σ = (Ok r, σ1) → r = length σ ∧ σ1 = σ ++ [df].
Proof. unfold new. by intros [= <- <-]. Qed.

Lemma getitem_ok_inv df name s : getitem df name = Ok s → lookup_col name (cols df) = Some s.
Proof. unfold getitem. destruct (lookup_col name (cols df)); [|done]. by intros [= ->]. Qed.

(** Rows of a join *)

(** Rows of a join *)
Lemma positions_of_spec k from ks j :
  j ∈ positions_of k from ks ↔ ∃ i, j = (from + i)%nat ∧ ks !! i = Some k.
Proof.
  revert from. induction ks as [|k' ks IH]; intros from; simpl.
  - split; [by intros ?%elem_of_nil|by intros (i & _ & ?)].
  - assert ((∃ i, j = (from + i)%nat ∧ (k' :: ks) !! i = Some k)
            ↔ (j = from ∧ k' = k) ∨ ∃ i, j = (S from + i)%nat ∧ ks !! i = Some k) as ->.
    { split.
      - intros ([|i] & -> & Hi); simpl in Hi.
        + left. split; [lia|congruence].
        + right. exists i. split; [lia|done].
      - intros [[-> ->]|(i & -> & Hi)].
        + exists 0%nat. split; [lia|done].
        + exists (S i). split; [lia|done]. }
    case_decide as Hk.
    + rewrite elem_of_cons, IH. tauto.
    + rewrite IH. tauto.
Qed.

Lemma positions_of_nil k from ks : k ∉ ks → positions_of k from ks = [].
Proof.
  intros Hk. destruct (positions_of k from ks) as [|j js] eqn:E; [done|].
  assert (j ∈ positions_of k from ks) as Hj by (rewrite E; by left).
  apply positions_of_spec in Hj as (i & _ & Hi).
  destruct Hk. by eapply list_elem_of_lookup_2.
Qed.

Lemma join_rows_left_unmatched from lk rk i k :
  lk !! i = Some k → k ∉ rk → ((from + i)%nat, None) ∈ join_rows Left from lk rk.
Proof.
  revert from i. induction lk as [|k' lk IH]; intros from i Hi Hk; [done|].
  simpl. apply elem_of_app. destruct i as [|i]; simpl in Hi.
  - left. injection Hi as ->. rewrite positions_of_nil by done.
    rewrite Nat.add_0_r. by left.
  - right. replace (from + S i)%nat with (S from + i)%nat by lia. by apply IH.
Qed.

Lemma join_rows_spec h from lk rk i o :
  (i, o) ∈ join_rows h from lk rk →
  ∃ k, (from ≤ i)%nat ∧ lk !! (i - from)%nat = Some k
       ∧ match o with
         | Some j => rk !! j = Some k
         | None => h = Left ∧ k ∉ rk
         end.
Proof.
  revert from. induction lk as [|k lk IH]; intros from; simpl; [by intros ?%elem_of_nil|].
  intros [Hin|Hin]%elem_of_app.
  - assert (i = from ∧ match o with
                        | Some j => rk !! j = Some k
                        | None => h = Left ∧ k ∉ rk
                        end) as [-> Ho].
    { destruct (positions_of k 0 rk) as [|j js] eqn:E.
      - destruct h; [|by apply elem_of_nil in Hin].
        apply list_elem_of_singleton in Hin. injection Hin as -> ->.
        split; [done|]. split; [done|]. intros (p & Hp)%list_elem_of_lookup_1.
        assert (p ∈ positions_of k 0 rk) as Hpp by (apply positions_of_spec; eauto).
        rewrite E in Hpp. by apply elem_of_nil in Hpp.
      - assert ((i, o) ∈ (fun j => (from, Some j)) <$> (j :: js)) as Hin' by (by destruct h).
        apply list_elem_of_fmap in Hin' as (j' & [= -> ->] & Hj').
        split; [done|]. rewrite <- E in Hj'.
        by apply positions_of_spec in Hj' as (? & -> & ?). }
    exists k. rewrite Nat.sub_diag. done.
  - apply IH in Hin as (k' & Hle & Hk' & Ho). exists k'. split; [lia|]. split; [|done].
    replace (i - from)%nat with (S (i - S from)) by lia. done.
Qed.

Lemma join_rows_left_bound h from lk rk :
  Forall (fun i => (i < from + length lk)%nat) (join_rows h from lk rk).*1.
Proof.
  apply Forall_forall. intros i ([i' o] & -> & Hin)%list_elem_of_fmap.
  apply join_rows_spec in Hin as (k & Hle & Hk & _). simpl.
  apply lookup_lt_Some in Hk. lia.
Qed.

Lemma join_rows_matched h from lk rk i j k :
  lk !! i = Some k → rk !! j = Some k → ((from + i)%nat, Some j) ∈ join_rows h from lk rk.
Proof.
  revert from i. induction lk as [|k' lk IH]; intros from i Hi Hj; [done|].
  destruct i as [|i]; simpl in Hi.
  - injection Hi as ->. simpl. apply elem_of_app. left. rewrite Nat.add_0_r.
    assert (j ∈ positions_of k 0 rk) as Hin by (apply positions_of_spec; eauto).
    destruct (positions_of k 0 rk) as [|j' js] eqn:E; [by apply elem_of_nil in Hin|].
    destruct h; apply (list_elem_of_fmap_2 (fun j => (from, Some j)) (j' :: js) j Hin).
  - simpl. apply elem_of_app. right.
    replace (from + S i)%nat with (S from + i)%nat by lia. by apply IH.
Qed.

(** What a left join pairs: each left row with every right row of the same
    key, or with nothing when there is none. *)
Lemma join_rows_left_iff lk rk i o :
  (i, o) ∈ join_rows Left 0 lk rk
  ↔ ∃ k, lk !! i = Some k
         ∧ match o with Some j => rk !! j = Some k | None => k ∉ rk end.
Proof.
  split.
  - intros (k & _ & Hk & Ho)%join_rows_spec. rewrite Nat.sub_0_r in Hk.
    exists k. split; [done|]. destruct o; [done|]. by destruct Ho.
  - intros (k & Hk & Ho). destruct o as [j|].
    + by apply (join_rows_matched Left 0 lk rk i j k).
    + by apply (join_rows_left_unmatched 0 lk rk i k).
Qed.

(** The rows of a join come in the order of the left table. *)
Lemma join_rows_ordered h from lk rk :
  StronglySorted le (join_rows h from lk rk).*1.
Proof.
  revert from. induction lk as [|k lk IH]; intros from; [constructor|].
  pose (block := match positions_of k 0 rk, h with
                 | [], Left => [(from, None)]
                 | js, _ => (fun j => (from, Some j)) <$> js
                 end).
  change (join_rows h from (k :: lk) rk) with (block ++ join_rows h (S from) lk rk).
  assert (Forall (fun r : nat * option nat => r.1 = from) block) as Hblock.
  { unfold block. destruct (positions_of k 0 rk) as [|j js], h;
      first [by repeat constructor | by apply Forall_fmap, Forall_forall]. }
  rewrite fmap_app. apply StronglySorted_app_2.
  - intros a b Ha Hb.
    apply list_elem_of_fmap in Ha as (r & -> & Hr).
    rewrite Forall_forall in Hblock. rewrite (Hblock r Hr).
    apply list_elem_of_fmap in Hb as ([i o] & -> & Hb).
    apply join_rows_spec in Hb as (_ & Hle & _). simpl. lia.
  - clear -Hblock. generalize dependent block. intros block.
    induction 1 as [|r l Hr Hl IHl]; [constructor|].
    simpl. constructor; [done|].
    apply Forall_fmap. eapply Forall_impl; [exact Hl|]. simpl. intros; lia.
  - apply IH.
Qed.

Lemma StronglySorted_le_lookup (l : list nat) p q a b :
  StronglySorted le l → (p ≤ q)%nat → l !! p = Some a → l !! q = Some b → (a ≤ b)%nat.
Proof.
  intros Hs. revert p q. induction Hs as [|x l Hs IH Hall]; intros p q Hpq Hp Hq; [done|].
  destruct p as [|p], q as [|q]; simpl in *; simplify_eq; [done| |lia|].
  - rewrite Forall_forall in Hall. apply Hall. by eapply list_elem_of_lookup_2.
  - apply (IH p q); [lia|done..].
Qed.

Lemma join_rows_inner_matched from lk rk i k :
  lk !! i = Some k → k ∈ rk → ∃ j, ((from + i)%nat, Some j) ∈ join_rows Inner from lk rk.
Proof.
  revert from i. induction lk as [|k' lk IH]; intros from i Hi Hk; [done|].
  destruct i as [|i]; simpl in Hi.
  - injection Hi as ->. apply list_elem_of_lookup_1 in Hk as (j & Hj).
    exists j. simpl. apply elem_of_app. left. rewrite Nat.add_0_r.
    assert (j ∈ positions_of k 0 rk) as Hin by (apply positions_of_spec; eauto).
    destruct (positions_of k 0 rk) as [|j' js] eqn:E; [by apply elem_of_nil in Hin|].
    apply (list_elem_of_fmap_2 (fun j => (from, Some j)) (j' :: js) j Hin).
  - destruct (IH (S from) i Hi Hk) as (j & Hj). exists j. simpl. apply elem_of_app. right.
    by replace (from + S i)%nat with (S from + i)%nat by lia.
Qed.

Lemma length_join_rows_inner from lk rk :
  length (join_rows Inner from lk rk) = sum_list ((fun k => count_key k rk) <$> lk).
Proof.
  revert from. induction lk as [|k lk IH]; intros from; [done|].
  simpl. rewrite length_app, IH. f_equal.
  rewrite <- (length_positions_of k 0 rk).
  destruct (positions_of k 0 rk) as [|j js]; [done|].
  cbn [length]. by rewrite (length_fmap _ js).
Qed.

Lemma count_key_le_1 k ks : NoDup ks → (count_key k ks ≤ 1)%nat.
Proof.
  intros Hnd. destruct (decide (k ∈ ks)).
  - by rewrite count_key_NoDup.
  - rewrite count_key_not_in by done. lia.
Qed.

Lemma length_join_rows_inner_le from lk rk :
  NoDup rk → (length (join_rows Inner from lk rk) ≤ length lk)%nat.
Proof.
  intros Hnd. rewrite length_join_rows_inner.
  induction lk as [|k lk IH]; [done|]. rewrite fmap_cons. simpl.
  pose proof (count_key_le_1 k rk Hnd). unfold id in *. lia.
Qed.

Lemma length_join_rows_left_ge from lk rk :
  (length lk ≤ length (join_rows Left from lk rk))%nat
  ∧ (NoDup rk → length (join_rows Left from lk rk) = length lk).
Proof.
  rewrite length_join_rows_left. split.
  - clear. induction lk as [|k lk IH]; [done|]. rewrite fmap_cons. simpl. lia.
  - intros Hnd. induction lk as [|k lk IH]; [done|]. rewrite fmap_cons. simpl.
    pose proof (count_key_le_1 k rk Hnd). unfold id in *. lia.
Qed.

Lemma filter_all {A} (P : A → Prop) `{∀ x, Decision (P x)} (l : list A) :
  Forall P l → filter P l = l.
Proof. induction 1; [done|]. rewrite filter_cons_True by done. by f_equal. Qed.

Lemma filter_none {A} (P : A → Prop) `{∀ x, Decision (P x)} (l : list A) :
  Forall (fun x => ¬ P x) l → filter P l = [].
Proof. induction 1; [done|]. by rewrite filter_cons_False. Qed.

(** What an inner join pairs: the rows of one key. *)
Lemma join_rows_inner_iff lk rk i o :
  (i, o) ∈ join_rows Inner 0 lk rk
  ↔ ∃ j k, o = Some j ∧ lk !! i = Some k ∧ rk !! j = Some k.
Proof.
  split.
  - intros (k & _ & Hk & Ho)%join_rows_spec. rewrite Nat.sub_0_r in Hk.
    destruct o as [j|]; [by exists j, k|]. by destruct Ho.
  - intros (j & k & -> & Hi & Hj). by apply (join_rows_matched Inner 0 lk rk i j k).
Qed.

Lemma NoDup_positions_of k from ks : NoDup (positions_of k from ks).
Proof.
  revert from. induction ks as [|k' ks IH]; intros from; simpl; [constructor|].
  case_decide; [|apply IH]. constructor; [|apply IH].
  intros (i & Hi & _)%positions_of_spec. lia.
Qed.

(** No pair of rows comes twice. *)
Lemma NoDup_join_rows h from lk rk : NoDup (join_rows h from lk rk).
Proof.
  revert from. induction lk as [|k lk IH]; intros from; [constructor|].
  pose (block := match positions_of k 0 rk, h with
                 | [], Left => [(from, None)]
                 | js, _ => (fun j => (from, Some j)) <$> js
                 end).
  change (join_rows h from (k :: lk) rk) with (block ++ join_rows h (S from) lk rk).
  assert (NoDup block ∧ Forall (fun r : nat * option nat => r.1 = from) block) as [Hnd Hblock].
  { unfold block. pose proof (NoDup_positions_of k 0 rk) as Hp.
    assert (NoDup ((fun j => (from, Some j)) <$> positions_of k 0 rk)
            ∧ Forall (fun r : nat * option nat => r.1 = from)
                ((fun j => (from, Some j)) <$> positions_of k 0 rk)) as [H1 H2].
    { split; [apply NoDup_fmap_2; [by intros ?? [=]|done]|by apply Forall_fmap, Forall_forall]. }
    destruct (positions_of k 0 rk) as [|j js], h;
      first [done | split; [apply NoDup_singleton|by repeat constructor]]. }
  apply NoDup_app. split_and!; [done| |apply IH].
  intros [i o] Hin Hin'. apply join_rows_spec in Hin' as (_ & Hle & _).
  rewrite Forall_forall in Hblock. specialize (Hblock _ Hin). simpl in Hblock. lia.
Qed.

Lemma elem_of_uniques seen ks k :
  k ∈ uniques seen ks ↔ k ∈ ks ∧ k ∉ seen.
Proof.
  revert seen. induction ks as [|k' ks IH]; intros seen; simpl.
  - split; [by intros ?%elem_of_nil|by intros [?%elem_of_nil _]].
  - case_decide as H.
    + rewrite IH, elem_of_cons. split; [tauto|].
      intros [[->|?] ?]; tauto.
    + rewrite elem_of_cons, IH, not_elem_of_cons, elem_of_cons. split.
      * intros [->|(? & ? & ?)]; tauto.
      * intros [[->|?] ?]; [by left|].
        destruct (decide (k = k')); [by left|right; tauto].
Qed.

Lemma NoDup_uniques seen ks : NoDup (uniques seen ks).
Proof.
  revert seen. induction ks as [|k ks IH]; intros seen; simpl; [constructor|].
  case_decide; [apply IH|]. constructor; [|apply IH].
  rewrite elem_of_uniques. intros (_ & H'). apply H'. by left.
Qed.

(** Taking a list key by key rearranges the elements that have one of the
    keys. *)
Lemma bind_filter_Permutation {A} (g : A → option key) (ks : list key) (l : list A) :
  NoDup ks →
  (k ← ks; filter (fun x => g x = Some k) l)
  ≡ₚ filter (fun x => g x ∈ Some <$> ks) l.
Proof.
  induction 1 as [|k ks Hk Hnd IH].
  - simpl. rewrite filter_none; [done|]. apply Forall_forall. intros x _. apply not_elem_of_nil.
  - rewrite bind_cons, IH. clear IH.
    assert (∀ k', Some k' ∈ Some <$> ks ↔ k' ∈ ks) as Hin.
    { intros k'. rewrite list_elem_of_fmap. split; [by intros (? & [= <-] & ?)|by exists k']. }
    induction l as [|x l IHl]; [done|].
    rewrite fmap_cons in *.
    destruct (g x) as [k'|] eqn:Hg.
    + destruct (decide (k' = k)) as [->|Hne].
      * rewrite filter_cons_True by done.
        rewrite (filter_cons_False _ x l) by (rewrite Hg, Hin; done).
        rewrite (filter_cons_True _ x l) by (rewrite Hg; by left).
        simpl. by rewrite IHl.
      * rewrite filter_cons_False by congruence.
        destruct (decide (k' ∈ ks)) as [Hin'|Hnin].
        -- rewrite (filter_cons_True _ x l) by (by rewrite Hg, Hin).
           rewrite (filter_cons_True _ x l) by (rewrite Hg; right; by apply Hin).
           rewrite <- Permutation_middle. by rewrite IHl.
        -- rewrite (filter_cons_False _ x l) by (by rewrite Hg, Hin).
           rewrite (filter_cons_False _ x l); [done|].
           rewrite Hg. intros [?|?%Hin]%elem_of_cons; congruence.
    + rewrite filter_cons_False by congruence.
      rewrite (filter_cons_False _ x l)
        by (rewrite Hg; by intros (? & ? & ?)%list_elem_of_fmap).
      rewrite (filter_cons_False _ x l); [done|].
      rewrite Hg. intros [?|(? & ? & ?)%list_elem_of_fmap]%elem_of_cons; congruence.
Qed.

(** An inner join has the pairs of [join_rows], key by key. *)
Lemma merge_rows_inner lk rk : merge_rows Inner lk rk ≡ₚ join_rows Inner 0 lk rk.
Proof.
  unfold merge_rows.
  rewrite (bind_filter_Permutation (fun p : nat * option nat => lk !! p.1)).
  - rewrite filter_all; [done|]. apply Forall_forall. intros [i o] Hin.
    apply join_rows_spec in Hin as (k & _ & Hk & _). rewrite Nat.sub_0_r in Hk.
    simpl. rewrite Hk. apply list_elem_of_fmap_2.
    apply elem_of_uniques. split; [by eapply list_elem_of_lookup_2|].
    apply not_elem_of_nil.
  - apply NoDup_uniques.
Qed.

Lemma merge_rows_spec h lk rk i o :
  (i, o) ∈ merge_rows h lk rk
  ↔ ∃ k, lk !! i = Some k
         ∧ match o with
           | Some j => rk !! j = Some k
           | None => h = Left ∧ k ∉ rk
           end.
Proof.
  destruct h.
  - unfold merge_rows. rewrite join_rows_left_iff.
    split; intros (k & ? & Ho); exists k; (split; [done|]); destruct o; tauto.
  - rewrite merge_rows_inner, join_rows_inner_iff. split.
    + intros (j & k & -> & ? & ?). by exists k.
    + intros (k & ? & Ho). destruct o as [j|]; [by exists j, k|]. by destruct Ho.
Qed.

Lemma NoDup_merge_rows h lk rk : NoDup (merge_rows h lk rk).
Proof.
  destruct h; [apply NoDup_join_rows|].
  rewrite merge_rows_inner. apply NoDup_join_rows.
Qed.

Lemma merge_rows_bound h lk rk :
  Forall (fun i => (i < length lk)%nat) (merge_rows h lk rk).*1.
Proof.
  apply Forall_forall. intros i ([i' o] & -> & Hin)%list_elem_of_fmap.
  apply merge_rows_spec in Hin as (k & Hk & _). by eapply lookup_lt_Some.
Qed.

Lemma length_merge_rows_inner_le lk rk :
  NoDup rk → (length (merge_rows Inner lk rk) ≤ length lk)%nat.
Proof. rewrite merge_rows_inner. apply length_join_rows_inner_le. Qed.

(** Cells of gathered columns *)

(** Cells of gathered columns *)
Lemma mapM_lookup_Some {A} (xs : list A) (ix : list nat) :
  Forall (fun i => (i < length xs)%nat) ix →
  ∃ ys, mapM (fun i : option nat => i ≫= (xs !!.)) (Some <$> ix) = Some ys
        ∧ ∀ p i, ix !! p = Some i → ys !! p = xs !! i.
Proof.
  intros Hix.
  assert (∃ ys, Forall2 (fun (o : option nat) y => o ≫= (xs !!.) = Some y) (Some <$> ix) ys
                ∧ ∀ p i, ix !! p = Some i → ys !! p = xs !! i) as (ys & Hys & Hl).
  { induction Hix as [|i ix Hi Hix (ys & Hys & Hl)].
    - exists []. split; [constructor|done].
    - destruct (lookup_lt_is_Some_2 xs i Hi) as [x Hx].
      exists (x :: ys). split.
      + rewrite fmap_cons. by constructor.
      + intros [|p] i'; simpl; [by intros [= <-]|apply Hl]. }
  exists ys. split; [by apply mapM_Some_2|done].
Qed.

Lemma iloc_take s ix p i :
  Forall (fun i => (i < series_len s)%nat) ix → ix !! p = Some i →
  iloc (take ix s) p = iloc s i.
Proof.
  intros Hix Hp. unfold take. destruct s as [xs|xs|xs]; simpl in *.
  - destruct (mapM_lookup_Some xs ix Hix) as (ys & Hys & Hl).
    rewrite Hys. simpl. by rewrite (Hl p i Hp).
  - rewrite !list_lookup_fmap, Hp. simpl.
    rewrite Forall_forall in Hix.
    destruct (lookup_lt_is_Some_2 xs i) as [x ->]; [|done].
    apply Hix. by eapply list_elem_of_lookup_2.
  - rewrite !list_lookup_fmap, Hp. simpl.
    rewrite Forall_forall in Hix.
    destruct (lookup_lt_is_Some_2 xs i) as [x ->]; [|done].
    apply Hix. by eapply list_elem_of_lookup_2.
Qed.

Lemma iloc_take_fill_missing s ix p :
  ix !! p = Some None → ∃ o, iloc (take_fill ix s) p = Some o ∧ is_null o = true.
Proof.
  intros Hp. destruct s as [xs|xs|xs]; simpl.
  - assert (mapM (fun i : option nat => i ≫= (xs !!.)) ix = None) as ->.
    { apply mapM_None, Exists_exists. exists None. split; [|done].
      by eapply list_elem_of_lookup_2. }
    exists (Float nan). simpl. by rewrite list_lookup_fmap, Hp.
  - exists (Float nan). by rewrite !list_lookup_fmap, Hp.
  - exists NaN. by rewrite list_lookup_fmap, Hp.
Qed.

Lemma take_fill_object ix xs :
  take_fill ix (SObject xs) = SObject ((fun o : option nat => default NaN (o ≫= (xs !!.))) <$> ix).
Proof. done. Qed.

Lemma lookup_take_object (xs : list object) ix p o :
  o ≠ NaN → iloc (take ix (SObject xs)) p = Some o → ∃ i, ix !! p = Some i ∧ xs !! i = Some o.
Proof.
  intros Ho. rewrite take_object. simpl. rewrite list_lookup_fmap.
  destruct (ix !! p) as [i|]; [|done]. simpl. intros [= H]. exists i. split; [done|].
  destruct (xs !! i); simpl in H; congruence.
Qed.

Lemma take_float ix xs :
  take ix (SFloat64 xs) = SFloat64 ((fun i => default nan (xs !! i)) <$> ix).
Proof. unfold take. simpl. by rewrite <- list_fmap_compose. Qed.

Lemma take_int64 ix xs :
  Forall (fun i => (i < length xs)%nat) ix →
  ∃ ys, take ix (SInt64 xs) = SInt64 ys ∧ length ys = length ix.
Proof.
  intros Hix. pose proof (series_len_take ix (SInt64 xs)) as Hlen. revert Hlen.
  unfold take. simpl. destruct (mapM_lookup_Some xs ix Hix) as (ys & -> & _).
  simpl. intros Hlen. by exists ys.
Qed.

Lemma keys_iloc s p : keys s !! p = key_of_object <$> iloc s p.
Proof.
  destruct s as [xs|xs|xs]; simpl; rewrite list_lookup_fmap; by destruct (xs !! p).
Qed.

Lemma iloc_lt s p : (p < series_len s)%nat → is_Some (iloc s p).
Proof.
  intros Hp. destruct s as [xs|xs|xs]; simpl in *;
    destruct (lookup_lt_is_Some_2 xs p Hp) as [x ->]; by eexists.
Qed.

Lemma iloc_ge s p : (series_len s ≤ p)%nat → iloc s p = None.
Proof.
  intros Hp. destruct s as [xs|xs|xs]; simpl in *; by rewrite lookup_ge_None_2.
Qed.

Lemma keys_take s ix :
  Forall (fun i => (i < series_len s)%nat) ix →
  keys (take ix s) = (fun i => default KNull (keys s !! i)) <$> ix.
Proof.
  intros Hix. apply list_eq. intros p. rewrite keys_iloc, list_lookup_fmap.
  destruct (ix !! p) as [i|] eqn:E.
  - rewrite (iloc_take s ix p i Hix E). cbn [fmap option_fmap option_map].
    rewrite keys_iloc. rewrite Forall_forall in Hix.
    destruct (iloc_lt s i) as [o ->]; [|done].
    apply Hix. by eapply list_elem_of_lookup_2.
  - rewrite iloc_ge; [done|]. rewrite series_len_take. by apply lookup_ge_None.
Qed.

Lemma mask_positions_bound mask :
  Forall (fun i => (i < length mask)%nat) (mask_positions 0 mask).
Proof.
  apply Forall_forall. intros i (i' & -> & Hi)%mask_positions_spec.
  apply lookup_lt_Some in Hi. lia.
Qed.

(** Where a row lands that a mask keeps. *)
Lemma mask_positions_lookup {A} (f : A → bool) (xs : list A) i x :
  xs !! i = Some x → f x = true → ∃ j, mask_positions 0 (f <$> xs) !! j = Some i.
Proof.
  intros Hi Hf. apply list_elem_of_lookup_1, mask_positions_spec. exists i. split; [done|].
  by rewrite list_lookup_fmap, Hi; simpl; rewrite Hf.
Qed.

Lemma filter_mask_lookup {A} (f : A → bool) (d : A) (xs : list A) j i :
  mask_positions 0 (f <$> xs) !! j = Some i →
  filter (fun x => f x = true) xs !! j = Some (default d (xs !! i)).
Proof. intros Hj. rewrite <- (gather_mask0 f d xs). by rewrite list_lookup_fmap, Hj. Qed.

Lemma wf_with_column df name s df' :
  wf df → with_column df name s = Ok df' → wf df'.
Proof.
  intros [Hc Hi] Hw. pose proof (nrows_with_column _ _ _ _ Hw) as Hn.
  unfold with_column in Hw. case_bool_decide as Hlen; [|done]. injection Hw as <-.
  split; cbn [cols index]; rewrite Hn; [|done].
  case_bool_decide.
  - clear -Hc Hlen. induction (cols df) as [|[n t] cs IH]; [done|].
    apply Forall_cons in Hc as [Ht Hcs]. simpl.
    destruct (String.eqb n name); constructor; auto.
  - apply Forall_app. split; [done|]. by constructor.
Qed.

(** The referendum table, filtered, as it goes into the join. *)
Lemma wf_column_len df n s : wf df → lookup_col n (cols df) = Some s → series_len s = nrows df.
Proof.
  intros [Hcols _] Hs. rewrite Forall_forall in Hcols.
  assert (∃ m, (m, s) ∈ cols df) as [m Hm].
  { clear -Hs. induction (cols df) as [|[m t] cs IH]; [done|].
    rewrite lookup_col_cons in Hs. case_decide.
    - injection Hs as ->. exists m. by left.
    - destruct (IH Hs) as [m' ?]. exists m'. by right. }
  apply (Hcols _ Hm).
Qed.

Lemma key_of_int_num z : ∃ m e, key_of_int z = KNum m e.
Proof. destruct z as [|p|p]; simpl; [eauto|destruct (odd_part p); eauto..]. Qed.

Lemma key_of_object_str o s : key_of_object o = KStr s → o = Str s.
Proof.
  destruct o as [|t|z|f|]; simpl; try done.
  - by intros [= ->].
  - destruct (key_of_int_num z) as (m & e & ->). done.
  - destruct f as [sg|sg| |sg m e]; simpl; try done. by destruct (odd_part m).
Qed.

Lemma NoDup_keys_text (l : list object) :
  Forall (fun o => ∃ s, o = Str s) l → NoDup l → NoDup (keys (SObject l)).
Proof.
  intros Htext Hnd. simpl. apply NoDup_fmap_2_strong; [|done].
  rewrite Forall_forall in Htext.
  intros x y Hx Hy. destruct (Htext x Hx) as [s ->], (Htext y Hy) as [t ->]. simpl. congruence.
Qed.

(** Columns by label, again *)

(** The map stage *)
Lemma lookup_col_filter_ne (v on : string) cs :
  v ≠ on → lookup_col v (filter (fun c : string * Series => c.1 ≠ on) cs) = lookup_col v cs.
Proof.
  intros Hv. induction cs as [|[n t] cs IH]; [done|].
  destruct (decide (n = on)) as [->|Hn].
  - rewrite filter_cons_False by (simpl; tauto).
    rewrite lookup_col_cons, decide_False by done. done.
  - rewrite filter_cons_True by done. rewrite !lookup_col_cons, IH. done.
Qed.

Lemma suffixed_nil sfx (cs : list (string * Series)) : suffixed [] sfx <$> cs = cs.
Proof.
  rewrite <- (list_fmap_id cs) at 2. apply list_fmap_ext. intros _ [n t] _.
  unfold suffixed. rewrite bool_decide_false; [done|]. apply not_elem_of_nil.
Qed.

Lemma columns_filter_ne (on : string) (cs : list (string * Series)) :
  (filter (fun c : string * Series => c.1 ≠ on) cs).*1 = filter (fun n => n ≠ on) cs.*1.
Proof.
  induction cs as [|[n s] cs IH]; [done|]. rewrite fmap_cons. cbn [fst].
  destruct (decide (n = on)) as [->|Hn].
  - rewrite !filter_cons_False by (simpl; tauto). done.
  - rewrite !filter_cons_True by done. rewrite fmap_cons. by rewrite IH.
Qed.

Lemma columns_select_rows df ix : columns (select_rows df ix) = columns df.
Proof. unfold columns. simpl. rewrite <- list_fmap_compose. by apply list_fmap_ext. Qed.

Lemma columns_replace_col name s cs : (replace_col name s cs).*1 = cs.*1.
Proof.
  induction cs as [|[n t] cs IH]; [done|]. cbn [replace_col].
  destruct (String.eqb n name); [done|]. rewrite !fmap_cons. by rewrite IH.
Qed.

Lemma replace_col_same name s cs : lookup_col name cs = Some s → replace_col name s cs = cs.
Proof.
  induction cs as [|[n t] cs IH]; [done|]. simpl.
  destruct (String.eqb_spec n name) as [->|Hne]; [by intros [= ->]|].
  intros H. by rewrite IH.
Qed.

Lemma columns_with_column df name s df' n :
  with_column df name s = Ok df' → n ∈ columns df' → n ∈ columns df ∨ n = name.
Proof.
  intros Hw Hn. destruct (decide (n = name)) as [|Hne]; [by right|]. left.
  apply with_column_spec in Hw as (_ & _ & Ho & _).
  unfold columns in *.
  destruct (lookup_col n (cols df)) as [t|] eqn:E; [by eapply lookup_col_Some_elem|].
  rewrite <- (Ho n Hne) in E. by apply lookup_col_None in E.
Qed.

Lemma columns_with_column_in df name s df' :
  with_column df name s = Ok df' → name ∈ columns df → columns df' = columns df.
Proof.
  unfold with_column. case_bool_decide; [|done]. intros [= <-] Hin.
  unfold columns. simpl. rewrite bool_decide_true by done. apply columns_replace_col.
Qed.

Lemma columns_with_column_new df name s df' :
  with_column df name s = Ok df' → name ∉ columns df → columns df' = columns df ++ [name].
Proof.
  intros (_ & _ & _ & Hnew)%with_column_spec Hn. unfold columns.
  rewrite (Hnew Hn). by rewrite fmap_app.
Qed.

Lemma columns_pd_concat a b :
  (∀ n, n ∈ columns b → n ∈ columns a) → columns (pd_concat a b) = columns a.
Proof.
  intros Hsub. unfold columns, pd_concat. simpl. rewrite fmap_app.
  rewrite (filter_none (fun c : string * Series => c.1 ∉ columns a)).
  - rewrite app_nil_r. rewrite <- list_fmap_compose. apply list_fmap_ext. by intros _ [n s] _.
  - apply Forall_forall. intros [n s] Hin Hnot. apply Hnot, Hsub.
    by apply (list_elem_of_fmap_2 fst _ (n, s)).
Qed.

Lemma lookup_col_is_Some n cs : n ∈ cs.*1 → is_Some (lookup_col n cs).
Proof.
  intros Hin. destruct (lookup_col n cs) eqn:E; [by eexists|].
  by apply lookup_col_None in E.
Qed.

(** Setting a column to the value it has changes nothing. *)
Lemma with_column_same df name s :
  lookup_col name (cols df) = Some s → series_len s = nrows df →
  with_column df name s = Ok df.
Proof.
  intros Hs Hlen. unfold with_column. rewrite bool_decide_true by done.
  rewrite bool_decide_true by (by eapply lookup_col_Some_elem).
  rewrite replace_col_same by done. by destruct df.
Qed.

Lemma with_column_len df name s df' : with_column df name s = Ok df' → series_len s = nrows df.
Proof. unfold with_column. by case_bool_decide. Qed.

Lemma run_setitem_same σ r name s df :
  σ !! r = Some df → lookup_col name (cols df) = Some s → series_len s = nrows df →
  setitem r name s σ = (Ok (), σ).
Proof.
  intros Hr Hs Hlen. erewrite run_setitem; [|done|by apply with_column_same].
  by rewrite list_insert_id.
Qed.

Lemma keys_compatible_object xs ys : keys_compatible (SObject xs) (SObject ys) = true.
Proof. unfold keys_compatible. simpl. repeat case_match; done. Qed.

Lemma index_len_join_index n : index_len (join_index n) = n.
Proof.
  unfold join_index. case_bool_decide as Hn; [by subst|]. apply index_len_RangeIndex.
Qed.

Lemma lookup_col_filter_key (on : string) cs :
  lookup_col on (filter (fun c : string * Series => c.1 ≠ on) cs) = None.
Proof.
  apply lookup_col_None. rewrite columns_filter_ne.
  by intros [? _]%list_elem_of_filter.
Qed.

Lemma lookup_col_gathered n (f g : Series → Series) lcols rcols :
  lookup_col n ((prod_map id f <$> lcols) ++ (prod_map id g <$> rcols))
  = match lookup_col n lcols with
    | Some s => Some (f s)
    | None => g <$> lookup_col n rcols
    end.
Proof. rewrite lookup_col_app, !lookup_col_prod_map. by destruct (lookup_col n lcols). Qed.

Lemma columns_gathered (f g : Series → Series) (lcols rcols : list (string * Series)) :
  ((prod_map id f <$> lcols) ++ (prod_map id g <$> rcols)).*1 = lcols.*1 ++ rcols.*1.
Proof.
  rewrite fmap_app, <- !list_fmap_compose.
  f_equal; by apply list_fmap_ext.
Qed.

Lemma iloc_box s i : iloc (SObject (box s)) i = iloc s i.
Proof. destruct s; simpl; by rewrite ?list_lookup_fmap. Qed.

Lemma series_len_box s : length (box s) = series_len s.
Proof. destruct s; simpl; by rewrite ?length_fmap. Qed.

Lemma iloc_coerce_key k other i : iloc (coerce_key k other) i = iloc k i.
Proof. unfold coerce_key. case_match; [apply iloc_box|done]. Qed.

Lemma series_len_coerce_key k other : series_len (coerce_key k other) = series_len k.
Proof. unfold coerce_key. case_match; [apply series_len_box|done]. Qed.

Lemma coerce_key_object xs other : coerce_key (SObject xs) other = SObject xs.
Proof. done. Qed.

Lemma coerce_key_same_kind k other :
  is_object k = is_object other → coerce_key k other = k.
Proof. unfold coerce_key. intros ->. by destruct (is_object other). Qed.

(** The table that a merge on text keys returns when the two tables share
    no other label. *)
Lemma pd_merge_text left right on xs ys h :
  lookup_col on (cols left) = Some (SObject xs) →
  lookup_col on (cols right) = Some (SObject ys) →
  (∀ n : string, n ∈ columns left → n ∈ columns right → n = on) →
  pd_merge left right on h
  = let rows := merge_rows h (keys (SObject xs)) (keys (SObject ys)) in
    Ok (mkDataFrame (join_index (length rows))
          (if bool_decide (nrows left = 0%nat)
           then (prod_map id (take rows.*1) <$> filter (fun c => c.1 ≠ on) (cols left))
                ++ (prod_map id (take_fill rows.*2) <$> cols right)
           else (prod_map id (take rows.*1) <$> cols left)
                ++ (prod_map id (take_fill rows.*2)
                      <$> filter (fun c => c.1 ≠ on) (cols right)))).
Proof.
  intros Hl Hr Hdisj. unfold pd_merge, getitem. rewrite Hl, Hr. cbn [mbind result_bind].
  rewrite keys_compatible_object. unfold merge_keys. cbv zeta.
  assert (filter (fun n => n ∈ columns right ∧ n ≠ on) (columns left) = []) as ->.
  { apply filter_none, Forall_forall. intros n Hn [Hnr Hne]. by apply Hne, Hdisj. }
  rewrite !suffixed_nil, !coerce_key_object, !replace_col_same by done.
  by case_bool_decide.
Qed.

(** What the columns of such a table are. *)
Lemma merged_columns (left right : DataFrame) (on : string) (rows : list (nat * option nat)) out :
  out = mkDataFrame (join_index (length rows))
          (if bool_decide (nrows left = 0%nat)
           then (prod_map id (take rows.*1) <$> filter (fun c => c.1 ≠ on) (cols left))
                ++ (prod_map id (take_fill rows.*2) <$> cols right)
           else (prod_map id (take rows.*1) <$> cols left)
                ++ (prod_map id (take_fill rows.*2)
                      <$> filter (fun c => c.1 ≠ on) (cols right))) →
  nrows out = length rows
  ∧ columns out
    = (if bool_decide (nrows left = 0%nat)
       then filter (fun n => n ≠ on) (columns left) ++ columns right
       else columns left ++ filter (fun n => n ≠ on) (columns right))
  ∧ (∀ n : string, n ≠ on →
       lookup_col n (cols out)
       = match lookup_col n (cols left) with
         | Some s => Some (take rows.*1 s)
         | None => take_fill rows.*2 <$> lookup_col n (cols right)
         end)
  ∧ lookup_col on (cols out)
    = (if bool_decide (nrows left = 0%nat)
       then take_fill rows.*2 <$> lookup_col on (cols right)
       else match lookup_col on (cols left) with
            | Some s => Some (take rows.*1 s)
            | None => None
            end)
  ∧ (nrows left ≠ 0%nat →
     ∀ k col, cols left !! k = Some col → cols out !! k = Some (col.1, take rows.*1 col.2)).
Proof.
  intros ->. split_and!.
  - unfold nrows. cbn [index]. apply index_len_join_index.
  - unfold columns. cbn [cols]. case_bool_decide; by rewrite columns_gathered, columns_filter_ne.
  - intros n Hn. cbn [cols].
    case_bool_decide; by rewrite lookup_col_gathered, lookup_col_filter_ne.
  - cbn [cols]. case_bool_decide; rewrite lookup_col_gathered, lookup_col_filter_key; [done|].
    by destruct (lookup_col on (cols left)).
  - intros Hn k col Hk. cbn [cols]. rewrite bool_decide_false by done.
    rewrite lookup_app_l by (rewrite length_fmap; by eapply lookup_lt_Some).
    by rewrite list_lookup_fmap, Hk.
Qed.

(** ** The area table *)

Lemma mrd_run σ regions departments ixr ixd n1 n2 n3 n4 m1 m2 m3 m4 m5
    r1 rcode rname r4 d1 dcode ddep dname d5 :
  σ !! regions = Some (mkDataFrame ixr [(n1, r1); (n2, rcode); (n3, rname); (n4, r4)]) →
  σ !! departments
    = Some (mkDataFrame ixd [(m1, d1); (m2, dcode); (m3, ddep); (m4, dname); (m5, d5)]) →
  keys_compatible rcode dcode = true →
  merge_regions_and_departments regions departments σ
  = let rows := join_rows Left 0 (keys rcode) (keys dcode) in
    (Ok (length σ),
     (<[departments :=
          mkDataFrame ixd [("id", d1); ("code_reg", dcode); ("code_dep", ddep);
                           ("name_dep", dname); ("slug", d5)]]>
        (<[regions :=
             mkDataFrame ixr [("id", r1); ("code_reg", rcode); ("name_reg", rname);
                              ("slug", r4)]]> σ))
     ++ [mkDataFrame (join_index (length rows))
           (if bool_decide (index_len ixr = 0%nat)
            then [("name_reg", take rows.*1 rname);
                  ("code_reg", take_fill rows.*2 (coerce_key dcode rcode));
                  ("code_dep", take_fill rows.*2 ddep);
                  ("name_dep", take_fill rows.*2 dname)]
            else [("code_reg", take rows.*1 (coerce_key rcode dcode));
                  ("name_reg", take rows.*1 rname);
                  ("code_dep", take_fill rows.*2 ddep);
                  ("name_dep", take_fill rows.*2 dname)])]).
Proof.
  intros Hr Hd Hcompat.
  assert (regions ≠ departments) as Hne by (intros ->; congruence).
  set (dfr' := mkDataFrame ixr [("id", r1); ("code_reg", rcode); ("name_reg", rname); ("slug", r4)]).
  set (dfd' := mkDataFrame ixd [("id", d1); ("code_reg", dcode); ("code_dep", ddep);
                                ("name_dep", dname); ("slug", d5)]).
  set (σ2 := <[departments := dfd']> (<[regions := dfr']> σ)).
  assert (σ2 !! regions = Some dfr') as E1.
  { unfold σ2. rewrite list_lookup_insert_ne by done.
    apply list_lookup_insert_eq. by eapply lookup_lt_Some. }
  assert (σ2 !! departments = Some dfd') as E2.
  { unfold σ2. apply list_lookup_insert_eq. rewrite length_insert. by eapply lookup_lt_Some. }
  assert (length σ2 = length σ) as Hlen by (unfold σ2; by rewrite !length_insert).
  cbv zeta.
  set (rows := join_rows Left 0 (keys rcode) (keys dcode)).
  assert (pd_merge (mkDataFrame ixr [("code_reg", rcode); ("name_reg", rname)])
            (mkDataFrame ixd [("code_reg", dcode); ("code_dep", ddep); ("name_dep", dname)])
            "code_reg" Left
          = Ok (mkDataFrame (join_index (length rows))
                  (if bool_decide (index_len ixr = 0%nat)
                   then [("name_reg", take rows.*1 rname);
                         ("code_reg", take_fill rows.*2 (coerce_key dcode rcode));
                         ("code_dep", take_fill rows.*2 ddep);
                         ("name_dep", take_fill rows.*2 dname)]
                   else [("code_reg", take rows.*1 (coerce_key rcode dcode));
                         ("name_reg", take rows.*1 rname);
                         ("code_dep", take_fill rows.*2 ddep);
                         ("name_dep", take_fill rows.*2 dname)]))) as Hmerge.
  { unfold pd_merge, merge_keys, merge_rows.
    cbn [getitem cols lookup_col String.eqb Ascii.eqb Bool.eqb mbind result_bind].
    rewrite Hcompat. unfold nrows. cbn [index].
    destruct (bool_decide (index_len ixr = 0%nat)); reflexivity. }
  unfold merge_regions_and_departments.
  erewrite run_bind_ok; [|by eapply run_set_columns].
  erewrite run_bind_ok;
    [|eapply run_set_columns; [by rewrite list_lookup_insert_ne|reflexivity]].
  fold dfr' dfd' σ2.
  erewrite run_bind_ok; [|by apply run_load].
  erewrite run_bind_ok; [|by apply run_lift].
  erewrite run_bind_ok; [|by apply run_load].
  erewrite run_bind_ok; [|by apply run_lift].
  erewrite run_bind_ok.
  2:{ apply run_lift. exact Hmerge. }
  unfold new. rewrite <- Hlen. reflexivity.
Qed.

(** C1, as the code has it: the region table is the left side of the join.
    The output of [merge_regions_and_departments] has, for each row of the
    region table, one row per department row with the same region code
    (the codes compared exactly), or one row if there is none.  It has
    exactly as many rows as the department table when the region codes are
    pairwise distinct, every department's region code is the code of a
    region, and every region has a department.  Its columns are the code
    and the name of the region, then the code and the name of the
    department; when the region table has no row, the name of the region
    comes before its code. *)
Theorem merged_area_row_count
    (σ : list DataFrame) (regions departments : nat) (ixr ixd : Index)
    (n1 n2 n3 n4 m1 m2 m3 m4 m5 : string)
    (r1 rcode rname r4 d1 dcode ddep dname d5 : Series) :
  σ !! regions = Some (mkDataFrame ixr [(n1, r1); (n2, rcode); (n3, rname); (n4, r4)]) →
  σ !! departments
    = Some (mkDataFrame ixd [(m1, d1); (m2, dcode); (m3, ddep); (m4, dname); (m5, d5)]) →
  keys_compatible rcode dcode = true →
  ∃ (out : DataFrame) (σ' : list DataFrame),
    merge_regions_and_departments regions departments σ = (Ok (length σ), σ' ++ [out])
    ∧ length σ' = length σ
    ∧ columns out
      = (if bool_decide (index_len ixr = 0%nat)
         then ["name_reg"; "code_reg"; "code_dep"; "name_dep"]
         else ["code_reg"; "name_reg"; "code_dep"; "name_dep"])
    ∧ nrows out
      = sum_list ((fun k => Nat.max 1 (count_key k (keys dcode))) <$> keys rcode)
    ∧ (NoDup (keys rcode) →
       (∀ k, k ∈ keys dcode → k ∈ keys rcode) →
       (∀ k, k ∈ keys rcode → k ∈ keys dcode) →
       nrows out = series_len dcode).
Proof.
  intros Hr Hd Hcompat.
  pose proof (mrd_run σ regions departments ixr ixd n1 n2 n3 n4 m1 m2 m3 m4 m5
                r1 rcode rname r4 d1 dcode ddep dname d5 Hr Hd Hcompat) as Hrun.
  cbv zeta in Hrun.
  set (rows := join_rows Left 0 (keys rcode) (keys dcode)) in *.
  match type of Hrun with _ = (_, ?s ++ [?o]) => set (out := o) in *; set (σ2 := s) in * end.
  exists out, σ2. split; [exact Hrun|].
  split; [unfold σ2; by rewrite !length_insert|].
  split; [unfold out, columns; cbn [cols]; by case_bool_decide|].
  assert (nrows out
          = sum_list ((fun k => Nat.max 1 (count_key k (keys dcode))) <$> keys rcode)) as Hn.
  { unfold nrows, out. cbn [index]. rewrite index_len_join_index.
    apply length_join_rows_left. }
  split; [exact Hn|].
  intros Hnd Hsub Hsup. rewrite Hn.
  rewrite sum_max_count by done. apply length_keys.
Qed.

Lemma merged_area_row_count_witness :
  ∃ (out : DataFrame) (σ' : list DataFrame),
    merge_regions_and_departments 0 1 [ex_regions; ex_departments_listed]
    = (Ok 2%nat, σ' ++ [out])
    ∧ columns out = ["code_reg"; "name_reg"; "code_dep"; "name_dep"]
    ∧ nrows out = 3%nat.
Proof.
  destruct (merged_area_row_count [ex_regions; ex_departments_listed] 0 1
              (RangeIndex 2) (RangeIndex 3) "id" "code" "name" "slug"
              "id" "region_code" "code" "name" "slug"
              (SInt64 [1; 2]) (strs ["84"; "94"])
              (strs ["Auvergne-Rhone-Alpes"; "Corse"]) (strs ["ara"; "corse"])
              (SInt64 [1; 2; 3]) (strs ["84"; "84"; "94"]) (strs ["01"; "03"; "2A"])
              (strs ["Ain"; "Allier"; "Corse-du-Sud"])
              (strs ["ain"; "allier"; "corse-du-sud"]))
    as (out & σ' & Hrun & _ & Hcols & _ & Hn); [reflexivity..|].
  exists out, σ'. split; [exact Hrun|]. split; [exact Hcols|].
  apply Hn.
  - apply (bool_decide_unpack _). reflexivity.
  - apply Forall_forall, (bool_decide_unpack _). reflexivity.
  - apply Forall_forall, (bool_decide_unpack _). reflexivity.
Defined.

(** C1 fails as stated: a department whose region is not in the region
    table has no row in the output. *)
Lemma merged_area_row_count_counterexample :
  ∃ out : DataFrame,
    (merge_regions_and_departments 0 1 ex_store).1 = Ok 3%nat
    ∧ (merge_regions_and_departments 0 1 ex_store).2 !! 3%nat = Some out
    ∧ nrows out = 3%nat
    ∧ nrows ex_departments = 4%nat.
Proof. eexists. split_and!; reflexivity. Qed.

(** X6: the table that [merge_regions_and_departments] returns pairs each
    row of the region table with every row of the department table that has
    the same region code, and with nothing when there is none; its rows come
    in the order of the region table and are numbered from 0.  A row of the
    result carries the code and the name of its region and the code and the
    name of its department, or missing values in place of the latter.  The
    columns come in this order, but for a region table without rows the
    region's name comes first (and the table is empty). *)
Theorem merged_area_rows
    (σ : list DataFrame) (regions departments : nat) (ixr ixd : Index)
    (n1 n2 n3 n4 m1 m2 m3 m4 m5 : string)
    (r1 rcode rname r4 d1 dcode d5 : Series) (ddep dname : list object) :
  σ !! regions = Some (mkDataFrame ixr [(n1, r1); (n2, rcode); (n3, rname); (n4, r4)]) →
  σ !! departments
    = Some (mkDataFrame ixd [(m1, d1); (m2, dcode); (m3, SObject ddep);
                             (m4, SObject dname); (m5, d5)]) →
  keys_compatible rcode dcode = true →
  series_len rcode = index_len ixr →
  series_len rname = index_len ixr →
  length ddep = series_len dcode → length dname = series_len dcode →
  ∃ (out : DataFrame) (σ' : list DataFrame) (rows : list (nat * option nat))
    (code_reg name_reg code_dep name_dep : Series),
    merge_regions_and_departments regions departments σ = (Ok (length σ), σ' ++ [out])
    ∧ cols out
      = (if bool_decide (index_len ixr = 0%nat)
         then [("name_reg", name_reg); ("code_reg", code_reg);
               ("code_dep", code_dep); ("name_dep", name_dep)]
         else [("code_reg", code_reg); ("name_reg", name_reg);
               ("code_dep", code_dep); ("name_dep", name_dep)])
    ∧ index out = join_index (length rows)
    ∧ nrows out = length rows
    ∧ (index_len ixr = 0%nat → rows = [])
    ∧ (∀ (i : nat) (o : option nat),
         (i, o) ∈ rows
         ↔ ∃ k : key,
             keys rcode !! i = Some k
             ∧ match o with
               | Some j => keys dcode !! j = Some k
               | None => k ∉ keys dcode
               end)
    ∧ NoDup rows
    ∧ (∀ (p q i i' : nat) (o o' : option nat),
         (p ≤ q)%nat → rows !! p = Some (i, o) → rows !! q = Some (i', o') → (i ≤ i')%nat)
    ∧ (∀ (p i : nat) (o : option nat),
         rows !! p = Some (i, o) →
         iloc code_reg p = iloc rcode i
         ∧ iloc name_reg p = iloc rname i
         ∧ match o with
           | Some j => iloc code_dep p = ddep !! j ∧ iloc name_dep p = dname !! j
           | None => iloc code_dep p = Some NaN ∧ iloc name_dep p = Some NaN
           end).
Proof.
  intros Hr Hd Hcompat Hlcode Hlname Hldep Hlnamed.
  pose proof (mrd_run σ regions departments ixr ixd n1 n2 n3 n4 m1 m2 m3 m4 m5
                r1 rcode rname r4 d1 dcode (SObject ddep) (SObject dname) d5 Hr Hd Hcompat)
    as Hrun.
  cbv zeta in Hrun.
  set (lk := keys rcode) in *. set (rk := keys dcode) in *.
  pose proof (length_keys rcode) as Hllk. pose proof (length_keys dcode) as Hlrk.
  fold lk in Hllk. fold rk in Hlrk.
  set (rows := join_rows Left 0 lk rk) in *.
  assert (Forall (fun i => (i < series_len rcode)%nat) rows.*1) as Hbound.
  { pose proof (join_rows_left_bound Left 0 lk rk) as Hb. by rewrite Hllk in Hb. }
  assert (index_len ixr = 0%nat → rows = []) as Hempty.
  { intros H0. rewrite <- Hlcode, <- Hllk in H0. unfold rows. by destruct lk. }
  assert (∀ (p i : nat) (o : option nat),
         rows !! p = Some (i, o) →
         iloc (take rows.*1 rname) p = iloc rname i
         ∧ match o with
           | Some j => iloc (take_fill rows.*2 (SObject ddep)) p = ddep !! j
                       ∧ iloc (take_fill rows.*2 (SObject dname)) p = dname !! j
           | None => iloc (take_fill rows.*2 (SObject ddep)) p = Some NaN
                     ∧ iloc (take_fill rows.*2 (SObject dname)) p = Some NaN
           end) as Hcells.
  { intros p i o Hp.
    assert (rows.*1 !! p = Some i) as Hp1 by (by rewrite list_lookup_fmap, Hp).
    assert (rows.*2 !! p = Some o) as Hp2 by (by rewrite list_lookup_fmap, Hp).
    split; [apply iloc_take; [by rewrite Hlname, <- Hlcode|done]|].
    assert (∀ xs : list object,
              iloc (take_fill rows.*2 (SObject xs)) p
              = Some (default NaN (o ≫= (xs !!.)))) as Hcell.
    { intros xs. rewrite take_fill_object. cbn [iloc]. by rewrite list_lookup_fmap, Hp2. }
    rewrite !Hcell.
    destruct o as [j|]; [|done].
    assert (j < series_len dcode)%nat as Hj.
    { apply list_elem_of_lookup_2, join_rows_spec in Hp as (k & _ & _ & Hk).
      apply lookup_lt_Some in Hk. by rewrite Hlrk in Hk. }
    cbn [mbind option_bind].
    destruct (lookup_lt_is_Some_2 ddep j) as [x ->]; [lia|].
    destruct (lookup_lt_is_Some_2 dname j) as [y ->]; [lia|]. done. }
  eexists _, _, rows,
    (if bool_decide (index_len ixr = 0%nat)
     then take_fill rows.*2 (coerce_key dcode rcode)
     else take rows.*1 (coerce_key rcode dcode)), _, _, _.
  split; [exact Hrun|].
  split; [cbn [cols]; case_bool_decide; reflexivity|].
  split; [reflexivity|].
  split; [unfold nrows; cbn [index]; apply index_len_join_index|].
  split; [exact Hempty|].
  split; [apply join_rows_left_iff|].
  split; [apply NoDup_join_rows|].
  split.
  - intros p q i i' o o' Hpq Hp Hq.
    apply (StronglySorted_le_lookup rows.*1 p q); [apply join_rows_ordered|done|..];
      rewrite list_lookup_fmap; [by rewrite Hp|by rewrite Hq].
  - intros p i o Hp. destruct (Hcells p i o Hp) as [H1 H2].
    split; [|by split].
    case_bool_decide as H0; [by rewrite (Hempty H0) in Hp|].
    assert (rows.*1 !! p = Some i) as Hp1 by (by rewrite list_lookup_fmap, Hp).
    rewrite <- (iloc_coerce_key rcode dcode).
    apply iloc_take; [by rewrite series_len_coerce_key|done].
Qed.

Lemma merged_area_rows_witness :
  ∃ (out : DataFrame) (σ' : list DataFrame) (rows : list (nat * option nat))
    (code_reg name_reg code_dep name_dep : Series),
    merge_regions_and_departments 0 1 ex_store = (Ok 3%nat, σ' ++ [out])
    ∧ cols out = [("code_reg", code_reg); ("name_reg", name_reg);
                  ("code_dep", code_dep); ("name_dep", name_dep)]
    ∧ nrows out = length rows
    ∧ (∀ (p i : nat) (o : option nat),
         rows !! p = Some (i, o) →
         iloc code_reg p = iloc (strs ["84"; "94"]) i
         ∧ iloc name_reg p = iloc (strs ["Auvergne-Rhone-Alpes"; "Corse"]) i
         ∧ match o with
           | Some j => iloc code_dep p = (Str <$> ["01"; "03"; "2A"; "971"]) !! j
                       ∧ iloc name_dep p
                         = (Str <$> ["Ain"; "Allier"; "Corse-du-Sud"; "Guadeloupe"]) !! j
           | None => iloc code_dep p = Some NaN ∧ iloc name_dep p = Some NaN
           end).
Proof.
  destruct (merged_area_rows ex_store 0 1 (RangeIndex 2) (RangeIndex 4)
              "id" "code" "name" "slug" "id" "region_code" "code" "name" "slug"
              (SInt64 [1; 2]) (strs ["84"; "94"])
              (strs ["Auvergne-Rhone-Alpes"; "Corse"]) (strs ["ara"; "corse"])
              (SInt64 [1; 2; 3; 4]) (strs ["84"; "84"; "94"; "01"])
              (strs ["ain"; "allier"; "corse-du-sud"; "guadeloupe"])
              (Str <$> ["01"; "03"; "2A"; "971"])
              (Str <$> ["Ain"; "Allier"; "Corse-du-Sud"; "Guadeloupe"]))
    as (out & σ' & rows & c1 & c2 & c3 & c4 & Hrun & Hcols & _ & Hn & _ & _ & _ & _ & Hcells);
    [reflexivity..|].
  exists out, σ', rows, c1, c2, c3, c4. split_and!; [exact Hrun|exact Hcols|exact Hn|exact Hcells].
Defined.

(** X7: [merge_regions_and_departments] can be called again on the tables
    it has relabelled: the second call finds the labels it would set, leaves
    both tables and the first result as they are, and returns a new table
    equal to the first. *)
Theorem area_merge_repeatable
    (σ : list DataFrame) (regions departments : nat) (ixr ixd : Index)
    (n1 n2 n3 n4 m1 m2 m3 m4 m5 : string)
    (r1 rcode rname r4 d1 dcode ddep dname d5 : Series) :
  σ !! regions = Some (mkDataFrame ixr [(n1, r1); (n2, rcode); (n3, rname); (n4, r4)]) →
  σ !! departments
    = Some (mkDataFrame ixd [(m1, d1); (m2, dcode); (m3, ddep); (m4, dname); (m5, d5)]) →
  keys_compatible rcode dcode = true →
  ∃ (out : DataFrame) (σ1 : list DataFrame),
    merge_regions_and_departments regions departments σ = (Ok (length σ), σ1 ++ [out])
    ∧ length σ1 = length σ
    ∧ merge_regions_and_departments regions departments (σ1 ++ [out])
      = (Ok (S (length σ)), (σ1 ++ [out]) ++ [out]).
Proof.
  intros Hr Hd Hcompat.
  assert (regions ≠ departments) as Hne by (intros ->; congruence).
  pose proof (mrd_run σ regions departments ixr ixd n1 n2 n3 n4 m1 m2 m3 m4 m5
                r1 rcode rname r4 d1 dcode ddep dname d5 Hr Hd Hcompat) as Hrun.
  cbv zeta in Hrun.
  set (dfr' := mkDataFrame ixr [("id", r1); ("code_reg", rcode); ("name_reg", rname); ("slug", r4)])
    in *.
  set (dfd' := mkDataFrame ixd [("id", d1); ("code_reg", dcode); ("code_dep", ddep);
                                ("name_dep", dname); ("slug", d5)]) in *.
  set (σ1 := <[departments := dfd']> (<[regions := dfr']> σ)) in *.
  match type of Hrun with _ = (_, _ ++ [?o]) => set (out := o) in * end.
  assert (length σ1 = length σ) as Hlen by (unfold σ1; by rewrite !length_insert).
  assert (σ1 !! regions = Some dfr') as E1.
  { unfold σ1. rewrite list_lookup_insert_ne by done.
    apply list_lookup_insert_eq. by eapply lookup_lt_Some. }
  assert (σ1 !! departments = Some dfd') as E2.
  { unfold σ1. apply list_lookup_insert_eq. rewrite length_insert. by eapply lookup_lt_Some. }
  exists out, σ1. split; [exact Hrun|]. split; [exact Hlen|].
  assert ((σ1 ++ [out]) !! regions = Some dfr') as F1
    by (rewrite lookup_app_l; [done|by eapply lookup_lt_Some]).
  assert ((σ1 ++ [out]) !! departments = Some dfd') as F2
    by (rewrite lookup_app_l; [done|by eapply lookup_lt_Some]).
  rewrite (mrd_run (σ1 ++ [out]) regions departments ixr ixd
             "id" "code_reg" "name_reg" "slug" "id" "code_reg" "code_dep" "name_dep" "slug"
             r1 rcode rname r4 d1 dcode ddep dname d5 F1 F2 Hcompat).
  cbv zeta. fold dfr' dfd' out.
  rewrite (list_insert_id (σ1 ++ [out]) regions dfr' F1).
  rewrite (list_insert_id (σ1 ++ [out]) departments dfd' F2).
  rewrite length_app, Hlen. simpl. by rewrite Nat.add_1_r.
Qed.

Lemma area_merge_repeatable_witness :
  ∃ (out : DataFrame) (σ1 : list DataFrame),
    merge_regions_and_departments 0 1 ex_store = (Ok 3%nat, σ1 ++ [out])
    ∧ length σ1 = 3%nat
    ∧ merge_regions_and_departments 0 1 (σ1 ++ [out]) = (Ok 4%nat, (σ1 ++ [out]) ++ [out]).
Proof.
  apply (area_merge_repeatable ex_store 0 1 (RangeIndex 2) (RangeIndex 4)
           "id" "code" "name" "slug" "id" "region_code" "code" "name" "slug"
           (SInt64 [1; 2]) (strs ["84"; "94"])
           (strs ["Auvergne-Rhone-Alpes"; "Corse"]) (strs ["ara"; "corse"])
           (SInt64 [1; 2; 3; 4]) (strs ["84"; "84"; "94"; "01"])
           (strs ["01"; "03"; "2A"; "971"])
           (strs ["Ain"; "Allier"; "Corse-du-Sud"; "Guadeloupe"])
           (strs ["ain"; "allier"; "corse-du-sud"; "guadeloupe"])); reflexivity.
Defined.

Lemma with_columns_mismatch df names :
  length names ≠ length (cols df) → with_columns df names = Raise ValueError.
Proof. intros H. unfold with_columns. by rewrite bool_decide_false. Qed.

Lemma run_set_columns_mismatch σ r names df :
  σ !! r = Some df → length names ≠ length (cols df) →
  set_columns r names σ = (Raise ValueError, σ).
Proof.
  intros H1 H2. unfold set_columns. unfold_M. by rewrite H1, with_columns_mismatch.
Qed.

Lemma length_cols_with_columns df names df' :
  with_columns df names = Ok df' → length (cols df') = length (cols df).
Proof.
  intros (_ & _ & H)%with_columns_names.
  by rewrite <- (length_fmap snd (cols df')), H, length_fmap.
Qed.

(** X1: [merge_regions_and_departments] raises [ValueError] when the
    region table has not exactly four columns, and then changes nothing; it
    also raises [ValueError] when the region table has four columns but the
    department table has not exactly five (as when one table is passed for
    both), and then the region table has already been relabelled. *)
Theorem relabel_length_mismatch
    (σ : list DataFrame) (regions departments : nat) (dfr : DataFrame) :
  σ !! regions = Some dfr →
  (length (cols dfr) ≠ 4%nat →
   merge_regions_and_departments regions departments σ = (Raise ValueError, σ))
  ∧ (length (cols dfr) = 4%nat →
     departments = regions
     ∨ (∃ dfd, σ !! departments = Some dfd ∧ length (cols dfd) ≠ 5%nat) →
     ∃ dfr' : DataFrame,
       merge_regions_and_departments regions departments σ
       = (Raise ValueError, <[regions := dfr']> σ)
       ∧ columns dfr' = ["id"; "code_reg"; "name_reg"; "slug"]
       ∧ relabelled dfr dfr').
Proof.
  intros Hr. split.
  - intros Hn. unfold merge_regions_and_departments.
    erewrite run_bind_raise; [done|]. by eapply run_set_columns_mismatch.
  - intros H4 Hd.
    destruct (with_columns_ok dfr ["id"; "code_reg"; "name_reg"; "slug"]) as [dfr' Hr'];
      [done|].
    pose proof (length_cols_with_columns _ _ _ Hr') as Hlen.
    pose proof (with_columns_names _ _ _ Hr') as (Hnames & Hix & Hdata).
    exists dfr'. split; [|by split].
    unfold merge_regions_and_departments.
    erewrite run_bind_ok; [|by eapply run_set_columns].
    erewrite run_bind_raise; [done|].
    destruct Hd as [->|(dfd & Hdfd & H5)].
    + eapply run_set_columns_mismatch.
      * apply list_lookup_insert_eq. by eapply lookup_lt_Some.
      * rewrite Hlen, H4. simpl. lia.
    + destruct (decide (departments = regions)) as [->|Hne].
      * rewrite Hr in Hdfd. injection Hdfd as <-.
        eapply run_set_columns_mismatch.
        -- apply list_lookup_insert_eq. by eapply lookup_lt_Some.
        -- rewrite Hlen, H4. simpl. lia.
      * eapply run_set_columns_mismatch; [by rewrite list_lookup_insert_ne|done].
Qed.

Lemma relabel_length_mismatch_witness :
  merge_regions_and_departments 1 0 ex_store = (Raise ValueError, ex_store)
  ∧ ∃ dfr' : DataFrame,
      merge_regions_and_departments 0 0 ex_store
      = (Raise ValueError, <[0%nat := dfr']> ex_store)
      ∧ columns dfr' = ["id"; "code_reg"; "name_reg"; "slug"]
      ∧ relabelled ex_regions dfr'.
Proof.
  split.
  - apply (relabel_length_mismatch ex_store 1 0 ex_departments); [reflexivity|].
    simpl. lia.
  - apply (relabel_length_mismatch ex_store 0 0 ex_regions); [reflexivity..|]. by left.
Defined.

Lemma keys_incompatible_text_numeric (xs : list object) (num : Series) :
  string_like xs = true → (∀ ys, num ≠ SObject ys) → series_len num ≠ 0%nat →
  keys_compatible (SObject xs) num = false ∧ keys_compatible num (SObject xs) = false.
Proof.
  intros Htext Hnum Hlen.
  assert (xs ≠ []) as Hxs by (intros ->; done).
  assert (length xs ≠ 0%nat) as Hlx by (by destruct xs).
  unfold keys_compatible.
  destruct num as [ys|ys|ys]; [| |by destruct (Hnum ys)]; simpl in *;
    rewrite !(bool_decide_false (length xs = 0%nat)) by done;
    rewrite !(bool_decide_false (length ys = 0%nat)) by done;
    simpl; by rewrite Htext.
Qed.

(** X19: when one of the two tables has its region codes as text and the
    other has them as numbers (as when only one of the files holds a code
    that is no number), [merge_regions_and_departments] raises
    [ValueError] at the merge: both tables have been relabelled and no
    table is created. *)
Theorem region_codes_of_two_kinds
    (σ : list DataFrame) (regions departments : nat) (ixr ixd : Index)
    (n1 n2 n3 n4 m1 m2 m3 m4 m5 : string)
    (r1 rcode rname r4 d1 dcode ddep dname d5 : Series) (xs : list object) (num : Series) :
  σ !! regions = Some (mkDataFrame ixr [(n1, r1); (n2, rcode); (n3, rname); (n4, r4)]) →
  σ !! departments
    = Some (mkDataFrame ixd [(m1, d1); (m2, dcode); (m3, ddep); (m4, dname); (m5, d5)]) →
  (rcode = SObject xs ∧ dcode = num) ∨ (rcode = num ∧ dcode = SObject xs) →
  string_like xs = true → (∀ ys, num ≠ SObject ys) → series_len num ≠ 0%nat →
  merge_regions_and_departments regions departments σ
  = (Raise ValueError,
     <[departments :=
         mkDataFrame ixd [("id", d1); ("code_reg", dcode); ("code_dep", ddep);
                          ("name_dep", dname); ("slug", d5)]]>
       (<[regions :=
            mkDataFrame ixr [("id", r1); ("code_reg", rcode); ("name_reg", rname);
                             ("slug", r4)]]> σ)).
Proof.
  intros Hr Hd Hkinds Htext Hnum Hlen.
  assert (keys_compatible rcode dcode = false) as Hcompat.
  { destruct (keys_incompatible_text_numeric xs num Htext Hnum Hlen) as [H1 H2].
    by destruct Hkinds as [[-> ->]|[-> ->]]. }
  assert (regions ≠ departments) as Hne by (intros ->; congruence).
  set (dfr' := mkDataFrame ixr [("id", r1); ("code_reg", rcode); ("name_reg", rname); ("slug", r4)]).
  set (dfd' := mkDataFrame ixd [("id", d1); ("code_reg", dcode); ("code_dep", ddep);
                                ("name_dep", dname); ("slug", d5)]).
  set (σ2 := <[departments := dfd']> (<[regions := dfr']> σ)).
  assert (σ2 !! regions = Some dfr') as E1.
  { unfold σ2. rewrite list_lookup_insert_ne by done.
    apply list_lookup_insert_eq. by eapply lookup_lt_Some. }
  assert (σ2 !! departments = Some dfd') as E2.
  { unfold σ2. apply list_lookup_insert_eq. rewrite length_insert. by eapply lookup_lt_Some. }
  unfold merge_regions_and_departments.
  erewrite run_bind_ok; [|by eapply run_set_columns].
  erewrite run_bind_ok;
    [|eapply run_set_columns; [by rewrite list_lookup_insert_ne|reflexivity]].
  fold dfr' dfd' σ2.
  erewrite run_bind_ok; [|by apply run_load].
  erewrite run_bind_ok; [|by apply run_lift].
  erewrite run_bind_ok; [|by apply run_load].
  erewrite run_bind_ok; [|by apply run_lift].
  erewrite run_bind_raise; [done|].
  unfold lift, pd_merge. cbn [getitem cols lookup_col String.eqb Ascii.eqb Bool.eqb
    mbind result_bind]. by rewrite Hcompat.
Qed.

Lemma region_codes_of_two_kinds_witness :
  ∃ σ' : list DataFrame,
    merge_regions_and_departments 0 1 [ex_regions; ex_departments_numeric]
    = (Raise ValueError, σ')
    ∧ length σ' = 2%nat.
Proof.
  eexists. split.
  - apply (region_codes_of_two_kinds _ 0 1 (RangeIndex 2) (RangeIndex 2)
             "id" "code" "name" "slug" "id" "region_code" "code" "name" "slug"
             (SInt64 [1; 2]) (strs ["84"; "94"])
             (strs ["Auvergne-Rhone-Alpes"; "Corse"]) (strs ["ara"; "corse"])
             (SInt64 [1; 2]) (SInt64 [84; 84]) (strs ["01"; "03"])
             (strs ["Ain"; "Allier"]) (strs ["ain"; "allier"])
             (Str <$> ["84"; "94"]) (SInt64 [84; 84]));
      [reflexivity|reflexivity|by left|reflexivity|discriminate|discriminate].
  - reflexivity.
Defined.

(** ** The merged table *)

Lemma suffix_x_not_code_dep (n : string) : (n ++ "_x")%string ≠ "code_dep".
Proof.
  intros H.
  do 8 (destruct n as [|? n]; simpl in H; [discriminate H|]; injection H as _ H).
  destruct n; discriminate H.
Qed.

Lemma lookup_col_suffixed overlap sfx v cs :
  v ∉ overlap → (∀ n : string, (n ++ sfx)%string ≠ v) →
  lookup_col v (suffixed overlap sfx <$> cs) = lookup_col v cs.
Proof.
  intros Hv Hs. induction cs as [|[n t] cs IH]; [done|].
  rewrite fmap_cons. unfold suffixed at 1. cbn [fst snd].
  rewrite !lookup_col_cons, IH. case_bool_decide as Hin.
  - rewrite decide_False by apply Hs. rewrite decide_False; [done|]. by intros ->.
  - done.
Qed.

Lemma join_areas_run σ areas left rd rd' out :
  σ !! areas = Some rd → reconcatenate rd = Ok rd' →
  pd_merge left rd' "code_dep" Left = Ok out →
  join_areas left areas σ = (Ok (length σ), σ ++ [out]).
Proof.
  intros H1 H2 H3. unfold join_areas.
  erewrite run_bind_ok; [|by apply run_load].
  erewrite run_bind_ok; [|by apply run_lift].
  erewrite run_bind_ok; [|by apply run_lift].
  done.
Qed.

Lemma reformatted_codes (zs : list Z) (cs : list object) (t : string) :
  Str t ∈ ((fun z => Str (str_of_int z)) <$> filter (fun z => (z <? 100) = true) zs)
          ++ filter (fun o => is_corsica o = true) cs →
  (∃ z, z < 100 ∧ t = str_of_int z) ∨ t = "2A" ∨ t = "2B".
Proof.
  intros [Hin|Hin]%elem_of_app.
  - left. apply list_elem_of_fmap in Hin as (z & [= ->] & [Hz _]%list_elem_of_filter).
    exists z. split; [by apply Z.ltb_lt|done].
  - right. apply corsica_elements in Hin as [[= ->]|[= ->]]; auto.
Qed.

Lemma wf_ex_referendum : wf ex_referendum.
Proof. split; repeat constructor. Qed.

Lemma corsica_run rd cs :
  lookup_col "code_dep" (cols rd) = Some (SObject cs) → length cs = nrows rd →
  corsica rd = Ok (select_rows rd (mask_positions 0 (is_corsica <$> cs))).
Proof.
  intros Hc Hlen. unfold corsica, getitem. rewrite Hc. cbn [mbind result_bind].
  rewrite isin_object_corsica. apply getitem_mask_ok. by rewrite length_fmap.
Qed.

Lemma not_corsica_run rd cs zs :
  lookup_col "code_dep" (cols rd) = Some (SObject cs) → length cs = nrows rd →
  traverse object_to_int64 (filter (fun o => negb (is_corsica o) = true) cs) = Ok zs →
  ∃ nc, not_corsica rd = Ok nc
    ∧ lookup_col "code_dep" (cols nc)
      = Some (astype_str (filter (fun z => (z <? 100) = true) zs))
    ∧ (∀ n, n ≠ "code_dep" →
         lookup_col n (cols nc)
         = take (mask_positions 0 ((fun z => z <? 100) <$> zs))
             <$> (take (mask_positions 0 ((fun o => negb (is_corsica o)) <$> cs))
                    <$> lookup_col n (cols rd)))
    ∧ columns nc = columns rd
    ∧ nrows nc = length (mask_positions 0 ((fun z => z <? 100) <$> zs))
    ∧ index nc
      = prod_map id (take (mask_positions 0 ((fun z => z <? 100) <$> zs)))
          <$> (prod_map id (take (mask_positions 0 ((fun o => negb (is_corsica o)) <$> cs)))
                 <$> index rd).
Proof.
  intros Hc Hlen Hzs. unfold not_corsica.
  set (ys := filter (fun o => negb (is_corsica o) = true) cs) in *.
  set (ix1 := mask_positions 0 ((fun o => negb (is_corsica o)) <$> cs)).
  set (ix2 := mask_positions 0 ((fun z => z <? 100) <$> zs)).
  set (zs' := filter (fun z => (z <? 100) = true) zs).
  assert (length zs = length ys) as Hlzs.
  { apply traverse_spec in Hzs. symmetry. by eapply Forall2_length. }
  assert (getitem rd "code_dep" = Ok (SObject cs)) as -> by (unfold getitem; by rewrite Hc).
  cbn [mbind result_bind]. rewrite mask_not_corsica.
  rewrite (getitem_mask_ok rd) by (by rewrite length_fmap).
  fold ix1. cbn [mbind result_bind].
  assert (getitem (select_rows rd ix1) "code_dep" = Ok (SObject ys)) as E1.
  { unfold getitem. rewrite lookup_col_select_rows, Hc. unfold fmap at 1, option_fmap, option_map.
    unfold ix1. by rewrite take_object, gather_mask0. }
  assert (nrows (select_rows rd ix1) = length ys) as N1.
  { unfold ix1. rewrite nrows_select_mask by (by rewrite length_fmap).
    apply length_mask_positions_fmap. }
  rewrite E1. cbn [mbind result_bind astype_int]. rewrite Hzs. cbn [mbind result_bind].
  unfold lt_const.
  rewrite (getitem_mask_ok (select_rows rd ix1)) by (rewrite length_fmap; congruence).
  fold ix2. cbn [mbind result_bind].
  set (nc2 := select_rows (select_rows rd ix1) ix2).
  assert (getitem nc2 "code_dep"
          = Ok (SObject (filter (fun p => (p.2 <? 100) = true) (zip ys zs)).*1)) as E2.
  { unfold getitem, nc2. rewrite lookup_col_select_rows.
    unfold getitem in E1. destruct (lookup_col "code_dep" (cols (select_rows rd ix1))); [|done].
    injection E1 as ->. unfold fmap at 1, option_fmap, option_map.
    rewrite take_object. unfold ix2.
    by rewrite (gather_mask_zip0 (fun z => z <? 100) NaN ys zs). }
  assert (nrows nc2 = length ix2) as N2.
  { unfold nc2, ix2. by rewrite nrows_select_mask by (rewrite length_fmap; congruence). }
  rewrite E2. cbn [mbind result_bind astype_int].
  rewrite (traverse_filter_zip object_to_int64 (fun z => z <? 100) ys zs Hzs).
  fold zs'. cbn [mbind result_bind].
  assert (length zs' = length ix2) as Hlz'.
  { unfold zs', ix2. by rewrite length_mask_positions_fmap. }
  destruct (with_column_ok nc2 "code_dep" (SInt64 zs')) as [nc3 H3];
    [simpl; congruence|].
  rewrite H3. cbn [mbind result_bind].
  destruct (with_column_ok nc3 "code_dep" (astype_str zs')) as [nc4 H4].
  { rewrite (nrows_with_column _ _ _ _ H3), N2. unfold astype_str. simpl.
    by rewrite length_fmap. }
  assert ("code_dep" ∈ columns nc2) as Hin2.
  { unfold nc2. rewrite !columns_select_rows. by eapply lookup_col_Some_elem. }
  pose proof (columns_with_column_in _ _ _ _ H3 Hin2) as C3.
  assert ("code_dep" ∈ columns nc3) as Hin3 by (by rewrite C3).
  pose proof (columns_with_column_in _ _ _ _ H4 Hin3) as C4.
  pose proof (with_column_spec _ _ _ _ H3) as (Hix3 & _ & Hoth3 & _).
  pose proof (with_column_spec _ _ _ _ H4) as (Hix4 & Hcode4 & Hoth4 & _).
  exists nc4. split_and!; [done|done| | | |].
  - intros n Hn. rewrite Hoth4, Hoth3 by done. unfold nc2.
    by rewrite !lookup_col_select_rows.
  - rewrite C4, C3. unfold nc2. by rewrite !columns_select_rows.
  - by rewrite (nrows_with_column _ _ _ _ H4), (nrows_with_column _ _ _ _ H3).
  - by rewrite Hix4, Hix3.
Qed.

Lemma reconcatenate_rows rd cs zs :
  lookup_col "code_dep" (cols rd) = Some (SObject cs) → length cs = nrows rd →
  traverse object_to_int64 (filter (fun o => negb (is_corsica o) = true) cs) = Ok zs →
  ∃ rd' : DataFrame,
    reconcatenate rd = Ok rd'
    ∧ lookup_col "code_dep" (cols rd')
      = Some (SObject (((fun z => Str (str_of_int z)) <$> filter (fun z => (z <? 100) = true) zs)
                       ++ filter (fun o => is_corsica o = true) cs))
    ∧ columns rd' = columns rd
    ∧ ∀ (i : nat) (c : object) (s : string),
        cs !! i = Some c → reformatted c s →
        ∃ q : nat,
          (((fun z => Str (str_of_int z)) <$> filter (fun z => (z <? 100) = true) zs)
           ++ filter (fun o => is_corsica o = true) cs) !! q = Some (Str s)
          ∧ ∀ (n : string) (vs : list object),
              n ≠ "code_dep" → lookup_col n (cols rd) = Some (SObject vs) →
              length vs = nrows rd →
              ∃ vs' : list object,
                lookup_col n (cols rd') = Some (SObject vs') ∧ vs' !! q = vs !! i.
Proof.
  intros Hc Hlen Hzs.
  pose proof (corsica_run rd cs Hc Hlen) as Ec.
  destruct (not_corsica_run rd cs zs Hc Hlen Hzs) as (nc & Enc & Hcode & Hoth & Hcols & Hn & _).
  set (ys := filter (fun o => negb (is_corsica o) = true) cs) in *.
  set (ix1 := mask_positions 0 ((fun o => negb (is_corsica o)) <$> cs)) in *.
  set (ix2 := mask_positions 0 ((fun z => z <? 100) <$> zs)) in *.
  set (ixc := mask_positions 0 (is_corsica <$> cs)) in *.
  set (zs' := filter (fun z => (z <? 100) = true) zs).
  assert (length zs' = length ix2) as Hlz'
    by (unfold zs', ix2; by rewrite length_mask_positions_fmap).
  exists (pd_concat nc (select_rows rd ixc)).
  split; [unfold reconcatenate; by rewrite Ec, Enc|].
  assert (∀ (n : string) (vs : list object),
            n ≠ "code_dep" → lookup_col n (cols rd) = Some (SObject vs) →
            lookup_col n (cols (pd_concat nc (select_rows rd ixc)))
            = Some (SObject (((fun j => default NaN
                                 (((fun i => default NaN (vs !! i)) <$> ix1) !! j)) <$> ix2)
                             ++ ((fun i => default NaN (vs !! i)) <$> ixc)))) as Hcol.
  { intros n vs Hne Hvs.
    erewrite lookup_col_pd_concat; [|rewrite Hoth, Hvs by done; reflexivity].
    rewrite lookup_col_select_rows, Hvs. cbn [fmap option_fmap option_map default].
    by rewrite !take_object. }
  split_and!.
  - rewrite (lookup_col_pd_concat _ _ _ _ Hcode), lookup_col_select_rows, Hc.
    cbn [fmap option_fmap option_map default]. unfold ixc.
    by rewrite take_object, gather_mask0.
  - rewrite columns_pd_concat; [done|]. intros n. by rewrite columns_select_rows, Hcols.
  - intros i c s Hi Href.
    assert (i < length cs)%nat as Hilt by (by eapply lookup_lt_Some).
    destruct Href as [[Hcor ->]|(Hcor & z & Hz & Hlt & ->)].
    + destruct (mask_positions_lookup is_corsica cs i (Str s) Hi Hcor) as [qc Hqc].
      fold ixc in Hqc.
      exists (length zs' + qc)%nat. split.
      * rewrite lookup_app_r by (rewrite length_fmap; lia).
        rewrite length_fmap, Nat.add_sub'.
        by rewrite (filter_mask_lookup is_corsica NaN cs qc i Hqc), Hi.
      * intros n vs Hne Hvs Hlvs. eexists. split; [by apply Hcol|].
        rewrite lookup_app_r by (rewrite length_fmap; lia).
        rewrite length_fmap, <- Hlz', Nat.add_sub'.
        rewrite list_lookup_fmap, Hqc. cbn [fmap option_fmap option_map].
        destruct (lookup_lt_is_Some_2 vs i) as [v ->]; [lia|done].
    + destruct (mask_positions_lookup (fun o => negb (is_corsica o)) cs i c Hi) as [j Hj];
        [by rewrite Hcor|].
      fold ix1 in Hj.
      assert (ys !! j = Some c) as Hyj.
      { unfold ys. by rewrite (filter_mask_lookup (fun o => negb (is_corsica o)) NaN cs j i Hj), Hi. }
      assert (zs !! j = Some z) as Hzj.
      { apply traverse_spec in Hzs.
        destruct (Forall2_lookup_l _ _ _ _ _ Hzs Hyj) as (z' & Hz' & Hconv). congruence. }
      destruct (mask_positions_lookup (fun z => z <? 100) zs j z Hzj) as [q Hq];
        [by apply Z.ltb_lt|].
      fold ix2 in Hq.
      assert (q < length ix2)%nat as Hqlt by (by eapply lookup_lt_Some).
      exists q. split.
      * rewrite lookup_app_l by (rewrite length_fmap; lia).
        rewrite list_lookup_fmap. unfold zs'.
        by rewrite (filter_mask_lookup (fun z => z <? 100) 0 zs q j Hq), Hzj.
      * intros n vs Hne Hvs Hlvs. eexists. split; [by apply Hcol|].
        rewrite lookup_app_l by (rewrite length_fmap; lia).
        rewrite list_lookup_fmap, Hq. cbn [fmap option_fmap option_map].
        rewrite list_lookup_fmap, Hj. cbn [fmap option_fmap option_map default].
        destruct (lookup_lt_is_Some_2 vs i) as [v ->]; [lia|done].
Qed.

Lemma kept_referendum σ referendum areas df xs :
  σ !! referendum = Some df → wf df →
  lookup_col "Department code" (cols df) = Some (SObject xs) →
  text xs →
  ∃ df1 : DataFrame,
    with_column df "code_dep" (SObject xs) = Ok df1
    ∧ wf df1
    ∧ nrows df1 = length xs
    ∧ lookup_col "code_dep"
        (cols (select_rows df1 (mask_positions 0 (purely_numeric_or_corsica <$> xs))))
      = Some (SObject (filter (fun o => purely_numeric_or_corsica o = true) xs))
    ∧ Forall (fun c => series_len c.2
                       = length (filter (fun o => purely_numeric_or_corsica o = true) xs))
        (cols (select_rows df1 (mask_positions 0 (purely_numeric_or_corsica <$> xs))))
    ∧ merge_referendum_and_areas referendum areas σ
      = join_areas (select_rows df1 (mask_positions 0 (purely_numeric_or_corsica <$> xs)))
          areas (<[referendum := df1]> σ).
Proof.
  intros Hr Hwf Hc Ht.
  pose proof (wf_column_len df _ _ Hwf Hc) as Hlen. simpl in Hlen.
  destruct (kept_rows_join σ referendum areas df xs Hr Hc Ht Hlen) as (df1 & Hw & _ & Hrun).
  exists df1. split; [done|]. split; [by eapply wf_with_column|].
  split; [by rewrite (nrows_with_column _ _ _ _ Hw)|]. split_and!; [| |done].
  - rewrite lookup_col_select_rows.
    apply with_column_spec in Hw as (_ & -> & _). cbn [fmap option_fmap option_map].
    by rewrite take_object, gather_mask0.
  - unfold select_rows. cbn [cols]. apply Forall_fmap, Forall_forall. intros col _. simpl.
    by rewrite series_len_take, length_mask_positions_fmap.
Qed.

Lemma kept_row_position (xs : list object) j s :
  xs !! j = Some (Str s) → purely_numeric_or_corsica (Str s) = true →
  ∃ j', mask_positions 0 (purely_numeric_or_corsica <$> xs) !! j' = Some j
        ∧ filter (fun o => purely_numeric_or_corsica o = true) xs !! j' = Some (Str s).
Proof.
  intros Hj Hkeep.
  destruct (mask_positions_lookup purely_numeric_or_corsica xs j (Str s) Hj Hkeep) as [j' Hj'].
  exists j'. split; [done|].
  by rewrite (filter_mask_lookup purely_numeric_or_corsica NaN xs j' j Hj'), Hj.
Qed.

Lemma series_len_concat a b :
  series_len (concat_series a b) = (series_len a + series_len b)%nat.
Proof.
  destruct a as [xs|xs|xs], b as [ys|ys|ys]; unfold concat_series;
    try (simpl; by rewrite length_app);
    repeat case_bool_decide; simpl in *;
      rewrite ?length_app, ?length_fmap; unfold astype_float; rewrite ?length_fmap; lia.
Qed.

Lemma object_to_int64_range o z : object_to_int64 o = Ok z → in_int64 z = true.
Proof.
  unfold object_to_int64. destruct (int_of_object o) as [z'|]; [|done]. simpl.
  destruct (in_int64 z') eqn:E; [|done]. by intros [= <-].
Qed.

Lemma nrows_reconcatenate rd cs zs rd' :
  lookup_col "code_dep" (cols rd) = Some (SObject cs) → length cs = nrows rd →
  traverse object_to_int64 (filter (fun o => negb (is_corsica o) = true) cs) = Ok zs →
  reconcatenate rd = Ok rd' →
  nrows rd' = (length (filter (fun z : Z => (z <? 100)%Z = true) zs)
               + length (filter (fun o => is_corsica o = true) cs))%nat.
Proof.
  intros Hc Hlen Hzs Hrd'.
  pose proof (corsica_run rd cs Hc Hlen) as Ec.
  destruct (not_corsica_run rd cs zs Hc Hlen Hzs) as (nc & Enc & _ & _ & _ & Hn & Hix).
  unfold reconcatenate in Hrd'. rewrite Ec, Enc in Hrd'. injection Hrd' as <-.
  rewrite <- !length_mask_positions_fmap.
  unfold nrows, pd_concat. cbn [index]. rewrite Hix. unfold select_rows. cbn [index].
  destruct (index rd) as [|[name s] idx] eqn:Eix.
  - unfold nrows in Hlen. rewrite Eix in Hlen. simpl in Hlen.
    destruct cs; [|done]. simpl in Hzs. by injection Hzs as <-.
  - simpl. by rewrite series_len_concat, !series_len_take.
Qed.

(** The first element that [traverse] cannot convert decides the exception. *)
Lemma traverse_first_raise {A B} (f : A → result B) xs i x e :
  xs !! i = Some x → f x = Raise e →
  (∀ j y, (j < i)%nat → xs !! j = Some y → ∃ z, f y = Ok z) →
  traverse f xs = Raise e.
Proof.
  revert i. induction xs as [|a xs IH]; intros i Hi Hx Hbefore; [done|].
  destruct i as [|i]; simpl in *.
  - injection Hi as ->. by rewrite Hx.
  - destruct (Hbefore 0%nat a) as [z ->]; [lia|done|].
    rewrite (IH i); [done|done|done|].
    intros j y Hj Hy. apply (Hbefore (S j) y); [lia|done].
Qed.

Lemma object_to_int64_exn o e :
  object_to_int64 o = Raise e → e = ValueError ∨ e = OverflowError ∨ e = TypeError.
Proof.
  unfold object_to_int64. destruct o as [|s|z|f|]; simpl.
  - intros [= <-]. by left.
  - destruct (int_of_str s) as [z|]; simpl; [|intros [= <-]; by left].
    destruct (in_int64 z); [done|]. intros [= <-]. right. by left.
  - destruct (in_int64 z); [done|]. intros [= <-]. right. by left.
  - destruct f as [sg|sg| |sg m ex]; simpl.
    + done.
    + intros [= <-]. right. by left.
    + intros [= <-]. by left.
    + match goal with |- context [in_int64 ?z] => destruct (in_int64 z) end; [done|].
      intros [= <-]. right. by left.
  - intros [= <-]. right. by right.
Qed.

Lemma not_corsica_raise rd cs e :
  lookup_col "code_dep" (cols rd) = Some (SObject cs) → length cs = nrows rd →
  traverse object_to_int64 (filter (fun o => negb (is_corsica o) = true) cs) = Raise e →
  not_corsica rd = Raise e.
Proof.
  intros Hc Hlen He. unfold not_corsica.
  assert (getitem rd "code_dep" = Ok (SObject cs)) as -> by (unfold getitem; by rewrite Hc).
  cbn [mbind result_bind]. rewrite mask_not_corsica.
  rewrite (getitem_mask_ok rd) by (by rewrite length_fmap).
  cbn [mbind result_bind].
  assert (getitem (select_rows rd (mask_positions 0 ((fun o => negb (is_corsica o)) <$> cs)))
            "code_dep"
          = Ok (SObject (filter (fun o => negb (is_corsica o) = true) cs))) as ->.
  { unfold getitem. rewrite lookup_col_select_rows, Hc.
    unfold fmap at 1, option_fmap, option_map. by rewrite take_object, gather_mask0. }
  cbn [mbind result_bind astype_int]. by rewrite He.
Qed.

Lemma traverse_not_ok {A B} (f : A → result B) xs x e :
  x ∈ xs → f x = Raise e → ∃ e', traverse f xs = Raise e'.
Proof.
  intros Hx Hf. destruct (traverse f xs) as [ys|e'] eqn:E; [|by exists e'].
  apply traverse_spec in E. apply list_elem_of_lookup_1 in Hx as (i & Hi).
  destruct (Forall2_lookup_l _ _ _ _ _ E Hi) as (y & _ & Hy). congruence.
Qed.

(** An area table with a missing department code cannot be reformatted. *)
Lemma reconcatenate_missing rd s p o :
  lookup_col "code_dep" (cols rd) = Some s → series_len s = nrows rd →
  iloc s p = Some o → is_null o = true →
  ∃ e, reconcatenate rd = Raise e.
Proof.
  intros Hc Hlen Hp Hnull. destruct s as [xs|xs|cs]; simpl in Hp, Hlen.
  - destruct (xs !! p); simplify_eq/=.
  - destruct (xs !! p) as [f|] eqn:Hf; simplify_eq/=.
    destruct f; try discriminate Hnull.
    set (mask := mask_not (isin (SFloat64 xs) corsica_codes)).
    assert (length mask = nrows rd) as Hlm by (unfold mask, mask_not; simpl; by rewrite !length_fmap).
    assert (∃ e, not_corsica rd = Raise e) as [e He].
    { unfold not_corsica, getitem. rewrite Hc. cbn [mbind result_bind]. fold mask.
      rewrite (getitem_mask_ok rd mask Hlm). cbn [mbind result_bind].
      rewrite lookup_col_select_rows, Hc. cbn [fmap option_fmap option_map mbind result_bind].
      rewrite take_float. cbn [astype_int].
      destruct (traverse_not_ok float_to_int64
                  ((fun i => default nan (xs !! i)) <$> mask_positions 0 mask)
                  S754_nan ValueError) as [e ->]; [|done|by exists e].
      apply list_elem_of_fmap. exists p. rewrite Hf. split; [done|].
      apply mask_positions_spec. exists p. split; [done|].
      unfold mask, mask_not. simpl. by rewrite !list_lookup_fmap, Hf. }
    exists e. unfold reconcatenate.
    assert (∃ c, corsica rd = Ok c) as [c ->].
    { unfold corsica, getitem. rewrite Hc. cbn [mbind result_bind].
      rewrite getitem_mask_ok; [by eexists|]. simpl. by rewrite length_fmap. }
    cbn [mbind result_bind]. by rewrite He.
  - assert (o ∈ filter (fun o => negb (is_corsica o) = true) cs) as Hin.
    { apply list_elem_of_filter. split; [by destruct o|]. by eapply list_elem_of_lookup_2. }
    assert (∃ e0, object_to_int64 o = Raise e0) as [e0 Ho].
    { destruct o as [| | |f|]; try done; [by eexists| |by eexists].
      destruct f; try done. by eexists. }
    destruct (traverse_not_ok object_to_int64 _ o e0 Hin Ho) as [e He].
    exists e. unfold reconcatenate.
    destruct (corsica_spec rd cs Hc Hlen) as (c & -> & _). cbn [mbind result_bind].
    by rewrite (not_corsica_raise rd cs e Hc Hlen He).
Qed.

Lemma run_raise_bind {A B} (m : M A) (k : A → M B) σ :
  (∃ e σ', m σ = (Raise e, σ')) → ∃ e σ', (m ≫= k) σ = (Raise e, σ').
Proof. intros (e & σ' & H). exists e, σ'. by apply run_bind_raise. Qed.

(** The referendum join fails whenever the area table cannot be
    reformatted, whatever the referendum table is. *)
Lemma mra_areas_unusable σ referendum areas rd :
  σ !! areas = Some rd → referendum ≠ areas →
  (∃ e, reconcatenate rd = Raise e) →
  ∃ e σ', merge_referendum_and_areas referendum areas σ = (Raise e, σ').
Proof.
  intros Ha Hne (e & He).
  assert (∀ left σ0, σ0 !! areas = Some rd → join_areas left areas σ0 = (Raise e, σ0)) as Hjoin.
  { intros left σ0 H0. unfold join_areas.
    erewrite run_bind_ok; [|by apply run_load].
    erewrite run_bind_raise; [done|]. unfold lift. by rewrite He. }
  unfold merge_referendum_and_areas.
  destruct (σ !! referendum) as [df|] eqn:Hr.
  2:{ apply run_raise_bind. exists TypeError, σ. unfold load. by rewrite Hr. }
  erewrite run_bind_ok; [|by apply run_load].
  destruct (getitem df "Department code") as [c|e1] eqn:Hc.
  2:{ apply run_raise_bind. by exists e1, σ. }
  erewrite run_bind_ok; [|by apply run_lift].
  destruct (with_column df "code_dep" c) as [df1|e2] eqn:Hw.
  2:{ apply run_raise_bind. exists e2, σ. unfold setitem. unfold_M. by rewrite Hr, Hw. }
  erewrite run_bind_ok; [|by eapply run_setitem].
  erewrite run_bind_ok; [|apply run_load, list_lookup_insert_eq; by eapply lookup_lt_Some].
  destruct (keep_numeric df1) as [kept|e3] eqn:Hk.
  2:{ apply run_raise_bind. by eexists e3, _. }
  erewrite run_bind_ok; [|by apply run_lift].
  eexists e, _. apply Hjoin. by rewrite list_lookup_insert_ne.
Qed.

Lemma traverse_total {A B} (f : A → result B) xs :
  Forall (fun x => ∃ y, f x = Ok y) xs → ∃ ys, traverse f xs = Ok ys.
Proof.
  induction 1 as [|x xs [y Hy] _ [ys Hys]]; [by exists []|].
  exists (y :: ys). simpl. by rewrite Hy, Hys.
Qed.

Lemma reconcatenate_text_column rd cs zs rd' n vs :
  lookup_col "code_dep" (cols rd) = Some (SObject cs) → length cs = nrows rd →
  traverse object_to_int64 (filter (fun o => negb (is_corsica o) = true) cs) = Ok zs →
  reconcatenate rd = Ok rd' →
  n ≠ "code_dep" → lookup_col n (cols rd) = Some (SObject vs) →
  ∃ vs', lookup_col n (cols rd') = Some (SObject vs').
Proof.
  intros Hc Hlen Hzs Hrd' Hne Hvs.
  pose proof (corsica_run rd cs Hc Hlen) as Ec.
  destruct (not_corsica_run rd cs zs Hc Hlen Hzs) as (nc & Enc & _ & Hoth & _).
  unfold reconcatenate in Hrd'. rewrite Ec, Enc in Hrd'. injection Hrd' as <-.
  erewrite lookup_col_pd_concat; [|rewrite Hoth, Hvs by done; reflexivity].
  rewrite lookup_col_select_rows, Hvs. cbn [fmap option_fmap option_map default].
  rewrite !take_object. by eexists.
Qed.

(** The referendum table as [merge_referendum_and_areas] finds it. *)
Lemma mra_no_codes σ referendum areas df :
  σ !! referendum = Some df →
  lookup_col "Department code" (cols df) = None →
  merge_referendum_and_areas referendum areas σ = (Raise KeyError, σ).
Proof.
  intros Hr Hc. unfold merge_referendum_and_areas.
  erewrite run_bind_ok; [|by apply run_load].
  erewrite run_bind_raise; [done|]. unfold lift, getitem. by rewrite Hc.
Qed.

Lemma str_isnumeric_numeric c :
  (∀ xs, c ≠ SObject xs) → str_isnumeric c = Raise AttributeError.
Proof. intros H. destruct c as [xs|xs|xs]; [done|done|]. by destruct (H xs). Qed.

(** X2: [merge_referendum_and_areas] raises [KeyError] and changes nothing
    when the referendum table has no column [Department code]; when that
    column is numeric (no department code was read as text), it raises
    [AttributeError] at the [.str] accessor, after it has added the column
    [code_dep] to the referendum table. *)
Theorem referendum_codes_unusable
    (σ : list DataFrame) (referendum areas : nat) (df : DataFrame) :
  σ !! referendum = Some df →
  (lookup_col "Department code" (cols df) = None →
   merge_referendum_and_areas referendum areas σ = (Raise KeyError, σ))
  ∧ (∀ c : Series,
       lookup_col "Department code" (cols df) = Some c →
       series_len c = nrows df →
       (∀ xs, c ≠ SObject xs) →
       ∃ df1 : DataFrame,
         with_column df "code_dep" c = Ok df1
         ∧ lookup_col "code_dep" (cols df1) = Some c
         ∧ merge_referendum_and_areas referendum areas σ
           = (Raise AttributeError, <[referendum := df1]> σ)).
Proof.
  intros Hr. split; [by apply mra_no_codes|].
  intros c Hc Hlen Hnum.
  destruct (mra_store σ referendum areas df c Hr Hc Hlen) as (df1 & Hw & _ & Hrun).
  pose proof (with_column_spec _ _ _ _ Hw) as (_ & Hcode & _).
  exists df1. split; [done|]. split; [done|].
  rewrite Hrun. erewrite run_bind_raise; [done|].
  unfold lift, keep_numeric, getitem. rewrite Hcode. cbn [mbind result_bind].
  by rewrite str_isnumeric_numeric.
Qed.

Lemma referendum_codes_unusable_witness :
  merge_referendum_and_areas 0 1 ex_store = (Raise KeyError, ex_store)
  ∧ ∃ df1 : DataFrame,
      with_column ex_referendum_numeric "code_dep" (SInt64 [1; 75]) = Ok df1
      ∧ lookup_col "code_dep" (cols df1) = Some (SInt64 [1; 75])
      ∧ merge_referendum_and_areas 0 1 [ex_referendum_numeric; ex_areas]
        = (Raise AttributeError, <[0%nat := df1]> [ex_referendum_numeric; ex_areas]).
Proof.
  split.
  - apply (referendum_codes_unusable ex_store 0 1 ex_regions); reflexivity.
  - apply (referendum_codes_unusable [ex_referendum_numeric; ex_areas] 0 1
             ex_referendum_numeric); [reflexivity..|]. discriminate.
Defined.

Lemma stage_frame_ok (rs : list nat) (m : M nat) σ r σ' :
  stage_frame rs m → m σ = (Ok r, σ') →
  r = length σ ∧ length σ' = S (length σ)
  ∧ ∀ q : nat, q ∉ rs → (q < length σ)%nat → σ' !! q = σ !! q.
Proof.
  intros Hm Hrun. destruct (Hm σ) as [Hframe Hres]. rewrite Hrun in Hframe, Hres.
  simpl in *. destruct Hres as [-> Hlen]. done.
Qed.

(** A merge on text keys. *)
Lemma pd_merge_object left right on xs ys h :
  lookup_col on (cols left) = Some (SObject xs) →
  lookup_col on (cols right) = Some (SObject ys) →
  pd_merge left right on h
  = let rows := merge_rows h (keys (SObject xs)) (keys (SObject ys)) in
    let overlap := filter (fun n => n ∈ columns right ∧ n ≠ on) (columns left) in
    Ok (mkDataFrame (join_index (length rows))
          (if bool_decide (nrows left = 0%nat)
           then (suffixed overlap "_x"
                   <$> (prod_map id (take rows.*1) <$> filter (fun c => c.1 ≠ on) (cols left)))
                ++ (suffixed overlap "_y" <$> (prod_map id (take_fill rows.*2) <$> cols right))
           else (suffixed overlap "_x" <$> (prod_map id (take rows.*1) <$> cols left))
                ++ (suffixed overlap "_y"
                      <$> (prod_map id (take_fill rows.*2)
                             <$> filter (fun c => c.1 ≠ on) (cols right))))).
Proof.
  intros Hl Hr. unfold pd_merge, getitem. rewrite Hl, Hr. cbn [mbind result_bind].
  rewrite keys_compatible_object. unfold merge_keys. cbv zeta.
  rewrite !coerce_key_object, !replace_col_same by done.
  by case_bool_decide.
Qed.

(** The rows of a left join on text keys: each pair of the join is a row
    of the result, which carries the fields of the left row and, where the
    left row has no match, missing values in the columns of the right
    table. *)
Lemma merge_left_rows left right on xs ys :
  lookup_col on (cols left) = Some (SObject xs) →
  lookup_col on (cols right) = Some (SObject ys) →
  Forall (fun c => series_len c.2 = length xs) (cols left) →
  nrows left = length xs →
  (∀ n : string, (n ++ "_x")%string ≠ on) →
  ∃ out : DataFrame,
    pd_merge left right on Left = Ok out
    ∧ let rows := join_rows Left 0 (keys (SObject xs)) (keys (SObject ys)) in
      nrows out = length rows
      ∧ index out = join_index (length rows)
      ∧ (xs ≠ [] →
         length (cols out)
         = (length (cols left) + length (filter (fun n => n ≠ on) (columns right)))%nat)
      ∧ (∀ (p i : nat) (o : option nat),
           rows !! p = Some (i, o) →
           (∃ kc, lookup_col on (cols out) = Some kc ∧ iloc kc p = xs !! i)
           ∧ (∀ c col, cols left !! c = Some col →
                ∃ col', cols out !! c = Some col' ∧ iloc col'.2 p = iloc col.2 i)
           ∧ (o = None →
              ∀ c : nat, (length (cols left) ≤ c < length (cols out))%nat →
                ∃ col' v, cols out !! c = Some col' ∧ iloc col'.2 p = Some v
                          ∧ is_null v = true))
      ∧ ((∀ n : string, n ∈ columns left → n ∈ columns right → n = on) →
         columns out
         = (if bool_decide (xs = [])
            then filter (fun n => n ≠ on) (columns left) ++ columns right
            else columns left ++ filter (fun n => n ≠ on) (columns right))
         ∧ ∀ (n : string) (col : Series),
             n ≠ on → lookup_col n (cols right) = Some col →
             lookup_col n (cols out) = Some (take_fill rows.*2 col)).
Proof.
  intros Hl Hr Hwf Hn Hsfx.
  rewrite (pd_merge_object left right on xs ys Left Hl Hr). cbv zeta.
  unfold merge_rows.
  set (rows := join_rows Left 0 (keys (SObject xs)) (keys (SObject ys))).
  set (overlap := filter _ (columns left)).
  assert (Forall (fun i => (i < length xs)%nat) rows.*1) as Hb.
  { pose proof (join_rows_left_bound Left 0 (keys (SObject xs)) (keys (SObject ys))) as Hb.
    fold rows in Hb. by rewrite length_keys in Hb. }
  assert (bool_decide (nrows left = 0%nat) = bool_decide (xs = [])) as ->.
  { rewrite Hn. apply bool_decide_ext. by destruct xs. }
  assert (xs = [] → rows = []) as Hempty by (by intros ->).
  eexists. split; [done|]. split_and!.
  - unfold nrows. cbn [index]. apply index_len_join_index.
  - done.
  - intros Hne. cbn [cols]. rewrite bool_decide_false by done.
    rewrite length_app, !length_fmap. f_equal.
    unfold columns. rewrite <- columns_filter_ne. by rewrite length_fmap.
  - intros p i o Hp.
    assert (xs ≠ []) as Hne by (intros H; by rewrite (Hempty H) in Hp).
    assert (rows.*1 !! p = Some i) as Hp1 by (by rewrite list_lookup_fmap, Hp).
    assert (rows.*2 !! p = Some o) as Hp2 by (by rewrite list_lookup_fmap, Hp).
    cbn [cols]. rewrite bool_decide_false by done. split_and!.
    + eexists. split.
      * rewrite lookup_col_app.
        rewrite lookup_col_suffixed; [|by intros [[_ ?] _]%list_elem_of_filter|done].
        by rewrite lookup_col_prod_map, Hl.
      * by rewrite (iloc_take (SObject xs) rows.*1 p i).
    + intros c col Hc. eexists. split.
      * rewrite lookup_app_l by (rewrite !length_fmap; by eapply lookup_lt_Some).
        rewrite !list_lookup_fmap, Hc. done.
      * simpl. apply iloc_take; [|done].
        rewrite Forall_forall in Hwf. by rewrite (Hwf col) by (by eapply list_elem_of_lookup_2).
    + intros -> c [Hc1 Hc2].
      rewrite length_app, !length_fmap in Hc2.
      rewrite lookup_app_r by (by rewrite !length_fmap).
      rewrite !length_fmap, !list_lookup_fmap.
      destruct (lookup_lt_is_Some_2 (filter (fun c => c.1 ≠ on) (cols right))
                  (c - length (cols left))) as [col ->]; [lia|].
      simpl. destruct (iloc_take_fill_missing col.2 rows.*2 p Hp2) as (v & Hv & Hnull).
      by eexists _, v.
  - intros Hdisj.
    assert (overlap = []) as ->.
    { apply filter_none, Forall_forall. intros n Hin [Hnr Hne]. by apply Hne, Hdisj. }
    cbn [cols]. split.
    + unfold columns. cbn [cols].
      case_bool_decide; rewrite !suffixed_nil;
        by rewrite columns_gathered, columns_filter_ne.
    + intros n col Hne Hcol.
      assert (lookup_col n (cols left) = None) as Hnone.
      { apply lookup_col_None. intros Hin. apply Hne, Hdisj; [done|].
        by eapply lookup_col_Some_elem. }
      case_bool_decide; rewrite !suffixed_nil, lookup_col_gathered.
      * by rewrite lookup_col_filter_ne, Hnone, Hcol.
      * by rewrite Hnone, lookup_col_filter_ne, Hcol.
Qed.

(** The kept rows: the [i]-th row that goes into the join is the row of
    the referendum table at the [i]-th kept position. *)
Lemma kept_lookup (xs : list object) (i : nat) :
  (i < length (filter (fun o => purely_numeric_or_corsica o = true) xs))%nat →
  ∃ j : nat,
    mask_positions 0 (purely_numeric_or_corsica <$> xs) !! i = Some j
    ∧ (j < length xs)%nat
    ∧ filter (fun o => purely_numeric_or_corsica o = true) xs !! i = xs !! j.
Proof.
  intros Hi. rewrite <- length_mask_positions_fmap in Hi.
  destruct (lookup_lt_is_Some_2 _ _ Hi) as [j Hj]. exists j. split; [done|].
  assert (j < length xs)%nat as Hlt.
  { pose proof (mask_positions_bound (purely_numeric_or_corsica <$> xs)) as Hb.
    rewrite Forall_forall in Hb. rewrite length_fmap in Hb.
    apply Hb. by eapply list_elem_of_lookup_2. }
  split; [done|].
  rewrite (filter_mask_lookup purely_numeric_or_corsica NaN xs i j Hj).
  by destruct (lookup_lt_is_Some_2 xs j Hlt) as [x ->].
Qed.

(** The table that [merge_referendum_and_areas] returns, row by row. *)
Lemma mra_rows σ referendum areas df rd xs cs zs :
  σ !! referendum = Some df → wf df →
  lookup_col "Department code" (cols df) = Some (SObject xs) →
  text xs →
  referendum ≠ areas → σ !! areas = Some rd →
  lookup_col "code_dep" (cols rd) = Some (SObject cs) →
  length cs = nrows rd →
  traverse object_to_int64 (filter (fun o => negb (is_corsica o) = true) cs) = Ok zs →
  ∃ (df1 rd' out : DataFrame),
    with_column df "code_dep" (SObject xs) = Ok df1
    ∧ wf df1
    ∧ reconcatenate rd = Ok rd'
    ∧ columns rd' = columns rd
    ∧ merge_referendum_and_areas referendum areas σ
      = (Ok (length σ), (<[referendum := df1]> σ) ++ [out])
    ∧ let kept := mask_positions 0 (purely_numeric_or_corsica <$> xs) in
      let xs' := filter (fun o => purely_numeric_or_corsica o = true) xs in
      let codes := ((fun z => Str (str_of_int z)) <$> filter (fun z => (z <? 100) = true) zs)
                   ++ filter (fun o => is_corsica o = true) cs in
      let rows := join_rows Left 0 (keys (SObject xs')) (keys (SObject codes)) in
      lookup_col "code_dep" (cols rd') = Some (SObject codes)
      ∧ nrows out = length rows
      ∧ index out = join_index (length rows)
      ∧ (xs' ≠ [] →
         length (cols out)
         = (length (cols df1) + length (filter (fun n => n ≠ "code_dep") (columns rd)))%nat)
      ∧ (∀ (p i : nat) (o : option nat),
           rows !! p = Some (i, o) →
           ∃ j : nat,
             kept !! i = Some j ∧ (j < length xs)%nat ∧ xs' !! i = xs !! j
             ∧ (∃ kc, lookup_col "code_dep" (cols out) = Some kc ∧ iloc kc p = xs !! j)
             ∧ (∀ c col, cols df1 !! c = Some col →
                  ∃ col', cols out !! c = Some col' ∧ iloc col'.2 p = iloc col.2 j)
             ∧ (o = None →
                ∀ c : nat, (length (cols df1) ≤ c < length (cols out))%nat →
                  ∃ col' v, cols out !! c = Some col' ∧ iloc col'.2 p = Some v
                            ∧ is_null v = true))
      ∧ ((∀ n : string, n ∈ columns rd → n ≠ "code_dep" → n ∉ columns df) →
         columns out
         = (if bool_decide (xs' = [])
            then filter (fun n => n ≠ "code_dep") (columns df1) ++ columns rd
            else columns df1 ++ filter (fun n => n ≠ "code_dep") (columns rd))
         ∧ ∀ (n : string) (col : Series),
             n ≠ "code_dep" → lookup_col n (cols rd') = Some col →
             lookup_col n (cols out) = Some (take_fill rows.*2 col)).
Proof.
  intros Hr Hwf Hc Ht Hne Ha Hcs Hlen Hzs.
  destruct (kept_referendum σ referendum areas df xs Hr Hwf Hc Ht)
    as (df1 & Hw & Hwf1 & Hn1 & Hl & Hall & Hrun).
  destruct (reconcatenate_rows rd cs zs Hcs Hlen Hzs) as (rd' & Hrd & Hcodes & Hcolumns & _).
  set (kept := mask_positions 0 (purely_numeric_or_corsica <$> xs)) in *.
  set (xs' := filter (fun o => purely_numeric_or_corsica o = true) xs) in *.
  set (codes := ((fun z => Str (str_of_int z)) <$> filter (fun z => (z <? 100) = true) zs)
                ++ filter (fun o => is_corsica o = true) cs) in *.
  set (left := select_rows df1 kept) in *.
  assert (nrows left = length xs') as Hnl.
  { unfold left, kept. rewrite nrows_select_mask by (by rewrite length_fmap).
    apply length_mask_positions_fmap. }
  destruct (merge_left_rows left rd' "code_dep" xs' codes Hl Hcodes Hall Hnl
              suffix_x_not_code_dep)
    as (out & Hm & Hnrows & Hindex & Hlencols & Hcells & Hnames).
  cbv zeta in Hnrows, Hindex, Hlencols, Hcells, Hnames.
  set (rows := join_rows Left 0 (keys (SObject xs')) (keys (SObject codes))) in *.
  assert (length (cols left) = length (cols df1)) as Hlc
    by (unfold left, select_rows; cbn [cols]; by rewrite length_fmap).
  assert (columns left = columns df1) as Hcl by apply columns_select_rows.
  assert (Forall (fun i => (i < length xs)%nat) kept) as Hkb.
  { rewrite <- (length_fmap purely_numeric_or_corsica). apply mask_positions_bound. }
  exists df1, rd', out. split; [done|]. split; [done|]. split; [done|]. split; [done|].
  split.
  { rewrite Hrun. erewrite join_areas_run; [|by rewrite list_lookup_insert_ne|done|done].
    by rewrite length_insert. }
  cbv zeta. fold kept xs' codes rows.
  split; [done|]. split; [done|]. split; [done|]. split.
  { intros Hx. rewrite (Hlencols Hx), Hlc. by rewrite Hcolumns. }
  split.
  - intros p i o Hp.
    assert (i < length xs')%nat as Hi.
    { pose proof (join_rows_left_bound Left 0 (keys (SObject xs')) (keys (SObject codes)))
        as Hb. fold rows in Hb. rewrite Forall_forall in Hb.
      rewrite length_keys in Hb. apply Hb. apply list_elem_of_fmap. exists (i, o).
      split; [done|]. by eapply list_elem_of_lookup_2. }
    destruct (kept_lookup xs i Hi) as (j & Hj & Hjlt & Hxj). fold kept xs' in Hj, Hxj.
    destruct (Hcells p i o Hp) as ((kc & Hkc & Hkcp) & Hleft & Hright).
    exists j. split; [done|]. split; [done|]. split; [done|]. split_and!.
    + exists kc. split; [done|]. by rewrite Hkcp.
    + intros c col Hcol.
      destruct (Hleft c (prod_map id (take kept) col)) as (col' & Hcol' & Hil).
      { unfold left, select_rows. cbn [cols]. by rewrite list_lookup_fmap, Hcol. }
      exists col'. split; [done|]. rewrite Hil. simpl. apply iloc_take; [|done].
      destruct Hwf1 as [Hwc _]. rewrite Forall_forall in Hwc.
      rewrite (Hwc col) by (by eapply list_elem_of_lookup_2). by rewrite Hn1.
    + intros Ho c Hcr. apply (Hright Ho). by rewrite Hlc.
  - intros Hdisj.
    destruct Hnames as [Hcols Hby].
    { intros n Hin1 Hin2. rewrite Hcl in Hin1. rewrite Hcolumns in Hin2.
      destruct (decide (n = "code_dep")) as [|Hn]; [done|].
      destruct (columns_with_column _ _ _ _ n Hw Hin1) as [Hin|]; [|done].
      by destruct (Hdisj n Hin2 Hn). }
    split; [|exact Hby].
    rewrite Hcols, Hcl, Hcolumns. done.
Qed.

(** The codes of the area table that is joined are in the [int64] range. *)
Lemma reformatted_below (zs : list Z) (cs : list object) (os : list object) (t : string) (w : Z) :
  traverse object_to_int64 os = Ok zs →
  Str t ∈ ((fun z => Str (str_of_int z)) <$> filter (fun z => (z <? 100) = true) zs)
          ++ filter (fun o => is_corsica o = true) cs →
  int_of_str t = Some w → w < 100.
Proof.
  intros Hzs [Hin|Hin]%elem_of_app Hw.
  - apply list_elem_of_fmap in Hin as (z & [= ->] & [Hz Hin]%list_elem_of_filter).
    apply traverse_spec in Hzs.
    apply list_elem_of_lookup_1 in Hin as (q & Hq).
    destruct (Forall2_lookup_r _ _ _ _ _ Hzs Hq) as (o & _ & Ho).
    apply object_to_int64_range in Ho.
    rewrite (int_of_str_of_int z Ho) in Hw. injection Hw as <-. by apply Z.ltb_lt.
  - apply corsica_elements in Hin as [[= ->]|[= ->]]; discriminate Hw.
Qed.

(** A referendum row that the filter keeps and whose code is the code of no
    row of the reformatted area table is a row of the output, with every
    column that comes from the area table missing. *)
Lemma unmatched_referendum_row σ referendum areas df xs j s rd cs zs :
  σ !! referendum = Some df → wf df →
  lookup_col "Department code" (cols df) = Some (SObject xs) →
  xs !! j = Some (Str s) → purely_numeric_or_corsica (Str s) = true →
  referendum ≠ areas → σ !! areas = Some rd →
  lookup_col "code_dep" (cols rd) = Some (SObject cs) →
  length cs = nrows rd →
  traverse object_to_int64 (filter (fun o => negb (is_corsica o) = true) cs) = Ok zs →
  Str s ∉ ((fun z => Str (str_of_int z)) <$> filter (fun z => (z <? 100) = true) zs)
          ++ filter (fun o => is_corsica o = true) cs →
  ∃ (df1 out : DataFrame) (p : nat),
    with_column df "code_dep" (SObject xs) = Ok df1
    ∧ merge_referendum_and_areas referendum areas σ
      = (Ok (length σ), (<[referendum := df1]> σ) ++ [out])
    ∧ (p < nrows out)%nat
    ∧ (∃ code, lookup_col "code_dep" (cols out) = Some code ∧ iloc code p = Some (Str s))
    ∧ (∀ k col, cols df1 !! k = Some col →
         ∃ col', cols out !! k = Some col' ∧ iloc col'.2 p = iloc col.2 j)
    ∧ length (cols out)
      = (length (cols df1) + length (filter (fun n => n ≠ "code_dep") (columns rd)))%nat
    ∧ (∀ k : nat, (length (cols df1) ≤ k < length (cols out))%nat →
         ∃ col' v, cols out !! k = Some col' ∧ iloc col'.2 p = Some v ∧ is_null v = true)
    ∧ ((∀ n : string, n ∈ columns rd → n ≠ "code_dep" → n ∉ columns df) →
       columns out = columns df1 ++ filter (fun n => n ≠ "code_dep") (columns rd)
       ∧ ∀ n : string, n ∈ columns rd → n ≠ "code_dep" →
           ∃ col' v, lookup_col n (cols out) = Some col' ∧ iloc col' p = Some v
                     ∧ is_null v = true).
Proof.
  intros Hr Hwf Hc Hj Hkeep Hne Ha Hcs Hlen Hzs Hnot.
  assert (text xs) as Htext.
  { unfold text. apply orb_True. left. apply Is_true_true. unfold has_str.
    apply existsb_exists. exists (Str s). split; [|done].
    apply list_elem_of_In. by eapply list_elem_of_lookup_2. }
  destruct (mra_rows σ referendum areas df rd xs cs zs Hr Hwf Hc Htext Hne Ha Hcs Hlen Hzs)
    as (df1 & rd' & out & Hw & Hwf1 & Hrd & Hcolumns & Hrun & H).
  cbv zeta in H. destruct H as (Hcodes & Hnrows & Hindex & Hlencols & Hcells & Hnames).
  set (kept := mask_positions 0 (purely_numeric_or_corsica <$> xs)) in *.
  set (xs' := filter (fun o => purely_numeric_or_corsica o = true) xs) in *.
  set (codes := ((fun z => Str (str_of_int z)) <$> filter (fun z => (z <? 100) = true) zs)
                ++ filter (fun o => is_corsica o = true) cs) in *.
  set (rows := join_rows Left 0 (keys (SObject xs')) (keys (SObject codes))) in *.
  destruct (kept_row_position xs j s Hj Hkeep) as (i & Hi & Hxi). fold kept xs' in Hi, Hxi.
  assert ((i, None) ∈ rows) as Hin.
  { apply (join_rows_left_unmatched 0 _ _ i (KStr s)).
    - simpl. by rewrite list_lookup_fmap, Hxi.
    - simpl. intros (o & Ho & Hin)%list_elem_of_fmap. symmetry in Ho.
      apply key_of_object_str in Ho as ->. done. }
  apply list_elem_of_lookup_1 in Hin as (p & Hp).
  destruct (Hcells p i None Hp) as (j' & Hj' & _ & _ & (kc & Hkc & Hkcp) & Hleft & Hright).
  assert (j' = j) as -> by congruence.
  assert (xs' ≠ []) as Hxne by (intros H; by rewrite H in Hxi).
  exists df1, out, p. split; [done|]. split; [done|].
  split; [rewrite Hnrows; by eapply lookup_lt_Some|].
  split; [exists kc; by rewrite Hkcp|].
  split; [done|]. split; [by apply Hlencols|]. split; [by apply Hright|].
  intros Hdisj. destruct (Hnames Hdisj) as [Hcolsout Hby].
  split; [by rewrite Hcolsout, bool_decide_false|].
  intros n Hn Hnc. rewrite <- Hcolumns in Hn.
  apply lookup_col_is_Some in Hn as [col Hcol].
  rewrite (Hby n col Hnc Hcol).
  destruct (iloc_take_fill_missing col rows.*2 p) as (v & Hv & Hnull);
    [by rewrite list_lookup_fmap, Hp|].
  by eexists _, v.
Qed.

(** C10: a referendum row whose department code is numeric with a leading
    zero (such as "01") passes the filter and keeps its code as it is, so it
    matches no code of the reformatted area table: it is a row of the output
    of [merge_referendum_and_areas], with its own fields unchanged and every
    field that comes from the area table missing.  The output has, after
    the columns of the referendum table, one column for each column of the
    area table other than [code_dep], under the label it has there when no
    label but [code_dep] is shared. *)
Theorem leading_zero_row_unmatched
    (σ : list DataFrame) (referendum areas : nat) (df rd : DataFrame)
    (xs cs : list object) (zs : list Z) (j : nat) (c : ascii) (r : string) :
  σ !! referendum = Some df → wf df →
  lookup_col "Department code" (cols df) = Some (SObject xs) →
  xs !! j = Some (Str (String "0" (String c r))) →
  isnumeric (String "0" (String c r)) = true →
  referendum ≠ areas → σ !! areas = Some rd →
  lookup_col "code_dep" (cols rd) = Some (SObject cs) →
  length cs = nrows rd →
  traverse object_to_int64 (filter (fun o => negb (is_corsica o) = true) cs) = Ok zs →
  ∃ (df1 out : DataFrame) (p : nat),
    with_column df "code_dep" (SObject xs) = Ok df1
    ∧ merge_referendum_and_areas referendum areas σ
      = (Ok (length σ), (<[referendum := df1]> σ) ++ [out])
    ∧ (p < nrows out)%nat
    ∧ (∃ code, lookup_col "code_dep" (cols out) = Some code
               ∧ iloc code p = Some (Str (String "0" (String c r))))
    ∧ (∀ k col, cols df1 !! k = Some col →
         ∃ col', cols out !! k = Some col' ∧ iloc col'.2 p = iloc col.2 j)
    ∧ length (cols out)
      = (length (cols df1) + length (filter (fun n => n ≠ "code_dep") (columns rd)))%nat
    ∧ (∀ k : nat, (length (cols df1) ≤ k < length (cols out))%nat →
         ∃ col' v, cols out !! k = Some col' ∧ iloc col'.2 p = Some v ∧ is_null v = true)
    ∧ ((∀ n : string, n ∈ columns rd → n ≠ "code_dep" → n ∉ columns df) →
       columns out = columns df1 ++ filter (fun n => n ≠ "code_dep") (columns rd)
       ∧ ∀ n : string, n ∈ columns rd → n ≠ "code_dep" →
           ∃ col' v, lookup_col n (cols out) = Some col' ∧ iloc col' p = Some v
                     ∧ is_null v = true).
Proof.
  intros Hr Hwf Hc Hj Hnum Hne Ha Hcs Hlen Hzs.
  eapply unmatched_referendum_row; try done.
  - unfold purely_numeric_or_corsica. by rewrite Hnum.
  - intros [(z & _ & Hz)|[Hz|Hz]]%reformatted_codes; [|done..].
    symmetry in Hz. by apply str_of_int_no_leading_zero in Hz.
Qed.

Lemma ex_areas_labels :
  ∀ n : string, n ∈ columns ex_areas → n ≠ "code_dep" → n ∉ columns ex_referendum.
Proof.
  intros n Hn Hne Hin. revert Hn Hin. unfold columns. simpl. rewrite !elem_of_cons, !elem_of_nil.
  intros [->|[->|[->|[->|[]]]]]; intros [Hx|[Hx|[Hx|[Hx|[Hx|[Hx|[]]]]]]]; discriminate Hx.
Qed.

Lemma leading_zero_row_unmatched_witness :
  ∃ (df1 out : DataFrame) (p : nat),
    with_column ex_referendum "code_dep" (strs ["1"; "01"; "2A"; "ZA"; "971"]) = Ok df1
    ∧ merge_referendum_and_areas 2 3 ex_store_areas
      = (Ok 4%nat, (<[2%nat := df1]> ex_store_areas) ++ [out])
    ∧ (p < nrows out)%nat
    ∧ (∃ code, lookup_col "code_dep" (cols out) = Some code ∧ iloc code p = Some (Str "01"))
    ∧ (∀ k col, cols df1 !! k = Some col →
         ∃ col', cols out !! k = Some col' ∧ iloc col'.2 p = iloc col.2 1)
    ∧ length (cols out) = 10%nat
    ∧ ∀ n : string, n ∈ ["code_reg"; "name_reg"; "name_dep"] →
        ∃ col' v, lookup_col n (cols out) = Some col' ∧ iloc col' p = Some v
                  ∧ is_null v = true.
Proof.
  destruct (leading_zero_row_unmatched ex_store_areas 2 3 ex_referendum ex_areas
              (Str <$> ["1"; "01"; "2A"; "ZA"; "971"]) (Str <$> ["01"; "03"; "2A"; "971"])
              [1; 3; 971] 1 "1" "")
    as (df1 & out & p & Hw & Hrun & Hp & Hcode & Hleft & Hlen & _ & Hnames);
    [first [reflexivity | exact wf_ex_referendum | discriminate]..|].
  destruct (Hnames ex_areas_labels) as [_ Hnull].
  exists df1, out, p. split_and!; [exact Hw|exact Hrun|exact Hp|exact Hcode|exact Hleft| |].
  - rewrite Hlen. vm_compute in Hw. injection Hw as <-. reflexivity.
  - intros n Hn. apply Hnull.
    + revert Hn. unfold columns. simpl. rewrite !elem_of_cons. tauto.
    + revert Hn. rewrite !elem_of_cons, elem_of_nil. by intros [->|[->|[->|[]]]].
Defined.

(** C3, as the code has it: the area rows whose department code is numeric
    and at least 100 are left out of the area table that the referendum is
    joined with, which keeps only the Corsica rows and the rows whose code
    is below 100.  A referendum row with such a code is not excluded: it
    is a row of the output of [merge_referendum_and_areas], with every
    field that comes from the area table missing. *)
Theorem overseas_rows
    (σ : list DataFrame) (referendum areas : nat) (df rd : DataFrame)
    (xs cs : list object) (zs : list Z) (j : nat) (s : string) (v : Z) :
  σ !! referendum = Some df → wf df →
  lookup_col "Department code" (cols df) = Some (SObject xs) →
  xs !! j = Some (Str s) →
  isnumeric s = true → int_of_str s = Some v → 100 ≤ v →
  referendum ≠ areas → σ !! areas = Some rd →
  lookup_col "code_dep" (cols rd) = Some (SObject cs) →
  length cs = nrows rd →
  traverse object_to_int64 (filter (fun o => negb (is_corsica o) = true) cs) = Ok zs →
  ∃ (rd' df1 out : DataFrame) (ys : list object) (p : nat),
    reconcatenate rd = Ok rd'
    ∧ lookup_col "code_dep" (cols rd') = Some (SObject ys)
    ∧ nrows rd' = length ys
    ∧ length ys
      = (length (filter (fun z : Z => (z <? 100)%Z = true) zs)
         + length (filter (fun o => is_corsica o = true) cs))%nat
    ∧ (∀ (t : string) (w : Z), Str t ∈ ys → int_of_str t = Some w → w < 100)
    ∧ with_column df "code_dep" (SObject xs) = Ok df1
    ∧ merge_referendum_and_areas referendum areas σ
      = (Ok (length σ), (<[referendum := df1]> σ) ++ [out])
    ∧ (p < nrows out)%nat
    ∧ (∃ code, lookup_col "code_dep" (cols out) = Some code ∧ iloc code p = Some (Str s))
    ∧ (∀ k col, cols df1 !! k = Some col →
         ∃ col', cols out !! k = Some col' ∧ iloc col'.2 p = iloc col.2 j)
    ∧ length (cols out)
      = (length (cols df1) + length (filter (fun n => n ≠ "code_dep") (columns rd)))%nat
    ∧ (∀ k : nat, (length (cols df1) ≤ k < length (cols out))%nat →
         ∃ col' v, cols out !! k = Some col' ∧ iloc col'.2 p = Some v ∧ is_null v = true)
    ∧ ((∀ n : string, n ∈ columns rd → n ≠ "code_dep" → n ∉ columns df) →
       columns out = columns df1 ++ filter (fun n => n ≠ "code_dep") (columns rd)
       ∧ ∀ n : string, n ∈ columns rd → n ≠ "code_dep" →
           ∃ col' v, lookup_col n (cols out) = Some col' ∧ iloc col' p = Some v
                     ∧ is_null v = true).
Proof.
  intros Hr Hwf Hc Hj Hnum Hv Hge Hne Ha Hcs Hlen Hzs.
  destruct (reconcatenate_spec rd cs zs Hcs Hlen Hzs) as (rd' & Hrd' & Hcodes).
  pose proof (nrows_reconcatenate rd cs zs rd' Hcs Hlen Hzs Hrd') as Hnrd.
  set (ys := ((fun z => Str (str_of_int z)) <$> filter (fun z => (z <? 100) = true) zs)
             ++ filter (fun o => is_corsica o = true) cs) in *.
  assert (length ys
          = (length (filter (fun z : Z => (z <? 100)%Z = true) zs)
             + length (filter (fun o => is_corsica o = true) cs))%nat) as Hlys
    by (unfold ys; by rewrite length_app, length_fmap).
  assert (∀ (t : string) (w : Z), Str t ∈ ys → int_of_str t = Some w → w < 100) as Hbelow.
  { intros t w Hin Hw. by eapply reformatted_below. }
  destruct (unmatched_referendum_row σ referendum areas df xs j s rd cs zs
              Hr Hwf Hc Hj) as (df1 & out & p & H); try done.
  - unfold purely_numeric_or_corsica. by rewrite Hnum.
  - intros Hin. specialize (Hbelow s v Hin Hv). lia.
  - exists rd', df1, out, ys, p. split; [done|]. split; [done|].
    split; [by rewrite Hnrd, Hlys|]. split; [done|]. split; [done|]. done.
Qed.

Lemma overseas_rows_witness :
  ∃ (rd' df1 out : DataFrame) (ys : list object) (p : nat),
    reconcatenate ex_areas = Ok rd'
    ∧ lookup_col "code_dep" (cols rd') = Some (SObject ys)
    ∧ nrows rd' = 3%nat
    ∧ (∀ (t : string) (w : Z), Str t ∈ ys → int_of_str t = Some w → w < 100)
    ∧ with_column ex_referendum "code_dep" (strs ["1"; "01"; "2A"; "ZA"; "971"]) = Ok df1
    ∧ merge_referendum_and_areas 2 3 ex_store_areas
      = (Ok 4%nat, (<[2%nat := df1]> ex_store_areas) ++ [out])
    ∧ (p < nrows out)%nat
    ∧ (∃ code, lookup_col "code_dep" (cols out) = Some code ∧ iloc code p = Some (Str "971"))
    ∧ (∀ k col, cols df1 !! k = Some col →
         ∃ col', cols out !! k = Some col' ∧ iloc col'.2 p = iloc col.2 4)
    ∧ length (cols out) = 10%nat
    ∧ ∀ n : string, n ∈ ["code_reg"; "name_reg"; "name_dep"] →
        ∃ col' v, lookup_col n (cols out) = Some col' ∧ iloc col' p = Some v
                  ∧ is_null v = true.
Proof.
  destruct (overseas_rows ex_store_areas 2 3 ex_referendum ex_areas
              (Str <$> ["1"; "01"; "2A"; "ZA"; "971"]) (Str <$> ["01"; "03"; "2A"; "971"])
              [1; 3; 971] 4 "971" 971)
    as (rd' & df1 & out & ys & p & Hrd & Hys & Hn & Hlys & Hbelow & Hw & Hrun & Hp & Hcode
        & Hleft & Hlen & _ & Hnames);
    [first [reflexivity | exact wf_ex_referendum | discriminate]..|].
  destruct (Hnames ex_areas_labels) as [_ Hnull].
  exists rd', df1, out, ys, p.
  split_and!; [exact Hrd|exact Hys| |exact Hbelow|exact Hw|exact Hrun|exact Hp|exact Hcode
               |exact Hleft| |].
  - rewrite Hn, Hlys. reflexivity.
  - rewrite Hlen. vm_compute in Hw. injection Hw as <-. reflexivity.
  - intros n Hn'. apply Hnull.
    + revert Hn'. unfold columns. simpl. rewrite !elem_of_cons. tauto.
    + revert Hn'. rewrite !elem_of_cons, elem_of_nil. by intros [->|[->|[->|[]]]].
Defined.

(** C3 fails as stated: the referendum row of department "971" is a row of
    the output. *)
Lemma overseas_rows_counterexample :
  ∃ out : DataFrame,
    merge_referendum_and_areas 2 3 ex_store_areas
    = (Ok 4%nat,
       [ex_regions; ex_departments;
        mkDataFrame (RangeIndex 5)
          (cols ex_referendum ++ [("code_dep", strs ["1"; "01"; "2A"; "ZA"; "971"])]);
        ex_areas; out])
    ∧ isnumeric "971" = true ∧ int_of_str "971" = Some 971
    ∧ lookup_col "Department code" (cols out) = Some (strs ["1"; "01"; "2A"; "971"])
    ∧ lookup_col "code_dep" (cols out) = Some (strs ["1"; "01"; "2A"; "971"])
    ∧ lookup_col "code_reg" (cols out) = Some (SObject [Str "84"; NaN; Str "94"; NaN]).
Proof. eexists. split_and!; reflexivity. Qed.

(** A referendum row that the filter keeps and whose code is the
    reformatted code of an area row is joined with that area row. *)
Lemma matched_referendum_row σ referendum areas df rd xs cs zs j i s c :
  σ !! referendum = Some df → wf df →
  lookup_col "Department code" (cols df) = Some (SObject xs) →
  xs !! j = Some (Str s) → purely_numeric_or_corsica (Str s) = true →
  referendum ≠ areas → σ !! areas = Some rd →
  lookup_col "code_dep" (cols rd) = Some (SObject cs) →
  length cs = nrows rd →
  traverse object_to_int64 (filter (fun o => negb (is_corsica o) = true) cs) = Ok zs →
  (∀ n : string, n ∈ columns rd → n ≠ "code_dep" → n ∉ columns df) →
  cs !! i = Some c → reformatted c s →
  ∃ (df1 out : DataFrame) (p : nat),
    with_column df "code_dep" (SObject xs) = Ok df1
    ∧ merge_referendum_and_areas referendum areas σ
      = (Ok (length σ), (<[referendum := df1]> σ) ++ [out])
    ∧ (p < nrows out)%nat
    ∧ (∀ k col, cols df1 !! k = Some col →
         ∃ col', cols out !! k = Some col' ∧ iloc col'.2 p = iloc col.2 j)
    ∧ (∀ (n : string) (vs : list object),
         n ≠ "code_dep" → lookup_col n (cols rd) = Some (SObject vs) →
         length vs = nrows rd →
         ∃ col, lookup_col n (cols out) = Some col ∧ iloc col p = vs !! i).
Proof.
  intros Hr Hwf Hc Hj Hkeep Hne Ha Hcs Hlen Hzs Hdisj Hi Href.
  assert (text xs) as Htext.
  { unfold text. apply orb_True. left. apply Is_true_true. unfold has_str.
    apply existsb_exists. exists (Str s). split; [|done].
    apply list_elem_of_In. by eapply list_elem_of_lookup_2. }
  destruct (mra_rows σ referendum areas df rd xs cs zs Hr Hwf Hc Htext Hne Ha Hcs Hlen Hzs)
    as (df1 & rd' & out & Hw & Hwf1 & Hrd & Hcolumns & Hrun & H).
  cbv zeta in H. destruct H as (Hcodes & Hnrows & Hindex & Hlencols & Hcells & Hnames).
  set (kept := mask_positions 0 (purely_numeric_or_corsica <$> xs)) in *.
  set (xs' := filter (fun o => purely_numeric_or_corsica o = true) xs) in *.
  set (codes := ((fun z => Str (str_of_int z)) <$> filter (fun z => (z <? 100) = true) zs)
                ++ filter (fun o => is_corsica o = true) cs) in *.
  set (rows := join_rows Left 0 (keys (SObject xs')) (keys (SObject codes))) in *.
  destruct (kept_row_position xs j s Hj Hkeep) as (i' & Hi' & Hxi). fold kept xs' in Hi', Hxi.
  destruct (reconcatenate_rows rd cs zs Hcs Hlen Hzs) as (rd2 & Hrd2 & _ & _ & Hrows).
  assert (rd2 = rd') as -> by congruence.
  destruct (Hrows i c s Hi Href) as (q & Hq & Hvals). fold codes in Hq.
  assert ((i', Some q) ∈ rows) as Hin.
  { apply (join_rows_matched Left 0 _ _ i' q (KStr s)); simpl.
    - by rewrite list_lookup_fmap, Hxi.
    - by rewrite list_lookup_fmap, Hq. }
  apply list_elem_of_lookup_1 in Hin as (p & Hp).
  destruct (Hcells p i' (Some q) Hp) as (j' & Hj' & _ & _ & _ & Hleft & _).
  assert (j' = j) as -> by congruence.
  destruct (Hnames Hdisj) as [_ Hby].
  exists df1, out, p. split; [done|]. split; [done|].
  split; [rewrite Hnrows; by eapply lookup_lt_Some|]. split; [done|].
  intros n vs Hnc Hvs Hlvs.
  destruct (Hvals n vs Hnc Hvs Hlvs) as (vs' & Hvs' & Hvq).
  rewrite (Hby n (SObject vs') Hnc Hvs'). eexists. split; [done|].
  rewrite take_fill_object. cbn [iloc]. rewrite !list_lookup_fmap, Hp. simpl.
  rewrite Hvq.
  destruct (lookup_lt_is_Some_2 vs i) as [v ->]; [|done].
  rewrite Hlvs, <- Hlen. by eapply lookup_lt_Some.
Qed.

(** X12: a referendum row that passes the filter and whose department
    code is the reformatted code of an area row is joined with that area
    row: the table that [merge_referendum_and_areas] returns has a row with
    the fields of the referendum row and, under each text column of the area
    table, the field of the area row.  So an area code written "01" is found
    by the referendum code "1". *)
Theorem referendum_row_matched
    (σ : list DataFrame) (referendum areas : nat) (df rd : DataFrame)
    (xs cs : list object) (zs : list Z) (j i : nat) (s : string) (c : object) :
  σ !! referendum = Some df → wf df →
  lookup_col "Department code" (cols df) = Some (SObject xs) →
  xs !! j = Some (Str s) → purely_numeric_or_corsica (Str s) = true →
  referendum ≠ areas → σ !! areas = Some rd →
  lookup_col "code_dep" (cols rd) = Some (SObject cs) →
  length cs = nrows rd →
  traverse object_to_int64 (filter (fun o => negb (is_corsica o) = true) cs) = Ok zs →
  (∀ n : string, n ∈ columns rd → n ≠ "code_dep" → n ∉ columns df) →
  cs !! i = Some c → reformatted c s →
  ∃ (df1 out : DataFrame) (p : nat),
    with_column df "code_dep" (SObject xs) = Ok df1
    ∧ merge_referendum_and_areas referendum areas σ
      = (Ok (length σ), (<[referendum := df1]> σ) ++ [out])
    ∧ (p < nrows out)%nat
    ∧ (∀ k col, cols df1 !! k = Some col →
         ∃ col', cols out !! k = Some col' ∧ iloc col'.2 p = iloc col.2 j)
    ∧ (∀ (n : string) (vs : list object),
         n ≠ "code_dep" → lookup_col n (cols rd) = Some (SObject vs) →
         length vs = nrows rd →
         ∃ col, lookup_col n (cols out) = Some col ∧ iloc col p = vs !! i).
Proof. apply matched_referendum_row. Qed.

Lemma referendum_row_matched_witness :
  ∃ (df1 out : DataFrame) (p : nat),
    with_column ex_referendum "code_dep" (strs ["1"; "01"; "2A"; "ZA"; "971"]) = Ok df1
    ∧ merge_referendum_and_areas 2 3 ex_store_areas
      = (Ok 4%nat, (<[2%nat := df1]> ex_store_areas) ++ [out])
    ∧ (p < nrows out)%nat
    ∧ (∀ k col, cols df1 !! k = Some col →
         ∃ col', cols out !! k = Some col' ∧ iloc col'.2 p = iloc col.2 0)
    ∧ (∀ (n : string) (vs : list object),
         n ≠ "code_dep" → lookup_col n (cols ex_areas) = Some (SObject vs) →
         length vs = nrows ex_areas →
         ∃ col, lookup_col n (cols out) = Some col ∧ iloc col p = vs !! 0%nat).
Proof.
  apply (referendum_row_matched ex_store_areas 2 3 ex_referendum ex_areas
           (Str <$> ["1"; "01"; "2A"; "ZA"; "971"]) (Str <$> ["01"; "03"; "2A"; "971"])
           [1; 3; 971] 0 0 "1" (Str "01"));
    try first [reflexivity | exact wf_ex_referendum | discriminate].
  - apply (Forall_forall (fun n => n ≠ "code_dep" → n ∉ columns ex_referendum)).
    apply (bool_decide_unpack _). reflexivity.
  - right. split; [reflexivity|]. exists 1. split; [reflexivity|]. split; [lia|reflexivity].
Defined.

(** The codes "1" to "9". *)
Lemma one_digit_code (n : Z) :
  1 ≤ n ≤ 9 →
  ∃ c : ascii, str_of_int n = String c "" ∧ isnumeric (str_of_int n) = true.
Proof.
  intros Hn.
  assert (n = 1 ∨ n = 2 ∨ n = 3 ∨ n = 4 ∨ n = 5 ∨ n = 6 ∨ n = 7 ∨ n = 8 ∨ n = 9) as H by lia.
  destruct H as [->|[->|[->|[->|[->|[->|[->|[->| ->]]]]]]]]; by eexists.
Qed.

Lemma leading_zero_reformatted (n : Z) :
  1 ≤ n ≤ 9 → reformatted (Str (String "0" (str_of_int n))) (str_of_int n).
Proof.
  intros Hn. right. split.
  - destruct (one_digit_code n Hn) as (c & -> & _). done.
  - exists n. split; [by apply leading_zero_digit|]. split; [lia|done].
Qed.

(** C4: [merge_referendum_and_areas] joins the referendum with an area
    table whose non-Corsica department codes have been rewritten through
    [int] and back to [str], and whose Corsica codes "2A" and "2B" are as
    they were: the codes of that table are the rewritten non-Corsica codes
    below 100, followed by the Corsica codes.  So an area row with the code
    "01".."09" is there under the code "1".."9", no code "01".."09" is left,
    and in the table that is returned such an area row is joined with the
    referendum rows of code "1".."9", as a Corsica area row is with the
    referendum rows of its own code. *)
Theorem area_codes_normalized
    (σ : list DataFrame) (referendum areas : nat) (df rd : DataFrame)
    (xs cs : list object) (zs : list Z) :
  σ !! referendum = Some df → wf df →
  lookup_col "Department code" (cols df) = Some (SObject xs) →
  text xs →
  referendum ≠ areas → σ !! areas = Some rd →
  lookup_col "code_dep" (cols rd) = Some (SObject cs) →
  length cs = nrows rd →
  traverse object_to_int64 (filter (fun o => negb (is_corsica o) = true) cs) = Ok zs →
  ∃ (rd' df1 out : DataFrame) (codes : list object),
    reconcatenate rd = Ok rd'
    ∧ lookup_col "code_dep" (cols rd') = Some (SObject codes)
    ∧ codes = ((fun z => Str (str_of_int z)) <$> filter (fun z => (z <? 100) = true) zs)
              ++ filter (fun o => is_corsica o = true) cs
    ∧ (∀ (j : nat) (n : Z),
         1 ≤ n ≤ 9 →
         filter (fun o => negb (is_corsica o) = true) cs !! j
           = Some (Str (String "0" (str_of_int n))) →
         zs !! j = Some n)
    ∧ (∀ o : object, o ∈ filter (fun o => is_corsica o = true) cs → o = Str "2A" ∨ o = Str "2B")
    ∧ (∀ (i : nat) (n : Z),
         1 ≤ n ≤ 9 → cs !! i = Some (Str (String "0" (str_of_int n))) →
         Str (str_of_int n) ∈ codes)
    ∧ (∀ (i : nat) (s : string),
         cs !! i = Some (Str s) → s = "2A" ∨ s = "2B" → Str s ∈ codes)
    ∧ (∀ n : Z, 1 ≤ n ≤ 9 → Str (String "0" (str_of_int n)) ∉ codes)
    ∧ with_column df "code_dep" (SObject xs) = Ok df1
    ∧ merge_referendum_and_areas referendum areas σ
      = (Ok (length σ), (<[referendum := df1]> σ) ++ [out])
    ∧ ((∀ n : string, n ∈ columns rd → n ≠ "code_dep" → n ∉ columns df) →
       ∀ (i j : nat) (c : object) (s : string),
         cs !! i = Some c → xs !! j = Some (Str s) →
         (∃ n : Z, 1 ≤ n ≤ 9 ∧ c = Str (String "0" (str_of_int n)) ∧ s = str_of_int n)
         ∨ (c = Str s ∧ (s = "2A" ∨ s = "2B")) →
         ∃ p : nat,
           (p < nrows out)%nat
           ∧ (∀ k col, cols df1 !! k = Some col →
                ∃ col', cols out !! k = Some col' ∧ iloc col'.2 p = iloc col.2 j)
           ∧ (∀ (n : string) (vs : list object),
                n ≠ "code_dep" → lookup_col n (cols rd) = Some (SObject vs) →
                length vs = nrows rd →
                ∃ col, lookup_col n (cols out) = Some col ∧ iloc col p = vs !! i)).
Proof.
  intros Hr Hwf Hc Htext Hne Ha Hcs Hlen Hzs.
  destruct (mra_rows σ referendum areas df rd xs cs zs Hr Hwf Hc Htext Hne Ha Hcs Hlen Hzs)
    as (df1 & rd' & out & Hw & Hwf1 & Hrd & Hcolumns & Hrun & H).
  cbv zeta in H. destruct H as (Hcodes & _).
  destruct (reconcatenate_rows rd cs zs Hcs Hlen Hzs) as (rd2 & Hrd2 & _ & _ & Hrows).
  set (codes := ((fun z => Str (str_of_int z)) <$> filter (fun z => (z <? 100) = true) zs)
                ++ filter (fun o => is_corsica o = true) cs) in *.
  exists rd', df1, out, codes.
  split; [done|]. split; [done|]. split; [done|]. split.
  { intros j n Hn Hj. apply traverse_spec in Hzs.
    destruct (Forall2_lookup_l _ _ _ _ _ Hzs Hj) as (z & Hz & Hconv).
    rewrite leading_zero_digit in Hconv by done. congruence. }
  split; [apply corsica_elements|]. split.
  { intros i n Hn Hi.
    destruct (Hrows i _ _ Hi (leading_zero_reformatted n Hn)) as (q & Hq & _).
    by eapply list_elem_of_lookup_2. }
  split.
  { intros i s Hi Hs.
    assert (reformatted (Str s) s) as Href.
    { left. split; [|done]. by destruct Hs as [-> | ->]. }
    destruct (Hrows i _ _ Hi Href) as (q & Hq & _).
    by eapply list_elem_of_lookup_2. }
  split.
  { intros n Hn [(z & _ & Hz)|[Hz|Hz]]%reformatted_codes; [|done..].
    destruct (one_digit_code n Hn) as (c & Hc' & _). rewrite Hc' in Hz.
    symmetry in Hz. by apply str_of_int_no_leading_zero in Hz. }
  split; [done|]. split; [done|].
  intros Hdisj i j c s Hi Hj Hcase.
  assert (purely_numeric_or_corsica (Str s) = true ∧ reformatted c s) as [Hkeep Href].
  { destruct Hcase as [(n & Hn & -> & ->)|[-> Hs]].
    - split; [|by apply leading_zero_reformatted].
      destruct (one_digit_code n Hn) as (c & _ & Hnum). simpl. by rewrite Hnum.
    - split; [by destruct Hs as [-> | ->]|].
      left. split; [|done]. by destruct Hs as [-> | ->]. }
  destruct (matched_referendum_row σ referendum areas df rd xs cs zs j i s c
              Hr Hwf Hc Hj Hkeep Hne Ha Hcs Hlen Hzs Hdisj Hi Href)
    as (df1' & out' & p & Hw' & Hrun' & Hp & Hleft & Hright).
  assert (df1' = df1) as -> by congruence.
  assert (out' = out) as ->.
  { rewrite Hrun in Hrun'. injection Hrun' as Happ. by apply app_inj_tail in Happ as [_ ->]. }
  by exists p.
Qed.

Lemma area_codes_normalized_witness :
  ∃ (rd' df1 out : DataFrame) (codes : list object),
    reconcatenate ex_areas = Ok rd'
    ∧ lookup_col "code_dep" (cols rd') = Some (SObject codes)
    ∧ codes = Str <$> ["1"; "3"; "2A"]
    ∧ merge_referendum_and_areas 2 3 ex_store_areas
      = (Ok 4%nat, (<[2%nat := df1]> ex_store_areas) ++ [out])
    ∧ ∃ p : nat,
        (p < nrows out)%nat
        ∧ (∀ k col, cols df1 !! k = Some col →
             ∃ col', cols out !! k = Some col' ∧ iloc col'.2 p = iloc col.2 0)
        ∧ (∀ (n : string) (vs : list object),
             n ≠ "code_dep" → lookup_col n (cols ex_areas) = Some (SObject vs) →
             length vs = nrows ex_areas →
             ∃ col, lookup_col n (cols out) = Some col ∧ iloc col p = vs !! 0%nat).
Proof.
  destruct (area_codes_normalized ex_store_areas 2 3 ex_referendum ex_areas
              (Str <$> ["1"; "01"; "2A"; "ZA"; "971"]) (Str <$> ["01"; "03"; "2A"; "971"])
              [1; 3; 971])
    as (rd' & df1 & out & codes & Hrd & Hcodes & Heq & _ & _ & _ & _ & _ & Hw & Hrun & Hm);
    [first [reflexivity | exact wf_ex_referendum | discriminate]..|].
  exists rd', df1, out, codes. split_and!; [exact Hrd|exact Hcodes|exact Heq|exact Hrun|].
  apply (Hm ex_areas_labels 0%nat 0%nat (Str "01") "1"); [reflexivity|reflexivity|].
  left. exists 1. split; [lia|]. split; reflexivity.
Defined.

(** The kept positions come in increasing order. *)
Lemma mask_positions_sorted (from : nat) (mask : list bool) :
  StronglySorted lt (mask_positions from mask)
  ∧ Forall (fun i => (from ≤ i)%nat) (mask_positions from mask).
Proof.
  revert from. induction mask as [|b mask IH]; intros from; [by split; constructor|].
  destruct (IH (S from)) as [Hs Hf]. simpl. destruct b.
  - split.
    + constructor; [done|]. eapply Forall_impl; [exact Hf|]. simpl. lia.
    + constructor; [done|]. eapply Forall_impl; [exact Hf|]. simpl. lia.
  - split; [done|]. eapply Forall_impl; [exact Hf|]. simpl. lia.
Qed.

Lemma StronglySorted_lt_lookup (l : list nat) p q a b :
  StronglySorted lt l → (p ≤ q)%nat → l !! p = Some a → l !! q = Some b → (a ≤ b)%nat.
Proof.
  intros Hs. revert p q. induction Hs as [|x l Hs IH Hall]; intros p q Hpq Hp Hq; [done|].
  destruct p as [|p], q as [|q]; simpl in *; try lia.
  - injection Hp as ->. injection Hq as ->. done.
  - injection Hp as ->. rewrite Forall_forall in Hall.
    assert (a < b)%nat; [|lia]. apply Hall. by eapply list_elem_of_lookup_2.
  - apply (IH p q); [lia|done|done].
Qed.

(** C5: [merge_referendum_and_areas] keeps exactly the referendum rows whose
    department code is purely numeric or is "2A" or "2B".  The frame that
    goes into the join has one row for each such row, in order, with the
    fields and the label of that row, and no other row.  Every row of the
    table that is returned carries one of these rows, and each of these
    rows is carried by a row of that table. *)
Theorem referendum_rows_kept
    (σ : list DataFrame) (referendum areas : nat) (df : DataFrame) (xs : list object) :
  σ !! referendum = Some df → wf df →
  lookup_col "Department code" (cols df) = Some (SObject xs) →
  text xs →
  ∃ (df1 left : DataFrame) (kept : list nat),
    with_column df "code_dep" (SObject xs) = Ok df1
    ∧ (∀ j : nat, j ∈ kept ↔ ∃ o, xs !! j = Some o ∧ purely_numeric_or_corsica o = true)
    ∧ StronglySorted lt kept
    ∧ keep_numeric df1 = Ok left
    ∧ merge_referendum_and_areas referendum areas σ
      = join_areas left areas (<[referendum := df1]> σ)
    ∧ nrows left = length kept
    ∧ columns left = columns df1
    ∧ length (index left) = length (index df1)
    ∧ (∀ (c : nat) (col : string * Series),
         cols df1 !! c = Some col →
         ∃ col', cols left !! c = Some col' ∧ col'.1 = col.1
                 ∧ series_len col'.2 = length kept
                 ∧ ∀ p j : nat, kept !! p = Some j → iloc col'.2 p = iloc col.2 j)
    ∧ (∀ (c : nat) (l : option string * Series),
         index df1 !! c = Some l →
         ∃ l', index left !! c = Some l' ∧ l'.1 = l.1
               ∧ series_len l'.2 = length kept
               ∧ ∀ p j : nat, kept !! p = Some j → iloc l'.2 p = iloc l.2 j)
    ∧ (∀ (rd : DataFrame) (cs : list object) (zs : list Z),
         referendum ≠ areas → σ !! areas = Some rd →
         lookup_col "code_dep" (cols rd) = Some (SObject cs) →
         length cs = nrows rd →
         traverse object_to_int64 (filter (fun o => negb (is_corsica o) = true) cs) = Ok zs →
         ∃ (out : DataFrame) (src : list nat),
           merge_referendum_and_areas referendum areas σ
           = (Ok (length σ), (<[referendum := df1]> σ) ++ [out])
           ∧ nrows out = length src
           ∧ (∀ j : nat, j ∈ src ↔ j ∈ kept)
           ∧ (∀ p q j j' : nat,
                (p ≤ q)%nat → src !! p = Some j → src !! q = Some j' → (j ≤ j')%nat)
           ∧ ∀ p j : nat,
               src !! p = Some j →
               (∃ code, lookup_col "code_dep" (cols out) = Some code
                        ∧ iloc code p = xs !! j)
               ∧ ∀ k col, cols df1 !! k = Some col →
                   ∃ col', cols out !! k = Some col' ∧ iloc col'.2 p = iloc col.2 j).
Proof.
  intros Hr Hwf Hc Ht.
  pose proof (wf_column_len df _ _ Hwf Hc) as Hlen. simpl in Hlen.
  destruct (kept_rows_join σ referendum areas df xs Hr Hc Ht Hlen) as (df1 & Hw & Hk & Hrun).
  set (kept := mask_positions 0 (purely_numeric_or_corsica <$> xs)) in *.
  pose proof (wf_with_column _ _ _ _ Hwf Hw) as Hwf1.
  pose proof (nrows_with_column _ _ _ _ Hw) as Hn1.
  assert (Forall (fun i => (i < length xs)%nat) kept) as Hkb.
  { rewrite <- (length_fmap purely_numeric_or_corsica). apply mask_positions_bound. }
  assert (∀ j : nat, j ∈ kept ↔ ∃ o, xs !! j = Some o ∧ purely_numeric_or_corsica o = true)
    as Hkept.
  { intros j. unfold kept. rewrite mask_positions_spec. split.
    - intros (i & -> & Hi). rewrite list_lookup_fmap in Hi. simpl.
      destruct (xs !! i) as [o|]; [|done]. exists o. split; [done|]. by injection Hi.
    - intros (o & Ho & Hp). exists j. split; [done|]. by rewrite list_lookup_fmap, Ho; simpl; rewrite Hp. }
  assert (nrows (select_rows df1 kept) = length kept) as Hnl.
  { unfold kept. apply nrows_select_mask. rewrite length_fmap. congruence. }
  exists df1, (select_rows df1 kept), kept.
  split; [done|]. split; [done|]. split; [apply mask_positions_sorted|].
  split; [done|]. split; [done|]. split; [done|].
  split; [apply columns_select_rows|].
  split; [unfold select_rows; cbn [index]; by rewrite length_fmap|]. split.
  { intros c col Hcol. exists (prod_map id (take kept) col).
    split; [unfold select_rows; cbn [cols]; by rewrite list_lookup_fmap, Hcol|].
    split; [done|]. split; [apply series_len_take|].
    intros p j Hp. simpl. apply iloc_take; [|done].
    destruct Hwf1 as [Hwc _]. rewrite Forall_forall in Hwc.
    rewrite (Hwc col) by (by eapply list_elem_of_lookup_2). by rewrite Hn1, <- Hlen. }
  split.
  { intros c l Hl. exists (prod_map id (take kept) l).
    split; [unfold select_rows, Index in *; cbn [index]; by rewrite list_lookup_fmap, Hl|].
    split; [done|]. split; [apply series_len_take|].
    intros p j Hp. simpl. apply iloc_take; [|done].
    destruct Hwf1 as [_ Hwi]. rewrite Forall_forall in Hwi.
    rewrite (Hwi l) by (by eapply list_elem_of_lookup_2). by rewrite Hn1, <- Hlen. }
  intros rd cs zs Hne Ha Hcs Hlcs Hzs.
  destruct (mra_rows σ referendum areas df rd xs cs zs Hr Hwf Hc Ht Hne Ha Hcs Hlcs Hzs)
    as (df1' & rd' & out & Hw' & _ & Hrd & Hcolumns & Hrun' & H).
  assert (df1' = df1) as -> by congruence.
  cbv zeta in H. destruct H as (Hcodes & Hnrows & Hindex & Hlencols & Hcells & Hnames).
  fold kept in Hcells.
  set (xs' := filter (fun o => purely_numeric_or_corsica o = true) xs) in *.
  set (codes := ((fun z => Str (str_of_int z)) <$> filter (fun z => (z <? 100) = true) zs)
                ++ filter (fun o => is_corsica o = true) cs) in *.
  set (rows := join_rows Left 0 (keys (SObject xs')) (keys (SObject codes))) in *.
  set (src := (fun i => default 0%nat (kept !! i)) <$> rows.*1).
  assert (∀ p j, src !! p = Some j →
            ∃ i o, rows !! p = Some (i, o) ∧ kept !! i = Some j) as Hsrc.
  { intros p j Hp. unfold src in Hp. rewrite !list_lookup_fmap in Hp.
    destruct (rows !! p) as [[i o]|] eqn:Hrp; [|done]. simpl in Hp.
    destruct (Hcells p i o Hrp) as (j' & Hj' & _). rewrite Hj' in Hp. simpl in Hp.
    injection Hp as <-. by exists i, o. }
  exists out, src. split; [done|].
  split; [unfold src; by rewrite Hnrows, !length_fmap|]. split.
  { intros j. split.
    - intros (p & Hp)%list_elem_of_lookup_1.
      destruct (Hsrc p j Hp) as (i & o & _ & Hi). by eapply list_elem_of_lookup_2.
    - intros (i & Hi)%list_elem_of_lookup_1.
      assert (i < length xs')%nat as Hlt.
      { unfold xs'. rewrite <- length_mask_positions_fmap. by eapply lookup_lt_Some. }
      assert (∃ k, keys (SObject xs') !! i = Some k) as [k Hki].
      { apply lookup_lt_is_Some_2. by rewrite length_keys. }
      assert (∃ o, (i, o) ∈ rows) as [o Hin].
      { destruct (decide (k ∈ keys (SObject codes))) as [Hin|Hnin].
        - apply list_elem_of_lookup_1 in Hin as (q & Hq). exists (Some q).
          apply join_rows_left_iff. by exists k.
        - exists None. apply join_rows_left_iff. by exists k. }
      apply list_elem_of_lookup_1 in Hin as (p & Hp).
      apply (list_elem_of_lookup_2 _ p). unfold src.
      by rewrite !list_lookup_fmap, Hp; simpl; rewrite Hi. }
  split.
  { intros p q j j' Hpq Hp Hq.
    destruct (Hsrc p j Hp) as (i & o & Hrp & Hi).
    destruct (Hsrc q j' Hq) as (i' & o' & Hrq & Hi').
    assert (i ≤ i')%nat as Hii.
    { apply (StronglySorted_le_lookup rows.*1 p q); [apply join_rows_ordered|done|..];
        rewrite list_lookup_fmap; [by rewrite Hrp|by rewrite Hrq]. }
    apply (StronglySorted_lt_lookup kept i i'); [apply mask_positions_sorted|done..]. }
  intros p j Hp. destruct (Hsrc p j Hp) as (i & o & Hrp & Hi).
  destruct (Hcells p i o Hrp) as (j' & Hj' & _ & _ & Hcode & Hleft & _).
  assert (j' = j) as -> by congruence. by split.
Qed.

Lemma referendum_rows_kept_witness :
  ∃ (df1 left : DataFrame) (kept : list nat),
    with_column ex_referendum "code_dep" (strs ["1"; "01"; "2A"; "ZA"; "971"]) = Ok df1
    ∧ (∀ j : nat, j ∈ kept
         ↔ ∃ o, (Str <$> ["1"; "01"; "2A"; "ZA"; "971"]) !! j = Some o
                ∧ purely_numeric_or_corsica o = true)
    ∧ StronglySorted lt kept
    ∧ keep_numeric df1 = Ok left
    ∧ merge_referendum_and_areas 2 3 ex_store_areas
      = join_areas left 3 (<[2%nat := df1]> ex_store_areas)
    ∧ nrows left = length kept
    ∧ ∃ (out : DataFrame) (src : list nat),
        merge_referendum_and_areas 2 3 ex_store_areas
        = (Ok 4%nat, (<[2%nat := df1]> ex_store_areas) ++ [out])
        ∧ nrows out = length src
        ∧ (∀ j : nat, j ∈ src ↔ j ∈ kept).
Proof.
  destruct (referendum_rows_kept ex_store_areas 2 3 ex_referendum
              (Str <$> ["1"; "01"; "2A"; "ZA"; "971"]))
    as (df1 & left & kept & Hw & Hkept & Hsorted & Hk & Hrun & Hn & _ & _ & _ & _ & Hout);
    [first [reflexivity | exact wf_ex_referendum]..|].
  destruct (Hout ex_areas (Str <$> ["01"; "03"; "2A"; "971"]) [1; 3; 971])
    as (out & src & Hrun' & Hnout & Hsrc & _);
    [first [reflexivity | discriminate]..|].
  exists df1, left, kept.
  split_and!; [exact Hw|exact Hkept|exact Hsorted|exact Hk|exact Hrun|exact Hn|].
  exists out, src. split_and!; [exact Hrun'|exact Hnout|exact Hsrc].
Defined.

(** X13: the table that [merge_referendum_and_areas] returns has the
    columns of the referendum table with [code_dep], followed by the other
    columns of the area table, and rows numbered from 0.  Every referendum
    row that passes the filter gives at least one row, and exactly one when
    the reformatted area codes are pairwise distinct.  When no referendum
    row passes the filter (as when the table has no row) the result has no
    row and no row label, and [code_dep] stands where the area table has
    it, not where the referendum table has it. *)
Theorem merged_referendum_shape
    (σ : list DataFrame) (referendum areas : nat) (df rd : DataFrame)
    (xs cs : list object) (zs : list Z) :
  σ !! referendum = Some df → wf df →
  lookup_col "Department code" (cols df) = Some (SObject xs) →
  text xs →
  referendum ≠ areas → σ !! areas = Some rd →
  lookup_col "code_dep" (cols rd) = Some (SObject cs) →
  length cs = nrows rd →
  traverse object_to_int64 (filter (fun o => negb (is_corsica o) = true) cs) = Ok zs →
  (∀ n : string, n ∈ columns rd → n ≠ "code_dep" → n ∉ columns df) →
  ∃ (df1 out : DataFrame),
    with_column df "code_dep" (SObject xs) = Ok df1
    ∧ merge_referendum_and_areas referendum areas σ
      = (Ok (length σ), (<[referendum := df1]> σ) ++ [out])
    ∧ columns out
      = (if bool_decide (filter (fun o => purely_numeric_or_corsica o = true) xs = [])
         then filter (fun n => n ≠ "code_dep") (columns df1) ++ columns rd
         else columns df1 ++ filter (fun n => n ≠ "code_dep") (columns rd))
    ∧ index out = join_index (nrows out)
    ∧ (length (filter (fun o => purely_numeric_or_corsica o = true) xs) ≤ nrows out)%nat
    ∧ (NoDup (((fun z => Str (str_of_int z)) <$> filter (fun z => (z <? 100) = true) zs)
              ++ filter (fun o => is_corsica o = true) cs) →
       nrows out = length (filter (fun o => purely_numeric_or_corsica o = true) xs))
    ∧ (filter (fun o => purely_numeric_or_corsica o = true) xs = [] →
       nrows out = 0%nat ∧ index out = [(None, SObject [])]).
Proof.
  intros Hr Hwf Hc Htext Hne Ha Hcs Hlen Hzs Hdisj.
  destruct (mra_rows σ referendum areas df rd xs cs zs Hr Hwf Hc Htext Hne Ha Hcs Hlen Hzs)
    as (df1 & rd' & out & Hw & Hwf1 & Hrd & Hcolumns & Hrun & H).
  cbv zeta in H. destruct H as (Hcodes & Hnrows & Hindex & Hlencols & Hcells & Hnames).
  set (xs' := filter (fun o => purely_numeric_or_corsica o = true) xs) in *.
  set (codes := ((fun z => Str (str_of_int z)) <$> filter (fun z => (z <? 100) = true) zs)
                ++ filter (fun o => is_corsica o = true) cs) in *.
  set (rows := join_rows Left 0 (keys (SObject xs')) (keys (SObject codes))) in *.
  destruct (Hnames Hdisj) as [Hcolsout _].
  pose proof (length_join_rows_left_ge 0 (keys (SObject xs')) (keys (SObject codes)))
    as [Hge Heq].
  fold rows in Hge, Heq. rewrite length_keys in Hge, Heq. simpl in Hge, Heq.
  exists df1, out. split; [done|]. split; [done|]. split; [done|].
  split; [by rewrite Hnrows|]. split; [by rewrite Hnrows|]. split.
  - intros Hnd. rewrite Hnrows. apply Heq. apply NoDup_keys_text; [|done].
    apply Forall_forall. intros o [Ho|Ho]%elem_of_app.
    + apply list_elem_of_fmap in Ho as (z & -> & _). by eexists.
    + apply corsica_elements in Ho as [-> | ->]; by eexists.
  - intros Hnil. rewrite Hindex, Hnrows. unfold rows. by rewrite Hnil.
Qed.

Lemma merged_referendum_shape_witness :
  ∃ (df1 out : DataFrame),
    with_column ex_referendum "code_dep" (strs ["1"; "01"; "2A"; "ZA"; "971"]) = Ok df1
    ∧ merge_referendum_and_areas 2 3 ex_store_areas
      = (Ok 4%nat, (<[2%nat := df1]> ex_store_areas) ++ [out])
    ∧ columns out
      = columns df1 ++ filter (fun n => n ≠ "code_dep") (columns ex_areas)
    ∧ index out = RangeIndex (nrows out)
    ∧ nrows out = 4%nat.
Proof.
  destruct (merged_referendum_shape ex_store_areas 2 3 ex_referendum ex_areas
              (Str <$> ["1"; "01"; "2A"; "ZA"; "971"]) (Str <$> ["01"; "03"; "2A"; "971"])
              [1; 3; 971])
    as (df1 & out & Hw & Hrun & Hcols & Hix & _ & Hn & _);
    try first [reflexivity | exact wf_ex_referendum | discriminate | exact ex_areas_labels].
  assert (nrows out = 4%nat) as Hn4.
  { apply Hn. change (NoDup [Str "1"; Str "3"; Str "2A"]).
    repeat (apply NoDup_cons_2;
            [intros H; repeat (apply elem_of_cons in H as [H|H]; [discriminate H|]);
             by apply elem_of_nil in H|]).
    apply NoDup_nil_2. }
  exists df1, out. split_and!; [exact Hw|exact Hrun|exact Hcols| |exact Hn4].
  rewrite Hix, Hn4. reflexivity.
Defined.

(** X3: when the area table has no column [code_dep],
    [merge_referendum_and_areas] raises [KeyError]; when one of its
    department codes other than "2A" and "2B" does not convert to an
    [int64], the call raises the exception of the first such code:
    [ValueError] for a missing value [NaN] or a text that is no integer
    literal, [TypeError] for [None], otherwise [OverflowError].  In both
    cases no table is created and the referendum table already carries its
    new column [code_dep]. *)
Theorem area_codes_unusable
    (σ : list DataFrame) (referendum areas : nat) (df rd : DataFrame) (xs : list object) :
  σ !! referendum = Some df →
  lookup_col "Department code" (cols df) = Some (SObject xs) →
  text xs →
  length xs = nrows df →
  referendum ≠ areas → σ !! areas = Some rd →
  ∃ df1 : DataFrame,
    with_column df "code_dep" (SObject xs) = Ok df1
    ∧ (lookup_col "code_dep" (cols rd) = None →
       merge_referendum_and_areas referendum areas σ
       = (Raise KeyError, <[referendum := df1]> σ))
    ∧ (∀ (cs : list object) (i : nat) (o : object) (e : exn),
         lookup_col "code_dep" (cols rd) = Some (SObject cs) →
         length cs = nrows rd →
         filter (fun o => negb (is_corsica o) = true) cs !! i = Some o →
         object_to_int64 o = Raise e →
         (∀ j y, (j < i)%nat →
            filter (fun o => negb (is_corsica o) = true) cs !! j = Some y →
            ∃ z, object_to_int64 y = Ok z) →
         merge_referendum_and_areas referendum areas σ
         = (Raise e, <[referendum := df1]> σ)
         ∧ (e = ValueError ∨ e = OverflowError ∨ e = TypeError)
         ∧ (o = NaN ∨ (∃ s, o = Str s ∧ int_of_str s = None) → e = ValueError)
         ∧ (o = PyNone → e = TypeError)).
Proof.
  intros Hr Hc Ht Hlen Hne Ha.
  destruct (kept_rows_join σ referendum areas df xs Hr Hc Ht Hlen) as (df1 & Hw & _ & Hrun).
  exists df1. split; [done|].
  assert (<[referendum := df1]> σ !! areas = Some rd) as Ha1
    by (by rewrite list_lookup_insert_ne).
  split.
  - intros Hnone. rewrite Hrun. unfold join_areas.
    erewrite run_bind_ok; [|by apply run_load].
    erewrite run_bind_raise; [done|].
    unfold lift, reconcatenate, corsica, getitem. by rewrite Hnone.
  - intros cs i o e Hcs Hlcs Hi Ho Hbefore.
    split; [|split; [by eapply object_to_int64_exn|split]].
    + rewrite Hrun. unfold join_areas.
      erewrite run_bind_ok; [|by apply run_load].
      erewrite run_bind_raise; [done|].
      unfold lift, reconcatenate.
      destruct (corsica_spec rd cs Hcs Hlcs) as (c & -> & _).
      cbn [mbind result_bind].
      erewrite not_corsica_raise; [done|done|done|].
      by eapply traverse_first_raise.
    + intros [->|(s & -> & Hs)].
      * by injection Ho as <-.
      * unfold object_to_int64 in Ho. simpl in Ho. rewrite Hs in Ho. by injection Ho as <-.
    + intros ->. by injection Ho as <-.
Qed.

Lemma area_codes_unusable_witness :
  ∃ df1 : DataFrame,
    with_column ex_referendum "code_dep" (strs ["1"; "01"; "2A"; "ZA"; "971"]) = Ok df1
    ∧ merge_referendum_and_areas 2 0 ex_store = (Raise KeyError, <[2%nat := df1]> ex_store)
    ∧ merge_referendum_and_areas 2 3 (ex_store ++ [ex_areas_empty_region])
      = (Raise ValueError, <[2%nat := df1]> (ex_store ++ [ex_areas_empty_region])).
Proof.
  destruct (area_codes_unusable ex_store 2 0 ex_referendum ex_regions
              (Str <$> ["1"; "01"; "2A"; "ZA"; "971"]))
    as (df1 & Hw & Hkey & _); [reflexivity|reflexivity|reflexivity|reflexivity|discriminate|reflexivity|].
  destruct (area_codes_unusable (ex_store ++ [ex_areas_empty_region]) 2 3 ex_referendum
              ex_areas_empty_region (Str <$> ["1"; "01"; "2A"; "ZA"; "971"]))
    as (df1' & Hw' & _ & Hconv); [reflexivity|reflexivity|reflexivity|reflexivity|discriminate|reflexivity|].
  assert (df1' = df1) as -> by congruence.
  exists df1. split; [exact Hw|]. split; [apply Hkey; reflexivity|].
  destruct (Hconv [Str "01"; Str "2A"; NaN] 1%nat NaN ValueError) as (Hrun & _);
    [reflexivity|reflexivity|reflexivity|reflexivity| |exact Hrun].
  intros [|j] y Hj Hy; [|lia]. injection Hy as <-. by exists 1.
Defined.

(** X18: reformatting is idempotent on the codes: the area table that
    [merge_referendum_and_areas] prepares for the join can be reformatted
    again, and its department codes come out as they went in, since
    [int(str(n)) = n] for every integer. *)
Theorem reformat_idempotent (rd : DataFrame) (cs : list object) (zs : list Z) :
  lookup_col "code_dep" (cols rd) = Some (SObject cs) →
  length cs = nrows rd →
  traverse object_to_int64 (filter (fun o => negb (is_corsica o) = true) cs) = Ok zs →
  ∃ (rd' rd'' : DataFrame) (codes : list object),
    reconcatenate rd = Ok rd'
    ∧ lookup_col "code_dep" (cols rd') = Some (SObject codes)
    ∧ reconcatenate rd' = Ok rd''
    ∧ lookup_col "code_dep" (cols rd'') = Some (SObject codes)
    ∧ nrows rd'' = nrows rd'.
Proof.
  intros Hc Hlen Hzs.
  destruct (reconcatenate_spec rd cs zs Hc Hlen Hzs) as (rd' & Hrd' & Hcodes).
  pose proof (nrows_reconcatenate rd cs zs rd' Hc Hlen Hzs Hrd') as Hn'.
  set (zs' := filter (fun z => (z <? 100) = true) zs) in *.
  set (ccs := filter (fun o => is_corsica o = true) cs) in *.
  set (codes := ((fun z => Str (str_of_int z)) <$> zs') ++ ccs) in *.
  assert (length codes = nrows rd') as Hlen'.
  { unfold codes. by rewrite length_app, length_fmap, Hn'. }
  assert (filter (fun o => negb (is_corsica o) = true) codes
          = (fun z => Str (str_of_int z)) <$> zs') as Hnc.
  { unfold codes. rewrite filter_app.
    rewrite (filter_all _ ((fun z => Str (str_of_int z)) <$> zs')).
    - rewrite (filter_none _ ccs); [by rewrite app_nil_r|].
      apply Forall_forall. intros o [Ho _]%list_elem_of_filter. by rewrite Ho.
    - apply Forall_fmap, Forall_forall. intros z _. simpl.
      pose proof (str_of_int_not_corsica z) as Hz. simpl in Hz. by rewrite Hz. }
  assert (filter (fun o => is_corsica o = true) codes = ccs) as Hcc.
  { unfold codes. rewrite filter_app.
    rewrite (filter_none _ ((fun z => Str (str_of_int z)) <$> zs')).
    - apply filter_all. apply Forall_forall. by intros o [Ho _]%list_elem_of_filter.
    - apply Forall_fmap, Forall_forall. intros z _. simpl.
      pose proof (str_of_int_not_corsica z) as Hz. simpl in Hz. by rewrite Hz. }
  assert (traverse object_to_int64 (filter (fun o => negb (is_corsica o) = true) codes)
          = Ok zs') as Hzs'.
  { rewrite Hnc. apply traverse_spec. apply Forall2_fmap_l, Forall_Forall2_diag, Forall_forall.
    intros z [_ Hz]%list_elem_of_filter.
    apply traverse_spec in Hzs.
    apply list_elem_of_lookup_1 in Hz as (j & Hj).
    destruct (Forall2_lookup_r _ _ _ _ _ Hzs Hj) as (o & _ & Ho).
    pose proof (object_to_int64_range o z Ho) as Hrange.
    unfold object_to_int64. simpl. rewrite (int_of_str_of_int z Hrange). simpl.
    by rewrite Hrange. }
  destruct (reconcatenate_spec rd' codes zs' Hcodes Hlen' Hzs') as (rd'' & Hrd'' & Hcodes'').
  pose proof (nrows_reconcatenate rd' codes zs' rd'' Hcodes Hlen' Hzs' Hrd'') as Hn''.
  assert (filter (fun z => (z <? 100) = true) zs' = zs') as Hzz.
  { apply filter_all, Forall_forall. by intros z [Hz _]%list_elem_of_filter. }
  rewrite Hzz, Hcc in Hcodes'', Hn''.
  exists rd', rd'', codes. split_and!; [done|done|done|done|congruence].
Qed.

Lemma reformat_idempotent_witness :
  ∃ (rd' rd'' : DataFrame) (codes : list object),
    reconcatenate ex_areas = Ok rd'
    ∧ lookup_col "code_dep" (cols rd') = Some (SObject codes)
    ∧ reconcatenate rd' = Ok rd''
    ∧ lookup_col "code_dep" (cols rd'') = Some (SObject codes)
    ∧ nrows rd'' = nrows rd'.
Proof.
  apply (reformat_idempotent ex_areas (Str <$> ["01"; "03"; "2A"; "971"]) [1; 3; 971]);
    reflexivity.
Defined.

(** X10: when [merge_referendum_and_areas] has returned, calling it again
    with the same arguments returns a new table equal to the first and
    changes no other table: the referendum table already has the column
    [code_dep] that the call sets. *)
Theorem referendum_merge_repeatable
    (σ σ1 : list DataFrame) (referendum areas r : nat) :
  merge_referendum_and_areas referendum areas σ = (Ok r, σ1) →
  ∃ (out : DataFrame) (σ' : list DataFrame),
    σ1 = σ' ++ [out] ∧ r = length σ' ∧ length σ' = length σ
    ∧ merge_referendum_and_areas referendum areas σ1 = (Ok (S r), σ1 ++ [out]).
Proof.
  unfold merge_referendum_and_areas at 1.
  intros (df & ? & (Hr & ->)%load_ok_inv & H)%bind_ok_inv.
  apply bind_ok_inv in H as (c & ? & (Hc%getitem_ok_inv & ->)%lift_ok_inv & H).
  apply bind_ok_inv in H as ([] & σa & Hset & H).
  apply setitem_ok_inv in Hset as (df0 & df1 & Hr0 & Hw & ->).
  assert (df0 = df) as -> by congruence.
  apply bind_ok_inv in H as (df1' & ? & (Hr1 & ->)%load_ok_inv & H).
  rewrite list_lookup_insert_eq in Hr1 by (by eapply lookup_lt_Some). injection Hr1 as <-.
  apply bind_ok_inv in H as (kept & ? & (Hkeep & ->)%lift_ok_inv & H).
  unfold join_areas in H.
  apply bind_ok_inv in H as (rd & ? & (Ha & ->)%load_ok_inv & H).
  apply bind_ok_inv in H as (rd' & ? & (Hrd' & ->)%lift_ok_inv & H).
  apply bind_ok_inv in H as (out & ? & (Hm & ->)%lift_ok_inv & H).
  apply new_ok_inv in H as [-> ->].
  set (σ' := <[referendum := df1]> σ) in *.
  exists out, σ'. split; [done|]. split; [done|]. split; [apply length_insert|].
  assert (σ' !! referendum = Some df1) as Hr1
    by (apply list_lookup_insert_eq; by eapply lookup_lt_Some).
  assert ((σ' ++ [out]) !! referendum = Some df1) as Hr2
    by (rewrite lookup_app_l; [done|by eapply lookup_lt_Some]).
  pose proof (with_column_spec _ _ _ _ Hw) as (_ & Hcode & Hoth & _).
  unfold merge_referendum_and_areas.
  erewrite run_bind_ok; [|by apply run_load].
  erewrite run_bind_ok; [|apply run_lift; unfold getitem; by rewrite Hoth, Hc].
  erewrite run_bind_ok.
  2:{ eapply run_setitem_same; [done|done|].
      rewrite (nrows_with_column _ _ _ _ Hw). by eapply with_column_len. }
  erewrite run_bind_ok; [|by apply run_load].
  erewrite run_bind_ok; [|by apply run_lift].
  erewrite join_areas_run; [|rewrite lookup_app_l; [done|by eapply lookup_lt_Some]|done|done].
  by rewrite length_app, Nat.add_1_r.
Qed.

Lemma referendum_merge_repeatable_witness :
  ∃ (out : DataFrame) (σ' : list DataFrame),
    (merge_referendum_and_areas 2 3 ex_store_areas).2 = σ' ++ [out]
    ∧ length σ' = 4%nat
    ∧ merge_referendum_and_areas 2 3 (merge_referendum_and_areas 2 3 ex_store_areas).2
      = (Ok 5%nat, (merge_referendum_and_areas 2 3 ex_store_areas).2 ++ [out]).
Proof.
  destruct (referendum_merge_repeatable ex_store_areas
              (merge_referendum_and_areas 2 3 ex_store_areas).2 2 3 4)
    as (out & σ' & H1 & _ & H2 & H3); [reflexivity|].
  exists out, σ'. split; [exact H1|]. split; [exact H2|exact H3].
Defined.

(** ** The table of results *)

(** Sums and groups *)
Lemma wrap64_idemp_add z x : wrap64 (wrap64 z + x) = wrap64 (z + x).
Proof.
  unfold wrap64, int64_min.
  replace ((z - - 2 ^ 63) mod 2 ^ 64 + - 2 ^ 63 + x - - 2 ^ 63)
    with ((z - - 2 ^ 63) mod 2 ^ 64 + x) by lia.
  rewrite Z.add_mod_idemp_l by lia. f_equal. f_equal. lia.
Qed.

Lemma wrap64_in_range z : in_int64 z = true → wrap64 z = z.
Proof.
  unfold in_int64, wrap64, int64_min, int64_max.
  intros [H1%Z.leb_le H2%Z.leb_le]%andb_true_iff.
  rewrite Z.mod_small by lia. lia.
Qed.

Lemma sum_int64_spec xs : sum_int64 xs = wrap64 (foldr Z.add 0 xs).
Proof.
  unfold sum_int64.
  assert (∀ a, foldl (fun acc x => wrap64 (acc + x)) (wrap64 a) xs
               = wrap64 (a + foldr Z.add 0 xs)) as H.
  { induction xs as [|x xs IH]; intros a; simpl.
    - by rewrite Z.add_0_r.
    - rewrite wrap64_idemp_add, IH. f_equal. lia. }
  specialize (H 0). by rewrite (wrap64_in_range 0) in H.
Qed.

Lemma group_labels_spec (rg : list (option group)) :
  NoDup (group_labels rg) ∧ ∀ g, g ∈ group_labels rg ↔ Some g ∈ rg.
Proof.
  unfold group_labels. split.
  - rewrite merge_sort_Permutation. apply NoDup_remove_dups.
  - intros g. rewrite merge_sort_Permutation, elem_of_remove_dups, list_elem_of_omap.
    split.
    + intros ([g'|] & Hin & Hg); simplify_eq/=. done.
    + intros Hin. by exists (Some g).
Qed.

Lemma lookup_col_group_sums (by1 by2 v : string) rg labels cs xs :
  v ≠ by1 → v ≠ by2 →
  lookup_col v cs = Some (SInt64 xs) →
  lookup_col v (omap (fun c : string * Series => pair c.1 <$> group_sum rg labels c.2)
                  (filter (fun c : string * Series => c.1 ≠ by1 ∧ c.1 ≠ by2) cs))
  = Some (SInt64 ((fun g => sum_int64 (group_values g rg xs)) <$> labels)).
Proof.
  intros H1 H2. induction cs as [|[n s] cs IH]; [done|].
  rewrite lookup_col_cons. case_decide as Hn.
  - intros [= ->]. subst n. rewrite filter_cons_True by done. simpl. by rewrite String.eqb_refl.
  - intros Hv. specialize (IH Hv).
    destruct (decide (n ≠ by1 ∧ n ≠ by2)) as [Hk|Hk].
    + rewrite filter_cons_True by done. simpl.
      destruct (group_sum rg labels s); simpl; [|done].
      destruct (String.eqb_spec n v); [done|]. done.
    + by rewrite filter_cons_False.
Qed.

Lemma columns_group_sums (by1 by2 : string) rg labels cs n :
  n ∈ (omap (fun c : string * Series => pair c.1 <$> group_sum rg labels c.2)
         (filter (fun c : string * Series => c.1 ≠ by1 ∧ c.1 ≠ by2) cs)).*1 →
  n ≠ by1 ∧ n ≠ by2.
Proof.
  intros ([n' s] & -> & Hin)%list_elem_of_fmap.
  apply list_elem_of_omap in Hin as ([m t] & Hin & Hm).
  apply list_elem_of_filter in Hin as [Hk _]. simpl in *.
  destruct (group_sum rg labels t); simplify_eq/=. done.
Qed.

Lemma elem_of_row_groups s1 s2 (g : group) :
  Some g ∈ row_groups s1 s2
  ↔ ∃ i : nat, keys s1 !! i = Some g.1 ∧ keys s2 !! i = Some g.2
               ∧ g.1 ≠ KNull ∧ g.2 ≠ KNull.
Proof.
  unfold row_groups. rewrite list_elem_of_lookup. split.
  - intros (i & Hi). apply lookup_zip_with_Some in Hi as (k1 & k2 & Hg & H1 & H2).
    unfold group_of in Hg. case_decide as Hn; [done|]. simplify_eq.
    exists i. simpl. split_and!; [done|done|tauto|tauto].
  - intros (i & H1 & H2 & Hn1 & Hn2). exists i.
    apply lookup_zip_with_Some. exists g.1, g.2. split_and!; [|done|done].
    unfold group_of. rewrite decide_False by tauto. by destruct g.
Qed.

Lemma run_compute σ merged df grouped abs_count out :
  σ !! merged = Some df →
  groupby_sum df "code_reg" "name_reg" = Ok grouped →
  reset_index grouped = Ok abs_count →
  getitem_list abs_count result_columns = Ok out →
  compute_referendum_result_by_regions merged σ = (Ok (length σ), σ ++ [out]).
Proof.
  intros H1 H2 H3 H4. unfold compute_referendum_result_by_regions.
  erewrite run_bind_ok; [|by apply run_load].
  erewrite run_bind_ok; [|by apply run_lift].
  erewrite run_bind_ok; [|by apply run_lift].
  erewrite run_bind_ok; [|by apply run_lift].
  done.
Qed.

Lemma compute_run σ merged df s1 s2 registered abstentions null choice_a choice_b :
  σ !! merged = Some df →
  lookup_col "code_reg" (cols df) = Some s1 →
  lookup_col "name_reg" (cols df) = Some s2 →
  lookup_col "Registered" (cols df) = Some (SInt64 registered) →
  lookup_col "Abstentions" (cols df) = Some (SInt64 abstentions) →
  lookup_col "Null" (cols df) = Some (SInt64 null) →
  lookup_col "Choice A" (cols df) = Some (SInt64 choice_a) →
  lookup_col "Choice B" (cols df) = Some (SInt64 choice_b) →
  compute_referendum_result_by_regions merged σ
  = let rg := row_groups s1 s2 in
    let labels := group_labels rg in
    let total xs := SInt64 ((fun g => sum_int64 (group_values g rg xs)) <$> labels) in
    (Ok (length σ),
     σ ++ [mkDataFrame (RangeIndex (length labels))
             [("name_reg", take_fill ((fun g => first_row g 0 rg) <$> labels) s2);
              ("Registered", total registered);
              ("Abstentions", total abstentions);
              ("Null", total null);
              ("Choice A", total choice_a);
              ("Choice B", total choice_b)]]).
Proof.
  intros Hr H1 H2 Hreg Habs Hnull Ha Hb. cbv zeta.
  set (rg := row_groups s1 s2). set (labels := group_labels rg).
  set (firsts := (fun g => first_row g 0 rg) <$> labels).
  set (sums := omap (fun c : string * Series => pair c.1 <$> group_sum rg labels c.2)
                 (filter (fun c : string * Series => c.1 ≠ "code_reg" ∧ c.1 ≠ "name_reg")
                    (cols df))).
  set (grouped := mkDataFrame
                    [(Some "code_reg", take_fill firsts s1); (Some "name_reg", take_fill firsts s2)]
                    sums).
  set (abs_count := mkDataFrame (RangeIndex (nrows grouped))
                      ([("code_reg", take_fill firsts s1); ("name_reg", take_fill firsts s2)]
                       ++ sums)).
  assert (nrows grouped = length labels) as Hn.
  { unfold nrows, grouped. cbn [index index_len].
    rewrite series_len_take_fill. unfold firsts. by rewrite length_fmap. }
  assert (∀ v xs, v ≠ "code_reg" → v ≠ "name_reg" →
            lookup_col v (cols df) = Some (SInt64 xs) →
            getitem abs_count v
            = Ok (SInt64 ((fun g => sum_int64 (group_values g rg xs)) <$> labels))) as Hsum.
  { intros v xs Hv1 Hv2 Hv. unfold getitem, abs_count. cbn [cols].
    rewrite lookup_col_app. rewrite !lookup_col_cons.
    rewrite !decide_False by done. cbn [lookup_col].
    unfold sums. by rewrite (lookup_col_group_sums _ _ v rg labels (cols df) xs). }
  rewrite <- Hn.
  apply (run_compute σ merged df grouped abs_count).
  - done.
  - unfold groupby_sum, getitem. by rewrite H1, H2.
  - unfold reset_index. rewrite bool_decide_false; [done|].
    intros Hex. apply Exists_exists in Hex as (n & Hn' & Hin).
    apply columns_group_sums in Hin as [? ?]. simpl in Hn'.
    apply elem_of_cons in Hn' as [->|[->|?%elem_of_nil]%elem_of_cons]; done.
  - unfold getitem_list, result_columns. cbn [traverse].
    rewrite (Hsum "Registered" registered), (Hsum "Abstentions" abstentions),
      (Hsum "Null" null), (Hsum "Choice A" choice_a), (Hsum "Choice B" choice_b) by done.
    reflexivity.
Qed.

(** The order of the group labels is total. *)
Lemma key_leb_total a b : key_leb a b = true ∨ key_leb b a = true.
Proof.
  destruct a as [|m1 e1|[]|s], b as [|m2 e2|[]|t]; simpl; auto.
  - unfold num_leb. rewrite (Z.min_comm e2 e1).
    destruct (Z.leb_spec (m1 * 2 ^ (e1 - Z.min e1 e2)) (m2 * 2 ^ (e2 - Z.min e1 e2)));
      [by left|right]. apply Z.leb_le. lia.
  - apply String.leb_total.
Qed.

Lemma group_leb_total : Total (fun a b : group => Is_true (group_leb a b)).
Proof.
  intros a b. unfold group_leb.
  destruct (decide (a.1 = b.1)) as [E|N].
  - rewrite decide_True by done.
    destruct (key_leb_total a.2 b.2) as [->| ->]; [by left|by right].
  - rewrite decide_False by (by intros ?).
    destruct (key_leb_total a.1 b.1) as [->| ->]; [by left|by right].
Qed.

Lemma first_row_spec g from rg :
  Some g ∈ rg → ∃ i, first_row g from rg = Some (from + i)%nat ∧ rg !! i = Some (Some g).
Proof.
  revert from. induction rg as [|o rg IH]; intros from Hin; [by apply elem_of_nil in Hin|].
  simpl. case_decide as Ho.
  - exists 0%nat. rewrite Nat.add_0_r. by subst.
  - apply elem_of_cons in Hin as [?|Hin]; [congruence|].
    destruct (IH (S from) Hin) as (i & Hi & Hrg). exists (S i).
    rewrite Hi. split; [f_equal; lia|done].
Qed.

Lemma row_groups_lookup s1 s2 i g :
  row_groups s1 s2 !! i = Some (Some g) →
  keys s1 !! i = Some g.1 ∧ keys s2 !! i = Some g.2.
Proof.
  unfold row_groups. intros (k1 & k2 & Hg & H1 & H2)%lookup_zip_with_Some.
  unfold group_of in Hg. case_decide; [done|]. by simplify_eq.
Qed.

(** X8: the rows of the table that [compute_referendum_result_by_regions]
    returns are numbered from 0 and come in increasing order of the pair
    (region code, region name); the column [name_reg] holds the names of
    these pairs, and the region code is neither the index nor a column of
    the result. *)
Theorem results_sorted_and_numbered
    (σ : list DataFrame) (merged : nat) (df : DataFrame) (s1 s2 : Series)
    (registered abstentions null choice_a choice_b : list Z) :
  σ !! merged = Some df →
  lookup_col "code_reg" (cols df) = Some s1 →
  lookup_col "name_reg" (cols df) = Some s2 →
  lookup_col "Registered" (cols df) = Some (SInt64 registered) →
  lookup_col "Abstentions" (cols df) = Some (SInt64 abstentions) →
  lookup_col "Null" (cols df) = Some (SInt64 null) →
  lookup_col "Choice A" (cols df) = Some (SInt64 choice_a) →
  lookup_col "Choice B" (cols df) = Some (SInt64 choice_b) →
  ∃ (out : DataFrame) (labels : list group) (names : Series),
    compute_referendum_result_by_regions merged σ = (Ok (length σ), σ ++ [out])
    ∧ (∀ g : group,
         g ∈ labels
         ↔ ∃ i : nat, keys s1 !! i = Some g.1 ∧ keys s2 !! i = Some g.2
                      ∧ g.1 ≠ KNull ∧ g.2 ≠ KNull)
    ∧ Sorted (fun a b : group => group_leb a b) labels
    ∧ index out = RangeIndex (length labels)
    ∧ ("code_reg" ∉ columns out)
    ∧ lookup_col "name_reg" (cols out) = Some names
    ∧ keys names = labels.*2.
Proof.
  intros Hr H1 H2 Hreg Habs Hnull Ha Hb.
  pose proof (compute_run σ merged df s1 s2 registered abstentions null choice_a choice_b
                Hr H1 H2 Hreg Habs Hnull Ha Hb) as Hrun.
  cbv zeta in Hrun.
  set (rg := row_groups s1 s2) in *. set (labels := group_labels rg) in *.
  destruct (group_labels_spec rg) as [_ Hin]. fold labels in Hin.
  eexists _, labels, _. split; [exact Hrun|]. split_and!.
  - intros g. rewrite Hin. apply elem_of_row_groups.
  - apply (Sorted_merge_sort _ (Total0 := group_leb_total)).
  - done.
  - unfold columns. cbn [cols fmap list_fmap fst].
    intros Hc. repeat (apply elem_of_cons in Hc as [Hc|Hc]; [discriminate Hc|]).
    by apply elem_of_nil in Hc.
  - done.
  - set (ix := (fun g => default 0%nat (first_row g 0 rg)) <$> labels).
    assert ((fun g => first_row g 0 rg) <$> labels = Some <$> ix) as ->.
    { unfold ix. rewrite <- list_fmap_compose. apply list_fmap_ext.
      intros _ g Hg%list_elem_of_lookup_2. apply Hin in Hg. simpl.
      destruct (first_row_spec g 0 rg Hg) as (i & -> & _). done. }
    fold (take ix s2).
    assert (Forall (fun g => ∃ i, first_row g 0 rg = Some i ∧ rg !! i = Some (Some g)) labels)
      as Hfirst.
    { apply Forall_forall. intros g Hg%Hin.
      destruct (first_row_spec g 0 rg Hg) as (i & Hi & Hrg). by exists i. }
    rewrite keys_take.
    + unfold ix. rewrite <- list_fmap_compose. apply list_fmap_ext.
      intros _ g Hg%list_elem_of_lookup_2. rewrite Forall_forall in Hfirst.
      destruct (Hfirst g Hg) as (i & Hi & Hrg). simpl. rewrite Hi. simpl.
      apply row_groups_lookup in Hrg as [_ ->]. done.
    + unfold ix. apply Forall_fmap. eapply Forall_impl; [exact Hfirst|].
      intros g (i & Hi & Hrg). simpl. rewrite Hi. simpl.
      apply row_groups_lookup in Hrg as [_ Hk]. apply lookup_lt_Some in Hk.
      by rewrite length_keys in Hk.
Qed.

Lemma results_sorted_and_numbered_witness :
  ∃ (out : DataFrame) (labels : list group) (names : Series),
    compute_referendum_result_by_regions 0 [ex_merged_two_names]
    = (Ok 1%nat, [ex_merged_two_names] ++ [out])
    ∧ Sorted (fun a b : group => group_leb a b) labels
    ∧ index out = RangeIndex (length labels)
    ∧ ("code_reg" ∉ columns out)
    ∧ lookup_col "name_reg" (cols out) = Some names
    ∧ keys names = labels.*2.
Proof.
  destruct (results_sorted_and_numbered [ex_merged_two_names] 0 ex_merged_two_names
              (strs ["84"; "84"]) (strs ["Auvergne-Rhone-Alpes"; "Rhone-Alpes"])
              [100; 10] [10; 1] [2; 0] [50; 5] [38; 4])
    as (out & labels & names & Hrun & _ & H); [reflexivity..|].
  exists out, labels, names. split; [exact Hrun|exact H].
Defined.

(** Sums over the groups and over the rows. *)
Lemma wrap64_sum_wrap l : wrap64 (foldr Z.add 0 (wrap64 <$> l)) = wrap64 (foldr Z.add 0 l).
Proof.
  induction l as [|a l IH]; [done|]. rewrite fmap_cons. cbn [foldr].
  set (S' := foldr Z.add 0 (wrap64 <$> l)) in *. set (S := foldr Z.add 0 l) in *.
  rewrite wrap64_idemp_add.
  transitivity (wrap64 (wrap64 S' + a)).
  - rewrite wrap64_idemp_add. f_equal. lia.
  - rewrite IH, wrap64_idemp_add. f_equal. lia.
Qed.

Lemma sum_add_fmap {A} (f h : A → Z) (l : list A) :
  foldr Z.add 0 ((fun x => f x + h x) <$> l)
  = foldr Z.add 0 (f <$> l) + foldr Z.add 0 (h <$> l).
Proof.
  induction l as [|a l IH]; [done|]. rewrite !fmap_cons. cbn [foldr]. rewrite IH. lia.
Qed.

Lemma sum_other_groups (o : option group) (x : Z) (labels : list group) :
  (∀ g, g ∈ labels → o ≠ Some g) →
  foldr Z.add 0 ((fun g => if decide (o = Some g) then x else 0) <$> labels) = 0.
Proof.
  induction labels as [|g labels IH]; intros Hno; [done|]. rewrite fmap_cons. cbn [foldr].
  rewrite decide_False by (apply Hno; by left).
  rewrite IH; [done|]. intros g' Hg'. apply Hno. by right.
Qed.

Lemma sum_own_group (g0 : group) (x : Z) (labels : list group) :
  NoDup labels → g0 ∈ labels →
  foldr Z.add 0 ((fun g => if decide (Some g0 = Some g) then x else 0) <$> labels) = x.
Proof.
  induction 1 as [|g labels Hnin Hnd IH]; [by intros ?%elem_of_nil|].
  intros [->|Hin]%elem_of_cons; rewrite fmap_cons; cbn [foldr].
  - rewrite decide_True by done. rewrite sum_other_groups; [lia|].
    intros g' Hg' [= ->]. done.
  - rewrite decide_False by (intros [= ->]; done). by rewrite IH.
Qed.

Lemma sum_by_group (labels : list group) (l : list (option group * Z)) :
  NoDup labels → (∀ g x, (Some g, x) ∈ l → g ∈ labels) →
  foldr Z.add 0 ((fun g => foldr Z.add 0 (filter (fun p => p.1 = Some g) l).*2) <$> labels)
  = foldr Z.add 0 (filter (fun p => is_Some p.1) l).*2.
Proof.
  intros Hnd. induction l as [|[o x] l IH]; intros Hcov.
  - clear. induction labels as [|g labels IH]; [done|].
    rewrite fmap_cons. cbn [foldr]. by rewrite IH.
  - assert (∀ g, foldr Z.add 0 (filter (fun p => p.1 = Some g) ((o, x) :: l)).*2
                 = (if decide (o = Some g) then x else 0)
                   + foldr Z.add 0 (filter (fun p => p.1 = Some g) l).*2) as Hstep.
    { intros g. case_decide as Ho.
      - by rewrite filter_cons_True.
      - by rewrite filter_cons_False. }
    rewrite (list_fmap_ext _ _ _ (fun _ g _ => Hstep g)).
    rewrite (sum_add_fmap (fun g => if decide (o = Some g) then x else 0)).
    rewrite IH by (intros g y Hin; apply (Hcov g y); by right).
    destruct o as [g0|].
    + rewrite filter_cons_True by (by eexists). rewrite fmap_cons. cbn [foldr snd].
      rewrite sum_own_group; [done|done|]. apply (Hcov g0 x). by left.
    + rewrite filter_cons_False by (by intros [? ?]).
      rewrite sum_other_groups; [done|]. by intros.
Qed.

Lemma row_groups_all_Some s1 s2 :
  KNull ∉ keys s1 → KNull ∉ keys s2 → Forall is_Some (row_groups s1 s2).
Proof.
  intros H1 H2. apply Forall_forall. intros o (i & Hi)%list_elem_of_lookup_1.
  unfold row_groups in Hi. apply lookup_zip_with_Some in Hi as (k1 & k2 & -> & Hk1 & Hk2).
  unfold group_of. rewrite decide_False; [by eexists|].
  intros [->| ->]; [apply H1|apply H2]; by eapply list_elem_of_lookup_2.
Qed.

Lemma filter_zip_all_Some {A B} (os : list (option A)) (xs : list B) :
  Forall is_Some os → length xs = length os →
  (filter (fun p => is_Some p.1) (zip os xs)).*2 = xs.
Proof.
  intros Hall. revert xs. induction Hall as [|o os Ho Hall IH]; intros [|x xs] Hlen;
    simplify_eq/=; [done|].
  rewrite filter_cons_True by done. simpl. by rewrite IH.
Qed.

(** X9: [compute_referendum_result_by_regions] loses no vote: for each of
    the five vote-count columns, the [int64] sum of the column of the
    result is the [int64] sum of the input column over the rows that have
    both a region code and a region name, and over all rows when none
    lacks them. *)
Theorem results_keep_totals
    (σ : list DataFrame) (merged : nat) (df : DataFrame) (s1 s2 : Series)
    (registered abstentions null choice_a choice_b : list Z) (v : string) (xs : list Z) :
  σ !! merged = Some df →
  lookup_col "code_reg" (cols df) = Some s1 →
  lookup_col "name_reg" (cols df) = Some s2 →
  lookup_col "Registered" (cols df) = Some (SInt64 registered) →
  lookup_col "Abstentions" (cols df) = Some (SInt64 abstentions) →
  lookup_col "Null" (cols df) = Some (SInt64 null) →
  lookup_col "Choice A" (cols df) = Some (SInt64 choice_a) →
  lookup_col "Choice B" (cols df) = Some (SInt64 choice_b) →
  v ∈ ["Registered"; "Abstentions"; "Null"; "Choice A"; "Choice B"] →
  lookup_col v (cols df) = Some (SInt64 xs) →
  ∃ (out : DataFrame) (ys : list Z),
    compute_referendum_result_by_regions merged σ = (Ok (length σ), σ ++ [out])
    ∧ lookup_col v (cols out) = Some (SInt64 ys)
    ∧ sum_int64 ys
      = sum_int64 (filter (fun p => is_Some p.1) (zip (row_groups s1 s2) xs)).*2
    ∧ (KNull ∉ keys s1 → KNull ∉ keys s2 →
       series_len s1 = length xs → series_len s2 = length xs →
       sum_int64 ys = sum_int64 xs).
Proof.
  intros Hr H1 H2 Hreg Habs Hnull Ha Hb Hv Hxs.
  pose proof (compute_run σ merged df s1 s2 registered abstentions null choice_a choice_b
                Hr H1 H2 Hreg Habs Hnull Ha Hb) as Hrun.
  cbv zeta in Hrun.
  set (rg := row_groups s1 s2) in *. set (labels := group_labels rg) in *.
  destruct (group_labels_spec rg) as [Hnd Hin]. fold labels in Hnd, Hin.
  assert (∀ zs : list Z,
            sum_int64 ((fun g => sum_int64 (group_values g rg zs)) <$> labels)
            = sum_int64 (filter (fun p => is_Some p.1) (zip rg zs)).*2) as Htotal.
  { intros zs. rewrite !sum_int64_spec.
    rewrite (list_fmap_ext _ (fun g => wrap64 (foldr Z.add 0 (group_values g rg zs))) labels)
      by (intros; apply sum_int64_spec).
    rewrite (list_fmap_compose (fun g => foldr Z.add 0 (group_values g rg zs)) wrap64).
    rewrite wrap64_sum_wrap. f_equal. unfold group_values.
    apply sum_by_group; [done|].
    intros g x Hgx. apply Hin.
    apply list_elem_of_lookup_1 in Hgx as (i & Hi).
    apply lookup_zip_with_Some in Hi as (o & y & [= <- <-] & Ho & _).
    by eapply list_elem_of_lookup_2. }
  exists (mkDataFrame (RangeIndex (length labels))
            [("name_reg", take_fill ((fun g => first_row g 0 rg) <$> labels) s2);
             ("Registered", SInt64 ((fun g => sum_int64 (group_values g rg registered)) <$> labels));
             ("Abstentions", SInt64 ((fun g => sum_int64 (group_values g rg abstentions)) <$> labels));
             ("Null", SInt64 ((fun g => sum_int64 (group_values g rg null)) <$> labels));
             ("Choice A", SInt64 ((fun g => sum_int64 (group_values g rg choice_a)) <$> labels));
             ("Choice B", SInt64 ((fun g => sum_int64 (group_values g rg choice_b)) <$> labels))]),
    ((fun g => sum_int64 (group_values g rg xs)) <$> labels).
  split; [exact Hrun|]. split; [|split; [apply Htotal|]].
  - repeat (apply elem_of_cons in Hv as [->|Hv]); [..|by apply elem_of_nil in Hv];
      simplify_eq; reflexivity.
  - intros Hk1 Hk2 Hl1 Hl2. rewrite Htotal. f_equal.
    apply filter_zip_all_Some; [by apply row_groups_all_Some|].
    unfold rg, row_groups. rewrite length_zip_with, !length_keys. lia.
Qed.

Lemma results_keep_totals_witness :
  ∃ (out : DataFrame) (ys : list Z),
    compute_referendum_result_by_regions 0 [ex_merged_two_names]
    = (Ok 1%nat, [ex_merged_two_names] ++ [out])
    ∧ lookup_col "Registered" (cols out) = Some (SInt64 ys)
    ∧ sum_int64 ys = sum_int64 [100; 10].
Proof.
  destruct (results_keep_totals [ex_merged_two_names] 0 ex_merged_two_names
              (strs ["84"; "84"]) (strs ["Auvergne-Rhone-Alpes"; "Rhone-Alpes"])
              [100; 10] [10; 1] [2; 0] [50; 5] [38; 4] "Registered" [100; 10])
    as (out & ys & Hrun & Hcol & _ & Hsum); [reflexivity..| |reflexivity|].
  { repeat constructor. }
  exists out, ys. split; [exact Hrun|]. split; [exact Hcol|].
  apply Hsum; [| |reflexivity..].
  - apply (bool_decide_unpack _). reflexivity.
  - apply (bool_decide_unpack _). reflexivity.
Defined.

Lemma getitem_list_missing df names n :
  n ∈ names → lookup_col n (cols df) = None → getitem_list df names = Raise KeyError.
Proof.
  intros Hin Hn. unfold getitem_list.
  assert (traverse (fun n => pair n <$> getitem df n) names = Raise KeyError) as ->; [|done].
  induction Hin as [n names|n m names Hin IH]; simpl; unfold getitem at 1.
  - by rewrite Hn.
  - destruct (lookup_col m (cols df)); [|done]. simpl. by rewrite IH.
Qed.

Lemma lookup_col_group_sums_None (by1 by2 v : string) rg labels cs :
  lookup_col v cs = None →
  lookup_col v (omap (fun c : string * Series => pair c.1 <$> group_sum rg labels c.2)
                  (filter (fun c : string * Series => c.1 ≠ by1 ∧ c.1 ≠ by2) cs))
  = None.
Proof.
  intros Hv. apply lookup_col_None. intros Hin. apply lookup_col_None in Hv. apply Hv.
  apply list_elem_of_fmap in Hin as ([n' s] & -> & Hin).
  apply list_elem_of_omap in Hin as ([m t] & Hin & Hm).
  apply list_elem_of_filter in Hin as [_ Hin]. simpl in *.
  destruct (group_sum rg labels t); simplify_eq/=.
  by apply (list_elem_of_fmap_2 fst _ (n', t)).
Qed.

(** X4: [compute_referendum_result_by_regions] raises [KeyError] when the
    table it is given lacks [code_reg], [name_reg] or one of the five
    vote-count columns; the store is left as it was. *)
Theorem results_need_columns
    (σ : list DataFrame) (merged : nat) (df : DataFrame) (v : string) :
  σ !! merged = Some df →
  v ∈ "code_reg" :: result_columns →
  lookup_col v (cols df) = None →
  compute_referendum_result_by_regions merged σ = (Raise KeyError, σ).
Proof.
  intros Hr Hv Hnone. unfold compute_referendum_result_by_regions.
  erewrite run_bind_ok; [|by apply run_load].
  destruct (lookup_col "code_reg" (cols df)) as [s1|] eqn:H1.
  2:{ erewrite run_bind_raise; [done|]. unfold lift, groupby_sum, getitem. by rewrite H1. }
  destruct (lookup_col "name_reg" (cols df)) as [s2|] eqn:H2.
  2:{ erewrite run_bind_raise; [done|]. unfold lift, groupby_sum, getitem. by rewrite H1, H2. }
  set (rg := row_groups s1 s2). set (labels := group_labels rg).
  set (firsts := (fun g => first_row g 0 rg) <$> labels).
  set (sums := omap (fun c : string * Series => pair c.1 <$> group_sum rg labels c.2)
                 (filter (fun c : string * Series => c.1 ≠ "code_reg" ∧ c.1 ≠ "name_reg")
                    (cols df))).
  set (grouped := mkDataFrame
                    [(Some "code_reg", take_fill firsts s1); (Some "name_reg", take_fill firsts s2)]
                    sums).
  set (abs_count := mkDataFrame (RangeIndex (nrows grouped))
                      ([("code_reg", take_fill firsts s1); ("name_reg", take_fill firsts s2)]
                       ++ sums)).
  assert (groupby_sum df "code_reg" "name_reg" = Ok grouped) as Hg.
  { unfold groupby_sum, getitem. by rewrite H1, H2. }
  assert (reset_index grouped = Ok abs_count) as Hreset.
  { unfold reset_index. rewrite bool_decide_false; [done|].
    intros Hex. apply Exists_exists in Hex as (n & Hn & Hin).
    apply columns_group_sums in Hin as [? ?]. simpl in Hn.
    apply elem_of_cons in Hn as [->|[->|?%elem_of_nil]%elem_of_cons]; done. }
  erewrite run_bind_ok; [|by apply run_lift].
  erewrite run_bind_ok; [|by apply run_lift].
  erewrite run_bind_raise; [done|].
  unfold lift. erewrite (getitem_list_missing _ result_columns v); [done| |].
  - apply elem_of_cons in Hv as [->|Hv]; [congruence|done].
  - unfold abs_count. cbn [cols].
    assert (v ≠ "code_reg") by congruence. assert (v ≠ "name_reg") by congruence.
    rewrite lookup_col_app, !lookup_col_cons, !decide_False by done. cbn [lookup_col].
    by apply lookup_col_group_sums_None.
Qed.

Lemma results_need_columns_witness :
  compute_referendum_result_by_regions 2 ex_store = (Raise KeyError, ex_store)
  ∧ compute_referendum_result_by_regions 0 [ex_results] = (Raise KeyError, [ex_results]).
Proof.
  split.
  - apply (results_need_columns ex_store 2 ex_referendum "name_reg");
      [reflexivity| |reflexivity]. repeat constructor.
  - apply (results_need_columns [ex_results] 0 ex_results "code_reg");
      [reflexivity| |reflexivity]. repeat constructor.
Defined.

(** X20: when no row of its input has both a region code and a region name
    (as when the input has no row), [compute_referendum_result_by_regions]
    still returns: a table with the six columns of the result and no row. *)
Theorem results_of_no_rows
    (σ : list DataFrame) (merged : nat) (df : DataFrame) (s1 s2 : Series)
    (registered abstentions null choice_a choice_b : list Z) :
  σ !! merged = Some df →
  lookup_col "code_reg" (cols df) = Some s1 →
  lookup_col "name_reg" (cols df) = Some s2 →
  lookup_col "Registered" (cols df) = Some (SInt64 registered) →
  lookup_col "Abstentions" (cols df) = Some (SInt64 abstentions) →
  lookup_col "Null" (cols df) = Some (SInt64 null) →
  lookup_col "Choice A" (cols df) = Some (SInt64 choice_a) →
  lookup_col "Choice B" (cols df) = Some (SInt64 choice_b) →
  (∀ (i : nat) (k1 k2 : key),
     keys s1 !! i = Some k1 → keys s2 !! i = Some k2 → k1 = KNull ∨ k2 = KNull) →
  ∃ out : DataFrame,
    compute_referendum_result_by_regions merged σ = (Ok (length σ), σ ++ [out])
    ∧ columns out = result_columns
    ∧ nrows out = 0%nat
    ∧ Forall (fun c => series_len c.2 = 0%nat) (cols out).
Proof.
  intros Hr H1 H2 Hreg Habs Hnull Ha Hb Hnone.
  pose proof (compute_run σ merged df s1 s2 registered abstentions null choice_a choice_b
                Hr H1 H2 Hreg Habs Hnull Ha Hb) as Hrun.
  cbv zeta in Hrun.
  set (rg := row_groups s1 s2) in *. set (labels := group_labels rg) in *.
  assert (labels = []) as Hlabels.
  { destruct (group_labels_spec rg) as [_ Hin]. fold labels in Hin.
    destruct labels as [|g labels']; [done|].
    assert (Some g ∈ rg) as Hg by (apply Hin; by left).
    apply elem_of_row_groups in Hg as (i & Hk1 & Hk2 & Hn1 & Hn2).
    by destruct (Hnone i g.1 g.2 Hk1 Hk2). }
  rewrite Hlabels in Hrun. eexists. split; [exact Hrun|]. split_and!.
  - reflexivity.
  - reflexivity.
  - cbn [cols fmap list_fmap]. repeat constructor. simpl. by rewrite series_len_take_fill.
Qed.

Lemma results_of_no_rows_witness :
  ∃ out : DataFrame,
    compute_referendum_result_by_regions 0 [ex_referendum_unplaced]
    = (Ok 1%nat, [ex_referendum_unplaced] ++ [out])
    ∧ columns out = result_columns
    ∧ nrows out = 0%nat
    ∧ Forall (fun c => series_len c.2 = 0%nat) (cols out).
Proof.
  apply (results_of_no_rows [ex_referendum_unplaced] 0 ex_referendum_unplaced
           (SObject [NaN; NaN]) (SObject [NaN; NaN])
           [10; 40] [1; 4] [0; 0] [5; 8] [4; 10]); [reflexivity..|].
  intros [|[|i]] k1 k2 Hk1 Hk2; simplify_eq/=; by left.
Defined.


(** The values of a group are those of the rows that carry its two keys. *)
Lemma group_values_rows {A} (g : group) (ks1 ks2 : list key) (xs : list A) :
  g.1 ≠ KNull → g.2 ≠ KNull →
  group_values g (zip_with group_of ks1 ks2) xs
  = (filter (fun t : key * key * A => t.1.1 = g.1 ∧ t.1.2 = g.2) (zip (zip ks1 ks2) xs)).*2.
Proof.
  intros Hg1 Hg2. unfold group_values.
  revert ks2 xs. induction ks1 as [|k1 ks1 IH]; intros [|k2 ks2] [|x xs]; try done.
  cbn [zip_with zip]. rewrite !filter_cons. cbn [fst snd].
  assert (group_of k1 k2 = Some g ↔ k1 = g.1 ∧ k2 = g.2) as Hiff.
  { unfold group_of. destruct g as [a b]. simpl in *. case_decide as Hn.
    - split; [done|]. intros [-> ->]. tauto.
    - split; [by intros [= -> ->]|]. by intros [-> ->]. }
  destruct (decide (group_of k1 k2 = Some g)) as [Hy|Hn];
    destruct (decide (k1 = g.1 ∧ k2 = g.2)) as [Hy'|Hn']; try tauto;
    cbn [fmap list_fmap snd]; by rewrite <- IH.
Qed.

(** C2: what [compute_referendum_result_by_regions] returns.  The table
    has one row per distinct pair (region code, region name) that occurs in
    the input with neither part missing, hence one row per distinct region
    code when every code goes with one name.  In the row of a pair, each of
    the five vote-count columns holds the [int64] sum of that column over
    the input rows that carry the pair, and [name_reg] holds the name of
    the pair.  The columns are [name_reg], [Registered], [Abstentions],
    [Null], [Choice A], [Choice B].  The table is not indexed by the region
    code, as the docstring of the function asks: its rows are numbered from
    0, and the region code is neither the index nor a column. *)
Theorem results_by_region
    (σ : list DataFrame) (merged : nat) (df : DataFrame) (s1 s2 : Series)
    (registered abstentions null choice_a choice_b : list Z) :
  σ !! merged = Some df →
  lookup_col "code_reg" (cols df) = Some s1 →
  lookup_col "name_reg" (cols df) = Some s2 →
  lookup_col "Registered" (cols df) = Some (SInt64 registered) →
  lookup_col "Abstentions" (cols df) = Some (SInt64 abstentions) →
  lookup_col "Null" (cols df) = Some (SInt64 null) →
  lookup_col "Choice A" (cols df) = Some (SInt64 choice_a) →
  lookup_col "Choice B" (cols df) = Some (SInt64 choice_b) →
  ∃ (out : DataFrame) (labels : list group) (names : Series),
    compute_referendum_result_by_regions merged σ = (Ok (length σ), σ ++ [out])
    ∧ NoDup labels
    ∧ (∀ g : group,
         g ∈ labels
         ↔ ∃ i : nat, keys s1 !! i = Some g.1 ∧ keys s2 !! i = Some g.2
                      ∧ g.1 ≠ KNull ∧ g.2 ≠ KNull)
    ∧ ((∀ (i j : nat) (k n n' : key),
          keys s1 !! i = Some k → keys s1 !! j = Some k →
          keys s2 !! i = Some n → keys s2 !! j = Some n' → n = n') →
       NoDup labels.*1)
    ∧ nrows out = length labels
    ∧ index out = RangeIndex (length labels)
    ∧ columns out = result_columns
    ∧ ("code_reg" ∉ columns out)
    ∧ lookup_col "name_reg" (cols out) = Some names
    ∧ (∀ (p : nat) (g : group),
         labels !! p = Some g →
         ∃ i : nat, keys s1 !! i = Some g.1 ∧ keys s2 !! i = Some g.2
                    ∧ iloc names p = iloc s2 i)
    ∧ (∀ (v : string) (xs : list Z),
         (v, xs) ∈ [("Registered", registered); ("Abstentions", abstentions);
                    ("Null", null); ("Choice A", choice_a); ("Choice B", choice_b)] →
         ∃ ys : list Z,
           lookup_col v (cols out) = Some (SInt64 ys)
           ∧ length ys = length labels
           ∧ ∀ (p : nat) (g : group),
               labels !! p = Some g →
               ys !! p
               = Some (wrap64 (foldr Z.add 0
                         (filter (fun t : key * key * Z => t.1.1 = g.1 ∧ t.1.2 = g.2)
                            (zip (zip (keys s1) (keys s2)) xs)).*2))).
Proof.
  intros Hr H1 H2 Hreg Habs Hnull Ha Hb.
  pose proof (compute_run σ merged df s1 s2 registered abstentions null choice_a choice_b
                Hr H1 H2 Hreg Habs Hnull Ha Hb) as Hrun.
  cbv zeta in Hrun.
  set (rg := row_groups s1 s2) in *. set (labels := group_labels rg) in *.
  destruct (group_labels_spec rg) as [Hnd Hin]. fold labels in Hin, Hnd.
  assert (∀ g : group,
            g ∈ labels
            ↔ ∃ i : nat, keys s1 !! i = Some g.1 ∧ keys s2 !! i = Some g.2
                         ∧ g.1 ≠ KNull ∧ g.2 ≠ KNull) as Hlab.
  { intros g. rewrite Hin. apply elem_of_row_groups. }
  eexists _, labels, _. split; [exact Hrun|].
  split; [exact Hnd|]. split; [exact Hlab|]. split.
  { intros Hinv. apply NoDup_fmap_2_strong; [|exact Hnd].
    intros [a b] [a' b'] (i & Hi1 & Hi2 & _)%Hlab (j & Hj1 & Hj2 & _)%Hlab Heq.
    simpl in *. subst a'. f_equal. by eapply (Hinv i j a). }
  split; [unfold nrows; cbn [index]; apply index_len_RangeIndex|].
  split; [reflexivity|]. split; [reflexivity|]. split.
  { unfold columns. cbn [cols fmap list_fmap fst].
    intros Hc. repeat (apply elem_of_cons in Hc as [Hc|Hc]; [discriminate Hc|]).
    by apply elem_of_nil in Hc. }
  split; [reflexivity|]. split.
  - intros p g Hp.
    assert (g ∈ labels) as Hg by (by eapply list_elem_of_lookup_2).
    apply Hin in Hg. destruct (first_row_spec g 0 rg Hg) as (i & Hi & Hrg).
    apply row_groups_lookup in Hrg as [Hk1 Hk2].
    exists i. split; [done|]. split; [done|].
    assert (i < series_len s2)%nat as Hlt.
    { apply lookup_lt_Some in Hk2. by rewrite length_keys in Hk2. }
    assert (((fun g => first_row g 0 rg) <$> labels) !! p = Some (Some i)) as Hfp.
    { by rewrite list_lookup_fmap, Hp; simpl; rewrite Hi. }
    destruct s2 as [zs|fs|os]; cbn [take_fill series_len iloc] in *.
    + destruct (lookup_lt_is_Some_2 zs i Hlt) as [z Hz]. rewrite Hz. simpl.
      destruct (mapM _ _) as [ys|] eqn:Hm.
      * simpl. apply mapM_Some in Hm.
        destruct (Forall2_lookup_l _ _ _ _ _ Hm Hfp) as (y & -> & Hy).
        simpl in Hy. rewrite Hz in Hy. by injection Hy as ->.
      * simpl. rewrite list_lookup_fmap, Hfp. simpl. rewrite Hz.
        exfalso. apply mapM_None, Exists_exists in Hm as (o & Ho & Hnone).
        apply list_elem_of_fmap in Ho as (g' & -> & Hg').
        apply Hin in Hg'. destruct (first_row_spec g' 0 rg Hg') as (i' & Hi' & Hrg').
        apply row_groups_lookup in Hrg' as [_ Hk]. rewrite Hi' in Hnone. simpl in Hnone.
        simpl in Hk. rewrite list_lookup_fmap in Hk.
        destruct (zs !! i'); [done|discriminate Hk].
    + rewrite list_lookup_fmap, Hfp. simpl.
      destruct (lookup_lt_is_Some_2 fs i Hlt) as [z ->]. done.
    + rewrite list_lookup_fmap, Hfp. simpl.
      destruct (lookup_lt_is_Some_2 os i Hlt) as [z ->]. done.
  - intros v xs Hv.
    assert (∀ g, g ∈ labels → g.1 ≠ KNull ∧ g.2 ≠ KNull) as Hnn.
    { intros g (i & _ & _ & ? & ?)%Hlab. done. }
    eexists. split; [|split].
    + repeat (apply elem_of_cons in Hv as [Hv|Hv]; [injection Hv as -> ->; reflexivity|]).
      by apply elem_of_nil in Hv.
    + by rewrite length_fmap.
    + intros p g Hp. rewrite list_lookup_fmap, Hp. simpl. f_equal.
      rewrite sum_int64_spec. do 2 f_equal.
      assert (g ∈ labels) as Hg by (by eapply list_elem_of_lookup_2).
      destruct (Hnn g Hg). by apply group_values_rows.
Qed.

Lemma results_by_region_witness :
  ∃ (out : DataFrame) (labels : list group),
    compute_referendum_result_by_regions 0 [ex_merged_two_names]
    = (Ok 1%nat, [ex_merged_two_names] ++ [out])
    ∧ NoDup labels
    ∧ nrows out = length labels
    ∧ index out = RangeIndex (length labels)
    ∧ columns out = result_columns.
Proof.
  destruct (results_by_region [ex_merged_two_names] 0 ex_merged_two_names
              (strs ["84"; "84"]) (strs ["Auvergne-Rhone-Alpes"; "Rhone-Alpes"])
              [100; 10] [10; 1] [2; 0] [50; 5] [38; 4])
    as (out & labels & names & Hrun & Hnd & _ & _ & Hn & Hix & Hc & _); [reflexivity..|].
  exists out, labels. split_and!; [exact Hrun|exact Hnd|exact Hn|exact Hix|exact Hc].
Defined.

(** C2 fails against the docstring on every input: for a merged table of
    one row, of region "84", the result is labelled 0 and holds the region
    code nowhere. *)
Lemma results_by_region_counterexample :
  ∃ out : DataFrame,
    compute_referendum_result_by_regions 0 [ex_merged_one_row]
    = (Ok 1%nat, [ex_merged_one_row; out])
    ∧ out = mkDataFrame (RangeIndex 1)
              [("name_reg", strs ["Auvergne-Rhone-Alpes"]);
               ("Registered", SInt64 [100]); ("Abstentions", SInt64 [10]);
               ("Null", SInt64 [2]); ("Choice A", SInt64 [50]); ("Choice B", SInt64 [38])]
    ∧ index out = [(None, SInt64 [0])]
    ∧ index out ≠ [(Some "code_reg", strs ["84"])]
    ∧ ("code_reg" ∉ columns out).
Proof.
  eexists. split; [reflexivity|]. split; [reflexivity|].
  split; [reflexivity|]. split; [discriminate|].
  apply (bool_decide_unpack _). reflexivity.
Qed.

Example example_results_two_names :
  (compute_referendum_result_by_regions 0 [ex_merged_two_names]).2 !! 1%nat
  = Some (mkDataFrame (RangeIndex 2)
            [("name_reg", strs ["Auvergne-Rhone-Alpes"; "Rhone-Alpes"]);
             ("Registered", SInt64 [100; 10]); ("Abstentions", SInt64 [10; 1]);
             ("Null", SInt64 [2; 0]); ("Choice A", SInt64 [50; 5]);
             ("Choice B", SInt64 [38; 4])]).
Proof. reflexivity. Qed.

(** ** The table that is drawn *)

Lemma ratio_of_int64 df xa xb :
  lookup_col "Choice A" (cols df) = Some (SInt64 xa) →
  lookup_col "Choice B" (cols df) = Some (SInt64 xb) →
  ratio_of df
  = Ok (SFloat64 (zip_with fdiv (astype_float xa)
                    (astype_float (zip_with (fun x y => wrap64 (x + y)) xa xb)))).
Proof. intros Ha Hb. unfold ratio_of, getitem. by rewrite Ha, Hb. Qed.

(** Integers as floats: a non-zero integer is a non-zero float of the same
    sign (or an infinity, when it is too large). *)
Lemma shr_1_m mrs : 0 ≤ shr_m mrs → shr_m (shr_1 mrs) = shr_m mrs / 2.
Proof.
  destruct mrs as [m r s]. simpl. intros Hm. rewrite <- Z.div2_div.
  destruct m as [|[p|p|]|p]; done.
Qed.

Lemma pow2_xO p : 2 ^ Zpos p~0 = 2 ^ Zpos p * 2 ^ Zpos p.
Proof.
  assert (Zpos p~0 = Zpos p + Zpos p) as -> by lia.
  apply Z.pow_add_r; lia.
Qed.

Lemma pow2_xI p : 2 ^ Zpos p~1 = 2 * (2 ^ Zpos p * 2 ^ Zpos p).
Proof.
  assert (Zpos p~1 = 1 + (Zpos p + Zpos p)) as -> by lia.
  rewrite !Z.pow_add_r by lia. by rewrite Z.pow_1_r.
Qed.

Lemma iter_pos_shr n mrs :
  0 ≤ shr_m mrs → shr_m (SpecFloat.iter_pos shr_1 n mrs) = shr_m mrs / 2 ^ Zpos n.
Proof.
  revert mrs. induction n as [n IH|n IH|]; intros mrs Hm; simpl SpecFloat.iter_pos.
  - assert (0 ≤ shr_m (shr_1 mrs)) as H1 by (rewrite shr_1_m by done; apply Z.div_pos; lia).
    assert (0 ≤ shr_m (SpecFloat.iter_pos shr_1 n (shr_1 mrs))) as H2
      by (rewrite IH by done; apply Z.div_pos; lia).
    rewrite IH, IH, shr_1_m by done. rewrite !Z.div_div by lia. by rewrite pow2_xI.
  - assert (0 ≤ shr_m (SpecFloat.iter_pos shr_1 n mrs)) as H2
      by (rewrite IH by done; apply Z.div_pos; lia).
    rewrite IH, IH by done. rewrite !Z.div_div by lia. by rewrite pow2_xO.
  - rewrite shr_1_m by done. done.
Qed.

Lemma digits2_pos_bound p : 2 ^ (Zpos (digits2_pos p) - 1) ≤ Zpos p.
Proof.
  induction p as [p IH|p IH|]; simpl digits2_pos; [| |done].
  - rewrite Pos2Z.inj_succ.
    replace (Z.succ (Zpos (digits2_pos p)) - 1) with (Z.succ (Zpos (digits2_pos p) - 1)) by lia.
    rewrite Z.pow_succ_r by lia. lia.
  - rewrite Pos2Z.inj_succ.
    replace (Z.succ (Zpos (digits2_pos p)) - 1) with (Z.succ (Zpos (digits2_pos p) - 1)) by lia.
    rewrite Z.pow_succ_r by lia. lia.
Qed.

Lemma shr_fexp_pos m e l :
  0 < m → emin prec emax ≤ e →
  0 < shr_m (shr_fexp prec emax m e l).1 ∧ emin prec emax ≤ (shr_fexp prec emax m e l).2.
Proof.
  intros Hm He. unfold shr_fexp, shr.
  assert (shr_m (shr_record_of_loc m l) = m) as Hrec by (by destruct l as [|[]]).
  destruct (fexp prec emax (Zdigits2 m + e) - e) as [|n|n] eqn:En; simpl; rewrite ?Hrec; try done.
  split; [|lia].
  rewrite iter_pos_shr by (rewrite Hrec; lia). rewrite Hrec.
  destruct m as [|p|p]; try lia. simpl in En.
  unfold fexp, emin, prec, emax in *.
  pose proof (digits2_pos_bound p) as Hd.
  assert (Zpos n ≤ Zpos (digits2_pos p) - 1) as Hn by lia.
  assert (2 ^ Zpos n ≤ 2 ^ (Zpos (digits2_pos p) - 1)) as Hp by (apply Z.pow_le_mono_r; lia).
  apply Z.div_str_pos. lia.
Qed.

Lemma round_nearest_even_ge m l : m ≤ round_nearest_even m l.
Proof. destruct l as [|[]]; simpl; try lia. destruct (Z.even m); lia. Qed.

Lemma binary_round_aux_sign sx m e l :
  0 < m → emin prec emax ≤ e →
  (∃ m' e', binary_round_aux prec emax sx m e l = S754_finite sx m' e')
  ∨ binary_round_aux prec emax sx m e l = S754_infinity sx.
Proof.
  intros Hm He. unfold binary_round_aux.
  destruct (shr_fexp_pos m e l Hm He) as [H1 H1e].
  destruct (shr_fexp prec emax m e l) as [mrs' e']. simpl in H1, H1e.
  pose proof (round_nearest_even_ge (shr_m mrs') (loc_of_shr_record mrs')) as Hr.
  destruct (shr_fexp_pos (round_nearest_even (shr_m mrs') (loc_of_shr_record mrs')) e' loc_Exact)
    as [H2 _]; [lia|done|].
  destruct (shr_fexp prec emax _ e' loc_Exact) as [mrs'' e'']. simpl in H2.
  destruct (shr_m mrs'') as [|q|q]; try lia.
  destruct (e'' <=? emax - prec); eauto.
Qed.

Lemma float_of_int_sign a :
  a ≠ 0 →
  (∃ m e, float_of_int a = S754_finite (a <? 0) m e)
  ∨ float_of_int a = S754_infinity (a <? 0).
Proof.
  intros Ha. unfold float_of_int, binary_normalize.
  assert (∀ sx p,
            (∃ m e, binary_round prec emax sx p 0 = S754_finite sx m e)
            ∨ binary_round prec emax sx p 0 = S754_infinity sx) as Hround.
  { intros sx p. unfold binary_round, shl_align.
    set (ex' := fexp prec emax (Zpos (digits2_pos p) + 0)).
    assert (emin prec emax ≤ ex') as Hex' by (unfold ex', fexp; lia).
    destruct (ex' - 0) as [|d|d]; apply binary_round_aux_sign; try lia; done. }
  destruct a as [|p|p]; [done|apply Hround..].
Qed.

Lemma fdiv_by_zero a :
  fdiv (float_of_int a) (float_of_int 0)
  = if a =? 0 then nan else S754_infinity (a <? 0).
Proof.
  destruct (Z.eqb_spec a 0) as [->|Ha]; [done|].
  change (float_of_int 0) with (S754_zero false).
  destruct (float_of_int_sign a Ha) as [(m & e & ->)| ->]; simpl; by rewrite xorb_false_r.
Qed.

Lemma ex_geo_columns :
  ∀ n, n ∈ columns ex_geo → n ≠ "nom" → (n ∉ columns ex_results) ∧ n ≠ "ratio".
Proof.
  apply (Forall_forall (fun n => n ≠ "nom" → (n ∉ columns ex_results) ∧ n ≠ "ratio")).
  apply (bool_decide_unpack _). reflexivity.
Qed.

Lemma ratio_of_ext df df' :
  lookup_col "Choice A" (cols df') = lookup_col "Choice A" (cols df) →
  lookup_col "Choice B" (cols df') = lookup_col "Choice B" (cols df) →
  ratio_of df' = ratio_of df.
Proof. intros Ha Hb. unfold ratio_of, getitem. by rewrite Ha, Hb. Qed.

(** The table that [plot_referendum_map] returns. *)
Lemma plot_run σ results reg_json df ns xa xb gs g :
  σ !! results = Some df →
  lookup_col "name_reg" (cols df) = Some (SObject ns) →
  lookup_col "Choice A" (cols df) = Some (SInt64 xa) →
  lookup_col "Choice B" (cols df) = Some (SInt64 xb) →
  length ns = nrows df → length xa = nrows df → length xb = nrows df →
  lookup_col "nom" (cols reg_json) = Some (SObject gs) →
  lookup_col "geometry" (cols reg_json) = Some g →
  (∀ n, n ∈ columns reg_json → n ≠ "nom" → (n ∉ columns df) ∧ n ≠ "ratio") →
  ∃ df1 df2 : DataFrame,
    with_column df "nom" (SObject ns) = Ok df1
    ∧ with_column df1 "ratio"
        (SFloat64 (zip_with fdiv (astype_float xa)
                     (astype_float (zip_with (fun x y => wrap64 (x + y)) xa xb))))
      = Ok df2
    ∧ (∀ n : string, n ∈ columns df2 → n ∈ columns reg_json → n = "nom")
    ∧ plot_referendum_map reg_json results σ
      = let rows := merge_rows Inner (keys (SObject ns)) (keys (SObject gs)) in
        (Ok (length σ),
         (<[results := df2]> σ)
         ++ [mkDataFrame (join_index (length rows))
               (if bool_decide (nrows df2 = 0%nat)
                then (prod_map id (take rows.*1) <$> filter (fun c => c.1 ≠ "nom") (cols df2))
                     ++ (prod_map id (take_fill rows.*2) <$> cols reg_json)
                else (prod_map id (take rows.*1) <$> cols df2)
                     ++ (prod_map id (take_fill rows.*2)
                           <$> filter (fun c => c.1 ≠ "nom") (cols reg_json)))]).
Proof.
  intros Hr Hn Ha Hb Hln Hla Hlb Hg Hgeo Hdisj.
  set (ratio := SFloat64 (zip_with fdiv (astype_float xa)
                            (astype_float (zip_with (fun x y => wrap64 (x + y)) xa xb)))).
  destruct (with_column_ok df "nom" (SObject ns) Hln) as [df1 H1].
  pose proof (nrows_with_column _ _ _ _ H1) as N1.
  destruct (with_column_ok df1 "ratio" ratio) as [df2 H2].
  { unfold ratio, astype_float. simpl.
    rewrite length_zip_with, !length_fmap, length_zip_with. lia. }
  exists df1, df2. split; [done|]. split; [done|].
  pose proof (with_column_spec _ _ _ _ H1) as (_ & Hnom1 & Hoth1 & _).
  pose proof (with_column_spec _ _ _ _ H2) as (_ & Hratio2 & Hoth2 & _).
  assert (lookup_col "nom" (cols df2) = Some (SObject ns)) as Hnom2.
  { by rewrite Hoth2. }
  assert (∀ n : string, n ∈ columns df2 → n ∈ columns reg_json → n = "nom") as Hov.
  { intros n Hin Hgn. destruct (decide (n = "nom")) as [|Hne]; [done|].
    destruct (Hdisj n Hgn Hne) as [Hnd Hnr].
    apply (columns_with_column _ _ _ _ _ H2) in Hin as [Hin|?]; [|done].
    apply (columns_with_column _ _ _ _ _ H1) in Hin as [Hin|?]; done. }
  split; [done|]. cbv zeta.
  set (rows := merge_rows Inner (keys (SObject ns)) (keys (SObject gs))).
  pose proof (pd_merge_text df2 reg_json "nom" ns gs Inner Hnom2 Hg Hov) as Hm.
  cbv zeta in Hm. fold rows in Hm.
  match type of Hm with _ = Ok ?o => set (out := o) in * end.
  destruct (merged_columns df2 reg_json "nom" rows out eq_refl)
    as (_ & _ & Hby & _ & _).
  assert (plot out "ratio" = Ok ()) as Hplot.
  { unfold plot, getitem.
    rewrite (Hby "ratio"), Hratio2 by done. cbn [mbind result_bind].
    rewrite (Hby "geometry") by done.
    assert (lookup_col "geometry" (cols df2) = None) as ->.
    { apply lookup_col_None. intros Hin.
      assert ("geometry" ∈ columns reg_json) as Hgn by (by eapply lookup_col_Some_elem).
      by specialize (Hov _ Hin Hgn). }
    by rewrite Hgeo. }
  unfold plot_referendum_map.
  erewrite run_bind_ok; [|by apply run_load].
  erewrite run_bind_ok; [|apply run_lift; unfold getitem; by rewrite Hn].
  erewrite run_bind_ok; [|by eapply run_setitem].
  assert (<[results := df1]> σ !! results = Some df1) as Hr1.
  { apply list_lookup_insert_eq. by eapply lookup_lt_Some. }
  erewrite run_bind_ok; [|by apply run_load].
  erewrite run_bind_ok.
  2:{ apply run_lift. apply ratio_of_int64; by rewrite Hoth1. }
  fold ratio.
  erewrite run_bind_ok; [|by eapply run_setitem].
  rewrite list_insert_insert_eq.
  assert (<[results := df2]> σ !! results = Some df2) as Hr2.
  { apply list_lookup_insert_eq. by eapply lookup_lt_Some. }
  erewrite run_bind_ok; [|by apply run_load].
  erewrite run_bind_ok; [|by apply run_lift].
  erewrite run_bind_ok; [|by apply run_lift].
  unfold new. by rewrite length_insert.
Qed.

(** C6, as the code has it: for every row of the table that
    [plot_referendum_map] returns, [ratio] is the [float64] quotient of
    [Choice A] by the [int64] sum [Choice A + Choice B] of that row.  No
    error is raised when the sum is zero: the ratio is then [NaN] if
    [Choice A] is zero (as it is whenever both counts are non-negative), and
    an infinity with the sign of [Choice A] otherwise. *)
Theorem ratio_of_output_rows
    (σ : list DataFrame) (results : nat) (reg_json df : DataFrame)
    (ns gs : list object) (xa xb : list Z) (g : Series) :
  σ !! results = Some df →
  lookup_col "name_reg" (cols df) = Some (SObject ns) →
  lookup_col "Choice A" (cols df) = Some (SInt64 xa) →
  lookup_col "Choice B" (cols df) = Some (SInt64 xb) →
  length ns = nrows df → length xa = nrows df → length xb = nrows df →
  lookup_col "nom" (cols reg_json) = Some (SObject gs) →
  lookup_col "geometry" (cols reg_json) = Some g →
  (∀ n, n ∈ columns reg_json → n ≠ "nom" → (n ∉ columns df) ∧ n ≠ "ratio") →
  ∃ (df2 out : DataFrame) (ca cb cr : Series),
    plot_referendum_map reg_json results σ
    = (Ok (length σ), (<[results := df2]> σ) ++ [out])
    ∧ lookup_col "Choice A" (cols out) = Some ca
    ∧ lookup_col "Choice B" (cols out) = Some cb
    ∧ lookup_col "ratio" (cols out) = Some cr
    ∧ ∀ p : nat, (p < nrows out)%nat →
        ∃ a b : Z,
          iloc ca p = Some (Int a) ∧ iloc cb p = Some (Int b)
          ∧ iloc cr p = Some (Float (fdiv (float_of_int a) (float_of_int (wrap64 (a + b)))))
          ∧ (wrap64 (a + b) = 0 →
             iloc cr p = Some (Float (if a =? 0 then nan else S754_infinity (a <? 0))))
          ∧ (0 ≤ a → 0 ≤ b → a + b = 0 → iloc cr p = Some (Float nan)).
Proof.
  intros Hr Hn Ha Hb Hln Hla Hlb Hg Hgeo Hdisj.
  destruct (plot_run σ results reg_json df ns xa xb gs g)
    as (df1 & df2 & H1 & H2 & Hov & Hrun); try done.
  cbv zeta in Hrun.
  set (rows := merge_rows Inner (keys (SObject ns)) (keys (SObject gs))) in *.
  set (ratio := zip_with fdiv (astype_float xa)
                  (astype_float (zip_with (fun x y => wrap64 (x + y)) xa xb))) in *.
  match type of Hrun with _ = (_, _ ++ [?o]) => set (out := o) in * end.
  destruct (merged_columns df2 reg_json "nom" rows out eq_refl)
    as (Hnrows & _ & Hby & _ & _).
  pose proof (with_column_spec _ _ _ _ H1) as (_ & _ & Hoth1 & _).
  pose proof (with_column_spec _ _ _ _ H2) as (_ & Hratio2 & Hoth2 & _).
  exists df2, out, (take rows.*1 (SInt64 xa)), (take rows.*1 (SInt64 xb)),
    (take rows.*1 (SFloat64 ratio)).
  split; [exact Hrun|].
  rewrite !Hby, Hratio2, !Hoth2, !Hoth1, Ha, Hb by done.
  split; [done|]. split; [done|]. split; [done|].
  intros p Hp. rewrite Hnrows in Hp.
  destruct (lookup_lt_is_Some_2 rows p Hp) as [[i o] Hrow].
  assert (rows.*1 !! p = Some i) as Hi by (by rewrite list_lookup_fmap, Hrow).
  assert (Forall (fun i => (i < nrows df)%nat) rows.*1) as Hall.
  { pose proof (merge_rows_bound Inner (keys (SObject ns)) (keys (SObject gs))) as Hbd.
    fold rows in Hbd. rewrite length_keys in Hbd. simpl in Hbd. by rewrite Hln in Hbd. }
  assert (i < nrows df)%nat as Hilt.
  { rewrite Forall_forall in Hall. apply Hall. by eapply list_elem_of_lookup_2. }
  destruct (lookup_lt_is_Some_2 xa i) as [a Hxa]; [lia|].
  destruct (lookup_lt_is_Some_2 xb i) as [b Hxb]; [lia|].
  assert (ratio !! i = Some (fdiv (float_of_int a) (float_of_int (wrap64 (a + b))))) as Hri.
  { unfold ratio, astype_float. apply lookup_zip_with_Some.
    exists (float_of_int a), (float_of_int (wrap64 (a + b))). split; [done|]. split.
    - by rewrite list_lookup_fmap, Hxa.
    - rewrite list_lookup_fmap.
      assert (zip_with (fun x y => wrap64 (x + y)) xa xb !! i = Some (wrap64 (a + b))) as ->; [|done].
      apply lookup_zip_with_Some. by exists a, b. }
  assert (iloc (take rows.*1 (SFloat64 ratio)) p
          = Some (Float (fdiv (float_of_int a) (float_of_int (wrap64 (a + b)))))) as Hcr.
  { rewrite (iloc_take _ _ p i); [simpl; by rewrite Hri| |done].
    simpl. unfold ratio, astype_float.
    rewrite length_zip_with, !length_fmap, length_zip_with.
    eapply Forall_impl; [exact Hall|]. simpl. lia. }
  exists a, b. split_and!.
  - rewrite (iloc_take _ _ p i); [simpl; by rewrite Hxa| |done].
    simpl. by rewrite Hla.
  - rewrite (iloc_take _ _ p i); [simpl; by rewrite Hxb| |done].
    simpl. by rewrite Hlb.
  - done.
  - intros Hz. rewrite Hcr, Hz. by rewrite fdiv_by_zero.
  - intros H0a H0b Hab. assert (a = 0) as -> by lia. assert (b = 0) as -> by lia.
    by rewrite Hcr.
Qed.

Lemma ratio_of_output_rows_witness :
  ∃ (df2 out : DataFrame) (ca cb cr : Series),
    plot_referendum_map ex_geo 0 [ex_results] = (Ok 1%nat, (<[0%nat := df2]> [ex_results]) ++ [out])
    ∧ lookup_col "Choice A" (cols out) = Some ca
    ∧ lookup_col "Choice B" (cols out) = Some cb
    ∧ lookup_col "ratio" (cols out) = Some cr
    ∧ ∀ p : nat, (p < nrows out)%nat →
        ∃ a b : Z,
          iloc ca p = Some (Int a) ∧ iloc cb p = Some (Int b)
          ∧ iloc cr p = Some (Float (fdiv (float_of_int a) (float_of_int (wrap64 (a + b)))))
          ∧ (wrap64 (a + b) = 0 →
             iloc cr p = Some (Float (if a =? 0 then nan else S754_infinity (a <? 0))))
          ∧ (0 ≤ a → 0 ≤ b → a + b = 0 → iloc cr p = Some (Float nan)).
Proof.
  apply (ratio_of_output_rows [ex_results] 0 ex_geo ex_results
           (Str <$> ["Auvergne-Rhone-Alpes"; "Provence-Alpes-Cote d'Azur"; "Corse"])
           (Str <$> ["Auvergne-Rhone-Alpes"; "Provence-Alpes-Cote d'Azur"])
           [1; 0; 7] [-1; 0; 9]
           (strs ["POLYGON ((4 45, 5 45, 5 46, 4 45))"; "POLYGON ((6 43, 7 43, 7 44, 6 43))"]));
    first [reflexivity | exact ex_geo_columns].
Defined.

(** C6 fails as stated: with [Choice A = 1] and [Choice B = -1] the
    denominator is zero and the ratio is plus infinity, not [NaN]. *)
Lemma ratio_of_output_rows_counterexample :
  ∃ df2 out : DataFrame,
    plot_referendum_map ex_geo 0 [ex_results] = (Ok 1%nat, [df2; out])
    ∧ lookup_col "Choice A" (cols out) = Some (SInt64 [1; 0])
    ∧ lookup_col "Choice B" (cols out) = Some (SInt64 [-1; 0])
    ∧ lookup_col "ratio" (cols out) = Some (SFloat64 [S754_infinity false; S754_nan]).
Proof. eexists _, _. split_and!; reflexivity. Qed.

(** Gathering by positions that are all present. *)
Lemma all_Some_fmap {A} (ix : list (option A)) :
  Forall is_Some ix → ix = Some <$> omap id ix.
Proof.
  induction 1 as [|o ix [x ->] _ IH]; [done|]. cbn [omap list_omap id]. simpl.
  by f_equal.
Qed.

Lemma iloc_take_fill_present s (ix : list (option nat)) p j :
  Forall (fun o => ∃ j : nat, o = Some j ∧ (j < series_len s)%nat) ix →
  ix !! p = Some (Some j) →
  iloc (take_fill ix s) p = iloc s j.
Proof.
  intros Hall Hp.
  assert (Forall is_Some ix) as Hs.
  { eapply Forall_impl; [exact Hall|]. intros o (j' & -> & _). by eexists. }
  pose proof (all_Some_fmap ix Hs) as Hix.
  assert (omap id ix !! p = Some j) as Hp'.
  { rewrite Hix, list_lookup_fmap in Hp. destruct (omap id ix !! p); by simplify_eq/=. }
  rewrite Hix. fold (take (omap id ix) s). apply iloc_take; [|done].
  apply Forall_forall. intros j' Hj'. rewrite Forall_forall in Hall.
  destruct (Hall (Some j')) as (j'' & [= <-] & Hlt); [|done].
  rewrite Hix. by apply list_elem_of_fmap_2.
Qed.

(** A relabelling that changes nothing repeats no label anew. *)
Lemma new_duplicates_same (seen ls : list string) : new_duplicates seen seen ls ls = false.
Proof.
  revert seen. induction ls as [|l ls IH]; intros seen; [done|]. simpl.
  rewrite IH. by destruct (bool_decide (l ∈ seen)).
Qed.

Lemma merge_warnings_text left right on xs ys :
  lookup_col on (cols left) = Some (SObject xs) →
  lookup_col on (cols right) = Some (SObject ys) →
  (∀ n : string, n ∈ columns left → n ∈ columns right → n = on) →
  merge_warnings left right on = [].
Proof.
  intros Hl Hr Hdisj. unfold merge_warnings, getitem. rewrite Hl, Hr.
  rewrite keys_compatible_object. cbv zeta.
  assert (filter (fun n => n ∈ columns right ∧ n ≠ on) (columns left) = []) as ->.
  { apply filter_none, Forall_forall. intros n Hn [Hnr Hne]. by apply Hne, Hdisj. }
  assert (∀ (sfx : string) (ls : list string),
            (fun n : string => if bool_decide (n ∈ @nil string) then (n ++ sfx)%string else n)
              <$> ls = ls) as Hid.
  { intros sfx ls. induction ls as [|l ls IH]; [done|]. rewrite fmap_cons, IH.
    by rewrite bool_decide_false by apply not_elem_of_nil. }
  rewrite !Hid, !new_duplicates_same. done.
Qed.

(** C7: [plot_referendum_map] joins the results with the geometries on the
    exact region name and keeps only the pairs that match: the returned
    table has one row for each pair of a row of the results and a row of
    the geometry table with the same name, with the fields of both, and no
    other row.  So a region whose name is no name of the geometry table is
    in no row of the returned table, while a region whose name is one is.
    The call returns normally, and the merge gives no warning. *)
Theorem unmatched_regions_dropped
    (σ : list DataFrame) (results : nat) (reg_json df : DataFrame)
    (ns gs : list object) (xa xb : list Z) (g : Series) :
  σ !! results = Some df →
  lookup_col "name_reg" (cols df) = Some (SObject ns) →
  lookup_col "Choice A" (cols df) = Some (SInt64 xa) →
  lookup_col "Choice B" (cols df) = Some (SInt64 xb) →
  length ns = nrows df → length xa = nrows df → length xb = nrows df →
  lookup_col "nom" (cols reg_json) = Some (SObject gs) →
  lookup_col "geometry" (cols reg_json) = Some g →
  (∀ n, n ∈ columns reg_json → n ≠ "nom" → (n ∉ columns df) ∧ n ≠ "ratio") →
  ∃ (df2 out : DataFrame) (rows : list (nat * nat)) (nom : Series),
    plot_referendum_map reg_json results σ
    = (Ok (length σ), (<[results := df2]> σ) ++ [out])
    ∧ nrows out = length rows
    ∧ NoDup rows
    ∧ (∀ i j : nat,
         (i, j) ∈ rows
         ↔ ∃ k : key, keys (SObject ns) !! i = Some k ∧ keys (SObject gs) !! j = Some k)
    ∧ lookup_col "nom" (cols out) = Some nom
    ∧ (∀ p i j : nat,
         rows !! p = Some (i, j) →
         iloc nom p = ns !! i
         ∧ (∀ (n : string) (col : Series),
              n ≠ "nom" → lookup_col n (cols df2) = Some col → series_len col = nrows df →
              ∃ col', lookup_col n (cols out) = Some col' ∧ iloc col' p = iloc col i)
         ∧ (∀ (n : string) (col : Series),
              n ≠ "nom" → lookup_col n (cols reg_json) = Some col →
              series_len col = length gs →
              ∃ col', lookup_col n (cols out) = Some col' ∧ iloc col' p = iloc col j))
    ∧ (∀ s : string, Str s ∈ ns → Str s ∉ gs → ∀ p : nat, iloc nom p ≠ Some (Str s))
    ∧ (∀ s : string, Str s ∈ ns → Str s ∈ gs → ∃ p : nat, iloc nom p = Some (Str s))
    ∧ merge_warnings df2 reg_json "nom" = [].
Proof.
  intros Hr Hn Ha Hb Hln Hla Hlb Hg Hgeo Hdisj.
  destruct (plot_run σ results reg_json df ns xa xb gs g)
    as (df1 & df2 & H1 & H2 & Hov & Hrun); try done.
  cbv zeta in Hrun.
  set (rows' := merge_rows Inner (keys (SObject ns)) (keys (SObject gs))) in *.
  match type of Hrun with _ = (_, _ ++ [?o]) => set (out := o) in * end.
  destruct (merged_columns df2 reg_json "nom" rows' out eq_refl)
    as (Hnrows & _ & Hby & Hkey & _).
  pose proof (with_column_spec _ _ _ _ H1) as (_ & Hnom1 & _ & _).
  pose proof (with_column_spec _ _ _ _ H2) as (_ & _ & Hoth2 & _).
  assert (lookup_col "nom" (cols df2) = Some (SObject ns)) as Hnom2 by (by rewrite Hoth2).
  assert (nrows df2 = nrows df) as Hn2.
  { by rewrite (nrows_with_column _ _ _ _ H2), (nrows_with_column _ _ _ _ H1). }
  assert (∀ i o, (i, o) ∈ rows' →
            ∃ j k, o = Some j ∧ keys (SObject ns) !! i = Some k
                   ∧ keys (SObject gs) !! j = Some k) as Hspec.
  { intros i o Hin. apply merge_rows_spec in Hin as (k & Hk & Ho).
    destruct o as [j|]; [by exists j, k|by destruct Ho]. }
  assert (nrows df = 0%nat → rows' = []) as Hempty.
  { intros H0. rewrite <- Hln in H0. destruct ns; [|done]. unfold rows', merge_rows.
    simpl. done. }
  set (rows := (fun r : nat * option nat => (r.1, default 0%nat r.2)) <$> rows').
  assert (∀ p i j, rows !! p = Some (i, j) → rows' !! p = Some (i, Some j)) as Hrows.
  { intros p i j Hp. unfold rows in Hp. rewrite list_lookup_fmap in Hp.
    destruct (rows' !! p) as [[i' o]|] eqn:E; [|done]. simpl in Hp.
    destruct (Hspec i' o) as (j' & k & -> & _); [by eapply list_elem_of_lookup_2|].
    simpl in Hp. by injection Hp as -> ->. }
  assert (Forall (fun i => (i < length ns)%nat) rows'.*1) as Hb1.
  { pose proof (merge_rows_bound Inner (keys (SObject ns)) (keys (SObject gs))) as Hbd.
    fold rows' in Hbd. by rewrite length_keys in Hbd. }
  assert (Forall (fun o => ∃ j : nat, o = Some j ∧ (j < length gs)%nat) rows'.*2) as Hb2.
  { apply Forall_forall. intros o Ho. apply list_elem_of_fmap in Ho as ([i o'] & -> & Hin).
    destruct (Hspec i o' Hin) as (j & k & -> & _ & Hj). exists j. split; [done|].
    apply lookup_lt_Some in Hj. by rewrite length_keys in Hj. }
  set (nom := if bool_decide (nrows df2 = 0%nat) then take_fill rows'.*2 (SObject gs)
              else take rows'.*1 (SObject ns)).
  assert (lookup_col "nom" (cols out) = Some nom) as Hnom.
  { rewrite Hkey. unfold nom. case_bool_decide; [by rewrite Hg|by rewrite Hnom2]. }
  assert (∀ p i j, rows !! p = Some (i, j) → iloc nom p = ns !! i) as Hnomp.
  { intros p i j Hp%Hrows. unfold nom. case_bool_decide as H0.
    - rewrite Hn2 in H0. by rewrite (Hempty H0) in Hp.
    - rewrite (iloc_take (SObject ns) rows'.*1 p i); [done|done|].
      by rewrite list_lookup_fmap, Hp. }
  exists df2, out, rows, nom. split; [exact Hrun|].
  split; [unfold rows; by rewrite Hnrows, length_fmap|]. split.
  { unfold rows. apply NoDup_fmap_2_strong; [|apply NoDup_merge_rows].
    intros [i o] [i' o'] Hin Hin' Heq.
    destruct (Hspec i o Hin) as (j & k & -> & _).
    destruct (Hspec i' o' Hin') as (j' & k' & -> & _).
    simpl in Heq. by injection Heq as -> ->. }
  split.
  { intros i j. split.
    - intros (p & Hp)%list_elem_of_lookup_1. apply Hrows in Hp.
      apply list_elem_of_lookup_2, Hspec in Hp as (j' & k & [= <-] & Hi & Hj). by exists k.
    - intros (k & Hi & Hj).
      assert ((i, Some j) ∈ rows') as Hin by (apply merge_rows_spec; by exists k).
      unfold rows. apply list_elem_of_fmap. by exists (i, Some j). }
  split; [exact Hnom|]. split.
  { intros p i j Hp. split; [by eapply Hnomp|].
    pose proof (Hrows p i j Hp) as Hp'. split.
    - intros n col Hne Hcol Hlen. rewrite (Hby n Hne), Hcol. eexists. split; [done|].
      apply iloc_take; [|by rewrite list_lookup_fmap, Hp'].
      by rewrite Hlen, <- Hln.
    - intros n col Hne Hcol Hlen. rewrite (Hby n Hne), Hcol.
      assert (lookup_col n (cols df2) = None) as ->.
      { apply lookup_col_None. intros Hin. apply Hne, Hov; [done|].
        by eapply lookup_col_Some_elem. }
      eexists. split; [done|].
      apply iloc_take_fill_present; [by rewrite Hlen|by rewrite list_lookup_fmap, Hp']. }
  split.
  { intros s Hs Hnot p Hp.
    assert (p < length rows)%nat as Hlt.
    { destruct (decide (p < length rows)%nat) as [|Hge]; [done|].
      exfalso. assert (iloc nom p = None); [|congruence].
      unfold nom. case_bool_decide; apply iloc_ge;
        rewrite ?series_len_take, ?series_len_take_fill, !length_fmap;
        unfold rows in Hge; rewrite length_fmap in Hge; lia. }
    destruct (lookup_lt_is_Some_2 rows p Hlt) as [[i j] Hrow].
    rewrite (Hnomp p i j Hrow) in Hp.
    apply Hrows, list_elem_of_lookup_2, Hspec in Hrow as (j' & k & [= <-] & Hi & Hj).
    simpl in Hi, Hj. rewrite list_lookup_fmap, Hp in Hi. injection Hi as <-.
    apply list_lookup_fmap_Some in Hj as (o' & Hkey' & Ho').
    symmetry in Hkey'. apply key_of_object_str in Hkey' as ->.
    apply Hnot. by eapply list_elem_of_lookup_2. }
  split.
  { intros s Hs Hin. apply list_elem_of_lookup_1 in Hs as (i & Hi).
    apply list_elem_of_lookup_1 in Hin as (j & Hj).
    assert ((i, Some j) ∈ rows') as Hin'.
    { apply merge_rows_spec. exists (KStr s). simpl.
      by rewrite !list_lookup_fmap, Hi, Hj. }
    apply list_elem_of_lookup_1 in Hin' as (p & Hp). exists p.
    rewrite (Hnomp p i j); [done|]. unfold rows. by rewrite list_lookup_fmap, Hp. }
  by eapply merge_warnings_text.
Qed.

Lemma unmatched_regions_dropped_witness :
  ∃ (df2 out : DataFrame) (rows : list (nat * nat)) (nom : Series),
    plot_referendum_map ex_geo 0 [ex_results] = (Ok 1%nat, (<[0%nat := df2]> [ex_results]) ++ [out])
    ∧ nrows out = length rows
    ∧ (∀ i j : nat,
         (i, j) ∈ rows
         ↔ ∃ k : key,
             keys (strs ["Auvergne-Rhone-Alpes"; "Provence-Alpes-Cote d'Azur"; "Corse"]) !! i
             = Some k
             ∧ keys (strs ["Auvergne-Rhone-Alpes"; "Provence-Alpes-Cote d'Azur"]) !! j = Some k)
    ∧ lookup_col "nom" (cols out) = Some nom
    ∧ (∀ s : string,
         Str s ∈ Str <$> ["Auvergne-Rhone-Alpes"; "Provence-Alpes-Cote d'Azur"; "Corse"] →
         Str s ∉ Str <$> ["Auvergne-Rhone-Alpes"; "Provence-Alpes-Cote d'Azur"] →
         ∀ p : nat, iloc nom p ≠ Some (Str s))
    ∧ (∀ s : string,
         Str s ∈ Str <$> ["Auvergne-Rhone-Alpes"; "Provence-Alpes-Cote d'Azur"; "Corse"] →
         Str s ∈ Str <$> ["Auvergne-Rhone-Alpes"; "Provence-Alpes-Cote d'Azur"] →
         ∃ p : nat, iloc nom p = Some (Str s))
    ∧ merge_warnings df2 ex_geo "nom" = [].
Proof.
  destruct (unmatched_regions_dropped [ex_results] 0 ex_geo ex_results
           (Str <$> ["Auvergne-Rhone-Alpes"; "Provence-Alpes-Cote d'Azur"; "Corse"])
           (Str <$> ["Auvergne-Rhone-Alpes"; "Provence-Alpes-Cote d'Azur"])
           [1; 0; 7] [-1; 0; 9]
           (strs ["POLYGON ((4 45, 5 45, 5 46, 4 45))"; "POLYGON ((6 43, 7 43, 7 44, 6 43))"]))
    as (df2 & out & rows & nom & Hrun & Hn & _ & Hrows & Hnom & _ & Hdrop & Hkeep & Hwarn);
    [first [reflexivity | exact ex_geo_columns]..|].
  exists df2, out, rows, nom.
  split_and!; [exact Hrun|exact Hn|exact Hrows|exact Hnom|exact Hdrop|exact Hkeep|exact Hwarn].
Defined.

Example example_map_names :
  (plot_referendum_map ex_geo 0 [ex_results]).2 !! 1%nat
  ≫= (fun out => lookup_col "nom" (cols out))
  = Some (strs ["Auvergne-Rhone-Alpes"; "Provence-Alpes-Cote d'Azur"]).
Proof. reflexivity. Qed.

(** X14: [plot_referendum_map] adds the columns [nom] and [ratio] to the
    table of results, after its other columns, and returns a table with
    these columns followed by the columns of the geometry table other than
    [nom], its rows numbered from 0.  When the names of the geometry table
    are pairwise distinct, the returned table has at most one row per row
    of the table of results.  When the table of results has no row, the
    returned table has no row and no row label, and [nom] stands where the
    geometry table has it. *)
Theorem map_table_shape
    (σ : list DataFrame) (results : nat) (reg_json df : DataFrame)
    (ns gs : list object) (xa xb : list Z) (g : Series) :
  σ !! results = Some df →
  lookup_col "name_reg" (cols df) = Some (SObject ns) →
  lookup_col "Choice A" (cols df) = Some (SInt64 xa) →
  lookup_col "Choice B" (cols df) = Some (SInt64 xb) →
  length ns = nrows df → length xa = nrows df → length xb = nrows df →
  lookup_col "nom" (cols reg_json) = Some (SObject gs) →
  lookup_col "geometry" (cols reg_json) = Some g →
  (∀ n, n ∈ columns reg_json → n ≠ "nom" → (n ∉ columns df) ∧ n ≠ "ratio") →
  "nom" ∉ columns df → "ratio" ∉ columns df →
  ∃ (df2 out : DataFrame),
    plot_referendum_map reg_json results σ
    = (Ok (length σ), (<[results := df2]> σ) ++ [out])
    ∧ columns df2 = columns df ++ ["nom"; "ratio"]
    ∧ columns out
      = (if bool_decide (nrows df = 0%nat)
         then filter (fun n => n ≠ "nom") (columns df2) ++ columns reg_json
         else columns df2 ++ filter (fun n => n ≠ "nom") (columns reg_json))
    ∧ index out = join_index (nrows out)
    ∧ (NoDup (keys (SObject gs)) → (nrows out ≤ nrows df)%nat)
    ∧ (nrows df = 0%nat → nrows out = 0%nat ∧ index out = [(None, SObject [])]).
Proof.
  intros Hr Hn Ha Hb Hln Hla Hlb Hg Hgeo Hdisj Hnom Hratio.
  destruct (plot_run σ results reg_json df ns xa xb gs g)
    as (df1 & df2 & H1 & H2 & Hov & Hrun); try done.
  cbv zeta in Hrun.
  set (rows := merge_rows Inner (keys (SObject ns)) (keys (SObject gs))) in *.
  match type of Hrun with _ = (_, _ ++ [?o]) => set (out := o) in * end.
  destruct (merged_columns df2 reg_json "nom" rows out eq_refl)
    as (Hnrows & Hcols & _ & _ & _).
  assert (nrows df2 = nrows df) as Hn2.
  { by rewrite (nrows_with_column _ _ _ _ H2), (nrows_with_column _ _ _ _ H1). }
  exists df2, out. split; [exact Hrun|].
  pose proof (columns_with_column_new _ _ _ _ H1 Hnom) as C1.
  assert (columns df2 = columns df ++ ["nom"; "ratio"]) as C2.
  { rewrite (columns_with_column_new _ _ _ _ H2), C1; [by rewrite <- (assoc_L app)|].
    rewrite C1. intros [?|Hin]%elem_of_app; [done|].
    by apply list_elem_of_singleton in Hin. }
  split; [done|]. split; [by rewrite Hcols, Hn2|].
  split; [by rewrite Hnrows|]. split.
  - intros Hnd. rewrite Hnrows.
    pose proof (length_merge_rows_inner_le (keys (SObject ns)) (keys (SObject gs)) Hnd) as Hle.
    fold rows in Hle. rewrite length_keys in Hle. simpl in Hle. lia.
  - intros H0. rewrite <- Hln in H0. destruct ns; [|done].
    rewrite Hnrows. by split.
Qed.

Lemma map_table_shape_witness :
  ∃ (df2 out : DataFrame),
    plot_referendum_map ex_geo 0 [ex_results] = (Ok 1%nat, (<[0%nat := df2]> [ex_results]) ++ [out])
    ∧ columns df2 = columns ex_results ++ ["nom"; "ratio"]
    ∧ columns out = columns df2 ++ filter (fun n => n ≠ "nom") (columns ex_geo)
    ∧ index out = join_index (nrows out)
    ∧ (nrows out ≤ nrows ex_results)%nat.
Proof.
  destruct (map_table_shape [ex_results] 0 ex_geo ex_results
              (Str <$> ["Auvergne-Rhone-Alpes"; "Provence-Alpes-Cote d'Azur"; "Corse"])
              (Str <$> ["Auvergne-Rhone-Alpes"; "Provence-Alpes-Cote d'Azur"])
              [1; 0; 7] [-1; 0; 9]
              (strs ["POLYGON ((4 45, 5 45, 5 46, 4 45))"; "POLYGON ((6 43, 7 43, 7 44, 6 43))"]))
    as (df2 & out & Hrun & C2 & Cout & Hix & Hle & _);
    try first [reflexivity | exact ex_geo_columns].
  - apply (bool_decide_unpack _). reflexivity.
  - apply (bool_decide_unpack _). reflexivity.
  - exists df2, out. split_and!; [exact Hrun|exact C2|exact Cout|exact Hix|].
    apply Hle. apply (bool_decide_unpack _). reflexivity.
Defined.

(** X5: [plot_referendum_map] raises [KeyError] and changes nothing when
    the table of results has no column [name_reg]; when [Choice A] or
    [Choice B] is missing it raises [KeyError] after it has added the column
    [nom] to the table of results; when the geometry table has no column
    [nom] it raises [KeyError] after it has added both [nom] and [ratio].
    In none of these cases is a table created. *)
Theorem map_needs_columns
    (σ : list DataFrame) (results : nat) (reg_json df : DataFrame) :
  σ !! results = Some df →
  (lookup_col "name_reg" (cols df) = None →
   plot_referendum_map reg_json results σ = (Raise KeyError, σ))
  ∧ (∀ ns : Series,
       lookup_col "name_reg" (cols df) = Some ns → series_len ns = nrows df →
       lookup_col "Choice A" (cols df) = None ∨ lookup_col "Choice B" (cols df) = None →
       ∃ df1 : DataFrame,
         with_column df "nom" ns = Ok df1
         ∧ plot_referendum_map reg_json results σ = (Raise KeyError, <[results := df1]> σ))
  ∧ (∀ (ns : Series) (xa xb : list Z),
       lookup_col "name_reg" (cols df) = Some ns → series_len ns = nrows df →
       lookup_col "Choice A" (cols df) = Some (SInt64 xa) → length xa = nrows df →
       lookup_col "Choice B" (cols df) = Some (SInt64 xb) → length xb = nrows df →
       lookup_col "nom" (cols reg_json) = None →
       ∃ df2 : DataFrame,
         plot_referendum_map reg_json results σ = (Raise KeyError, <[results := df2]> σ)
         ∧ lookup_col "nom" (cols df2) = Some ns
         ∧ lookup_col "ratio" (cols df2)
           = Some (SFloat64 (zip_with fdiv (astype_float xa)
                               (astype_float (zip_with (fun x y => wrap64 (x + y)) xa xb))))
         ∧ keeps_data df df2 ["nom"; "ratio"]).
Proof.
  intros Hr. split; [|split].
  - intros Hn. unfold plot_referendum_map.
    erewrite run_bind_ok; [|by apply run_load].
    erewrite run_bind_raise; [done|]. unfold lift, getitem. by rewrite Hn.
  - intros ns Hn Hlen Hab.
    destruct (with_column_ok df "nom" ns Hlen) as [df1 H1]. exists df1. split; [done|].
    pose proof (with_column_spec _ _ _ _ H1) as (_ & _ & Hoth & _).
    unfold plot_referendum_map.
    erewrite run_bind_ok; [|by apply run_load].
    erewrite run_bind_ok; [|apply run_lift; unfold getitem; by rewrite Hn].
    erewrite run_bind_ok; [|by eapply run_setitem].
    erewrite run_bind_ok;
      [|apply run_load, list_lookup_insert_eq; by eapply lookup_lt_Some].
    erewrite run_bind_raise; [done|].
    unfold lift, ratio_of, getitem. rewrite !Hoth by done.
    destruct Hab as [-> | Hb]; [done|]. rewrite Hb.
    by destruct (lookup_col "Choice A" (cols df)).
  - intros ns xa xb Hn Hlen Ha Hla Hb Hlb Hgeo.
    set (ratio := SFloat64 (zip_with fdiv (astype_float xa)
                              (astype_float (zip_with (fun x y => wrap64 (x + y)) xa xb)))).
    destruct (with_column_ok df "nom" ns Hlen) as [df1 H1].
    pose proof (nrows_with_column _ _ _ _ H1) as N1.
    destruct (with_column_ok df1 "ratio" ratio) as [df2 H2].
    { unfold ratio, astype_float. simpl.
      rewrite length_zip_with, !length_fmap, length_zip_with. lia. }
    pose proof (with_column_spec _ _ _ _ H1) as (_ & Hnom1 & Hoth1 & _).
    pose proof (with_column_spec _ _ _ _ H2) as (_ & Hratio2 & Hoth2 & _).
    exists df2. split_and!.
    + unfold plot_referendum_map.
      erewrite run_bind_ok; [|by apply run_load].
      erewrite run_bind_ok; [|apply run_lift; unfold getitem; by rewrite Hn].
      erewrite run_bind_ok; [|by eapply run_setitem].
      erewrite run_bind_ok;
        [|apply run_load, list_lookup_insert_eq; by eapply lookup_lt_Some].
      erewrite run_bind_ok; [|apply run_lift, ratio_of_int64; by rewrite Hoth1].
      fold ratio.
      erewrite run_bind_ok.
      2:{ eapply run_setitem; [|done]. apply list_lookup_insert_eq. by eapply lookup_lt_Some. }
      rewrite list_insert_insert_eq.
      erewrite run_bind_ok;
        [|apply run_load, list_lookup_insert_eq; by eapply lookup_lt_Some].
      erewrite run_bind_raise; [done|].
      unfold lift, pd_merge, getitem. rewrite Hoth2, Hnom1 by done. cbn [mbind result_bind].
      by rewrite Hgeo.
    + by rewrite Hoth2.
    + done.
    + apply (keeps_data_trans df df1 df2 ["nom"] ["ratio"]); by eapply with_column_keeps.
Qed.

Lemma map_needs_columns_witness :
  plot_referendum_map ex_geo 2 ex_store = (Raise KeyError, ex_store)
  ∧ (∃ df1 : DataFrame,
       with_column ex_areas "nom"
         (strs ["Auvergne-Rhone-Alpes"; "Auvergne-Rhone-Alpes"; "Corse"; "Guadeloupe"]) = Ok df1
       ∧ plot_referendum_map ex_geo 3 ex_store_areas
         = (Raise KeyError, <[3%nat := df1]> ex_store_areas))
  ∧ ∃ df2 : DataFrame,
      plot_referendum_map ex_regions 0 [ex_results] = (Raise KeyError, <[0%nat := df2]> [ex_results])
      ∧ keeps_data ex_results df2 ["nom"; "ratio"].
Proof.
  split; [|split].
  - apply (map_needs_columns ex_store 2 ex_geo ex_referendum); reflexivity.
  - apply (map_needs_columns ex_store_areas 3 ex_geo ex_areas); [reflexivity..|]. by left.
  - destruct (map_needs_columns [ex_results] 0 ex_regions ex_results) as (_ & _ & H);
      [reflexivity|].
    destruct (H (strs ["Auvergne-Rhone-Alpes"; "Provence-Alpes-Cote d'Azur"; "Corse"])
                [1; 0; 7] [-1; 0; 9]) as (df2 & Hrun & _ & _ & Hk); [reflexivity..|].
    exists df2. by split.
Defined.

(** X11: when [plot_referendum_map] has returned, calling it again on the
    same table of results returns a new table equal to the first and changes
    no other table: the columns [nom] and [ratio] that the call sets are
    already there, with the values it computes. *)
Theorem map_repeatable
    (σ σ1 : list DataFrame) (reg_json : DataFrame) (results r : nat) :
  plot_referendum_map reg_json results σ = (Ok r, σ1) →
  ∃ (out : DataFrame) (σ' : list DataFrame),
    σ1 = σ' ++ [out] ∧ r = length σ' ∧ length σ' = length σ
    ∧ plot_referendum_map reg_json results σ1 = (Ok (S r), σ1 ++ [out]).
Proof.
  unfold plot_referendum_map at 1.
  intros (df & ? & (Hr & ->)%load_ok_inv & H)%bind_ok_inv.
  apply bind_ok_inv in H as (ns & ? & (Hn%getitem_ok_inv & ->)%lift_ok_inv & H).
  apply bind_ok_inv in H as ([] & σa & Hset & H).
  apply setitem_ok_inv in Hset as (df0 & df1 & Hr0 & Hw1 & ->).
  assert (df0 = df) as -> by congruence.
  assert (<[results := df1]> σ !! results = Some df1) as Hr1
    by (apply list_lookup_insert_eq; by eapply lookup_lt_Some).
  apply bind_ok_inv in H as (df1' & ? & (Hr1' & ->)%load_ok_inv & H).
  assert (df1' = df1) as -> by congruence.
  apply bind_ok_inv in H as (ratio & ? & (Hratio & ->)%lift_ok_inv & H).
  apply bind_ok_inv in H as ([] & σb & Hset & H).
  apply setitem_ok_inv in Hset as (df1' & df2 & Hr1'' & Hw2 & ->).
  assert (df1' = df1) as -> by congruence.
  rewrite list_insert_insert_eq in H.
  set (σ' := <[results := df2]> σ) in *.
  assert (σ' !! results = Some df2) as Hr2
    by (apply list_lookup_insert_eq; by eapply lookup_lt_Some).
  apply bind_ok_inv in H as (df2' & ? & (Hr2' & ->)%load_ok_inv & H).
  assert (df2' = df2) as -> by congruence.
  apply bind_ok_inv in H as (out & ? & (Hm & ->)%lift_ok_inv & H).
  apply bind_ok_inv in H as ([] & ? & (Hplot & ->)%lift_ok_inv & H).
  apply new_ok_inv in H as [-> ->].
  exists out, σ'. split; [done|]. split; [done|]. split; [apply length_insert|].
  assert ((σ' ++ [out]) !! results = Some df2) as Hr3
    by (rewrite lookup_app_l; [done|by eapply lookup_lt_Some]).
  pose proof (with_column_spec _ _ _ _ Hw1) as (_ & Hnom1 & Hoth1 & _).
  pose proof (with_column_spec _ _ _ _ Hw2) as (_ & Hratio2 & Hoth2 & _).
  pose proof (nrows_with_column _ _ _ _ Hw1) as N1.
  pose proof (nrows_with_column _ _ _ _ Hw2) as N2.
  unfold plot_referendum_map.
  erewrite run_bind_ok; [|by apply run_load].
  erewrite run_bind_ok; [|apply run_lift; unfold getitem; by rewrite Hoth2, Hoth1, Hn].
  erewrite run_bind_ok.
  2:{ eapply run_setitem_same; [done|by rewrite Hoth2|].
      rewrite N2, N1. by eapply with_column_len. }
  erewrite run_bind_ok; [|by apply run_load].
  erewrite run_bind_ok.
  2:{ apply run_lift. rewrite <- Hratio. apply ratio_of_ext; by rewrite Hoth2. }
  erewrite run_bind_ok.
  2:{ eapply run_setitem_same; [done|done|]. rewrite N2. by eapply with_column_len. }
  erewrite run_bind_ok; [|by apply run_load].
  erewrite run_bind_ok; [|by apply run_lift].
  erewrite run_bind_ok; [|by apply run_lift].
  unfold new. by rewrite length_app, Nat.add_1_r.
Qed.

Lemma map_repeatable_witness :
  ∃ (out : DataFrame) (σ' : list DataFrame),
    (plot_referendum_map ex_geo 0 [ex_results]).2 = σ' ++ [out]
    ∧ length σ' = 1%nat
    ∧ plot_referendum_map ex_geo 0 (plot_referendum_map ex_geo 0 [ex_results]).2
      = (Ok 2%nat, (plot_referendum_map ex_geo 0 [ex_results]).2 ++ [out]).
Proof.
  destruct (map_repeatable [ex_results] (plot_referendum_map ex_geo 0 [ex_results]).2
              ex_geo 0 1)
    as (out & σ' & H1 & _ & H2 & H3); [vm_compute; reflexivity|].
  exists out, σ'. split; [exact H1|]. split; [exact H2|exact H3].
Defined.

(** ** The script *)

(** The table that [merge_referendum_and_areas] returns, when the two
    tables share no label but [code_dep]. *)
Lemma mra_run σ referendum areas df rd xs cs zs :
  σ !! referendum = Some df → wf df →
  lookup_col "Department code" (cols df) = Some (SObject xs) →
  text xs →
  referendum ≠ areas → σ !! areas = Some rd →
  lookup_col "code_dep" (cols rd) = Some (SObject cs) →
  length cs = nrows rd →
  traverse object_to_int64 (filter (fun o => negb (is_corsica o) = true) cs) = Ok zs →
  (∀ n : string, n ∈ columns rd → n ≠ "code_dep" → n ∉ columns df) →
  ∃ (df1 rd' : DataFrame) (kept : list nat) (rows : list (nat * option nat)),
    with_column df "code_dep" (SObject xs) = Ok df1
    ∧ reconcatenate rd = Ok rd'
    ∧ columns rd' = columns rd
    ∧ Forall (fun i => (i < nrows df)%nat) kept
    ∧ Forall (fun i => (i < length kept)%nat) rows.*1
    ∧ merge_referendum_and_areas referendum areas σ
      = (Ok (length σ),
         (<[referendum := df1]> σ)
         ++ [mkDataFrame (join_index (length rows))
               (if bool_decide (nrows (select_rows df1 kept) = 0%nat)
                then (prod_map id (take rows.*1)
                        <$> filter (fun c => c.1 ≠ "code_dep") (cols (select_rows df1 kept)))
                     ++ (prod_map id (take_fill rows.*2) <$> cols rd')
                else (prod_map id (take rows.*1) <$> cols (select_rows df1 kept))
                     ++ (prod_map id (take_fill rows.*2)
                           <$> filter (fun c => c.1 ≠ "code_dep") (cols rd')))]).
Proof.
  intros Hr Hwf Hc Htext Hne Ha Hcs Hlen Hzs Hdisj.
  pose proof (wf_column_len df _ _ Hwf Hc) as Hlx. simpl in Hlx.
  destruct (kept_referendum σ referendum areas df xs Hr Hwf Hc Htext)
    as (df1 & Hw & _ & _ & Hleft & _ & Hrun).
  set (kept := mask_positions 0 (purely_numeric_or_corsica <$> xs)) in *.
  set (xs' := filter (fun o => purely_numeric_or_corsica o = true) xs) in *.
  destruct (reconcatenate_rows rd cs zs Hcs Hlen Hzs) as (rd' & Hrd' & Hcodes & Hcols' & _).
  set (codes := ((fun z => Str (str_of_int z)) <$> filter (fun z => (z <? 100) = true) zs)
                ++ filter (fun o => is_corsica o = true) cs) in *.
  pose proof (pd_merge_text (select_rows df1 kept) rd' "code_dep" xs' codes Left
                Hleft Hcodes) as Hm.
  cbv zeta in Hm. unfold merge_rows in Hm.
  set (rows := join_rows Left 0 (keys (SObject xs')) (keys (SObject codes))) in *.
  exists df1, rd', kept, rows. split_and!; [done|done|done| | |].
  - rewrite <- Hlx, <- (length_fmap purely_numeric_or_corsica). apply mask_positions_bound.
  - pose proof (join_rows_left_bound Left 0 (keys (SObject xs')) (keys (SObject codes))) as Hb.
    fold rows in Hb. rewrite length_keys in Hb. simpl in Hb.
    unfold kept. rewrite length_mask_positions_fmap. exact Hb.
  - rewrite Hrun. erewrite join_areas_run; [|by rewrite list_lookup_insert_ne|done|apply Hm].
    + by rewrite length_insert.
    + intros n Hn Hnr. rewrite columns_select_rows in Hn. rewrite Hcols' in Hnr.
      destruct (decide (n = "code_dep")) as [|Hnc]; [done|].
      apply (columns_with_column _ _ _ _ _ Hw) in Hn as [Hn|?]; [|done].
      by destruct (Hdisj n Hnr Hnc).
Qed.

(** X15: the script stops with an exception whenever some region of the
    region table has no department in the department table: the left join
    of [merge_regions_and_departments] keeps that region with a missing
    department code, which [merge_referendum_and_areas] cannot convert to
    an integer. *)
Theorem main_needs_departments_everywhere
    (σ : list DataFrame) (reg_json : DataFrame) (referendum df_reg df_dep : nat)
    (ixr ixd : Index) (n1 n2 n3 n4 m1 m2 m3 m4 m5 : string)
    (r1 rcode rname r4 d1 dcode ddep dname d5 : Series) (i : nat) (k : key) :
  σ !! df_reg = Some (mkDataFrame ixr [(n1, r1); (n2, rcode); (n3, rname); (n4, r4)]) →
  σ !! df_dep
    = Some (mkDataFrame ixd [(m1, d1); (m2, dcode); (m3, ddep); (m4, dname); (m5, d5)]) →
  keys_compatible rcode dcode = true →
  (referendum < length σ)%nat →
  (merge_keys rcode dcode).1 !! i = Some k →
  k ∉ (merge_keys rcode dcode).2 →
  ∃ (e : exn) (σ' : list DataFrame),
    main reg_json referendum df_reg df_dep σ = (Raise e, σ').
Proof.
  intros Hr Hd Hcompat Href Hi Hk.
  pose proof (mrd_run σ df_reg df_dep ixr ixd n1 n2 n3 n4 m1 m2 m3 m4 m5
                r1 rcode rname r4 d1 dcode ddep dname d5 Hr Hd Hcompat) as Hrun.
  cbv zeta in Hrun. unfold merge_keys in Hi, Hk. simpl in Hi, Hk.
  set (rows := join_rows Left 0 (keys rcode) (keys dcode)) in *.
  match type of Hrun with _ = (_, ?s ++ [?o]) => set (σ1 := s) in *; set (areas := o) in * end.
  assert (length σ1 = length σ) as Hlen by (unfold σ1; by rewrite !length_insert).
  unfold main. erewrite run_bind_ok; [|exact Hrun].
  apply run_raise_bind.
  apply (mra_areas_unusable _ referendum (length σ) areas).
  - rewrite lookup_app_r by lia. by rewrite Hlen, Nat.sub_diag.
  - lia.
  - pose proof (join_rows_left_unmatched 0 _ _ i k Hi Hk) as Hin. fold rows in Hin.
    apply list_elem_of_lookup_1 in Hin as (p & Hp). simpl in Hp.
    destruct (iloc_take_fill_missing ddep rows.*2 p) as (o & Ho & Hnull);
      [by rewrite list_lookup_fmap, Hp|].
    apply (reconcatenate_missing areas (take_fill rows.*2 ddep) p o); [|  |done|done].
    + unfold areas. cbn [cols]. by case_bool_decide.
    + rewrite series_len_take_fill, length_fmap. unfold nrows, areas. cbn [index].
      by rewrite index_len_join_index.
Qed.

Lemma main_needs_departments_everywhere_witness :
  ∃ (e : exn) (σ' : list DataFrame),
    main ex_geo 2 0 1 [ex_regions_overseas; ex_departments_listed; ex_referendum]
    = (Raise e, σ').
Proof.
  apply (main_needs_departments_everywhere _ ex_geo 2 0 1 (RangeIndex 3) (RangeIndex 3)
           "id" "code" "name" "slug" "id" "region_code" "code" "name" "slug"
           (SInt64 [1; 2; 3]) (strs ["84"; "94"; "COM"])
           (strs ["Auvergne-Rhone-Alpes"; "Corse"; "Collectivites d'Outre-Mer"])
           (strs ["ara"; "corse"; "com"])
           (SInt64 [1; 2; 3]) (strs ["84"; "84"; "94"]) (strs ["01"; "03"; "2A"])
           (strs ["Ain"; "Allier"; "Corse-du-Sud"])
           (strs ["ain"; "allier"; "corse-du-sud"]) 2 (KStr "COM"));
    [reflexivity|reflexivity|reflexivity|simpl; lia|reflexivity|].
  apply (bool_decide_unpack _). reflexivity.
Defined.

(** X16: when the script runs to its end it has created four tables, the
    area table, the merged table, the table of results and the table that
    is drawn, in this order, and returns the last; of the tables that
    existed before, only the three it was given can have changed. *)
Theorem main_creates_four_tables
    (σ σ' : list DataFrame) (reg_json : DataFrame) (referendum df_reg df_dep r : nat) :
  main reg_json referendum df_reg df_dep σ = (Ok r, σ') →
  r = (length σ + 3)%nat
  ∧ length σ' = (length σ + 4)%nat
  ∧ (∀ q : nat,
       (q < length σ)%nat → q ≠ referendum → q ≠ df_reg → q ≠ df_dep → σ' !! q = σ !! q)
  ∧ ∃ (areas merged results : DataFrame),
      (merge_regions_and_departments df_reg df_dep σ).2 !! length σ = Some areas
      ∧ (referendum ≠ length σ → σ' !! length σ = Some areas)
      ∧ σ' !! (length σ + 1)%nat = Some merged
      ∧ σ' !! (length σ + 2)%nat = Some results
      ∧ ("nom" ∈ columns results) ∧ ("ratio" ∈ columns results).
Proof.
  unfold main.
  intros (a & σ1 & H1 & H)%bind_ok_inv.
  apply bind_ok_inv in H as (b & σ2 & H2 & H).
  apply bind_ok_inv in H as (c & σ3 & H3 & H4).
  pose proof (stage_frame_ok _ _ _ _ _ (stage_frame_mrd df_reg df_dep) H1) as (-> & L1 & F1).
  pose proof (stage_frame_ok _ _ _ _ _ (stage_frame_mra referendum (length σ)) H2)
    as (-> & L2 & F2).
  pose proof (stage_frame_ok _ _ _ _ _ (stage_frame_compute (length σ1)) H3) as (-> & L3 & F3).
  pose proof (stage_frame_ok _ _ _ _ _ (stage_frame_plot reg_json (length σ2)) H4)
    as (-> & L4 & F4).
  split; [lia|]. split; [lia|]. split.
  - intros q Hq Hq1 Hq2 Hq3.
    rewrite F4, F3, F2, F1; [done| |done| |lia|apply not_elem_of_nil|lia| |lia].
    + intros [?|[?|?%elem_of_nil]%elem_of_cons]%elem_of_cons; done.
    + by intros ?%list_elem_of_singleton.
    + intros ?%list_elem_of_singleton. lia.
  - destruct (lookup_lt_is_Some_2 σ1 (length σ)) as [areas Ha]; [lia|].
    destruct (lookup_lt_is_Some_2 σ2 (length σ1)) as [merged Hm]; [lia|].
    (* what the last stage did to the table of results *)
    unfold plot_referendum_map in H4.
    apply bind_ok_inv in H4 as (df & ? & (Hr & ->)%load_ok_inv & H).
    apply bind_ok_inv in H as (ns & ? & (Hn & ->)%lift_ok_inv & H).
    apply bind_ok_inv in H as ([] & σa & Hset & H).
    apply setitem_ok_inv in Hset as (df0 & df1 & Hr0 & Hw1 & ->).
    apply bind_ok_inv in H as (df1' & ? & (Hr1' & ->)%load_ok_inv & H).
    apply bind_ok_inv in H as (ratio & ? & (Hratio & ->)%lift_ok_inv & H).
    apply bind_ok_inv in H as ([] & σb & Hset & H).
    apply setitem_ok_inv in Hset as (df1'' & df2 & Hr1'' & Hw2 & ->).
    rewrite list_insert_insert_eq in H.
    apply bind_ok_inv in H as (df2' & ? & (Hr2' & ->)%load_ok_inv & H).
    apply bind_ok_inv in H as (out & ? & (Hmerge & ->)%lift_ok_inv & H).
    apply bind_ok_inv in H as ([] & ? & (Hplot & ->)%lift_ok_inv & H).
    apply new_ok_inv in H as [_ ->].
    rewrite list_lookup_insert_eq in Hr1' by (by eapply lookup_lt_Some).
    injection Hr1' as <-.
    rewrite list_lookup_insert_eq in Hr1'' by (by eapply lookup_lt_Some).
    injection Hr1'' as <-.
    pose proof (with_column_spec _ _ _ _ Hw1) as (_ & Hnom1 & _ & _).
    pose proof (with_column_spec _ _ _ _ Hw2) as (_ & Hratio2 & Hoth2 & _).
    exists areas, merged, df2. rewrite H1. split_and!.
    + done.
    + intros Hne. rewrite lookup_app_l by (rewrite length_insert; lia).
      rewrite list_lookup_insert_ne by lia.
      rewrite F3, F2; [done| |lia|apply not_elem_of_nil|lia].
      by intros ?%list_elem_of_singleton.
    + rewrite lookup_app_l by (rewrite length_insert; lia).
      rewrite list_lookup_insert_ne by lia.
      rewrite F3; [|apply not_elem_of_nil|lia]. by rewrite Nat.add_1_r, <- L1.
    + rewrite lookup_app_l by (rewrite length_insert; lia).
      replace (length σ + 2)%nat with (length σ2) by lia.
      apply list_lookup_insert_eq. lia.
    + apply (lookup_col_Some_elem _ _ (ns)). by rewrite Hoth2.
    + by eapply lookup_col_Some_elem.
Qed.

Lemma main_creates_four_tables_witness :
  (main ex_geo 2 0 1 ex_store).1 = Ok 6%nat
  ∧ length (main ex_geo 2 0 1 ex_store).2 = 7%nat.
Proof.
  destruct (main_creates_four_tables ex_store (main ex_geo 2 0 1 ex_store).2 ex_geo 2 0 1 6)
    as (_ & Hlen & _); [vm_compute; reflexivity|].
  split; [vm_compute; reflexivity|exact Hlen].
Defined.

(** X17: the script runs to its end on well-formed tables: a region table
    of four columns with text names; a department table of five columns
    whose department codes are text, each "2A", "2B" or an integer literal;
    every region with at least one department; a referendum table with
    text department codes and [int64] vote counts; and geometries with a
    text column [nom].  It returns the table that is drawn, which has a
    column [ratio]. *)
Theorem main_runs
    (σ : list DataFrame) (reg_json df : DataFrame) (referendum df_reg df_dep : nat)
    (ixr ixd : Index) (n1 n2 n3 n4 m1 m2 m3 m4 m5 : string)
    (r1 rcode r4 d1 dcode dname d5 g : Series) (rnames dcodes xs gs : list object)
    (registered abstentions null choice_a choice_b : list Z) :
  σ !! df_reg
    = Some (mkDataFrame ixr [(n1, r1); (n2, rcode); (n3, SObject rnames); (n4, r4)]) →
  σ !! df_dep
    = Some (mkDataFrame ixd [(m1, d1); (m2, dcode); (m3, SObject dcodes);
                             (m4, dname); (m5, d5)]) →
  keys_compatible rcode dcode = true →
  length dcodes = series_len dcode →
  (∀ k : key, k ∈ (merge_keys rcode dcode).1 → k ∈ (merge_keys rcode dcode).2) →
  Forall (fun o => is_corsica o = true ∨ ∃ z : Z, object_to_int64 o = Ok z) dcodes →
  σ !! referendum = Some df → referendum ≠ df_reg → referendum ≠ df_dep → wf df →
  lookup_col "Department code" (cols df) = Some (SObject xs) → text xs →
  lookup_col "Registered" (cols df) = Some (SInt64 registered) →
  lookup_col "Abstentions" (cols df) = Some (SInt64 abstentions) →
  lookup_col "Null" (cols df) = Some (SInt64 null) →
  lookup_col "Choice A" (cols df) = Some (SInt64 choice_a) →
  lookup_col "Choice B" (cols df) = Some (SInt64 choice_b) →
  (∀ n : string, n ∈ ["code_reg"; "name_reg"; "name_dep"] → n ∉ columns df) →
  lookup_col "nom" (cols reg_json) = Some (SObject gs) →
  lookup_col "geometry" (cols reg_json) = Some g →
  (∀ n : string, n ∈ columns reg_json → n ≠ "nom" → (n ∉ result_columns) ∧ n ≠ "ratio") →
  ∃ (out : DataFrame) (σ' : list DataFrame) (ratio : Series),
    main reg_json referendum df_reg df_dep σ = (Ok (length σ + 3)%nat, σ' ++ [out])
    ∧ length σ' = (length σ + 3)%nat
    ∧ lookup_col "ratio" (cols out) = Some ratio
    ∧ series_len ratio = nrows out.
Proof.
  intros Hreg Hdep Hcompat Hldc Hcover Hconv Hr Hne1 Hne2 Hwf Hc Htext
    Hvr Hva Hvn Hvca Hvcb Hfree Hnom Hgeo Hgdisj.
  (* the area table *)
  pose proof (mrd_run σ df_reg df_dep ixr ixd n1 n2 n3 n4 m1 m2 m3 m4 m5
                r1 rcode (SObject rnames) r4 d1 dcode (SObject dcodes) dname d5
                Hreg Hdep Hcompat) as Hrun1.
  cbv zeta in Hrun1. unfold merge_keys in Hcover. simpl in Hcover.
  pose proof (length_keys dcode) as Hlrk.
  set (lk := keys rcode) in *. set (rk := keys dcode) in *.
  set (rows := join_rows Left 0 lk rk) in *.
  match type of Hrun1 with _ = (_, ?s ++ [?o]) => set (σ1 := s) in *; set (areas := o) in * end.
  assert (length σ1 = length σ) as Hl1 by (unfold σ1; by rewrite !length_insert).
  set (cs := (fun o : option nat => default NaN (o ≫= (dcodes !!.))) <$> rows.*2).
  assert (lookup_col "code_dep" (cols areas) = Some (SObject cs)) as Hcs.
  { unfold areas. cbn [cols]. by case_bool_decide. }
  assert (lookup_col "name_reg" (cols areas)
          = Some (SObject ((fun i => default NaN (rnames !! i)) <$> rows.*1))) as Hnr.
  { unfold areas. cbn [cols]. rewrite take_object. by case_bool_decide. }
  assert (columns areas ⊆ ["code_reg"; "name_reg"; "code_dep"; "name_dep"]) as Hcolsa.
  { unfold areas, columns. cbn [cols]. case_bool_decide; cbn [fmap list_fmap fst];
      intros n; rewrite !elem_of_cons; tauto. }
  assert (length cs = nrows areas) as Hlcs.
  { unfold cs, nrows, areas. cbn [index]. by rewrite index_len_join_index, !length_fmap. }
  assert (Forall (fun o => is_corsica o = true ∨ ∃ z : Z, object_to_int64 o = Ok z) cs) as Hcsconv.
  { unfold cs. apply Forall_fmap, Forall_fmap, Forall_forall. intros [i o] Hin. simpl.
    apply join_rows_spec in Hin as (k & _ & Hk & Ho). rewrite Nat.sub_0_r in Hk.
    destruct o as [j|].
    - apply lookup_lt_Some in Ho. rewrite Hlrk, <- Hldc in Ho.
      destruct (lookup_lt_is_Some_2 dcodes j Ho) as [c Hcj]. simpl. rewrite Hcj. simpl.
      rewrite Forall_forall in Hconv. apply Hconv. by eapply list_elem_of_lookup_2.
    - destruct Ho as [_ Ho]. destruct Ho. apply Hcover. by eapply list_elem_of_lookup_2. }
  destruct (traverse_total object_to_int64 (filter (fun o => negb (is_corsica o) = true) cs))
    as [zs Hzs].
  { apply Forall_forall. intros o [Hnc Hin]%list_elem_of_filter.
    rewrite Forall_forall in Hcsconv. destruct (Hcsconv o Hin) as [Hcor|?]; [|done].
    by rewrite Hcor in Hnc. }
  (* the merged table *)
  assert ((σ1 ++ [areas]) !! referendum = Some df) as Hr1.
  { rewrite lookup_app_l by (rewrite Hl1; by eapply lookup_lt_Some).
    unfold σ1. by rewrite !list_lookup_insert_ne. }
  assert ((σ1 ++ [areas]) !! length σ = Some areas) as Ha1.
  { rewrite lookup_app_r by lia. by rewrite Hl1, Nat.sub_diag. }
  assert (referendum ≠ length σ) as Hne3.
  { apply lookup_lt_Some in Hr. lia. }
  destruct (mra_run (σ1 ++ [areas]) referendum (length σ) df areas xs cs zs)
    as (df1 & rd' & kept & rows2 & Hw & Hrd' & Hcols' & Hkept & Hrows2 & Hrun2); try done.
  { intros n Hn Hnc. apply Hfree. apply Hcolsa in Hn.
    repeat (apply elem_of_cons in Hn as [->|Hn]); try done; try (repeat constructor).
    by apply elem_of_nil in Hn. }
  match type of Hrun2 with _ = (_, ?s ++ [?o]) => set (σ2 := s) in *; set (merged := o) in * end.
  assert (length σ2 = S (length σ)) as Hl2.
  { unfold σ2. rewrite length_insert, length_app, Hl1. simpl. lia. }
  destruct (merged_columns (select_rows df1 kept) rd' "code_dep" rows2 merged eq_refl)
    as (_ & _ & Hby & _ & _).
  pose proof (with_column_spec _ _ _ _ Hw) as (_ & _ & Hoth1 & _).
  assert (∀ n, n ∈ ["code_reg"; "name_reg"; "name_dep"] →
            lookup_col n (cols (select_rows df1 kept)) = None) as Hleft_none.
  { intros n Hn. rewrite lookup_col_select_rows.
    assert (lookup_col n (cols df1) = None) as ->; [|done].
    rewrite Hoth1.
    - apply lookup_col_None. by apply Hfree.
    - intros ->. repeat (apply elem_of_cons in Hn as [Hn|Hn]; [discriminate Hn|]).
      by apply elem_of_nil in Hn. }
  assert ("code_reg" ∈ columns rd') as Hcr.
  { rewrite Hcols'. unfold areas, columns. cbn [cols].
    case_bool_decide; cbn [fmap list_fmap fst]; rewrite !elem_of_cons; tauto. }
  assert (∃ s1, lookup_col "code_reg" (cols merged) = Some s1) as [s1 Hs1].
  { rewrite Hby, Hleft_none by first [done | repeat constructor].
    destruct (lookup_col_is_Some "code_reg" (cols rd') Hcr) as [s ->]. by eexists. }
  assert (∃ ns2, lookup_col "name_reg" (cols merged) = Some (SObject ns2)) as [ns2 Hs2].
  { rewrite Hby, Hleft_none by first [done | repeat constructor].
    destruct (reconcatenate_text_column areas cs zs rd' "name_reg"
                ((fun i => default NaN (rnames !! i)) <$> rows.*1)) as [vs' ->]; try done.
    cbn [fmap option_fmap option_map]. rewrite take_fill_object. by eexists. }
  assert (∀ v zv, v ≠ "code_dep" → lookup_col v (cols df) = Some (SInt64 zv) →
            ∃ ys, lookup_col v (cols merged) = Some (SInt64 ys)) as Hvotes.
  { intros v zv Hv Hzv. rewrite Hby by done.
    rewrite lookup_col_select_rows, Hoth1, Hzv by done.
    cbn [fmap option_fmap option_map].
    destruct (take_int64 kept zv) as (ys1 & -> & Hly1).
    { pose proof (wf_column_len df _ _ Hwf Hzv) as Hlz. simpl in Hlz. by rewrite Hlz. }
    destruct (take_int64 rows2.*1 ys1) as (ys2 & -> & _); [by rewrite Hly1|].
    by eexists. }
  destruct (Hvotes "Registered" registered) as [yr Hyr]; [done|done|].
  destruct (Hvotes "Abstentions" abstentions) as [ya Hya]; [done|done|].
  destruct (Hvotes "Null" null) as [yn Hyn]; [done|done|].
  destruct (Hvotes "Choice A" choice_a) as [yca Hyca]; [done|done|].
  destruct (Hvotes "Choice B" choice_b) as [ycb Hycb]; [done|done|].
  (* the table of results *)
  assert ((σ2 ++ [merged]) !! S (length σ) = Some merged) as Hm2.
  { rewrite lookup_app_r by lia. by rewrite Hl2, Nat.sub_diag. }
  pose proof (compute_run (σ2 ++ [merged]) (S (length σ)) merged s1 (SObject ns2)
                yr ya yn yca ycb Hm2 Hs1 Hs2 Hyr Hya Hyn Hyca Hycb) as Hrun3.
  cbv zeta in Hrun3.
  set (rg := row_groups s1 (SObject ns2)) in *. set (labels := group_labels rg) in *.
  match type of Hrun3 with _ = (_, ?s ++ [?o]) => set (results := o) in * end.
  assert (length (σ2 ++ [merged]) = (length σ + 2)%nat) as Hl3.
  { rewrite length_app, Hl2. simpl. lia. }
  (* the table that is drawn *)
  assert (((σ2 ++ [merged]) ++ [results]) !! (length σ + 2)%nat = Some results) as Hres.
  { rewrite lookup_app_r by lia. by rewrite Hl3, Nat.sub_diag. }
  assert (nrows results = length labels) as Hnres.
  { unfold nrows, results. cbn [index]. by rewrite index_len_RangeIndex. }
  destruct (plot_run ((σ2 ++ [merged]) ++ [results]) (length σ + 2) reg_json results
              ((fun o : option nat => default NaN (o ≫= (ns2 !!.)))
                 <$> ((fun g => first_row g 0 rg) <$> labels))
              ((fun g => sum_int64 (group_values g rg yca)) <$> labels)
              ((fun g => sum_int64 (group_values g rg ycb)) <$> labels) gs g)
    as (df3 & df4 & Hw3 & Hw4 & Hov & Hrun4); try done.
  - by rewrite Hnres, !length_fmap.
  - by rewrite Hnres, length_fmap.
  - by rewrite Hnres, length_fmap.
  - pose proof (with_column_spec _ _ _ _ Hw4) as (_ & Hratio & _ & _).
    cbv zeta in Hrun4.
    match type of Hrun4 with
      context [join_index (length ?r)] => set (rows4 := r) in *
    end.
    match type of Hrun4 with _ = (_, _ ++ [?o]) => set (out := o) in * end.
    destruct (merged_columns df4 reg_json "nom" rows4 out eq_refl)
      as (Hnout & _ & Hby4 & _ & _).
    eexists out, _, _. split_and!.
    + unfold main.
      erewrite run_bind_ok; [|exact Hrun1].
      erewrite run_bind_ok; [|exact Hrun2].
      erewrite run_bind_ok.
      2:{ rewrite length_app, Hl1. simpl. rewrite Nat.add_1_r. exact Hrun3. }
      rewrite Hl3, Hrun4. rewrite length_app, Hl3. simpl.
      by replace (length σ + 2 + 1)%nat with (length σ + 3)%nat by lia.
    + rewrite length_insert, length_app, Hl3. simpl. lia.
    + rewrite Hby4, Hratio by done. reflexivity.
    + rewrite series_len_take, Hnout. by rewrite length_fmap.
Qed.

Lemma main_runs_witness :
  ∃ (out : DataFrame) (σ' : list DataFrame) (ratio : Series),
    main ex_geo 2 0 1 ex_store = (Ok 6%nat, σ' ++ [out])
    ∧ length σ' = 6%nat
    ∧ lookup_col "ratio" (cols out) = Some ratio
    ∧ series_len ratio = nrows out.
Proof.
  apply (main_runs ex_store ex_geo ex_referendum 2 0 1 (RangeIndex 2) (RangeIndex 4)
           "id" "code" "name" "slug" "id" "region_code" "code" "name" "slug"
           (SInt64 [1; 2]) (strs ["84"; "94"]) (strs ["ara"; "corse"])
           (SInt64 [1; 2; 3; 4]) (strs ["84"; "84"; "94"; "01"])
           (strs ["Ain"; "Allier"; "Corse-du-Sud"; "Guadeloupe"])
           (strs ["ain"; "allier"; "corse-du-sud"; "guadeloupe"])
           (strs ["POLYGON ((4 45, 5 45, 5 46, 4 45))"; "POLYGON ((6 43, 7 43, 7 44, 6 43))"])
           (Str <$> ["Auvergne-Rhone-Alpes"; "Corse"])
           (Str <$> ["01"; "03"; "2A"; "971"])
           (Str <$> ["1"; "01"; "2A"; "ZA"; "971"])
           (Str <$> ["Auvergne-Rhone-Alpes"; "Provence-Alpes-Cote d'Azur"])
           [100; 10; 20; 30; 40] [10; 1; 2; 3; 4] [2; 0; 0; 0; 0] [50; 5; 0; 7; 8]
           [38; 4; 0; 9; 10]);
    try first [reflexivity | exact wf_ex_referendum | discriminate].
  - apply Forall_forall, (bool_decide_unpack _). reflexivity.
  - repeat (apply Forall_cons; split;
            [first [left; reflexivity | right; eexists; reflexivity]|]).
    apply Forall_nil_2.
  - apply (Forall_forall (fun n => n ∉ columns ex_referendum)).
    apply (bool_decide_unpack _). reflexivity.
  - apply (Forall_forall (fun n => n ≠ "nom" → (n ∉ result_columns) ∧ n ≠ "ratio")).
    apply (bool_decide_unpack _). reflexivity.
Defined.
